(** * French-law-mcp: citation normalisation, parsing, validation and
      full-text query building

    A shallow embedding of
      - scripts/lib/parser.ts      (normalizeArticleNum, articleTitle)
      - src/citation/parser.ts     (parseCitation and its helpers)
      - src/citation/validator.ts  (validateCitation)
      - src/citation/formatter.ts  (formatCitation, buildArticleRef)
      - src/utils/fts-query.ts     (sanitizeFtsInput, buildFtsQueryVariants)

    JavaScript strings are sequences of UTF-16 code units; they are modelled
    as [list N].  Regular expressions are kept as syntax trees that mirror
    the literals of the source and are run by a backtracking matcher that
    follows the ECMAScript priority order (leftmost alternative first,
    greedy or lazy repetition).  Global replacements by a single character
    class are the list functions [replace_each] and [replace_runs].

    What the JavaScript runtime and SQLite provide is modelled where the code
    uses it: [toUpperCase], [toLowerCase], [normalize('NFD')] and [\p{M}]
    on code points, with the tables of the Unicode Character Database
    (version 14.0.0) in [Js]; the two tables of the database as lists of
    rows; and the provision query as a search through the rows. *)

From Stdlib Require Import List NArith ZArith Bool Lia Ascii String.
From Stdlib Require DecimalPos.
Import ListNotations.
Local Open Scope N_scope.
Local Open Scope list_scope.

(* ------------------------------------------------------------------ *)
(** ** JavaScript strings *)

Module Js.

Abbreviation jsstring := (list N) (only parsing).

(** Decoding of a UTF-8 literal of this file into UTF-16 code units. *)
Fixpoint utf8_units (bs : list N) : jsstring :=
  match bs with
  | [] => []
  | b :: tl =>
      if b <? 128 then b :: utf8_units tl
      else if b <? 224 then
        match tl with
        | b1 :: tl1 => ((b - 192) * 64 + (b1 - 128)) :: utf8_units tl1
        | [] => [b]
        end
      else if b <? 240 then
        match tl with
        | b1 :: b2 :: tl2 =>
            ((b - 224) * 4096 + (b1 - 128) * 64 + (b2 - 128)) :: utf8_units tl2
        | _ => [b]
        end
      else
        match tl with
        | b1 :: b2 :: b3 :: tl3 =>
            let cp := (b - 240) * 262144 + (b1 - 128) * 4096
                      + (b2 - 128) * 64 + (b3 - 128) in
            let v := cp - 65536 in
            (55296 + v / 1024) :: (56320 + v mod 1024) :: utf8_units tl3
        | _ => [b]
        end
  end.

Fixpoint bytes_of (s : string) : list N :=
  match s with
  | EmptyString => []
  | String a tl => N_of_ascii a :: bytes_of tl
  end.

Definition lit (s : string) : jsstring := utf8_units (bytes_of s).

(** Named code units. *)
Definition cQUOTE : N := 34.   (* the double quote *)
Definition cAPOS : N := 39.
Definition cLPAREN : N := 40.
Definition cRPAREN : N := 41.
Definition cSTAR : N := 42.
Definition cPLUS : N := 43.
Definition cCOMMA : N := 44.
Definition cHYPHEN : N := 45.
Definition cDOT : N := 46.
Definition cCOLON : N := 58.
Definition cSEMI : N := 59.
Definition cCARET : N := 94.
Definition cUNDERSCORE : N := 95.
Definition cBACKTICK : N := 96.
Definition cLBRACE : N := 123.
Definition cRBRACE : N := 125.
Definition cSPACE : N := 32.

Definition in_range (lo hi c : N) : bool := (lo <=? c) && (c <=? hi).

Definition is_digit (c : N) : bool := in_range 48 57 c.
Definition is_upper (c : N) : bool := in_range 65 90 c.
Definition is_lower (c : N) : bool := in_range 97 122 c.

(** ECMAScript WhiteSpace and LineTerminator code points: the set matched by
    [\s] and removed by [String.prototype.trim]. *)
Definition is_line_terminator (c : N) : bool :=
  (c =? 10) || (c =? 13) || (c =? 8232) || (c =? 8233).

Definition is_ws (c : N) : bool :=
  in_range 9 13 c || (c =? 32) || (c =? 160) || (c =? 5760)
  || in_range 8192 8202 c || (c =? 8232) || (c =? 8233) || (c =? 8239)
  || (c =? 8287) || (c =? 12288) || (c =? 65279).

(** [\w] without the [i]/[u] pair: [A-Za-z0-9_]. *)
Definition is_word (c : N) : bool :=
  is_upper c || is_lower c || is_digit c || (c =? cUNDERSCORE).

Fixpoint drop_while (p : N -> bool) (s : jsstring) : jsstring :=
  match s with
  | [] => []
  | c :: tl => if p c then drop_while p tl else s
  end.

Definition trimStart (s : jsstring) : jsstring := drop_while is_ws s.
Definition trimEnd (s : jsstring) : jsstring := rev (drop_while is_ws (rev s)).

(** [s.trim()] *)
Definition trim (s : jsstring) : jsstring := trimEnd (trimStart s).

(** [s.replace(/[class]/g, rep)]: every code unit of the class is replaced. *)
Fixpoint replace_each (p : N -> bool) (rep : jsstring) (s : jsstring) : jsstring :=
  match s with
  | [] => []
  | c :: tl => if p c then rep ++ replace_each p rep tl
               else c :: replace_each p rep tl
  end.

(** [s.replace(/[class]+/g, rep)]: every maximal run of code units of the
    class is replaced by one copy of [rep].  [in_run] records that the
    previous code unit already belonged to the run being replaced. *)
Fixpoint replace_runs_aux (p : N -> bool) (rep : jsstring) (in_run : bool)
         (s : jsstring) : jsstring :=
  match s with
  | [] => []
  | c :: tl =>
      if p c then
        (if in_run then [] else rep) ++ replace_runs_aux p rep true tl
      else c :: replace_runs_aux p rep false tl
  end.

Definition replace_runs (p : N -> bool) (rep : jsstring) (s : jsstring) : jsstring :=
  replace_runs_aux p rep false s.

(** [a.includes(b)] on strings. *)
Fixpoint starts_with (pre s : jsstring) : bool :=
  match pre, s with
  | [], _ => true
  | _ :: _, [] => false
  | a :: pre', b :: s' => (a =? b) && starts_with pre' s'
  end.

Fixpoint includes (s sub : jsstring) : bool :=
  starts_with sub s ||
  match s with
  | [] => false
  | _ :: tl => includes tl sub
  end.

Fixpoint str_eqb (a b : jsstring) : bool :=
  match a, b with
  | [], [] => true
  | x :: a', y :: b' => (x =? y) && str_eqb a' b'
  | _, _ => false
  end.

(** Truthiness of a string: the empty string is falsy. *)
Definition truthy (s : jsstring) : bool :=
  match s with [] => false | _ :: _ => true end.

(** *** Code points

    [toUpperCase], [toLowerCase], [normalize] and the patterns with the [u]
    flag read a string as code points: a high surrogate followed by a low
    surrogate is one code point, any other code unit is a code point of its
    own. *)
Definition is_high_surrogate (c : N) : bool := in_range 55296 56319 c.
Definition is_low_surrogate (c : N) : bool := in_range 56320 57343 c.

Fixpoint code_points (s : jsstring) : list N :=
  match s with
  | [] => []
  | h :: tl =>
      match tl with
      | l :: tl' =>
          if is_high_surrogate h && is_low_surrogate l
          then (65536 + (h - 55296) * 1024 + (l - 56320)) :: code_points tl'
          else h :: code_points tl
      | [] => [h]
      end
  end.

Definition units_of (cp : N) : jsstring :=
  if cp <? 65536 then [cp]
  else [55296 + (cp - 65536) / 1024; 56320 + (cp - 65536) mod 1024].

Definition of_code_points (l : list N) : jsstring := flat_map units_of l.

(** *** Tables of the Unicode Character Database, version 14.0.0 *)

(** Full upper-case mappings (UnicodeData and the unconditional entries of
    SpecialCasing) of the code points above U+00FF that have one. *)
Definition upper_table : list (N * list N) :=
  [(257, [256]); (259, [258]); (261, [260]); (263, [262]); (265, [264]); (267, [266]);
   (269, [268]); (271, [270]); (273, [272]); (275, [274]); (277, [276]); (279, [278]);
   (281, [280]); (283, [282]); (285, [284]); (287, [286]); (289, [288]); (291, [290]);
   (293, [292]); (295, [294]); (297, [296]); (299, [298]); (301, [300]); (303, [302]);
   (305, [73]); (307, [306]); (309, [308]); (311, [310]); (314, [313]); (316, [315]);
   (318, [317]); (320, [319]); (322, [321]); (324, [323]); (326, [325]); (328, [327]);
   (329, [700; 78]); (331, [330]); (333, [332]); (335, [334]); (337, [336]); (339, [338]);
   (341, [340]); (343, [342]); (345, [344]); (347, [346]); (349, [348]); (351, [350]);
   (353, [352]); (355, [354]); (357, [356]); (359, [358]); (361, [360]); (363, [362]);
   (365, [364]); (367, [366]); (369, [368]); (371, [370]); (373, [372]); (375, [374]);
   (378, [377]); (380, [379]); (382, [381]); (383, [83]); (384, [579]); (387, [386]);
   (389, [388]); (392, [391]); (396, [395]); (402, [401]); (405, [502]); (409, [408]);
   (410, [573]); (414, [544]); (417, [416]); (419, [418]); (421, [420]); (424, [423]);
   (429, [428]); (432, [431]); (436, [435]); (438, [437]); (441, [440]); (445, [444]);
   (447, [503]); (453, [452]); (454, [452]); (456, [455]); (457, [455]); (459, [458]);
   (460, [458]); (462, [461]); (464, [463]); (466, [465]); (468, [467]); (470, [469]);
   (472, [471]); (474, [473]); (476, [475]); (477, [398]); (479, [478]); (481, [480]);
   (483, [482]); (485, [484]); (487, [486]); (489, [488]); (491, [490]); (493, [492]);
   (495, [494]); (496, [74; 780]); (498, [497]); (499, [497]); (501, [500]); (505, [504]);
   (507, [506]); (509, [508]); (511, [510]); (513, [512]); (515, [514]); (517, [516]);
   (519, [518]); (521, [520]); (523, [522]); (525, [524]); (527, [526]); (529, [528]);
   (531, [530]); (533, [532]); (535, [534]); (537, [536]); (539, [538]); (541, [540]);
   (543, [542]); (547, [546]); (549, [548]); (551, [550]); (553, [552]); (555, [554]);
   (557, [556]); (559, [558]); (561, [560]); (563, [562]); (572, [571]); (575, [11390]);
   (576, [11391]); (578, [577]); (583, [582]); (585, [584]); (587, [586]); (589, [588]);
   (591, [590]); (592, [11375]); (593, [11373]); (594, [11376]); (595, [385]); (596, [390]);
   (598, [393]); (599, [394]); (601, [399]); (603, [400]); (604, [42923]); (608, [403]);
   (609, [42924]); (611, [404]); (613, [42893]); (614, [42922]); (616, [407]); (617, [406]);
   (618, [42926]); (619, [11362]); (620, [42925]); (623, [412]); (625, [11374]); (626, [413]);
   (629, [415]); (637, [11364]); (640, [422]); (642, [42949]); (643, [425]); (647, [42929]);
   (648, [430]); (649, [580]); (650, [433]); (651, [434]); (652, [581]); (658, [439]);
   (669, [42930]); (670, [42928]); (837, [921]); (881, [880]); (883, [882]); (887, [886]);
   (891, [1021]); (892, [1022]); (893, [1023]); (912, [921; 776; 769]); (940, [902]);
   (941, [904]); (942, [905]); (943, [906]); (944, [933; 776; 769]); (945, [913]);
   (946, [914]); (947, [915]); (948, [916]); (949, [917]); (950, [918]); (951, [919]);
   (952, [920]); (953, [921]); (954, [922]); (955, [923]); (956, [924]); (957, [925]);
   (958, [926]); (959, [927]); (960, [928]); (961, [929]); (962, [931]); (963, [931]);
   (964, [932]); (965, [933]); (966, [934]); (967, [935]); (968, [936]); (969, [937]);
   (970, [938]); (971, [939]); (972, [908]); (973, [910]); (974, [911]); (976, [914]);
   (977, [920]); (981, [934]); (982, [928]); (983, [975]); (985, [984]); (987, [986]);
   (989, [988]); (991, [990]); (993, [992]); (995, [994]); (997, [996]); (999, [998]);
   (1001, [1000]); (1003, [1002]); (1005, [1004]); (1007, [1006]); (1008, [922]);
   (1009, [929]); (1010, [1017]); (1011, [895]); (1013, [917]); (1016, [1015]); (1019, [1018]);
   (1072, [1040]); (1073, [1041]); (1074, [1042]); (1075, [1043]); (1076, [1044]);
   (1077, [1045]); (1078, [1046]); (1079, [1047]); (1080, [1048]); (1081, [1049]);
   (1082, [1050]); (1083, [1051]); (1084, [1052]); (1085, [1053]); (1086, [1054]);
   (1087, [1055]); (1088, [1056]); (1089, [1057]); (1090, [1058]); (1091, [1059]);
   (1092, [1060]); (1093, [1061]); (1094, [1062]); (1095, [1063]); (1096, [1064]);
   (1097, [1065]); (1098, [1066]); (1099, [1067]); (1100, [1068]); (1101, [1069]);
   (1102, [1070]); (1103, [1071]); (1104, [1024]); (1105, [1025]); (1106, [1026]);
   (1107, [1027]); (1108, [1028]); (1109, [1029]); (1110, [1030]); (1111, [1031]);
   (1112, [1032]); (1113, [1033]); (1114, [1034]); (1115, [1035]); (1116, [1036]);
   (1117, [1037]); (1118, [1038]); (1119, [1039]); (1121, [1120]); (1123, [1122]);
   (1125, [1124]); (1127, [1126]); (1129, [1128]); (1131, [1130]); (1133, [1132]);
   (1135, [1134]); (1137, [1136]); (1139, [1138]); (1141, [1140]); (1143, [1142]);
   (1145, [1144]); (1147, [1146]); (1149, [1148]); (1151, [1150]); (1153, [1152]);
   (1163, [1162]); (1165, [1164]); (1167, [1166]); (1169, [1168]); (1171, [1170]);
   (1173, [1172]); (1175, [1174]); (1177, [1176]); (1179, [1178]); (1181, [1180]);
   (1183, [1182]); (1185, [1184]); (1187, [1186]); (1189, [1188]); (1191, [1190]);
   (1193, [1192]); (1195, [1194]); (1197, [1196]); (1199, [1198]); (1201, [1200]);
   (1203, [1202]); (1205, [1204]); (1207, [1206]); (1209, [1208]); (1211, [1210]);
   (1213, [1212]); (1215, [1214]); (1218, [1217]); (1220, [1219]); (1222, [1221]);
   (1224, [1223]); (1226, [1225]); (1228, [1227]); (1230, [1229]); (1231, [1216]);
   (1233, [1232]); (1235, [1234]); (1237, [1236]); (1239, [1238]); (1241, [1240]);
   (1243, [1242]); (1245, [1244]); (1247, [1246]); (1249, [1248]); (1251, [1250]);
   (1253, [1252]); (1255, [1254]); (1257, [1256]); (1259, [1258]); (1261, [1260]);
   (1263, [1262]); (1265, [1264]); (1267, [1266]); (1269, [1268]); (1271, [1270]);
   (1273, [1272]); (1275, [1274]); (1277, [1276]); (1279, [1278]); (1281, [1280]);
   (1283, [1282]); (1285, [1284]); (1287, [1286]); (1289, [1288]); (1291, [1290]);
   (1293, [1292]); (1295, [1294]); (1297, [1296]); (1299, [1298]); (1301, [1300]);
   (1303, [1302]); (1305, [1304]); (1307, [1306]); (1309, [1308]); (1311, [1310]);
   (1313, [1312]); (1315, [1314]); (1317, [1316]); (1319, [1318]); (1321, [1320]);
   (1323, [1322]); (1325, [1324]); (1327, [1326]); (1377, [1329]); (1378, [1330]);
   (1379, [1331]); (1380, [1332]); (1381, [1333]); (1382, [1334]); (1383, [1335]);
   (1384, [1336]); (1385, [1337]); (1386, [1338]); (1387, [1339]); (1388, [1340]);
   (1389, [1341]); (1390, [1342]); (1391, [1343]); (1392, [1344]); (1393, [1345]);
   (1394, [1346]); (1395, [1347]); (1396, [1348]); (1397, [1349]); (1398, [1350]);
   (1399, [1351]); (1400, [1352]); (1401, [1353]); (1402, [1354]); (1403, [1355]);
   (1404, [1356]); (1405, [1357]); (1406, [1358]); (1407, [1359]); (1408, [1360]);
   (1409, [1361]); (1410, [1362]); (1411, [1363]); (1412, [1364]); (1413, [1365]);
   (1414, [1366]); (1415, [1333; 1362]); (4304, [7312]); (4305, [7313]); (4306, [7314]);
   (4307, [7315]); (4308, [7316]); (4309, [7317]); (4310, [7318]); (4311, [7319]);
   (4312, [7320]); (4313, [7321]); (4314, [7322]); (4315, [7323]); (4316, [7324]);
   (4317, [7325]); (4318, [7326]); (4319, [7327]); (4320, [7328]); (4321, [7329]);
   (4322, [7330]); (4323, [7331]); (4324, [7332]); (4325, [7333]); (4326, [7334]);
   (4327, [7335]); (4328, [7336]); (4329, [7337]); (4330, [7338]); (4331, [7339]);
   (4332, [7340]); (4333, [7341]); (4334, [7342]); (4335, [7343]); (4336, [7344]);
   (4337, [7345]); (4338, [7346]); (4339, [7347]); (4340, [7348]); (4341, [7349]);
   (4342, [7350]); (4343, [7351]); (4344, [7352]); (4345, [7353]); (4346, [7354]);
   (4349, [7357]); (4350, [7358]); (4351, [7359]); (5112, [5104]); (5113, [5105]);
   (5114, [5106]); (5115, [5107]); (5116, [5108]); (5117, [5109]); (7296, [1042]);
   (7297, [1044]); (7298, [1054]); (7299, [1057]); (7300, [1058]); (7301, [1058]);
   (7302, [1066]); (7303, [1122]); (7304, [42570]); (7545, [42877]); (7549, [11363]);
   (7566, [42950]); (7681, [7680]); (7683, [7682]); (7685, [7684]); (7687, [7686]);
   (7689, [7688]); (7691, [7690]); (7693, [7692]); (7695, [7694]); (7697, [7696]);
   (7699, [7698]); (7701, [7700]); (7703, [7702]); (7705, [7704]); (7707, [7706]);
   (7709, [7708]); (7711, [7710]); (7713, [7712]); (7715, [7714]); (7717, [7716]);
   (7719, [7718]); (7721, [7720]); (7723, [7722]); (7725, [7724]); (7727, [7726]);
   (7729, [7728]); (7731, [7730]); (7733, [7732]); (7735, [7734]); (7737, [7736]);
   (7739, [7738]); (7741, [7740]); (7743, [7742]); (7745, [7744]); (7747, [7746]);
   (7749, [7748]); (7751, [7750]); (7753, [7752]); (7755, [7754]); (7757, [7756]);
   (7759, [7758]); (7761, [7760]); (7763, [7762]); (7765, [7764]); (7767, [7766]);
   (7769, [7768]); (7771, [7770]); (7773, [7772]); (7775, [7774]); (7777, [7776]);
   (7779, [7778]); (7781, [7780]); (7783, [7782]); (7785, [7784]); (7787, [7786]);
   (7789, [7788]); (7791, [7790]); (7793, [7792]); (7795, [7794]); (7797, [7796]);
   (7799, [7798]); (7801, [7800]); (7803, [7802]); (7805, [7804]); (7807, [7806]);
   (7809, [7808]); (7811, [7810]); (7813, [7812]); (7815, [7814]); (7817, [7816]);
   (7819, [7818]); (7821, [7820]); (7823, [7822]); (7825, [7824]); (7827, [7826]);
   (7829, [7828]); (7830, [72; 817]); (7831, [84; 776]); (7832, [87; 778]); (7833, [89; 778]);
   (7834, [65; 702]); (7835, [7776]); (7841, [7840]); (7843, [7842]); (7845, [7844]);
   (7847, [7846]); (7849, [7848]); (7851, [7850]); (7853, [7852]); (7855, [7854]);
   (7857, [7856]); (7859, [7858]); (7861, [7860]); (7863, [7862]); (7865, [7864]);
   (7867, [7866]); (7869, [7868]); (7871, [7870]); (7873, [7872]); (7875, [7874]);
   (7877, [7876]); (7879, [7878]); (7881, [7880]); (7883, [7882]); (7885, [7884]);
   (7887, [7886]); (7889, [7888]); (7891, [7890]); (7893, [7892]); (7895, [7894]);
   (7897, [7896]); (7899, [7898]); (7901, [7900]); (7903, [7902]); (7905, [7904]);
   (7907, [7906]); (7909, [7908]); (7911, [7910]); (7913, [7912]); (7915, [7914]);
   (7917, [7916]); (7919, [7918]); (7921, [7920]); (7923, [7922]); (7925, [7924]);
   (7927, [7926]); (7929, [7928]); (7931, [7930]); (7933, [7932]); (7935, [7934]);
   (7936, [7944]); (7937, [7945]); (7938, [7946]); (7939, [7947]); (7940, [7948]);
   (7941, [7949]); (7942, [7950]); (7943, [7951]); (7952, [7960]); (7953, [7961]);
   (7954, [7962]); (7955, [7963]); (7956, [7964]); (7957, [7965]); (7968, [7976]);
   (7969, [7977]); (7970, [7978]); (7971, [7979]); (7972, [7980]); (7973, [7981]);
   (7974, [7982]); (7975, [7983]); (7984, [7992]); (7985, [7993]); (7986, [7994]);
   (7987, [7995]); (7988, [7996]); (7989, [7997]); (7990, [7998]); (7991, [7999]);
   (8000, [8008]); (8001, [8009]); (8002, [8010]); (8003, [8011]); (8004, [8012]);
   (8005, [8013]); (8016, [933; 787]); (8017, [8025]); (8018, [933; 787; 768]); (8019, [8027]);
   (8020, [933; 787; 769]); (8021, [8029]); (8022, [933; 787; 834]); (8023, [8031]);
   (8032, [8040]); (8033, [8041]); (8034, [8042]); (8035, [8043]); (8036, [8044]);
   (8037, [8045]); (8038, [8046]); (8039, [8047]); (8048, [8122]); (8049, [8123]);
   (8050, [8136]); (8051, [8137]); (8052, [8138]); (8053, [8139]); (8054, [8154]);
   (8055, [8155]); (8056, [8184]); (8057, [8185]); (8058, [8170]); (8059, [8171]);
   (8060, [8186]); (8061, [8187]); (8064, [7944; 921]); (8065, [7945; 921]);
   (8066, [7946; 921]); (8067, [7947; 921]); (8068, [7948; 921]); (8069, [7949; 921]);
   (8070, [7950; 921]); (8071, [7951; 921]); (8072, [7944; 921]); (8073, [7945; 921]);
   (8074, [7946; 921]); (8075, [7947; 921]); (8076, [7948; 921]); (8077, [7949; 921]);
   (8078, [7950; 921]); (8079, [7951; 921]); (8080, [7976; 921]); (8081, [7977; 921]);
   (8082, [7978; 921]); (8083, [7979; 921]); (8084, [7980; 921]); (8085, [7981; 921]);
   (8086, [7982; 921]); (8087, [7983; 921]); (8088, [7976; 921]); (8089, [7977; 921]);
   (8090, [7978; 921]); (8091, [7979; 921]); (8092, [7980; 921]); (8093, [7981; 921]);
   (8094, [7982; 921]); (8095, [7983; 921]); (8096, [8040; 921]); (8097, [8041; 921]);
   (8098, [8042; 921]); (8099, [8043; 921]); (8100, [8044; 921]); (8101, [8045; 921]);
   (8102, [8046; 921]); (8103, [8047; 921]); (8104, [8040; 921]); (8105, [8041; 921]);
   (8106, [8042; 921]); (8107, [8043; 921]); (8108, [8044; 921]); (8109, [8045; 921]);
   (8110, [8046; 921]); (8111, [8047; 921]); (8112, [8120]); (8113, [8121]);
   (8114, [8122; 921]); (8115, [913; 921]); (8116, [902; 921]); (8118, [913; 834]);
   (8119, [913; 834; 921]); (8124, [913; 921]); (8126, [921]); (8130, [8138; 921]);
   (8131, [919; 921]); (8132, [905; 921]); (8134, [919; 834]); (8135, [919; 834; 921]);
   (8140, [919; 921]); (8144, [8152]); (8145, [8153]); (8146, [921; 776; 768]);
   (8147, [921; 776; 769]); (8150, [921; 834]); (8151, [921; 776; 834]); (8160, [8168]);
   (8161, [8169]); (8162, [933; 776; 768]); (8163, [933; 776; 769]); (8164, [929; 787]);
   (8165, [8172]); (8166, [933; 834]); (8167, [933; 776; 834]); (8178, [8186; 921]);
   (8179, [937; 921]); (8180, [911; 921]); (8182, [937; 834]); (8183, [937; 834; 921]);
   (8188, [937; 921]); (8526, [8498]); (8560, [8544]); (8561, [8545]); (8562, [8546]);
   (8563, [8547]); (8564, [8548]); (8565, [8549]); (8566, [8550]); (8567, [8551]);
   (8568, [8552]); (8569, [8553]); (8570, [8554]); (8571, [8555]); (8572, [8556]);
   (8573, [8557]); (8574, [8558]); (8575, [8559]); (8580, [8579]); (9424, [9398]);
   (9425, [9399]); (9426, [9400]); (9427, [9401]); (9428, [9402]); (9429, [9403]);
   (9430, [9404]); (9431, [9405]); (9432, [9406]); (9433, [9407]); (9434, [9408]);
   (9435, [9409]); (9436, [9410]); (9437, [9411]); (9438, [9412]); (9439, [9413]);
   (9440, [9414]); (9441, [9415]); (9442, [9416]); (9443, [9417]); (9444, [9418]);
   (9445, [9419]); (9446, [9420]); (9447, [9421]); (9448, [9422]); (9449, [9423]);
   (11312, [11264]); (11313, [11265]); (11314, [11266]); (11315, [11267]); (11316, [11268]);
   (11317, [11269]); (11318, [11270]); (11319, [11271]); (11320, [11272]); (11321, [11273]);
   (11322, [11274]); (11323, [11275]); (11324, [11276]); (11325, [11277]); (11326, [11278]);
   (11327, [11279]); (11328, [11280]); (11329, [11281]); (11330, [11282]); (11331, [11283]);
   (11332, [11284]); (11333, [11285]); (11334, [11286]); (11335, [11287]); (11336, [11288]);
   (11337, [11289]); (11338, [11290]); (11339, [11291]); (11340, [11292]); (11341, [11293]);
   (11342, [11294]); (11343, [11295]); (11344, [11296]); (11345, [11297]); (11346, [11298]);
   (11347, [11299]); (11348, [11300]); (11349, [11301]); (11350, [11302]); (11351, [11303]);
   (11352, [11304]); (11353, [11305]); (11354, [11306]); (11355, [11307]); (11356, [11308]);
   (11357, [11309]); (11358, [11310]); (11359, [11311]); (11361, [11360]); (11365, [570]);
   (11366, [574]); (11368, [11367]); (11370, [11369]); (11372, [11371]); (11379, [11378]);
   (11382, [11381]); (11393, [11392]); (11395, [11394]); (11397, [11396]); (11399, [11398]);
   (11401, [11400]); (11403, [11402]); (11405, [11404]); (11407, [11406]); (11409, [11408]);
   (11411, [11410]); (11413, [11412]); (11415, [11414]); (11417, [11416]); (11419, [11418]);
   (11421, [11420]); (11423, [11422]); (11425, [11424]); (11427, [11426]); (11429, [11428]);
   (11431, [11430]); (11433, [11432]); (11435, [11434]); (11437, [11436]); (11439, [11438]);
   (11441, [11440]); (11443, [11442]); (11445, [11444]); (11447, [11446]); (11449, [11448]);
   (11451, [11450]); (11453, [11452]); (11455, [11454]); (11457, [11456]); (11459, [11458]);
   (11461, [11460]); (11463, [11462]); (11465, [11464]); (11467, [11466]); (11469, [11468]);
   (11471, [11470]); (11473, [11472]); (11475, [11474]); (11477, [11476]); (11479, [11478]);
   (11481, [11480]); (11483, [11482]); (11485, [11484]); (11487, [11486]); (11489, [11488]);
   (11491, [11490]); (11500, [11499]); (11502, [11501]); (11507, [11506]); (11520, [4256]);
   (11521, [4257]); (11522, [4258]); (11523, [4259]); (11524, [4260]); (11525, [4261]);
   (11526, [4262]); (11527, [4263]); (11528, [4264]); (11529, [4265]); (11530, [4266]);
   (11531, [4267]); (11532, [4268]); (11533, [4269]); (11534, [4270]); (11535, [4271]);
   (11536, [4272]); (11537, [4273]); (11538, [4274]); (11539, [4275]); (11540, [4276]);
   (11541, [4277]); (11542, [4278]); (11543, [4279]); (11544, [4280]); (11545, [4281]);
   (11546, [4282]); (11547, [4283]); (11548, [4284]); (11549, [4285]); (11550, [4286]);
   (11551, [4287]); (11552, [4288]); (11553, [4289]); (11554, [4290]); (11555, [4291]);
   (11556, [4292]); (11557, [4293]); (11559, [4295]); (11565, [4301]); (42561, [42560]);
   (42563, [42562]); (42565, [42564]); (42567, [42566]); (42569, [42568]); (42571, [42570]);
   (42573, [42572]); (42575, [42574]); (42577, [42576]); (42579, [42578]); (42581, [42580]);
   (42583, [42582]); (42585, [42584]); (42587, [42586]); (42589, [42588]); (42591, [42590]);
   (42593, [42592]); (42595, [42594]); (42597, [42596]); (42599, [42598]); (42601, [42600]);
   (42603, [42602]); (42605, [42604]); (42625, [42624]); (42627, [42626]); (42629, [42628]);
   (42631, [42630]); (42633, [42632]); (42635, [42634]); (42637, [42636]); (42639, [42638]);
   (42641, [42640]); (42643, [42642]); (42645, [42644]); (42647, [42646]); (42649, [42648]);
   (42651, [42650]); (42787, [42786]); (42789, [42788]); (42791, [42790]); (42793, [42792]);
   (42795, [42794]); (42797, [42796]); (42799, [42798]); (42803, [42802]); (42805, [42804]);
   (42807, [42806]); (42809, [42808]); (42811, [42810]); (42813, [42812]); (42815, [42814]);
   (42817, [42816]); (42819, [42818]); (42821, [42820]); (42823, [42822]); (42825, [42824]);
   (42827, [42826]); (42829, [42828]); (42831, [42830]); (42833, [42832]); (42835, [42834]);
   (42837, [42836]); (42839, [42838]); (42841, [42840]); (42843, [42842]); (42845, [42844]);
   (42847, [42846]); (42849, [42848]); (42851, [42850]); (42853, [42852]); (42855, [42854]);
   (42857, [42856]); (42859, [42858]); (42861, [42860]); (42863, [42862]); (42874, [42873]);
   (42876, [42875]); (42879, [42878]); (42881, [42880]); (42883, [42882]); (42885, [42884]);
   (42887, [42886]); (42892, [42891]); (42897, [42896]); (42899, [42898]); (42900, [42948]);
   (42903, [42902]); (42905, [42904]); (42907, [42906]); (42909, [42908]); (42911, [42910]);
   (42913, [42912]); (42915, [42914]); (42917, [42916]); (42919, [42918]); (42921, [42920]);
   (42933, [42932]); (42935, [42934]); (42937, [42936]); (42939, [42938]); (42941, [42940]);
   (42943, [42942]); (42945, [42944]); (42947, [42946]); (42952, [42951]); (42954, [42953]);
   (42961, [42960]); (42967, [42966]); (42969, [42968]); (42998, [42997]); (43859, [42931]);
   (43888, [5024]); (43889, [5025]); (43890, [5026]); (43891, [5027]); (43892, [5028]);
   (43893, [5029]); (43894, [5030]); (43895, [5031]); (43896, [5032]); (43897, [5033]);
   (43898, [5034]); (43899, [5035]); (43900, [5036]); (43901, [5037]); (43902, [5038]);
   (43903, [5039]); (43904, [5040]); (43905, [5041]); (43906, [5042]); (43907, [5043]);
   (43908, [5044]); (43909, [5045]); (43910, [5046]); (43911, [5047]); (43912, [5048]);
   (43913, [5049]); (43914, [5050]); (43915, [5051]); (43916, [5052]); (43917, [5053]);
   (43918, [5054]); (43919, [5055]); (43920, [5056]); (43921, [5057]); (43922, [5058]);
   (43923, [5059]); (43924, [5060]); (43925, [5061]); (43926, [5062]); (43927, [5063]);
   (43928, [5064]); (43929, [5065]); (43930, [5066]); (43931, [5067]); (43932, [5068]);
   (43933, [5069]); (43934, [5070]); (43935, [5071]); (43936, [5072]); (43937, [5073]);
   (43938, [5074]); (43939, [5075]); (43940, [5076]); (43941, [5077]); (43942, [5078]);
   (43943, [5079]); (43944, [5080]); (43945, [5081]); (43946, [5082]); (43947, [5083]);
   (43948, [5084]); (43949, [5085]); (43950, [5086]); (43951, [5087]); (43952, [5088]);
   (43953, [5089]); (43954, [5090]); (43955, [5091]); (43956, [5092]); (43957, [5093]);
   (43958, [5094]); (43959, [5095]); (43960, [5096]); (43961, [5097]); (43962, [5098]);
   (43963, [5099]); (43964, [5100]); (43965, [5101]); (43966, [5102]); (43967, [5103]);
   (64256, [70; 70]); (64257, [70; 73]); (64258, [70; 76]); (64259, [70; 70; 73]);
   (64260, [70; 70; 76]); (64261, [83; 84]); (64262, [83; 84]); (64275, [1348; 1350]);
   (64276, [1348; 1333]); (64277, [1348; 1339]); (64278, [1358; 1350]); (64279, [1348; 1341]);
   (65345, [65313]); (65346, [65314]); (65347, [65315]); (65348, [65316]); (65349, [65317]);
   (65350, [65318]); (65351, [65319]); (65352, [65320]); (65353, [65321]); (65354, [65322]);
   (65355, [65323]); (65356, [65324]); (65357, [65325]); (65358, [65326]); (65359, [65327]);
   (65360, [65328]); (65361, [65329]); (65362, [65330]); (65363, [65331]); (65364, [65332]);
   (65365, [65333]); (65366, [65334]); (65367, [65335]); (65368, [65336]); (65369, [65337]);
   (65370, [65338]); (66600, [66560]); (66601, [66561]); (66602, [66562]); (66603, [66563]);
   (66604, [66564]); (66605, [66565]); (66606, [66566]); (66607, [66567]); (66608, [66568]);
   (66609, [66569]); (66610, [66570]); (66611, [66571]); (66612, [66572]); (66613, [66573]);
   (66614, [66574]); (66615, [66575]); (66616, [66576]); (66617, [66577]); (66618, [66578]);
   (66619, [66579]); (66620, [66580]); (66621, [66581]); (66622, [66582]); (66623, [66583]);
   (66624, [66584]); (66625, [66585]); (66626, [66586]); (66627, [66587]); (66628, [66588]);
   (66629, [66589]); (66630, [66590]); (66631, [66591]); (66632, [66592]); (66633, [66593]);
   (66634, [66594]); (66635, [66595]); (66636, [66596]); (66637, [66597]); (66638, [66598]);
   (66639, [66599]); (66776, [66736]); (66777, [66737]); (66778, [66738]); (66779, [66739]);
   (66780, [66740]); (66781, [66741]); (66782, [66742]); (66783, [66743]); (66784, [66744]);
   (66785, [66745]); (66786, [66746]); (66787, [66747]); (66788, [66748]); (66789, [66749]);
   (66790, [66750]); (66791, [66751]); (66792, [66752]); (66793, [66753]); (66794, [66754]);
   (66795, [66755]); (66796, [66756]); (66797, [66757]); (66798, [66758]); (66799, [66759]);
   (66800, [66760]); (66801, [66761]); (66802, [66762]); (66803, [66763]); (66804, [66764]);
   (66805, [66765]); (66806, [66766]); (66807, [66767]); (66808, [66768]); (66809, [66769]);
   (66810, [66770]); (66811, [66771]); (66967, [66928]); (66968, [66929]); (66969, [66930]);
   (66970, [66931]); (66971, [66932]); (66972, [66933]); (66973, [66934]); (66974, [66935]);
   (66975, [66936]); (66976, [66937]); (66977, [66938]); (66979, [66940]); (66980, [66941]);
   (66981, [66942]); (66982, [66943]); (66983, [66944]); (66984, [66945]); (66985, [66946]);
   (66986, [66947]); (66987, [66948]); (66988, [66949]); (66989, [66950]); (66990, [66951]);
   (66991, [66952]); (66992, [66953]); (66993, [66954]); (66995, [66956]); (66996, [66957]);
   (66997, [66958]); (66998, [66959]); (66999, [66960]); (67000, [66961]); (67001, [66962]);
   (67003, [66964]); (67004, [66965]); (68800, [68736]); (68801, [68737]); (68802, [68738]);
   (68803, [68739]); (68804, [68740]); (68805, [68741]); (68806, [68742]); (68807, [68743]);
   (68808, [68744]); (68809, [68745]); (68810, [68746]); (68811, [68747]); (68812, [68748]);
   (68813, [68749]); (68814, [68750]); (68815, [68751]); (68816, [68752]); (68817, [68753]);
   (68818, [68754]); (68819, [68755]); (68820, [68756]); (68821, [68757]); (68822, [68758]);
   (68823, [68759]); (68824, [68760]); (68825, [68761]); (68826, [68762]); (68827, [68763]);
   (68828, [68764]); (68829, [68765]); (68830, [68766]); (68831, [68767]); (68832, [68768]);
   (68833, [68769]); (68834, [68770]); (68835, [68771]); (68836, [68772]); (68837, [68773]);
   (68838, [68774]); (68839, [68775]); (68840, [68776]); (68841, [68777]); (68842, [68778]);
   (68843, [68779]); (68844, [68780]); (68845, [68781]); (68846, [68782]); (68847, [68783]);
   (68848, [68784]); (68849, [68785]); (68850, [68786]); (71872, [71840]); (71873, [71841]);
   (71874, [71842]); (71875, [71843]); (71876, [71844]); (71877, [71845]); (71878, [71846]);
   (71879, [71847]); (71880, [71848]); (71881, [71849]); (71882, [71850]); (71883, [71851]);
   (71884, [71852]); (71885, [71853]); (71886, [71854]); (71887, [71855]); (71888, [71856]);
   (71889, [71857]); (71890, [71858]); (71891, [71859]); (71892, [71860]); (71893, [71861]);
   (71894, [71862]); (71895, [71863]); (71896, [71864]); (71897, [71865]); (71898, [71866]);
   (71899, [71867]); (71900, [71868]); (71901, [71869]); (71902, [71870]); (71903, [71871]);
   (93792, [93760]); (93793, [93761]); (93794, [93762]); (93795, [93763]); (93796, [93764]);
   (93797, [93765]); (93798, [93766]); (93799, [93767]); (93800, [93768]); (93801, [93769]);
   (93802, [93770]); (93803, [93771]); (93804, [93772]); (93805, [93773]); (93806, [93774]);
   (93807, [93775]); (93808, [93776]); (93809, [93777]); (93810, [93778]); (93811, [93779]);
   (93812, [93780]); (93813, [93781]); (93814, [93782]); (93815, [93783]); (93816, [93784]);
   (93817, [93785]); (93818, [93786]); (93819, [93787]); (93820, [93788]); (93821, [93789]);
   (93822, [93790]); (93823, [93791]); (125218, [125184]); (125219, [125185]);
   (125220, [125186]); (125221, [125187]); (125222, [125188]); (125223, [125189]);
   (125224, [125190]); (125225, [125191]); (125226, [125192]); (125227, [125193]);
   (125228, [125194]); (125229, [125195]); (125230, [125196]); (125231, [125197]);
   (125232, [125198]); (125233, [125199]); (125234, [125200]); (125235, [125201]);
   (125236, [125202]); (125237, [125203]); (125238, [125204]); (125239, [125205]);
   (125240, [125206]); (125241, [125207]); (125242, [125208]); (125243, [125209]);
   (125244, [125210]); (125245, [125211]); (125246, [125212]); (125247, [125213]);
   (125248, [125214]); (125249, [125215]); (125250, [125216]); (125251, [125217])].

(** Full lower-case mappings of the code points above U+00FF that have one. *)
Definition lower_table : list (N * list N) :=
  [(256, [257]); (258, [259]); (260, [261]); (262, [263]); (264, [265]); (266, [267]);
   (268, [269]); (270, [271]); (272, [273]); (274, [275]); (276, [277]); (278, [279]);
   (280, [281]); (282, [283]); (284, [285]); (286, [287]); (288, [289]); (290, [291]);
   (292, [293]); (294, [295]); (296, [297]); (298, [299]); (300, [301]); (302, [303]);
   (304, [105; 775]); (306, [307]); (308, [309]); (310, [311]); (313, [314]); (315, [316]);
   (317, [318]); (319, [320]); (321, [322]); (323, [324]); (325, [326]); (327, [328]);
   (330, [331]); (332, [333]); (334, [335]); (336, [337]); (338, [339]); (340, [341]);
   (342, [343]); (344, [345]); (346, [347]); (348, [349]); (350, [351]); (352, [353]);
   (354, [355]); (356, [357]); (358, [359]); (360, [361]); (362, [363]); (364, [365]);
   (366, [367]); (368, [369]); (370, [371]); (372, [373]); (374, [375]); (376, [255]);
   (377, [378]); (379, [380]); (381, [382]); (385, [595]); (386, [387]); (388, [389]);
   (390, [596]); (391, [392]); (393, [598]); (394, [599]); (395, [396]); (398, [477]);
   (399, [601]); (400, [603]); (401, [402]); (403, [608]); (404, [611]); (406, [617]);
   (407, [616]); (408, [409]); (412, [623]); (413, [626]); (415, [629]); (416, [417]);
   (418, [419]); (420, [421]); (422, [640]); (423, [424]); (425, [643]); (428, [429]);
   (430, [648]); (431, [432]); (433, [650]); (434, [651]); (435, [436]); (437, [438]);
   (439, [658]); (440, [441]); (444, [445]); (452, [454]); (453, [454]); (455, [457]);
   (456, [457]); (458, [460]); (459, [460]); (461, [462]); (463, [464]); (465, [466]);
   (467, [468]); (469, [470]); (471, [472]); (473, [474]); (475, [476]); (478, [479]);
   (480, [481]); (482, [483]); (484, [485]); (486, [487]); (488, [489]); (490, [491]);
   (492, [493]); (494, [495]); (497, [499]); (498, [499]); (500, [501]); (502, [405]);
   (503, [447]); (504, [505]); (506, [507]); (508, [509]); (510, [511]); (512, [513]);
   (514, [515]); (516, [517]); (518, [519]); (520, [521]); (522, [523]); (524, [525]);
   (526, [527]); (528, [529]); (530, [531]); (532, [533]); (534, [535]); (536, [537]);
   (538, [539]); (540, [541]); (542, [543]); (544, [414]); (546, [547]); (548, [549]);
   (550, [551]); (552, [553]); (554, [555]); (556, [557]); (558, [559]); (560, [561]);
   (562, [563]); (570, [11365]); (571, [572]); (573, [410]); (574, [11366]); (577, [578]);
   (579, [384]); (580, [649]); (581, [652]); (582, [583]); (584, [585]); (586, [587]);
   (588, [589]); (590, [591]); (880, [881]); (882, [883]); (886, [887]); (895, [1011]);
   (902, [940]); (904, [941]); (905, [942]); (906, [943]); (908, [972]); (910, [973]);
   (911, [974]); (913, [945]); (914, [946]); (915, [947]); (916, [948]); (917, [949]);
   (918, [950]); (919, [951]); (920, [952]); (921, [953]); (922, [954]); (923, [955]);
   (924, [956]); (925, [957]); (926, [958]); (927, [959]); (928, [960]); (929, [961]);
   (931, [963]); (932, [964]); (933, [965]); (934, [966]); (935, [967]); (936, [968]);
   (937, [969]); (938, [970]); (939, [971]); (975, [983]); (984, [985]); (986, [987]);
   (988, [989]); (990, [991]); (992, [993]); (994, [995]); (996, [997]); (998, [999]);
   (1000, [1001]); (1002, [1003]); (1004, [1005]); (1006, [1007]); (1012, [952]);
   (1015, [1016]); (1017, [1010]); (1018, [1019]); (1021, [891]); (1022, [892]); (1023, [893]);
   (1024, [1104]); (1025, [1105]); (1026, [1106]); (1027, [1107]); (1028, [1108]);
   (1029, [1109]); (1030, [1110]); (1031, [1111]); (1032, [1112]); (1033, [1113]);
   (1034, [1114]); (1035, [1115]); (1036, [1116]); (1037, [1117]); (1038, [1118]);
   (1039, [1119]); (1040, [1072]); (1041, [1073]); (1042, [1074]); (1043, [1075]);
   (1044, [1076]); (1045, [1077]); (1046, [1078]); (1047, [1079]); (1048, [1080]);
   (1049, [1081]); (1050, [1082]); (1051, [1083]); (1052, [1084]); (1053, [1085]);
   (1054, [1086]); (1055, [1087]); (1056, [1088]); (1057, [1089]); (1058, [1090]);
   (1059, [1091]); (1060, [1092]); (1061, [1093]); (1062, [1094]); (1063, [1095]);
   (1064, [1096]); (1065, [1097]); (1066, [1098]); (1067, [1099]); (1068, [1100]);
   (1069, [1101]); (1070, [1102]); (1071, [1103]); (1120, [1121]); (1122, [1123]);
   (1124, [1125]); (1126, [1127]); (1128, [1129]); (1130, [1131]); (1132, [1133]);
   (1134, [1135]); (1136, [1137]); (1138, [1139]); (1140, [1141]); (1142, [1143]);
   (1144, [1145]); (1146, [1147]); (1148, [1149]); (1150, [1151]); (1152, [1153]);
   (1162, [1163]); (1164, [1165]); (1166, [1167]); (1168, [1169]); (1170, [1171]);
   (1172, [1173]); (1174, [1175]); (1176, [1177]); (1178, [1179]); (1180, [1181]);
   (1182, [1183]); (1184, [1185]); (1186, [1187]); (1188, [1189]); (1190, [1191]);
   (1192, [1193]); (1194, [1195]); (1196, [1197]); (1198, [1199]); (1200, [1201]);
   (1202, [1203]); (1204, [1205]); (1206, [1207]); (1208, [1209]); (1210, [1211]);
   (1212, [1213]); (1214, [1215]); (1216, [1231]); (1217, [1218]); (1219, [1220]);
   (1221, [1222]); (1223, [1224]); (1225, [1226]); (1227, [1228]); (1229, [1230]);
   (1232, [1233]); (1234, [1235]); (1236, [1237]); (1238, [1239]); (1240, [1241]);
   (1242, [1243]); (1244, [1245]); (1246, [1247]); (1248, [1249]); (1250, [1251]);
   (1252, [1253]); (1254, [1255]); (1256, [1257]); (1258, [1259]); (1260, [1261]);
   (1262, [1263]); (1264, [1265]); (1266, [1267]); (1268, [1269]); (1270, [1271]);
   (1272, [1273]); (1274, [1275]); (1276, [1277]); (1278, [1279]); (1280, [1281]);
   (1282, [1283]); (1284, [1285]); (1286, [1287]); (1288, [1289]); (1290, [1291]);
   (1292, [1293]); (1294, [1295]); (1296, [1297]); (1298, [1299]); (1300, [1301]);
   (1302, [1303]); (1304, [1305]); (1306, [1307]); (1308, [1309]); (1310, [1311]);
   (1312, [1313]); (1314, [1315]); (1316, [1317]); (1318, [1319]); (1320, [1321]);
   (1322, [1323]); (1324, [1325]); (1326, [1327]); (1329, [1377]); (1330, [1378]);
   (1331, [1379]); (1332, [1380]); (1333, [1381]); (1334, [1382]); (1335, [1383]);
   (1336, [1384]); (1337, [1385]); (1338, [1386]); (1339, [1387]); (1340, [1388]);
   (1341, [1389]); (1342, [1390]); (1343, [1391]); (1344, [1392]); (1345, [1393]);
   (1346, [1394]); (1347, [1395]); (1348, [1396]); (1349, [1397]); (1350, [1398]);
   (1351, [1399]); (1352, [1400]); (1353, [1401]); (1354, [1402]); (1355, [1403]);
   (1356, [1404]); (1357, [1405]); (1358, [1406]); (1359, [1407]); (1360, [1408]);
   (1361, [1409]); (1362, [1410]); (1363, [1411]); (1364, [1412]); (1365, [1413]);
   (1366, [1414]); (4256, [11520]); (4257, [11521]); (4258, [11522]); (4259, [11523]);
   (4260, [11524]); (4261, [11525]); (4262, [11526]); (4263, [11527]); (4264, [11528]);
   (4265, [11529]); (4266, [11530]); (4267, [11531]); (4268, [11532]); (4269, [11533]);
   (4270, [11534]); (4271, [11535]); (4272, [11536]); (4273, [11537]); (4274, [11538]);
   (4275, [11539]); (4276, [11540]); (4277, [11541]); (4278, [11542]); (4279, [11543]);
   (4280, [11544]); (4281, [11545]); (4282, [11546]); (4283, [11547]); (4284, [11548]);
   (4285, [11549]); (4286, [11550]); (4287, [11551]); (4288, [11552]); (4289, [11553]);
   (4290, [11554]); (4291, [11555]); (4292, [11556]); (4293, [11557]); (4295, [11559]);
   (4301, [11565]); (5024, [43888]); (5025, [43889]); (5026, [43890]); (5027, [43891]);
   (5028, [43892]); (5029, [43893]); (5030, [43894]); (5031, [43895]); (5032, [43896]);
   (5033, [43897]); (5034, [43898]); (5035, [43899]); (5036, [43900]); (5037, [43901]);
   (5038, [43902]); (5039, [43903]); (5040, [43904]); (5041, [43905]); (5042, [43906]);
   (5043, [43907]); (5044, [43908]); (5045, [43909]); (5046, [43910]); (5047, [43911]);
   (5048, [43912]); (5049, [43913]); (5050, [43914]); (5051, [43915]); (5052, [43916]);
   (5053, [43917]); (5054, [43918]); (5055, [43919]); (5056, [43920]); (5057, [43921]);
   (5058, [43922]); (5059, [43923]); (5060, [43924]); (5061, [43925]); (5062, [43926]);
   (5063, [43927]); (5064, [43928]); (5065, [43929]); (5066, [43930]); (5067, [43931]);
   (5068, [43932]); (5069, [43933]); (5070, [43934]); (5071, [43935]); (5072, [43936]);
   (5073, [43937]); (5074, [43938]); (5075, [43939]); (5076, [43940]); (5077, [43941]);
   (5078, [43942]); (5079, [43943]); (5080, [43944]); (5081, [43945]); (5082, [43946]);
   (5083, [43947]); (5084, [43948]); (5085, [43949]); (5086, [43950]); (5087, [43951]);
   (5088, [43952]); (5089, [43953]); (5090, [43954]); (5091, [43955]); (5092, [43956]);
   (5093, [43957]); (5094, [43958]); (5095, [43959]); (5096, [43960]); (5097, [43961]);
   (5098, [43962]); (5099, [43963]); (5100, [43964]); (5101, [43965]); (5102, [43966]);
   (5103, [43967]); (5104, [5112]); (5105, [5113]); (5106, [5114]); (5107, [5115]);
   (5108, [5116]); (5109, [5117]); (7312, [4304]); (7313, [4305]); (7314, [4306]);
   (7315, [4307]); (7316, [4308]); (7317, [4309]); (7318, [4310]); (7319, [4311]);
   (7320, [4312]); (7321, [4313]); (7322, [4314]); (7323, [4315]); (7324, [4316]);
   (7325, [4317]); (7326, [4318]); (7327, [4319]); (7328, [4320]); (7329, [4321]);
   (7330, [4322]); (7331, [4323]); (7332, [4324]); (7333, [4325]); (7334, [4326]);
   (7335, [4327]); (7336, [4328]); (7337, [4329]); (7338, [4330]); (7339, [4331]);
   (7340, [4332]); (7341, [4333]); (7342, [4334]); (7343, [4335]); (7344, [4336]);
   (7345, [4337]); (7346, [4338]); (7347, [4339]); (7348, [4340]); (7349, [4341]);
   (7350, [4342]); (7351, [4343]); (7352, [4344]); (7353, [4345]); (7354, [4346]);
   (7357, [4349]); (7358, [4350]); (7359, [4351]); (7680, [7681]); (7682, [7683]);
   (7684, [7685]); (7686, [7687]); (7688, [7689]); (7690, [7691]); (7692, [7693]);
   (7694, [7695]); (7696, [7697]); (7698, [7699]); (7700, [7701]); (7702, [7703]);
   (7704, [7705]); (7706, [7707]); (7708, [7709]); (7710, [7711]); (7712, [7713]);
   (7714, [7715]); (7716, [7717]); (7718, [7719]); (7720, [7721]); (7722, [7723]);
   (7724, [7725]); (7726, [7727]); (7728, [7729]); (7730, [7731]); (7732, [7733]);
   (7734, [7735]); (7736, [7737]); (7738, [7739]); (7740, [7741]); (7742, [7743]);
   (7744, [7745]); (7746, [7747]); (7748, [7749]); (7750, [7751]); (7752, [7753]);
   (7754, [7755]); (7756, [7757]); (7758, [7759]); (7760, [7761]); (7762, [7763]);
   (7764, [7765]); (7766, [7767]); (7768, [7769]); (7770, [7771]); (7772, [7773]);
   (7774, [7775]); (7776, [7777]); (7778, [7779]); (7780, [7781]); (7782, [7783]);
   (7784, [7785]); (7786, [7787]); (7788, [7789]); (7790, [7791]); (7792, [7793]);
   (7794, [7795]); (7796, [7797]); (7798, [7799]); (7800, [7801]); (7802, [7803]);
   (7804, [7805]); (7806, [7807]); (7808, [7809]); (7810, [7811]); (7812, [7813]);
   (7814, [7815]); (7816, [7817]); (7818, [7819]); (7820, [7821]); (7822, [7823]);
   (7824, [7825]); (7826, [7827]); (7828, [7829]); (7838, [223]); (7840, [7841]);
   (7842, [7843]); (7844, [7845]); (7846, [7847]); (7848, [7849]); (7850, [7851]);
   (7852, [7853]); (7854, [7855]); (7856, [7857]); (7858, [7859]); (7860, [7861]);
   (7862, [7863]); (7864, [7865]); (7866, [7867]); (7868, [7869]); (7870, [7871]);
   (7872, [7873]); (7874, [7875]); (7876, [7877]); (7878, [7879]); (7880, [7881]);
   (7882, [7883]); (7884, [7885]); (7886, [7887]); (7888, [7889]); (7890, [7891]);
   (7892, [7893]); (7894, [7895]); (7896, [7897]); (7898, [7899]); (7900, [7901]);
   (7902, [7903]); (7904, [7905]); (7906, [7907]); (7908, [7909]); (7910, [7911]);
   (7912, [7913]); (7914, [7915]); (7916, [7917]); (7918, [7919]); (7920, [7921]);
   (7922, [7923]); (7924, [7925]); (7926, [7927]); (7928, [7929]); (7930, [7931]);
   (7932, [7933]); (7934, [7935]); (7944, [7936]); (7945, [7937]); (7946, [7938]);
   (7947, [7939]); (7948, [7940]); (7949, [7941]); (7950, [7942]); (7951, [7943]);
   (7960, [7952]); (7961, [7953]); (7962, [7954]); (7963, [7955]); (7964, [7956]);
   (7965, [7957]); (7976, [7968]); (7977, [7969]); (7978, [7970]); (7979, [7971]);
   (7980, [7972]); (7981, [7973]); (7982, [7974]); (7983, [7975]); (7992, [7984]);
   (7993, [7985]); (7994, [7986]); (7995, [7987]); (7996, [7988]); (7997, [7989]);
   (7998, [7990]); (7999, [7991]); (8008, [8000]); (8009, [8001]); (8010, [8002]);
   (8011, [8003]); (8012, [8004]); (8013, [8005]); (8025, [8017]); (8027, [8019]);
   (8029, [8021]); (8031, [8023]); (8040, [8032]); (8041, [8033]); (8042, [8034]);
   (8043, [8035]); (8044, [8036]); (8045, [8037]); (8046, [8038]); (8047, [8039]);
   (8072, [8064]); (8073, [8065]); (8074, [8066]); (8075, [8067]); (8076, [8068]);
   (8077, [8069]); (8078, [8070]); (8079, [8071]); (8088, [8080]); (8089, [8081]);
   (8090, [8082]); (8091, [8083]); (8092, [8084]); (8093, [8085]); (8094, [8086]);
   (8095, [8087]); (8104, [8096]); (8105, [8097]); (8106, [8098]); (8107, [8099]);
   (8108, [8100]); (8109, [8101]); (8110, [8102]); (8111, [8103]); (8120, [8112]);
   (8121, [8113]); (8122, [8048]); (8123, [8049]); (8124, [8115]); (8136, [8050]);
   (8137, [8051]); (8138, [8052]); (8139, [8053]); (8140, [8131]); (8152, [8144]);
   (8153, [8145]); (8154, [8054]); (8155, [8055]); (8168, [8160]); (8169, [8161]);
   (8170, [8058]); (8171, [8059]); (8172, [8165]); (8184, [8056]); (8185, [8057]);
   (8186, [8060]); (8187, [8061]); (8188, [8179]); (8486, [969]); (8490, [107]); (8491, [229]);
   (8498, [8526]); (8544, [8560]); (8545, [8561]); (8546, [8562]); (8547, [8563]);
   (8548, [8564]); (8549, [8565]); (8550, [8566]); (8551, [8567]); (8552, [8568]);
   (8553, [8569]); (8554, [8570]); (8555, [8571]); (8556, [8572]); (8557, [8573]);
   (8558, [8574]); (8559, [8575]); (8579, [8580]); (9398, [9424]); (9399, [9425]);
   (9400, [9426]); (9401, [9427]); (9402, [9428]); (9403, [9429]); (9404, [9430]);
   (9405, [9431]); (9406, [9432]); (9407, [9433]); (9408, [9434]); (9409, [9435]);
   (9410, [9436]); (9411, [9437]); (9412, [9438]); (9413, [9439]); (9414, [9440]);
   (9415, [9441]); (9416, [9442]); (9417, [9443]); (9418, [9444]); (9419, [9445]);
   (9420, [9446]); (9421, [9447]); (9422, [9448]); (9423, [9449]); (11264, [11312]);
   (11265, [11313]); (11266, [11314]); (11267, [11315]); (11268, [11316]); (11269, [11317]);
   (11270, [11318]); (11271, [11319]); (11272, [11320]); (11273, [11321]); (11274, [11322]);
   (11275, [11323]); (11276, [11324]); (11277, [11325]); (11278, [11326]); (11279, [11327]);
   (11280, [11328]); (11281, [11329]); (11282, [11330]); (11283, [11331]); (11284, [11332]);
   (11285, [11333]); (11286, [11334]); (11287, [11335]); (11288, [11336]); (11289, [11337]);
   (11290, [11338]); (11291, [11339]); (11292, [11340]); (11293, [11341]); (11294, [11342]);
   (11295, [11343]); (11296, [11344]); (11297, [11345]); (11298, [11346]); (11299, [11347]);
   (11300, [11348]); (11301, [11349]); (11302, [11350]); (11303, [11351]); (11304, [11352]);
   (11305, [11353]); (11306, [11354]); (11307, [11355]); (11308, [11356]); (11309, [11357]);
   (11310, [11358]); (11311, [11359]); (11360, [11361]); (11362, [619]); (11363, [7549]);
   (11364, [637]); (11367, [11368]); (11369, [11370]); (11371, [11372]); (11373, [593]);
   (11374, [625]); (11375, [592]); (11376, [594]); (11378, [11379]); (11381, [11382]);
   (11390, [575]); (11391, [576]); (11392, [11393]); (11394, [11395]); (11396, [11397]);
   (11398, [11399]); (11400, [11401]); (11402, [11403]); (11404, [11405]); (11406, [11407]);
   (11408, [11409]); (11410, [11411]); (11412, [11413]); (11414, [11415]); (11416, [11417]);
   (11418, [11419]); (11420, [11421]); (11422, [11423]); (11424, [11425]); (11426, [11427]);
   (11428, [11429]); (11430, [11431]); (11432, [11433]); (11434, [11435]); (11436, [11437]);
   (11438, [11439]); (11440, [11441]); (11442, [11443]); (11444, [11445]); (11446, [11447]);
   (11448, [11449]); (11450, [11451]); (11452, [11453]); (11454, [11455]); (11456, [11457]);
   (11458, [11459]); (11460, [11461]); (11462, [11463]); (11464, [11465]); (11466, [11467]);
   (11468, [11469]); (11470, [11471]); (11472, [11473]); (11474, [11475]); (11476, [11477]);
   (11478, [11479]); (11480, [11481]); (11482, [11483]); (11484, [11485]); (11486, [11487]);
   (11488, [11489]); (11490, [11491]); (11499, [11500]); (11501, [11502]); (11506, [11507]);
   (42560, [42561]); (42562, [42563]); (42564, [42565]); (42566, [42567]); (42568, [42569]);
   (42570, [42571]); (42572, [42573]); (42574, [42575]); (42576, [42577]); (42578, [42579]);
   (42580, [42581]); (42582, [42583]); (42584, [42585]); (42586, [42587]); (42588, [42589]);
   (42590, [42591]); (42592, [42593]); (42594, [42595]); (42596, [42597]); (42598, [42599]);
   (42600, [42601]); (42602, [42603]); (42604, [42605]); (42624, [42625]); (42626, [42627]);
   (42628, [42629]); (42630, [42631]); (42632, [42633]); (42634, [42635]); (42636, [42637]);
   (42638, [42639]); (42640, [42641]); (42642, [42643]); (42644, [42645]); (42646, [42647]);
   (42648, [42649]); (42650, [42651]); (42786, [42787]); (42788, [42789]); (42790, [42791]);
   (42792, [42793]); (42794, [42795]); (42796, [42797]); (42798, [42799]); (42802, [42803]);
   (42804, [42805]); (42806, [42807]); (42808, [42809]); (42810, [42811]); (42812, [42813]);
   (42814, [42815]); (42816, [42817]); (42818, [42819]); (42820, [42821]); (42822, [42823]);
   (42824, [42825]); (42826, [42827]); (42828, [42829]); (42830, [42831]); (42832, [42833]);
   (42834, [42835]); (42836, [42837]); (42838, [42839]); (42840, [42841]); (42842, [42843]);
   (42844, [42845]); (42846, [42847]); (42848, [42849]); (42850, [42851]); (42852, [42853]);
   (42854, [42855]); (42856, [42857]); (42858, [42859]); (42860, [42861]); (42862, [42863]);
   (42873, [42874]); (42875, [42876]); (42877, [7545]); (42878, [42879]); (42880, [42881]);
   (42882, [42883]); (42884, [42885]); (42886, [42887]); (42891, [42892]); (42893, [613]);
   (42896, [42897]); (42898, [42899]); (42902, [42903]); (42904, [42905]); (42906, [42907]);
   (42908, [42909]); (42910, [42911]); (42912, [42913]); (42914, [42915]); (42916, [42917]);
   (42918, [42919]); (42920, [42921]); (42922, [614]); (42923, [604]); (42924, [609]);
   (42925, [620]); (42926, [618]); (42928, [670]); (42929, [647]); (42930, [669]);
   (42931, [43859]); (42932, [42933]); (42934, [42935]); (42936, [42937]); (42938, [42939]);
   (42940, [42941]); (42942, [42943]); (42944, [42945]); (42946, [42947]); (42948, [42900]);
   (42949, [642]); (42950, [7566]); (42951, [42952]); (42953, [42954]); (42960, [42961]);
   (42966, [42967]); (42968, [42969]); (42997, [42998]); (65313, [65345]); (65314, [65346]);
   (65315, [65347]); (65316, [65348]); (65317, [65349]); (65318, [65350]); (65319, [65351]);
   (65320, [65352]); (65321, [65353]); (65322, [65354]); (65323, [65355]); (65324, [65356]);
   (65325, [65357]); (65326, [65358]); (65327, [65359]); (65328, [65360]); (65329, [65361]);
   (65330, [65362]); (65331, [65363]); (65332, [65364]); (65333, [65365]); (65334, [65366]);
   (65335, [65367]); (65336, [65368]); (65337, [65369]); (65338, [65370]); (66560, [66600]);
   (66561, [66601]); (66562, [66602]); (66563, [66603]); (66564, [66604]); (66565, [66605]);
   (66566, [66606]); (66567, [66607]); (66568, [66608]); (66569, [66609]); (66570, [66610]);
   (66571, [66611]); (66572, [66612]); (66573, [66613]); (66574, [66614]); (66575, [66615]);
   (66576, [66616]); (66577, [66617]); (66578, [66618]); (66579, [66619]); (66580, [66620]);
   (66581, [66621]); (66582, [66622]); (66583, [66623]); (66584, [66624]); (66585, [66625]);
   (66586, [66626]); (66587, [66627]); (66588, [66628]); (66589, [66629]); (66590, [66630]);
   (66591, [66631]); (66592, [66632]); (66593, [66633]); (66594, [66634]); (66595, [66635]);
   (66596, [66636]); (66597, [66637]); (66598, [66638]); (66599, [66639]); (66736, [66776]);
   (66737, [66777]); (66738, [66778]); (66739, [66779]); (66740, [66780]); (66741, [66781]);
   (66742, [66782]); (66743, [66783]); (66744, [66784]); (66745, [66785]); (66746, [66786]);
   (66747, [66787]); (66748, [66788]); (66749, [66789]); (66750, [66790]); (66751, [66791]);
   (66752, [66792]); (66753, [66793]); (66754, [66794]); (66755, [66795]); (66756, [66796]);
   (66757, [66797]); (66758, [66798]); (66759, [66799]); (66760, [66800]); (66761, [66801]);
   (66762, [66802]); (66763, [66803]); (66764, [66804]); (66765, [66805]); (66766, [66806]);
   (66767, [66807]); (66768, [66808]); (66769, [66809]); (66770, [66810]); (66771, [66811]);
   (66928, [66967]); (66929, [66968]); (66930, [66969]); (66931, [66970]); (66932, [66971]);
   (66933, [66972]); (66934, [66973]); (66935, [66974]); (66936, [66975]); (66937, [66976]);
   (66938, [66977]); (66940, [66979]); (66941, [66980]); (66942, [66981]); (66943, [66982]);
   (66944, [66983]); (66945, [66984]); (66946, [66985]); (66947, [66986]); (66948, [66987]);
   (66949, [66988]); (66950, [66989]); (66951, [66990]); (66952, [66991]); (66953, [66992]);
   (66954, [66993]); (66956, [66995]); (66957, [66996]); (66958, [66997]); (66959, [66998]);
   (66960, [66999]); (66961, [67000]); (66962, [67001]); (66964, [67003]); (66965, [67004]);
   (68736, [68800]); (68737, [68801]); (68738, [68802]); (68739, [68803]); (68740, [68804]);
   (68741, [68805]); (68742, [68806]); (68743, [68807]); (68744, [68808]); (68745, [68809]);
   (68746, [68810]); (68747, [68811]); (68748, [68812]); (68749, [68813]); (68750, [68814]);
   (68751, [68815]); (68752, [68816]); (68753, [68817]); (68754, [68818]); (68755, [68819]);
   (68756, [68820]); (68757, [68821]); (68758, [68822]); (68759, [68823]); (68760, [68824]);
   (68761, [68825]); (68762, [68826]); (68763, [68827]); (68764, [68828]); (68765, [68829]);
   (68766, [68830]); (68767, [68831]); (68768, [68832]); (68769, [68833]); (68770, [68834]);
   (68771, [68835]); (68772, [68836]); (68773, [68837]); (68774, [68838]); (68775, [68839]);
   (68776, [68840]); (68777, [68841]); (68778, [68842]); (68779, [68843]); (68780, [68844]);
   (68781, [68845]); (68782, [68846]); (68783, [68847]); (68784, [68848]); (68785, [68849]);
   (68786, [68850]); (71840, [71872]); (71841, [71873]); (71842, [71874]); (71843, [71875]);
   (71844, [71876]); (71845, [71877]); (71846, [71878]); (71847, [71879]); (71848, [71880]);
   (71849, [71881]); (71850, [71882]); (71851, [71883]); (71852, [71884]); (71853, [71885]);
   (71854, [71886]); (71855, [71887]); (71856, [71888]); (71857, [71889]); (71858, [71890]);
   (71859, [71891]); (71860, [71892]); (71861, [71893]); (71862, [71894]); (71863, [71895]);
   (71864, [71896]); (71865, [71897]); (71866, [71898]); (71867, [71899]); (71868, [71900]);
   (71869, [71901]); (71870, [71902]); (71871, [71903]); (93760, [93792]); (93761, [93793]);
   (93762, [93794]); (93763, [93795]); (93764, [93796]); (93765, [93797]); (93766, [93798]);
   (93767, [93799]); (93768, [93800]); (93769, [93801]); (93770, [93802]); (93771, [93803]);
   (93772, [93804]); (93773, [93805]); (93774, [93806]); (93775, [93807]); (93776, [93808]);
   (93777, [93809]); (93778, [93810]); (93779, [93811]); (93780, [93812]); (93781, [93813]);
   (93782, [93814]); (93783, [93815]); (93784, [93816]); (93785, [93817]); (93786, [93818]);
   (93787, [93819]); (93788, [93820]); (93789, [93821]); (93790, [93822]); (93791, [93823]);
   (125184, [125218]); (125185, [125219]); (125186, [125220]); (125187, [125221]);
   (125188, [125222]); (125189, [125223]); (125190, [125224]); (125191, [125225]);
   (125192, [125226]); (125193, [125227]); (125194, [125228]); (125195, [125229]);
   (125196, [125230]); (125197, [125231]); (125198, [125232]); (125199, [125233]);
   (125200, [125234]); (125201, [125235]); (125202, [125236]); (125203, [125237]);
   (125204, [125238]); (125205, [125239]); (125206, [125240]); (125207, [125241]);
   (125208, [125242]); (125209, [125243]); (125210, [125244]); (125211, [125245]);
   (125212, [125246]); (125213, [125247]); (125214, [125248]); (125215, [125249]);
   (125216, [125250]); (125217, [125251])].

(** Full canonical decompositions, Hangul syllables apart. *)
Definition nfd_table : list (N * list N) :=
  [(192, [65; 768]); (193, [65; 769]); (194, [65; 770]); (195, [65; 771]); (196, [65; 776]);
   (197, [65; 778]); (199, [67; 807]); (200, [69; 768]); (201, [69; 769]); (202, [69; 770]);
   (203, [69; 776]); (204, [73; 768]); (205, [73; 769]); (206, [73; 770]); (207, [73; 776]);
   (209, [78; 771]); (210, [79; 768]); (211, [79; 769]); (212, [79; 770]); (213, [79; 771]);
   (214, [79; 776]); (217, [85; 768]); (218, [85; 769]); (219, [85; 770]); (220, [85; 776]);
   (221, [89; 769]); (224, [97; 768]); (225, [97; 769]); (226, [97; 770]); (227, [97; 771]);
   (228, [97; 776]); (229, [97; 778]); (231, [99; 807]); (232, [101; 768]); (233, [101; 769]);
   (234, [101; 770]); (235, [101; 776]); (236, [105; 768]); (237, [105; 769]);
   (238, [105; 770]); (239, [105; 776]); (241, [110; 771]); (242, [111; 768]);
   (243, [111; 769]); (244, [111; 770]); (245, [111; 771]); (246, [111; 776]);
   (249, [117; 768]); (250, [117; 769]); (251, [117; 770]); (252, [117; 776]);
   (253, [121; 769]); (255, [121; 776]); (256, [65; 772]); (257, [97; 772]); (258, [65; 774]);
   (259, [97; 774]); (260, [65; 808]); (261, [97; 808]); (262, [67; 769]); (263, [99; 769]);
   (264, [67; 770]); (265, [99; 770]); (266, [67; 775]); (267, [99; 775]); (268, [67; 780]);
   (269, [99; 780]); (270, [68; 780]); (271, [100; 780]); (274, [69; 772]); (275, [101; 772]);
   (276, [69; 774]); (277, [101; 774]); (278, [69; 775]); (279, [101; 775]); (280, [69; 808]);
   (281, [101; 808]); (282, [69; 780]); (283, [101; 780]); (284, [71; 770]); (285, [103; 770]);
   (286, [71; 774]); (287, [103; 774]); (288, [71; 775]); (289, [103; 775]); (290, [71; 807]);
   (291, [103; 807]); (292, [72; 770]); (293, [104; 770]); (296, [73; 771]); (297, [105; 771]);
   (298, [73; 772]); (299, [105; 772]); (300, [73; 774]); (301, [105; 774]); (302, [73; 808]);
   (303, [105; 808]); (304, [73; 775]); (308, [74; 770]); (309, [106; 770]); (310, [75; 807]);
   (311, [107; 807]); (313, [76; 769]); (314, [108; 769]); (315, [76; 807]); (316, [108; 807]);
   (317, [76; 780]); (318, [108; 780]); (323, [78; 769]); (324, [110; 769]); (325, [78; 807]);
   (326, [110; 807]); (327, [78; 780]); (328, [110; 780]); (332, [79; 772]); (333, [111; 772]);
   (334, [79; 774]); (335, [111; 774]); (336, [79; 779]); (337, [111; 779]); (340, [82; 769]);
   (341, [114; 769]); (342, [82; 807]); (343, [114; 807]); (344, [82; 780]); (345, [114; 780]);
   (346, [83; 769]); (347, [115; 769]); (348, [83; 770]); (349, [115; 770]); (350, [83; 807]);
   (351, [115; 807]); (352, [83; 780]); (353, [115; 780]); (354, [84; 807]); (355, [116; 807]);
   (356, [84; 780]); (357, [116; 780]); (360, [85; 771]); (361, [117; 771]); (362, [85; 772]);
   (363, [117; 772]); (364, [85; 774]); (365, [117; 774]); (366, [85; 778]); (367, [117; 778]);
   (368, [85; 779]); (369, [117; 779]); (370, [85; 808]); (371, [117; 808]); (372, [87; 770]);
   (373, [119; 770]); (374, [89; 770]); (375, [121; 770]); (376, [89; 776]); (377, [90; 769]);
   (378, [122; 769]); (379, [90; 775]); (380, [122; 775]); (381, [90; 780]); (382, [122; 780]);
   (416, [79; 795]); (417, [111; 795]); (431, [85; 795]); (432, [117; 795]); (461, [65; 780]);
   (462, [97; 780]); (463, [73; 780]); (464, [105; 780]); (465, [79; 780]); (466, [111; 780]);
   (467, [85; 780]); (468, [117; 780]); (469, [85; 776; 772]); (470, [117; 776; 772]);
   (471, [85; 776; 769]); (472, [117; 776; 769]); (473, [85; 776; 780]);
   (474, [117; 776; 780]); (475, [85; 776; 768]); (476, [117; 776; 768]);
   (478, [65; 776; 772]); (479, [97; 776; 772]); (480, [65; 775; 772]); (481, [97; 775; 772]);
   (482, [198; 772]); (483, [230; 772]); (486, [71; 780]); (487, [103; 780]); (488, [75; 780]);
   (489, [107; 780]); (490, [79; 808]); (491, [111; 808]); (492, [79; 808; 772]);
   (493, [111; 808; 772]); (494, [439; 780]); (495, [658; 780]); (496, [106; 780]);
   (500, [71; 769]); (501, [103; 769]); (504, [78; 768]); (505, [110; 768]);
   (506, [65; 778; 769]); (507, [97; 778; 769]); (508, [198; 769]); (509, [230; 769]);
   (510, [216; 769]); (511, [248; 769]); (512, [65; 783]); (513, [97; 783]); (514, [65; 785]);
   (515, [97; 785]); (516, [69; 783]); (517, [101; 783]); (518, [69; 785]); (519, [101; 785]);
   (520, [73; 783]); (521, [105; 783]); (522, [73; 785]); (523, [105; 785]); (524, [79; 783]);
   (525, [111; 783]); (526, [79; 785]); (527, [111; 785]); (528, [82; 783]); (529, [114; 783]);
   (530, [82; 785]); (531, [114; 785]); (532, [85; 783]); (533, [117; 783]); (534, [85; 785]);
   (535, [117; 785]); (536, [83; 806]); (537, [115; 806]); (538, [84; 806]); (539, [116; 806]);
   (542, [72; 780]); (543, [104; 780]); (550, [65; 775]); (551, [97; 775]); (552, [69; 807]);
   (553, [101; 807]); (554, [79; 776; 772]); (555, [111; 776; 772]); (556, [79; 771; 772]);
   (557, [111; 771; 772]); (558, [79; 775]); (559, [111; 775]); (560, [79; 775; 772]);
   (561, [111; 775; 772]); (562, [89; 772]); (563, [121; 772]); (832, [768]); (833, [769]);
   (835, [787]); (836, [776; 769]); (884, [697]); (894, [59]); (901, [168; 769]);
   (902, [913; 769]); (903, [183]); (904, [917; 769]); (905, [919; 769]); (906, [921; 769]);
   (908, [927; 769]); (910, [933; 769]); (911, [937; 769]); (912, [953; 776; 769]);
   (938, [921; 776]); (939, [933; 776]); (940, [945; 769]); (941, [949; 769]);
   (942, [951; 769]); (943, [953; 769]); (944, [965; 776; 769]); (970, [953; 776]);
   (971, [965; 776]); (972, [959; 769]); (973, [965; 769]); (974, [969; 769]);
   (979, [978; 769]); (980, [978; 776]); (1024, [1045; 768]); (1025, [1045; 776]);
   (1027, [1043; 769]); (1031, [1030; 776]); (1036, [1050; 769]); (1037, [1048; 768]);
   (1038, [1059; 774]); (1049, [1048; 774]); (1081, [1080; 774]); (1104, [1077; 768]);
   (1105, [1077; 776]); (1107, [1075; 769]); (1111, [1110; 776]); (1116, [1082; 769]);
   (1117, [1080; 768]); (1118, [1091; 774]); (1142, [1140; 783]); (1143, [1141; 783]);
   (1217, [1046; 774]); (1218, [1078; 774]); (1232, [1040; 774]); (1233, [1072; 774]);
   (1234, [1040; 776]); (1235, [1072; 776]); (1238, [1045; 774]); (1239, [1077; 774]);
   (1242, [1240; 776]); (1243, [1241; 776]); (1244, [1046; 776]); (1245, [1078; 776]);
   (1246, [1047; 776]); (1247, [1079; 776]); (1250, [1048; 772]); (1251, [1080; 772]);
   (1252, [1048; 776]); (1253, [1080; 776]); (1254, [1054; 776]); (1255, [1086; 776]);
   (1258, [1256; 776]); (1259, [1257; 776]); (1260, [1069; 776]); (1261, [1101; 776]);
   (1262, [1059; 772]); (1263, [1091; 772]); (1264, [1059; 776]); (1265, [1091; 776]);
   (1266, [1059; 779]); (1267, [1091; 779]); (1268, [1063; 776]); (1269, [1095; 776]);
   (1272, [1067; 776]); (1273, [1099; 776]); (1570, [1575; 1619]); (1571, [1575; 1620]);
   (1572, [1608; 1620]); (1573, [1575; 1621]); (1574, [1610; 1620]); (1728, [1749; 1620]);
   (1730, [1729; 1620]); (1747, [1746; 1620]); (2345, [2344; 2364]); (2353, [2352; 2364]);
   (2356, [2355; 2364]); (2392, [2325; 2364]); (2393, [2326; 2364]); (2394, [2327; 2364]);
   (2395, [2332; 2364]); (2396, [2337; 2364]); (2397, [2338; 2364]); (2398, [2347; 2364]);
   (2399, [2351; 2364]); (2507, [2503; 2494]); (2508, [2503; 2519]); (2524, [2465; 2492]);
   (2525, [2466; 2492]); (2527, [2479; 2492]); (2611, [2610; 2620]); (2614, [2616; 2620]);
   (2649, [2582; 2620]); (2650, [2583; 2620]); (2651, [2588; 2620]); (2654, [2603; 2620]);
   (2888, [2887; 2902]); (2891, [2887; 2878]); (2892, [2887; 2903]); (2908, [2849; 2876]);
   (2909, [2850; 2876]); (2964, [2962; 3031]); (3018, [3014; 3006]); (3019, [3015; 3006]);
   (3020, [3014; 3031]); (3144, [3142; 3158]); (3264, [3263; 3285]); (3271, [3270; 3285]);
   (3272, [3270; 3286]); (3274, [3270; 3266]); (3275, [3270; 3266; 3285]);
   (3402, [3398; 3390]); (3403, [3399; 3390]); (3404, [3398; 3415]); (3546, [3545; 3530]);
   (3548, [3545; 3535]); (3549, [3545; 3535; 3530]); (3550, [3545; 3551]);
   (3907, [3906; 4023]); (3917, [3916; 4023]); (3922, [3921; 4023]); (3927, [3926; 4023]);
   (3932, [3931; 4023]); (3945, [3904; 4021]); (3955, [3953; 3954]); (3957, [3953; 3956]);
   (3958, [4018; 3968]); (3960, [4019; 3968]); (3969, [3953; 3968]); (3987, [3986; 4023]);
   (3997, [3996; 4023]); (4002, [4001; 4023]); (4007, [4006; 4023]); (4012, [4011; 4023]);
   (4025, [3984; 4021]); (4134, [4133; 4142]); (6918, [6917; 6965]); (6920, [6919; 6965]);
   (6922, [6921; 6965]); (6924, [6923; 6965]); (6926, [6925; 6965]); (6930, [6929; 6965]);
   (6971, [6970; 6965]); (6973, [6972; 6965]); (6976, [6974; 6965]); (6977, [6975; 6965]);
   (6979, [6978; 6965]); (7680, [65; 805]); (7681, [97; 805]); (7682, [66; 775]);
   (7683, [98; 775]); (7684, [66; 803]); (7685, [98; 803]); (7686, [66; 817]);
   (7687, [98; 817]); (7688, [67; 807; 769]); (7689, [99; 807; 769]); (7690, [68; 775]);
   (7691, [100; 775]); (7692, [68; 803]); (7693, [100; 803]); (7694, [68; 817]);
   (7695, [100; 817]); (7696, [68; 807]); (7697, [100; 807]); (7698, [68; 813]);
   (7699, [100; 813]); (7700, [69; 772; 768]); (7701, [101; 772; 768]); (7702, [69; 772; 769]);
   (7703, [101; 772; 769]); (7704, [69; 813]); (7705, [101; 813]); (7706, [69; 816]);
   (7707, [101; 816]); (7708, [69; 807; 774]); (7709, [101; 807; 774]); (7710, [70; 775]);
   (7711, [102; 775]); (7712, [71; 772]); (7713, [103; 772]); (7714, [72; 775]);
   (7715, [104; 775]); (7716, [72; 803]); (7717, [104; 803]); (7718, [72; 776]);
   (7719, [104; 776]); (7720, [72; 807]); (7721, [104; 807]); (7722, [72; 814]);
   (7723, [104; 814]); (7724, [73; 816]); (7725, [105; 816]); (7726, [73; 776; 769]);
   (7727, [105; 776; 769]); (7728, [75; 769]); (7729, [107; 769]); (7730, [75; 803]);
   (7731, [107; 803]); (7732, [75; 817]); (7733, [107; 817]); (7734, [76; 803]);
   (7735, [108; 803]); (7736, [76; 803; 772]); (7737, [108; 803; 772]); (7738, [76; 817]);
   (7739, [108; 817]); (7740, [76; 813]); (7741, [108; 813]); (7742, [77; 769]);
   (7743, [109; 769]); (7744, [77; 775]); (7745, [109; 775]); (7746, [77; 803]);
   (7747, [109; 803]); (7748, [78; 775]); (7749, [110; 775]); (7750, [78; 803]);
   (7751, [110; 803]); (7752, [78; 817]); (7753, [110; 817]); (7754, [78; 813]);
   (7755, [110; 813]); (7756, [79; 771; 769]); (7757, [111; 771; 769]); (7758, [79; 771; 776]);
   (7759, [111; 771; 776]); (7760, [79; 772; 768]); (7761, [111; 772; 768]);
   (7762, [79; 772; 769]); (7763, [111; 772; 769]); (7764, [80; 769]); (7765, [112; 769]);
   (7766, [80; 775]); (7767, [112; 775]); (7768, [82; 775]); (7769, [114; 775]);
   (7770, [82; 803]); (7771, [114; 803]); (7772, [82; 803; 772]); (7773, [114; 803; 772]);
   (7774, [82; 817]); (7775, [114; 817]); (7776, [83; 775]); (7777, [115; 775]);
   (7778, [83; 803]); (7779, [115; 803]); (7780, [83; 769; 775]); (7781, [115; 769; 775]);
   (7782, [83; 780; 775]); (7783, [115; 780; 775]); (7784, [83; 803; 775]);
   (7785, [115; 803; 775]); (7786, [84; 775]); (7787, [116; 775]); (7788, [84; 803]);
   (7789, [116; 803]); (7790, [84; 817]); (7791, [116; 817]); (7792, [84; 813]);
   (7793, [116; 813]); (7794, [85; 804]); (7795, [117; 804]); (7796, [85; 816]);
   (7797, [117; 816]); (7798, [85; 813]); (7799, [117; 813]); (7800, [85; 771; 769]);
   (7801, [117; 771; 769]); (7802, [85; 772; 776]); (7803, [117; 772; 776]); (7804, [86; 771]);
   (7805, [118; 771]); (7806, [86; 803]); (7807, [118; 803]); (7808, [87; 768]);
   (7809, [119; 768]); (7810, [87; 769]); (7811, [119; 769]); (7812, [87; 776]);
   (7813, [119; 776]); (7814, [87; 775]); (7815, [119; 775]); (7816, [87; 803]);
   (7817, [119; 803]); (7818, [88; 775]); (7819, [120; 775]); (7820, [88; 776]);
   (7821, [120; 776]); (7822, [89; 775]); (7823, [121; 775]); (7824, [90; 770]);
   (7825, [122; 770]); (7826, [90; 803]); (7827, [122; 803]); (7828, [90; 817]);
   (7829, [122; 817]); (7830, [104; 817]); (7831, [116; 776]); (7832, [119; 778]);
   (7833, [121; 778]); (7835, [383; 775]); (7840, [65; 803]); (7841, [97; 803]);
   (7842, [65; 777]); (7843, [97; 777]); (7844, [65; 770; 769]); (7845, [97; 770; 769]);
   (7846, [65; 770; 768]); (7847, [97; 770; 768]); (7848, [65; 770; 777]);
   (7849, [97; 770; 777]); (7850, [65; 770; 771]); (7851, [97; 770; 771]);
   (7852, [65; 803; 770]); (7853, [97; 803; 770]); (7854, [65; 774; 769]);
   (7855, [97; 774; 769]); (7856, [65; 774; 768]); (7857, [97; 774; 768]);
   (7858, [65; 774; 777]); (7859, [97; 774; 777]); (7860, [65; 774; 771]);
   (7861, [97; 774; 771]); (7862, [65; 803; 774]); (7863, [97; 803; 774]); (7864, [69; 803]);
   (7865, [101; 803]); (7866, [69; 777]); (7867, [101; 777]); (7868, [69; 771]);
   (7869, [101; 771]); (7870, [69; 770; 769]); (7871, [101; 770; 769]); (7872, [69; 770; 768]);
   (7873, [101; 770; 768]); (7874, [69; 770; 777]); (7875, [101; 770; 777]);
   (7876, [69; 770; 771]); (7877, [101; 770; 771]); (7878, [69; 803; 770]);
   (7879, [101; 803; 770]); (7880, [73; 777]); (7881, [105; 777]); (7882, [73; 803]);
   (7883, [105; 803]); (7884, [79; 803]); (7885, [111; 803]); (7886, [79; 777]);
   (7887, [111; 777]); (7888, [79; 770; 769]); (7889, [111; 770; 769]); (7890, [79; 770; 768]);
   (7891, [111; 770; 768]); (7892, [79; 770; 777]); (7893, [111; 770; 777]);
   (7894, [79; 770; 771]); (7895, [111; 770; 771]); (7896, [79; 803; 770]);
   (7897, [111; 803; 770]); (7898, [79; 795; 769]); (7899, [111; 795; 769]);
   (7900, [79; 795; 768]); (7901, [111; 795; 768]); (7902, [79; 795; 777]);
   (7903, [111; 795; 777]); (7904, [79; 795; 771]); (7905, [111; 795; 771]);
   (7906, [79; 795; 803]); (7907, [111; 795; 803]); (7908, [85; 803]); (7909, [117; 803]);
   (7910, [85; 777]); (7911, [117; 777]); (7912, [85; 795; 769]); (7913, [117; 795; 769]);
   (7914, [85; 795; 768]); (7915, [117; 795; 768]); (7916, [85; 795; 777]);
   (7917, [117; 795; 777]); (7918, [85; 795; 771]); (7919, [117; 795; 771]);
   (7920, [85; 795; 803]); (7921, [117; 795; 803]); (7922, [89; 768]); (7923, [121; 768]);
   (7924, [89; 803]); (7925, [121; 803]); (7926, [89; 777]); (7927, [121; 777]);
   (7928, [89; 771]); (7929, [121; 771]); (7936, [945; 787]); (7937, [945; 788]);
   (7938, [945; 787; 768]); (7939, [945; 788; 768]); (7940, [945; 787; 769]);
   (7941, [945; 788; 769]); (7942, [945; 787; 834]); (7943, [945; 788; 834]);
   (7944, [913; 787]); (7945, [913; 788]); (7946, [913; 787; 768]); (7947, [913; 788; 768]);
   (7948, [913; 787; 769]); (7949, [913; 788; 769]); (7950, [913; 787; 834]);
   (7951, [913; 788; 834]); (7952, [949; 787]); (7953, [949; 788]); (7954, [949; 787; 768]);
   (7955, [949; 788; 768]); (7956, [949; 787; 769]); (7957, [949; 788; 769]);
   (7960, [917; 787]); (7961, [917; 788]); (7962, [917; 787; 768]); (7963, [917; 788; 768]);
   (7964, [917; 787; 769]); (7965, [917; 788; 769]); (7968, [951; 787]); (7969, [951; 788]);
   (7970, [951; 787; 768]); (7971, [951; 788; 768]); (7972, [951; 787; 769]);
   (7973, [951; 788; 769]); (7974, [951; 787; 834]); (7975, [951; 788; 834]);
   (7976, [919; 787]); (7977, [919; 788]); (7978, [919; 787; 768]); (7979, [919; 788; 768]);
   (7980, [919; 787; 769]); (7981, [919; 788; 769]); (7982, [919; 787; 834]);
   (7983, [919; 788; 834]); (7984, [953; 787]); (7985, [953; 788]); (7986, [953; 787; 768]);
   (7987, [953; 788; 768]); (7988, [953; 787; 769]); (7989, [953; 788; 769]);
   (7990, [953; 787; 834]); (7991, [953; 788; 834]); (7992, [921; 787]); (7993, [921; 788]);
   (7994, [921; 787; 768]); (7995, [921; 788; 768]); (7996, [921; 787; 769]);
   (7997, [921; 788; 769]); (7998, [921; 787; 834]); (7999, [921; 788; 834]);
   (8000, [959; 787]); (8001, [959; 788]); (8002, [959; 787; 768]); (8003, [959; 788; 768]);
   (8004, [959; 787; 769]); (8005, [959; 788; 769]); (8008, [927; 787]); (8009, [927; 788]);
   (8010, [927; 787; 768]); (8011, [927; 788; 768]); (8012, [927; 787; 769]);
   (8013, [927; 788; 769]); (8016, [965; 787]); (8017, [965; 788]); (8018, [965; 787; 768]);
   (8019, [965; 788; 768]); (8020, [965; 787; 769]); (8021, [965; 788; 769]);
   (8022, [965; 787; 834]); (8023, [965; 788; 834]); (8025, [933; 788]);
   (8027, [933; 788; 768]); (8029, [933; 788; 769]); (8031, [933; 788; 834]);
   (8032, [969; 787]); (8033, [969; 788]); (8034, [969; 787; 768]); (8035, [969; 788; 768]);
   (8036, [969; 787; 769]); (8037, [969; 788; 769]); (8038, [969; 787; 834]);
   (8039, [969; 788; 834]); (8040, [937; 787]); (8041, [937; 788]); (8042, [937; 787; 768]);
   (8043, [937; 788; 768]); (8044, [937; 787; 769]); (8045, [937; 788; 769]);
   (8046, [937; 787; 834]); (8047, [937; 788; 834]); (8048, [945; 768]); (8049, [945; 769]);
   (8050, [949; 768]); (8051, [949; 769]); (8052, [951; 768]); (8053, [951; 769]);
   (8054, [953; 768]); (8055, [953; 769]); (8056, [959; 768]); (8057, [959; 769]);
   (8058, [965; 768]); (8059, [965; 769]); (8060, [969; 768]); (8061, [969; 769]);
   (8064, [945; 787; 837]); (8065, [945; 788; 837]); (8066, [945; 787; 768; 837]);
   (8067, [945; 788; 768; 837]); (8068, [945; 787; 769; 837]); (8069, [945; 788; 769; 837]);
   (8070, [945; 787; 834; 837]); (8071, [945; 788; 834; 837]); (8072, [913; 787; 837]);
   (8073, [913; 788; 837]); (8074, [913; 787; 768; 837]); (8075, [913; 788; 768; 837]);
   (8076, [913; 787; 769; 837]); (8077, [913; 788; 769; 837]); (8078, [913; 787; 834; 837]);
   (8079, [913; 788; 834; 837]); (8080, [951; 787; 837]); (8081, [951; 788; 837]);
   (8082, [951; 787; 768; 837]); (8083, [951; 788; 768; 837]); (8084, [951; 787; 769; 837]);
   (8085, [951; 788; 769; 837]); (8086, [951; 787; 834; 837]); (8087, [951; 788; 834; 837]);
   (8088, [919; 787; 837]); (8089, [919; 788; 837]); (8090, [919; 787; 768; 837]);
   (8091, [919; 788; 768; 837]); (8092, [919; 787; 769; 837]); (8093, [919; 788; 769; 837]);
   (8094, [919; 787; 834; 837]); (8095, [919; 788; 834; 837]); (8096, [969; 787; 837]);
   (8097, [969; 788; 837]); (8098, [969; 787; 768; 837]); (8099, [969; 788; 768; 837]);
   (8100, [969; 787; 769; 837]); (8101, [969; 788; 769; 837]); (8102, [969; 787; 834; 837]);
   (8103, [969; 788; 834; 837]); (8104, [937; 787; 837]); (8105, [937; 788; 837]);
   (8106, [937; 787; 768; 837]); (8107, [937; 788; 768; 837]); (8108, [937; 787; 769; 837]);
   (8109, [937; 788; 769; 837]); (8110, [937; 787; 834; 837]); (8111, [937; 788; 834; 837]);
   (8112, [945; 774]); (8113, [945; 772]); (8114, [945; 768; 837]); (8115, [945; 837]);
   (8116, [945; 769; 837]); (8118, [945; 834]); (8119, [945; 834; 837]); (8120, [913; 774]);
   (8121, [913; 772]); (8122, [913; 768]); (8123, [913; 769]); (8124, [913; 837]);
   (8126, [953]); (8129, [168; 834]); (8130, [951; 768; 837]); (8131, [951; 837]);
   (8132, [951; 769; 837]); (8134, [951; 834]); (8135, [951; 834; 837]); (8136, [917; 768]);
   (8137, [917; 769]); (8138, [919; 768]); (8139, [919; 769]); (8140, [919; 837]);
   (8141, [8127; 768]); (8142, [8127; 769]); (8143, [8127; 834]); (8144, [953; 774]);
   (8145, [953; 772]); (8146, [953; 776; 768]); (8147, [953; 776; 769]); (8150, [953; 834]);
   (8151, [953; 776; 834]); (8152, [921; 774]); (8153, [921; 772]); (8154, [921; 768]);
   (8155, [921; 769]); (8157, [8190; 768]); (8158, [8190; 769]); (8159, [8190; 834]);
   (8160, [965; 774]); (8161, [965; 772]); (8162, [965; 776; 768]); (8163, [965; 776; 769]);
   (8164, [961; 787]); (8165, [961; 788]); (8166, [965; 834]); (8167, [965; 776; 834]);
   (8168, [933; 774]); (8169, [933; 772]); (8170, [933; 768]); (8171, [933; 769]);
   (8172, [929; 788]); (8173, [168; 768]); (8174, [168; 769]); (8175, [96]);
   (8178, [969; 768; 837]); (8179, [969; 837]); (8180, [969; 769; 837]); (8182, [969; 834]);
   (8183, [969; 834; 837]); (8184, [927; 768]); (8185, [927; 769]); (8186, [937; 768]);
   (8187, [937; 769]); (8188, [937; 837]); (8189, [180]); (8192, [8194]); (8193, [8195]);
   (8486, [937]); (8490, [75]); (8491, [65; 778]); (8602, [8592; 824]); (8603, [8594; 824]);
   (8622, [8596; 824]); (8653, [8656; 824]); (8654, [8660; 824]); (8655, [8658; 824]);
   (8708, [8707; 824]); (8713, [8712; 824]); (8716, [8715; 824]); (8740, [8739; 824]);
   (8742, [8741; 824]); (8769, [8764; 824]); (8772, [8771; 824]); (8775, [8773; 824]);
   (8777, [8776; 824]); (8800, [61; 824]); (8802, [8801; 824]); (8813, [8781; 824]);
   (8814, [60; 824]); (8815, [62; 824]); (8816, [8804; 824]); (8817, [8805; 824]);
   (8820, [8818; 824]); (8821, [8819; 824]); (8824, [8822; 824]); (8825, [8823; 824]);
   (8832, [8826; 824]); (8833, [8827; 824]); (8836, [8834; 824]); (8837, [8835; 824]);
   (8840, [8838; 824]); (8841, [8839; 824]); (8876, [8866; 824]); (8877, [8872; 824]);
   (8878, [8873; 824]); (8879, [8875; 824]); (8928, [8828; 824]); (8929, [8829; 824]);
   (8930, [8849; 824]); (8931, [8850; 824]); (8938, [8882; 824]); (8939, [8883; 824]);
   (8940, [8884; 824]); (8941, [8885; 824]); (9001, [12296]); (9002, [12297]);
   (10972, [10973; 824]); (12364, [12363; 12441]); (12366, [12365; 12441]);
   (12368, [12367; 12441]); (12370, [12369; 12441]); (12372, [12371; 12441]);
   (12374, [12373; 12441]); (12376, [12375; 12441]); (12378, [12377; 12441]);
   (12380, [12379; 12441]); (12382, [12381; 12441]); (12384, [12383; 12441]);
   (12386, [12385; 12441]); (12389, [12388; 12441]); (12391, [12390; 12441]);
   (12393, [12392; 12441]); (12400, [12399; 12441]); (12401, [12399; 12442]);
   (12403, [12402; 12441]); (12404, [12402; 12442]); (12406, [12405; 12441]);
   (12407, [12405; 12442]); (12409, [12408; 12441]); (12410, [12408; 12442]);
   (12412, [12411; 12441]); (12413, [12411; 12442]); (12436, [12358; 12441]);
   (12446, [12445; 12441]); (12460, [12459; 12441]); (12462, [12461; 12441]);
   (12464, [12463; 12441]); (12466, [12465; 12441]); (12468, [12467; 12441]);
   (12470, [12469; 12441]); (12472, [12471; 12441]); (12474, [12473; 12441]);
   (12476, [12475; 12441]); (12478, [12477; 12441]); (12480, [12479; 12441]);
   (12482, [12481; 12441]); (12485, [12484; 12441]); (12487, [12486; 12441]);
   (12489, [12488; 12441]); (12496, [12495; 12441]); (12497, [12495; 12442]);
   (12499, [12498; 12441]); (12500, [12498; 12442]); (12502, [12501; 12441]);
   (12503, [12501; 12442]); (12505, [12504; 12441]); (12506, [12504; 12442]);
   (12508, [12507; 12441]); (12509, [12507; 12442]); (12532, [12454; 12441]);
   (12535, [12527; 12441]); (12536, [12528; 12441]); (12537, [12529; 12441]);
   (12538, [12530; 12441]); (12542, [12541; 12441]); (63744, [35912]); (63745, [26356]);
   (63746, [36554]); (63747, [36040]); (63748, [28369]); (63749, [20018]); (63750, [21477]);
   (63751, [40860]); (63752, [40860]); (63753, [22865]); (63754, [37329]); (63755, [21895]);
   (63756, [22856]); (63757, [25078]); (63758, [30313]); (63759, [32645]); (63760, [34367]);
   (63761, [34746]); (63762, [35064]); (63763, [37007]); (63764, [27138]); (63765, [27931]);
   (63766, [28889]); (63767, [29662]); (63768, [33853]); (63769, [37226]); (63770, [39409]);
   (63771, [20098]); (63772, [21365]); (63773, [27396]); (63774, [29211]); (63775, [34349]);
   (63776, [40478]); (63777, [23888]); (63778, [28651]); (63779, [34253]); (63780, [35172]);
   (63781, [25289]); (63782, [33240]); (63783, [34847]); (63784, [24266]); (63785, [26391]);
   (63786, [28010]); (63787, [29436]); (63788, [37070]); (63789, [20358]); (63790, [20919]);
   (63791, [21214]); (63792, [25796]); (63793, [27347]); (63794, [29200]); (63795, [30439]);
   (63796, [32769]); (63797, [34310]); (63798, [34396]); (63799, [36335]); (63800, [38706]);
   (63801, [39791]); (63802, [40442]); (63803, [30860]); (63804, [31103]); (63805, [32160]);
   (63806, [33737]); (63807, [37636]); (63808, [40575]); (63809, [35542]); (63810, [22751]);
   (63811, [24324]); (63812, [31840]); (63813, [32894]); (63814, [29282]); (63815, [30922]);
   (63816, [36034]); (63817, [38647]); (63818, [22744]); (63819, [23650]); (63820, [27155]);
   (63821, [28122]); (63822, [28431]); (63823, [32047]); (63824, [32311]); (63825, [38475]);
   (63826, [21202]); (63827, [32907]); (63828, [20956]); (63829, [20940]); (63830, [31260]);
   (63831, [32190]); (63832, [33777]); (63833, [38517]); (63834, [35712]); (63835, [25295]);
   (63836, [27138]); (63837, [35582]); (63838, [20025]); (63839, [23527]); (63840, [24594]);
   (63841, [29575]); (63842, [30064]); (63843, [21271]); (63844, [30971]); (63845, [20415]);
   (63846, [24489]); (63847, [19981]); (63848, [27852]); (63849, [25976]); (63850, [32034]);
   (63851, [21443]); (63852, [22622]); (63853, [30465]); (63854, [33865]); (63855, [35498]);
   (63856, [27578]); (63857, [36784]); (63858, [27784]); (63859, [25342]); (63860, [33509]);
   (63861, [25504]); (63862, [30053]); (63863, [20142]); (63864, [20841]); (63865, [20937]);
   (63866, [26753]); (63867, [31975]); (63868, [33391]); (63869, [35538]); (63870, [37327]);
   (63871, [21237]); (63872, [21570]); (63873, [22899]); (63874, [24300]); (63875, [26053]);
   (63876, [28670]); (63877, [31018]); (63878, [38317]); (63879, [39530]); (63880, [40599]);
   (63881, [40654]); (63882, [21147]); (63883, [26310]); (63884, [27511]); (63885, [36706]);
   (63886, [24180]); (63887, [24976]); (63888, [25088]); (63889, [25754]); (63890, [28451]);
   (63891, [29001]); (63892, [29833]); (63893, [31178]); (63894, [32244]); (63895, [32879]);
   (63896, [36646]); (63897, [34030]); (63898, [36899]); (63899, [37706]); (63900, [21015]);
   (63901, [21155]); (63902, [21693]); (63903, [28872]); (63904, [35010]); (63905, [35498]);
   (63906, [24265]); (63907, [24565]); (63908, [25467]); (63909, [27566]); (63910, [31806]);
   (63911, [29557]); (63912, [20196]); (63913, [22265]); (63914, [23527]); (63915, [23994]);
   (63916, [24604]); (63917, [29618]); (63918, [29801]); (63919, [32666]); (63920, [32838]);
   (63921, [37428]); (63922, [38646]); (63923, [38728]); (63924, [38936]); (63925, [20363]);
   (63926, [31150]); (63927, [37300]); (63928, [38584]); (63929, [24801]); (63930, [20102]);
   (63931, [20698]); (63932, [23534]); (63933, [23615]); (63934, [26009]); (63935, [27138]);
   (63936, [29134]); (63937, [30274]); (63938, [34044]); (63939, [36988]); (63940, [40845]);
   (63941, [26248]); (63942, [38446]); (63943, [21129]); (63944, [26491]); (63945, [26611]);
   (63946, [27969]); (63947, [28316]); (63948, [29705]); (63949, [30041]); (63950, [30827]);
   (63951, [32016]); (63952, [39006]); (63953, [20845]); (63954, [25134]); (63955, [38520]);
   (63956, [20523]); (63957, [23833]); (63958, [28138]); (63959, [36650]); (63960, [24459]);
   (63961, [24900]); (63962, [26647]); (63963, [29575]); (63964, [38534]); (63965, [21033]);
   (63966, [21519]); (63967, [23653]); (63968, [26131]); (63969, [26446]); (63970, [26792]);
   (63971, [27877]); (63972, [29702]); (63973, [30178]); (63974, [32633]); (63975, [35023]);
   (63976, [35041]); (63977, [37324]); (63978, [38626]); (63979, [21311]); (63980, [28346]);
   (63981, [21533]); (63982, [29136]); (63983, [29848]); (63984, [34298]); (63985, [38563]);
   (63986, [40023]); (63987, [40607]); (63988, [26519]); (63989, [28107]); (63990, [33256]);
   (63991, [31435]); (63992, [31520]); (63993, [31890]); (63994, [29376]); (63995, [28825]);
   (63996, [35672]); (63997, [20160]); (63998, [33590]); (63999, [21050]); (64000, [20999]);
   (64001, [24230]); (64002, [25299]); (64003, [31958]); (64004, [23429]); (64005, [27934]);
   (64006, [26292]); (64007, [36667]); (64008, [34892]); (64009, [38477]); (64010, [35211]);
   (64011, [24275]); (64012, [20800]); (64013, [21952]); (64016, [22618]); (64018, [26228]);
   (64021, [20958]); (64022, [29482]); (64023, [30410]); (64024, [31036]); (64025, [31070]);
   (64026, [31077]); (64027, [31119]); (64028, [38742]); (64029, [31934]); (64030, [32701]);
   (64032, [34322]); (64034, [35576]); (64037, [36920]); (64038, [37117]); (64042, [39151]);
   (64043, [39164]); (64044, [39208]); (64045, [40372]); (64046, [37086]); (64047, [38583]);
   (64048, [20398]); (64049, [20711]); (64050, [20813]); (64051, [21193]); (64052, [21220]);
   (64053, [21329]); (64054, [21917]); (64055, [22022]); (64056, [22120]); (64057, [22592]);
   (64058, [22696]); (64059, [23652]); (64060, [23662]); (64061, [24724]); (64062, [24936]);
   (64063, [24974]); (64064, [25074]); (64065, [25935]); (64066, [26082]); (64067, [26257]);
   (64068, [26757]); (64069, [28023]); (64070, [28186]); (64071, [28450]); (64072, [29038]);
   (64073, [29227]); (64074, [29730]); (64075, [30865]); (64076, [31038]); (64077, [31049]);
   (64078, [31048]); (64079, [31056]); (64080, [31062]); (64081, [31069]); (64082, [31117]);
   (64083, [31118]); (64084, [31296]); (64085, [31361]); (64086, [31680]); (64087, [32244]);
   (64088, [32265]); (64089, [32321]); (64090, [32626]); (64091, [32773]); (64092, [33261]);
   (64093, [33401]); (64094, [33401]); (64095, [33879]); (64096, [35088]); (64097, [35222]);
   (64098, [35585]); (64099, [35641]); (64100, [36051]); (64101, [36104]); (64102, [36790]);
   (64103, [36920]); (64104, [38627]); (64105, [38911]); (64106, [38971]); (64107, [24693]);
   (64108, [148206]); (64109, [33304]); (64112, [20006]); (64113, [20917]); (64114, [20840]);
   (64115, [20352]); (64116, [20805]); (64117, [20864]); (64118, [21191]); (64119, [21242]);
   (64120, [21917]); (64121, [21845]); (64122, [21913]); (64123, [21986]); (64124, [22618]);
   (64125, [22707]); (64126, [22852]); (64127, [22868]); (64128, [23138]); (64129, [23336]);
   (64130, [24274]); (64131, [24281]); (64132, [24425]); (64133, [24493]); (64134, [24792]);
   (64135, [24910]); (64136, [24840]); (64137, [24974]); (64138, [24928]); (64139, [25074]);
   (64140, [25140]); (64141, [25540]); (64142, [25628]); (64143, [25682]); (64144, [25942]);
   (64145, [26228]); (64146, [26391]); (64147, [26395]); (64148, [26454]); (64149, [27513]);
   (64150, [27578]); (64151, [27969]); (64152, [28379]); (64153, [28363]); (64154, [28450]);
   (64155, [28702]); (64156, [29038]); (64157, [30631]); (64158, [29237]); (64159, [29359]);
   (64160, [29482]); (64161, [29809]); (64162, [29958]); (64163, [30011]); (64164, [30237]);
   (64165, [30239]); (64166, [30410]); (64167, [30427]); (64168, [30452]); (64169, [30538]);
   (64170, [30528]); (64171, [30924]); (64172, [31409]); (64173, [31680]); (64174, [31867]);
   (64175, [32091]); (64176, [32244]); (64177, [32574]); (64178, [32773]); (64179, [33618]);
   (64180, [33775]); (64181, [34681]); (64182, [35137]); (64183, [35206]); (64184, [35222]);
   (64185, [35519]); (64186, [35576]); (64187, [35531]); (64188, [35585]); (64189, [35582]);
   (64190, [35565]); (64191, [35641]); (64192, [35722]); (64193, [36104]); (64194, [36664]);
   (64195, [36978]); (64196, [37273]); (64197, [37494]); (64198, [38524]); (64199, [38627]);
   (64200, [38742]); (64201, [38875]); (64202, [38911]); (64203, [38923]); (64204, [38971]);
   (64205, [39698]); (64206, [40860]); (64207, [141386]); (64208, [141380]); (64209, [144341]);
   (64210, [15261]); (64211, [16408]); (64212, [16441]); (64213, [152137]); (64214, [154832]);
   (64215, [163539]); (64216, [40771]); (64217, [40846]); (64285, [1497; 1460]);
   (64287, [1522; 1463]); (64298, [1513; 1473]); (64299, [1513; 1474]);
   (64300, [1513; 1468; 1473]); (64301, [1513; 1468; 1474]); (64302, [1488; 1463]);
   (64303, [1488; 1464]); (64304, [1488; 1468]); (64305, [1489; 1468]); (64306, [1490; 1468]);
   (64307, [1491; 1468]); (64308, [1492; 1468]); (64309, [1493; 1468]); (64310, [1494; 1468]);
   (64312, [1496; 1468]); (64313, [1497; 1468]); (64314, [1498; 1468]); (64315, [1499; 1468]);
   (64316, [1500; 1468]); (64318, [1502; 1468]); (64320, [1504; 1468]); (64321, [1505; 1468]);
   (64323, [1507; 1468]); (64324, [1508; 1468]); (64326, [1510; 1468]); (64327, [1511; 1468]);
   (64328, [1512; 1468]); (64329, [1513; 1468]); (64330, [1514; 1468]); (64331, [1493; 1465]);
   (64332, [1489; 1471]); (64333, [1499; 1471]); (64334, [1508; 1471]);
   (69786, [69785; 69818]); (69788, [69787; 69818]); (69803, [69797; 69818]);
   (69934, [69937; 69927]); (69935, [69938; 69927]); (70475, [70471; 70462]);
   (70476, [70471; 70487]); (70843, [70841; 70842]); (70844, [70841; 70832]);
   (70846, [70841; 70845]); (71098, [71096; 71087]); (71099, [71097; 71087]);
   (71992, [71989; 71984]); (119134, [119127; 119141]); (119135, [119128; 119141]);
   (119136, [119128; 119141; 119150]); (119137, [119128; 119141; 119151]);
   (119138, [119128; 119141; 119152]); (119139, [119128; 119141; 119153]);
   (119140, [119128; 119141; 119154]); (119227, [119225; 119141]); (119228, [119226; 119141]);
   (119229, [119225; 119141; 119150]); (119230, [119226; 119141; 119150]);
   (119231, [119225; 119141; 119151]); (119232, [119226; 119141; 119151]); (194560, [20029]);
   (194561, [20024]); (194562, [20033]); (194563, [131362]); (194564, [20320]);
   (194565, [20398]); (194566, [20411]); (194567, [20482]); (194568, [20602]);
   (194569, [20633]); (194570, [20711]); (194571, [20687]); (194572, [13470]);
   (194573, [132666]); (194574, [20813]); (194575, [20820]); (194576, [20836]);
   (194577, [20855]); (194578, [132380]); (194579, [13497]); (194580, [20839]);
   (194581, [20877]); (194582, [132427]); (194583, [20887]); (194584, [20900]);
   (194585, [20172]); (194586, [20908]); (194587, [20917]); (194588, [168415]);
   (194589, [20981]); (194590, [20995]); (194591, [13535]); (194592, [21051]);
   (194593, [21062]); (194594, [21106]); (194595, [21111]); (194596, [13589]);
   (194597, [21191]); (194598, [21193]); (194599, [21220]); (194600, [21242]);
   (194601, [21253]); (194602, [21254]); (194603, [21271]); (194604, [21321]);
   (194605, [21329]); (194606, [21338]); (194607, [21363]); (194608, [21373]);
   (194609, [21375]); (194610, [21375]); (194611, [21375]); (194612, [133676]);
   (194613, [28784]); (194614, [21450]); (194615, [21471]); (194616, [133987]);
   (194617, [21483]); (194618, [21489]); (194619, [21510]); (194620, [21662]);
   (194621, [21560]); (194622, [21576]); (194623, [21608]); (194624, [21666]);
   (194625, [21750]); (194626, [21776]); (194627, [21843]); (194628, [21859]);
   (194629, [21892]); (194630, [21892]); (194631, [21913]); (194632, [21931]);
   (194633, [21939]); (194634, [21954]); (194635, [22294]); (194636, [22022]);
   (194637, [22295]); (194638, [22097]); (194639, [22132]); (194640, [20999]);
   (194641, [22766]); (194642, [22478]); (194643, [22516]); (194644, [22541]);
   (194645, [22411]); (194646, [22578]); (194647, [22577]); (194648, [22700]);
   (194649, [136420]); (194650, [22770]); (194651, [22775]); (194652, [22790]);
   (194653, [22810]); (194654, [22818]); (194655, [22882]); (194656, [136872]);
   (194657, [136938]); (194658, [23020]); (194659, [23067]); (194660, [23079]);
   (194661, [23000]); (194662, [23142]); (194663, [14062]); (194664, [14076]);
   (194665, [23304]); (194666, [23358]); (194667, [23358]); (194668, [137672]);
   (194669, [23491]); (194670, [23512]); (194671, [23527]); (194672, [23539]);
   (194673, [138008]); (194674, [23551]); (194675, [23558]); (194676, [24403]);
   (194677, [23586]); (194678, [14209]); (194679, [23648]); (194680, [23662]);
   (194681, [23744]); (194682, [23693]); (194683, [138724]); (194684, [23875]);
   (194685, [138726]); (194686, [23918]); (194687, [23915]); (194688, [23932]);
   (194689, [24033]); (194690, [24034]); (194691, [14383]); (194692, [24061]);
   (194693, [24104]); (194694, [24125]); (194695, [24169]); (194696, [14434]);
   (194697, [139651]); (194698, [14460]); (194699, [24240]); (194700, [24243]);
   (194701, [24246]); (194702, [24266]); (194703, [172946]); (194704, [24318]);
   (194705, [140081]); (194706, [140081]); (194707, [33281]); (194708, [24354]);
   (194709, [24354]); (194710, [14535]); (194711, [144056]); (194712, [156122]);
   (194713, [24418]); (194714, [24427]); (194715, [14563]); (194716, [24474]);
   (194717, [24525]); (194718, [24535]); (194719, [24569]); (194720, [24705]);
   (194721, [14650]); (194722, [14620]); (194723, [24724]); (194724, [141012]);
   (194725, [24775]); (194726, [24904]); (194727, [24908]); (194728, [24910]);
   (194729, [24908]); (194730, [24954]); (194731, [24974]); (194732, [25010]);
   (194733, [24996]); (194734, [25007]); (194735, [25054]); (194736, [25074]);
   (194737, [25078]); (194738, [25104]); (194739, [25115]); (194740, [25181]);
   (194741, [25265]); (194742, [25300]); (194743, [25424]); (194744, [142092]);
   (194745, [25405]); (194746, [25340]); (194747, [25448]); (194748, [25475]);
   (194749, [25572]); (194750, [142321]); (194751, [25634]); (194752, [25541]);
   (194753, [25513]); (194754, [14894]); (194755, [25705]); (194756, [25726]);
   (194757, [25757]); (194758, [25719]); (194759, [14956]); (194760, [25935]);
   (194761, [25964]); (194762, [143370]); (194763, [26083]); (194764, [26360]);
   (194765, [26185]); (194766, [15129]); (194767, [26257]); (194768, [15112]);
   (194769, [15076]); (194770, [20882]); (194771, [20885]); (194772, [26368]);
   (194773, [26268]); (194774, [32941]); (194775, [17369]); (194776, [26391]);
   (194777, [26395]); (194778, [26401]); (194779, [26462]); (194780, [26451]);
   (194781, [144323]); (194782, [15177]); (194783, [26618]); (194784, [26501]);
   (194785, [26706]); (194786, [26757]); (194787, [144493]); (194788, [26766]);
   (194789, [26655]); (194790, [26900]); (194791, [15261]); (194792, [26946]);
   (194793, [27043]); (194794, [27114]); (194795, [27304]); (194796, [145059]);
   (194797, [27355]); (194798, [15384]); (194799, [27425]); (194800, [145575]);
   (194801, [27476]); (194802, [15438]); (194803, [27506]); (194804, [27551]);
   (194805, [27578]); (194806, [27579]); (194807, [146061]); (194808, [138507]);
   (194809, [146170]); (194810, [27726]); (194811, [146620]); (194812, [27839]);
   (194813, [27853]); (194814, [27751]); (194815, [27926]); (194816, [27966]);
   (194817, [28023]); (194818, [27969]); (194819, [28009]); (194820, [28024]);
   (194821, [28037]); (194822, [146718]); (194823, [27956]); (194824, [28207]);
   (194825, [28270]); (194826, [15667]); (194827, [28363]); (194828, [28359]);
   (194829, [147153]); (194830, [28153]); (194831, [28526]); (194832, [147294]);
   (194833, [147342]); (194834, [28614]); (194835, [28729]); (194836, [28702]);
   (194837, [28699]); (194838, [15766]); (194839, [28746]); (194840, [28797]);
   (194841, [28791]); (194842, [28845]); (194843, [132389]); (194844, [28997]);
   (194845, [148067]); (194846, [29084]); (194847, [148395]); (194848, [29224]);
   (194849, [29237]); (194850, [29264]); (194851, [149000]); (194852, [29312]);
   (194853, [29333]); (194854, [149301]); (194855, [149524]); (194856, [29562]);
   (194857, [29579]); (194858, [16044]); (194859, [29605]); (194860, [16056]);
   (194861, [16056]); (194862, [29767]); (194863, [29788]); (194864, [29809]);
   (194865, [29829]); (194866, [29898]); (194867, [16155]); (194868, [29988]);
   (194869, [150582]); (194870, [30014]); (194871, [150674]); (194872, [30064]);
   (194873, [139679]); (194874, [30224]); (194875, [151457]); (194876, [151480]);
   (194877, [151620]); (194878, [16380]); (194879, [16392]); (194880, [30452]);
   (194881, [151795]); (194882, [151794]); (194883, [151833]); (194884, [151859]);
   (194885, [30494]); (194886, [30495]); (194887, [30495]); (194888, [30538]);
   (194889, [16441]); (194890, [30603]); (194891, [16454]); (194892, [16534]);
   (194893, [152605]); (194894, [30798]); (194895, [30860]); (194896, [30924]);
   (194897, [16611]); (194898, [153126]); (194899, [31062]); (194900, [153242]);
   (194901, [153285]); (194902, [31119]); (194903, [31211]); (194904, [16687]);
   (194905, [31296]); (194906, [31306]); (194907, [31311]); (194908, [153980]);
   (194909, [154279]); (194910, [154279]); (194911, [31470]); (194912, [16898]);
   (194913, [154539]); (194914, [31686]); (194915, [31689]); (194916, [16935]);
   (194917, [154752]); (194918, [31954]); (194919, [17056]); (194920, [31976]);
   (194921, [31971]); (194922, [32000]); (194923, [155526]); (194924, [32099]);
   (194925, [17153]); (194926, [32199]); (194927, [32258]); (194928, [32325]);
   (194929, [17204]); (194930, [156200]); (194931, [156231]); (194932, [17241]);
   (194933, [156377]); (194934, [32634]); (194935, [156478]); (194936, [32661]);
   (194937, [32762]); (194938, [32773]); (194939, [156890]); (194940, [156963]);
   (194941, [32864]); (194942, [157096]); (194943, [32880]); (194944, [144223]);
   (194945, [17365]); (194946, [32946]); (194947, [33027]); (194948, [17419]);
   (194949, [33086]); (194950, [23221]); (194951, [157607]); (194952, [157621]);
   (194953, [144275]); (194954, [144284]); (194955, [33281]); (194956, [33284]);
   (194957, [36766]); (194958, [17515]); (194959, [33425]); (194960, [33419]);
   (194961, [33437]); (194962, [21171]); (194963, [33457]); (194964, [33459]);
   (194965, [33469]); (194966, [33510]); (194967, [158524]); (194968, [33509]);
   (194969, [33565]); (194970, [33635]); (194971, [33709]); (194972, [33571]);
   (194973, [33725]); (194974, [33767]); (194975, [33879]); (194976, [33619]);
   (194977, [33738]); (194978, [33740]); (194979, [33756]); (194980, [158774]);
   (194981, [159083]); (194982, [158933]); (194983, [17707]); (194984, [34033]);
   (194985, [34035]); (194986, [34070]); (194987, [160714]); (194988, [34148]);
   (194989, [159532]); (194990, [17757]); (194991, [17761]); (194992, [159665]);
   (194993, [159954]); (194994, [17771]); (194995, [34384]); (194996, [34396]);
   (194997, [34407]); (194998, [34409]); (194999, [34473]); (195000, [34440]);
   (195001, [34574]); (195002, [34530]); (195003, [34681]); (195004, [34600]);
   (195005, [34667]); (195006, [34694]); (195007, [17879]); (195008, [34785]);
   (195009, [34817]); (195010, [17913]); (195011, [34912]); (195012, [34915]);
   (195013, [161383]); (195014, [35031]); (195015, [35038]); (195016, [17973]);
   (195017, [35066]); (195018, [13499]); (195019, [161966]); (195020, [162150]);
   (195021, [18110]); (195022, [18119]); (195023, [35488]); (195024, [35565]);
   (195025, [35722]); (195026, [35925]); (195027, [162984]); (195028, [36011]);
   (195029, [36033]); (195030, [36123]); (195031, [36215]); (195032, [163631]);
   (195033, [133124]); (195034, [36299]); (195035, [36284]); (195036, [36336]);
   (195037, [133342]); (195038, [36564]); (195039, [36664]); (195040, [165330]);
   (195041, [165357]); (195042, [37012]); (195043, [37105]); (195044, [37137]);
   (195045, [165678]); (195046, [37147]); (195047, [37432]); (195048, [37591]);
   (195049, [37592]); (195050, [37500]); (195051, [37881]); (195052, [37909]);
   (195053, [166906]); (195054, [38283]); (195055, [18837]); (195056, [38327]);
   (195057, [167287]); (195058, [18918]); (195059, [38595]); (195060, [23986]);
   (195061, [38691]); (195062, [168261]); (195063, [168474]); (195064, [19054]);
   (195065, [19062]); (195066, [38880]); (195067, [168970]); (195068, [19122]);
   (195069, [169110]); (195070, [38923]); (195071, [38923]); (195072, [38953]);
   (195073, [169398]); (195074, [39138]); (195075, [19251]); (195076, [39209]);
   (195077, [39335]); (195078, [39362]); (195079, [39422]); (195080, [19406]);
   (195081, [170800]); (195082, [39698]); (195083, [40000]); (195084, [40189]);
   (195085, [19662]); (195086, [19693]); (195087, [40295]); (195088, [172238]);
   (195089, [19704]); (195090, [172293]); (195091, [172558]); (195092, [172689]);
   (195093, [40635]); (195094, [19798]); (195095, [40697]); (195096, [40702]);
   (195097, [40709]); (195098, [40719]); (195099, [40726]); (195100, [40763]);
   (195101, [173568])].

(** Canonical combining classes other than 0: first and last code point of
    a range, and the class. *)
Definition ccc_ranges : list (N * N * N) :=
  [(768, 788, 230); (789, 789, 232); (790, 793, 220); (794, 794, 232); (795, 795, 216);
   (796, 800, 220); (801, 802, 202); (803, 806, 220); (807, 808, 202); (809, 819, 220);
   (820, 824, 1); (825, 828, 220); (829, 836, 230); (837, 837, 240); (838, 838, 230);
   (839, 841, 220); (842, 844, 230); (845, 846, 220); (848, 850, 230); (851, 854, 220);
   (855, 855, 230); (856, 856, 232); (857, 858, 220); (859, 859, 230); (860, 860, 233);
   (861, 862, 234); (863, 863, 233); (864, 865, 234); (866, 866, 233); (867, 879, 230);
   (1155, 1159, 230); (1425, 1425, 220); (1426, 1429, 230); (1430, 1430, 220);
   (1431, 1433, 230); (1434, 1434, 222); (1435, 1435, 220); (1436, 1441, 230);
   (1442, 1447, 220); (1448, 1449, 230); (1450, 1450, 220); (1451, 1452, 230);
   (1453, 1453, 222); (1454, 1454, 228); (1455, 1455, 230); (1456, 1456, 10); (1457, 1457, 11);
   (1458, 1458, 12); (1459, 1459, 13); (1460, 1460, 14); (1461, 1461, 15); (1462, 1462, 16);
   (1463, 1463, 17); (1464, 1464, 18); (1465, 1466, 19); (1467, 1467, 20); (1468, 1468, 21);
   (1469, 1469, 22); (1471, 1471, 23); (1473, 1473, 24); (1474, 1474, 25); (1476, 1476, 230);
   (1477, 1477, 220); (1479, 1479, 18); (1552, 1559, 230); (1560, 1560, 30); (1561, 1561, 31);
   (1562, 1562, 32); (1611, 1611, 27); (1612, 1612, 28); (1613, 1613, 29); (1614, 1614, 30);
   (1615, 1615, 31); (1616, 1616, 32); (1617, 1617, 33); (1618, 1618, 34); (1619, 1620, 230);
   (1621, 1622, 220); (1623, 1627, 230); (1628, 1628, 220); (1629, 1630, 230);
   (1631, 1631, 220); (1648, 1648, 35); (1750, 1756, 230); (1759, 1762, 230);
   (1763, 1763, 220); (1764, 1764, 230); (1767, 1768, 230); (1770, 1770, 220);
   (1771, 1772, 230); (1773, 1773, 220); (1809, 1809, 36); (1840, 1840, 230);
   (1841, 1841, 220); (1842, 1843, 230); (1844, 1844, 220); (1845, 1846, 230);
   (1847, 1849, 220); (1850, 1850, 230); (1851, 1852, 220); (1853, 1853, 230);
   (1854, 1854, 220); (1855, 1857, 230); (1858, 1858, 220); (1859, 1859, 230);
   (1860, 1860, 220); (1861, 1861, 230); (1862, 1862, 220); (1863, 1863, 230);
   (1864, 1864, 220); (1865, 1866, 230); (2027, 2033, 230); (2034, 2034, 220);
   (2035, 2035, 230); (2045, 2045, 220); (2070, 2073, 230); (2075, 2083, 230);
   (2085, 2087, 230); (2089, 2093, 230); (2137, 2139, 220); (2200, 2200, 230);
   (2201, 2203, 220); (2204, 2207, 230); (2250, 2254, 230); (2255, 2259, 220);
   (2260, 2273, 230); (2275, 2275, 220); (2276, 2277, 230); (2278, 2278, 220);
   (2279, 2280, 230); (2281, 2281, 220); (2282, 2284, 230); (2285, 2287, 220);
   (2288, 2288, 27); (2289, 2289, 28); (2290, 2290, 29); (2291, 2293, 230); (2294, 2294, 220);
   (2295, 2296, 230); (2297, 2298, 220); (2299, 2303, 230); (2364, 2364, 7); (2381, 2381, 9);
   (2385, 2385, 230); (2386, 2386, 220); (2387, 2388, 230); (2492, 2492, 7); (2509, 2509, 9);
   (2558, 2558, 230); (2620, 2620, 7); (2637, 2637, 9); (2748, 2748, 7); (2765, 2765, 9);
   (2876, 2876, 7); (2893, 2893, 9); (3021, 3021, 9); (3132, 3132, 7); (3149, 3149, 9);
   (3157, 3157, 84); (3158, 3158, 91); (3260, 3260, 7); (3277, 3277, 9); (3387, 3388, 9);
   (3405, 3405, 9); (3530, 3530, 9); (3640, 3641, 103); (3642, 3642, 9); (3656, 3659, 107);
   (3768, 3769, 118); (3770, 3770, 9); (3784, 3787, 122); (3864, 3865, 220); (3893, 3893, 220);
   (3895, 3895, 220); (3897, 3897, 216); (3953, 3953, 129); (3954, 3954, 130);
   (3956, 3956, 132); (3962, 3965, 130); (3968, 3968, 130); (3970, 3971, 230); (3972, 3972, 9);
   (3974, 3975, 230); (4038, 4038, 220); (4151, 4151, 7); (4153, 4154, 9); (4237, 4237, 220);
   (4957, 4959, 230); (5908, 5909, 9); (5940, 5940, 9); (6098, 6098, 9); (6109, 6109, 230);
   (6313, 6313, 228); (6457, 6457, 222); (6458, 6458, 230); (6459, 6459, 220);
   (6679, 6679, 230); (6680, 6680, 220); (6752, 6752, 9); (6773, 6780, 230); (6783, 6783, 220);
   (6832, 6836, 230); (6837, 6842, 220); (6843, 6844, 230); (6845, 6845, 220);
   (6847, 6848, 220); (6849, 6850, 230); (6851, 6852, 220); (6853, 6857, 230);
   (6858, 6858, 220); (6859, 6862, 230); (6964, 6964, 7); (6980, 6980, 9); (7019, 7019, 230);
   (7020, 7020, 220); (7021, 7027, 230); (7082, 7083, 9); (7142, 7142, 7); (7154, 7155, 9);
   (7223, 7223, 7); (7376, 7378, 230); (7380, 7380, 1); (7381, 7385, 220); (7386, 7387, 230);
   (7388, 7391, 220); (7392, 7392, 230); (7394, 7400, 1); (7405, 7405, 220); (7412, 7412, 230);
   (7416, 7417, 230); (7616, 7617, 230); (7618, 7618, 220); (7619, 7625, 230);
   (7626, 7626, 220); (7627, 7628, 230); (7629, 7629, 234); (7630, 7630, 214);
   (7631, 7631, 220); (7632, 7632, 202); (7633, 7669, 230); (7670, 7670, 232);
   (7671, 7672, 228); (7673, 7673, 220); (7674, 7674, 218); (7675, 7675, 230);
   (7676, 7676, 233); (7677, 7677, 220); (7678, 7678, 230); (7679, 7679, 220);
   (8400, 8401, 230); (8402, 8403, 1); (8404, 8407, 230); (8408, 8410, 1); (8411, 8412, 230);
   (8417, 8417, 230); (8421, 8422, 1); (8423, 8423, 230); (8424, 8424, 220); (8425, 8425, 230);
   (8426, 8427, 1); (8428, 8431, 220); (8432, 8432, 230); (11503, 11505, 230);
   (11647, 11647, 9); (11744, 11775, 230); (12330, 12330, 218); (12331, 12331, 228);
   (12332, 12332, 232); (12333, 12333, 222); (12334, 12335, 224); (12441, 12442, 8);
   (42607, 42607, 230); (42612, 42621, 230); (42654, 42655, 230); (42736, 42737, 230);
   (43014, 43014, 9); (43052, 43052, 9); (43204, 43204, 9); (43232, 43249, 230);
   (43307, 43309, 220); (43347, 43347, 9); (43443, 43443, 7); (43456, 43456, 9);
   (43696, 43696, 230); (43698, 43699, 230); (43700, 43700, 220); (43703, 43704, 230);
   (43710, 43711, 230); (43713, 43713, 230); (43766, 43766, 9); (44013, 44013, 9);
   (64286, 64286, 26); (65056, 65062, 230); (65063, 65069, 220); (65070, 65071, 230);
   (66045, 66045, 220); (66272, 66272, 220); (66422, 66426, 230); (68109, 68109, 220);
   (68111, 68111, 230); (68152, 68152, 230); (68153, 68153, 1); (68154, 68154, 220);
   (68159, 68159, 9); (68325, 68325, 230); (68326, 68326, 220); (68900, 68903, 230);
   (69291, 69292, 230); (69446, 69447, 220); (69448, 69450, 230); (69451, 69451, 220);
   (69452, 69452, 230); (69453, 69456, 220); (69506, 69506, 230); (69507, 69507, 220);
   (69508, 69508, 230); (69509, 69509, 220); (69702, 69702, 9); (69744, 69744, 9);
   (69759, 69759, 9); (69817, 69817, 9); (69818, 69818, 7); (69888, 69890, 230);
   (69939, 69940, 9); (70003, 70003, 7); (70080, 70080, 9); (70090, 70090, 7);
   (70197, 70197, 9); (70198, 70198, 7); (70377, 70377, 7); (70378, 70378, 9);
   (70459, 70460, 7); (70477, 70477, 9); (70502, 70508, 230); (70512, 70516, 230);
   (70722, 70722, 9); (70726, 70726, 7); (70750, 70750, 230); (70850, 70850, 9);
   (70851, 70851, 7); (71103, 71103, 9); (71104, 71104, 7); (71231, 71231, 9);
   (71350, 71350, 9); (71351, 71351, 7); (71467, 71467, 9); (71737, 71737, 9);
   (71738, 71738, 7); (71997, 71998, 9); (72003, 72003, 7); (72160, 72160, 9);
   (72244, 72244, 9); (72263, 72263, 9); (72345, 72345, 9); (72767, 72767, 9);
   (73026, 73026, 7); (73028, 73029, 9); (73111, 73111, 9); (92912, 92916, 1);
   (92976, 92982, 230); (94192, 94193, 6); (113822, 113822, 1); (119141, 119142, 216);
   (119143, 119145, 1); (119149, 119149, 226); (119150, 119154, 216); (119163, 119170, 220);
   (119173, 119177, 230); (119178, 119179, 220); (119210, 119213, 230); (119362, 119364, 230);
   (122880, 122886, 230); (122888, 122904, 230); (122907, 122913, 230); (122915, 122916, 230);
   (122918, 122922, 230); (123184, 123190, 230); (123566, 123566, 230); (123628, 123631, 230);
   (125136, 125142, 220); (125252, 125257, 230); (125258, 125258, 7)].

(** General category M (Mn, Mc, Me). *)
Definition mark_ranges : list (N * N) :=
  [(768, 879); (1155, 1161); (1425, 1469); (1471, 1471); (1473, 1474); (1476, 1477);
   (1479, 1479); (1552, 1562); (1611, 1631); (1648, 1648); (1750, 1756); (1759, 1764);
   (1767, 1768); (1770, 1773); (1809, 1809); (1840, 1866); (1958, 1968); (2027, 2035);
   (2045, 2045); (2070, 2073); (2075, 2083); (2085, 2087); (2089, 2093); (2137, 2139);
   (2200, 2207); (2250, 2273); (2275, 2307); (2362, 2364); (2366, 2383); (2385, 2391);
   (2402, 2403); (2433, 2435); (2492, 2492); (2494, 2500); (2503, 2504); (2507, 2509);
   (2519, 2519); (2530, 2531); (2558, 2558); (2561, 2563); (2620, 2620); (2622, 2626);
   (2631, 2632); (2635, 2637); (2641, 2641); (2672, 2673); (2677, 2677); (2689, 2691);
   (2748, 2748); (2750, 2757); (2759, 2761); (2763, 2765); (2786, 2787); (2810, 2815);
   (2817, 2819); (2876, 2876); (2878, 2884); (2887, 2888); (2891, 2893); (2901, 2903);
   (2914, 2915); (2946, 2946); (3006, 3010); (3014, 3016); (3018, 3021); (3031, 3031);
   (3072, 3076); (3132, 3132); (3134, 3140); (3142, 3144); (3146, 3149); (3157, 3158);
   (3170, 3171); (3201, 3203); (3260, 3260); (3262, 3268); (3270, 3272); (3274, 3277);
   (3285, 3286); (3298, 3299); (3328, 3331); (3387, 3388); (3390, 3396); (3398, 3400);
   (3402, 3405); (3415, 3415); (3426, 3427); (3457, 3459); (3530, 3530); (3535, 3540);
   (3542, 3542); (3544, 3551); (3570, 3571); (3633, 3633); (3636, 3642); (3655, 3662);
   (3761, 3761); (3764, 3772); (3784, 3789); (3864, 3865); (3893, 3893); (3895, 3895);
   (3897, 3897); (3902, 3903); (3953, 3972); (3974, 3975); (3981, 3991); (3993, 4028);
   (4038, 4038); (4139, 4158); (4182, 4185); (4190, 4192); (4194, 4196); (4199, 4205);
   (4209, 4212); (4226, 4237); (4239, 4239); (4250, 4253); (4957, 4959); (5906, 5909);
   (5938, 5940); (5970, 5971); (6002, 6003); (6068, 6099); (6109, 6109); (6155, 6157);
   (6159, 6159); (6277, 6278); (6313, 6313); (6432, 6443); (6448, 6459); (6679, 6683);
   (6741, 6750); (6752, 6780); (6783, 6783); (6832, 6862); (6912, 6916); (6964, 6980);
   (7019, 7027); (7040, 7042); (7073, 7085); (7142, 7155); (7204, 7223); (7376, 7378);
   (7380, 7400); (7405, 7405); (7412, 7412); (7415, 7417); (7616, 7679); (8400, 8432);
   (11503, 11505); (11647, 11647); (11744, 11775); (12330, 12335); (12441, 12442);
   (42607, 42610); (42612, 42621); (42654, 42655); (42736, 42737); (43010, 43010);
   (43014, 43014); (43019, 43019); (43043, 43047); (43052, 43052); (43136, 43137);
   (43188, 43205); (43232, 43249); (43263, 43263); (43302, 43309); (43335, 43347);
   (43392, 43395); (43443, 43456); (43493, 43493); (43561, 43574); (43587, 43587);
   (43596, 43597); (43643, 43645); (43696, 43696); (43698, 43700); (43703, 43704);
   (43710, 43711); (43713, 43713); (43755, 43759); (43765, 43766); (44003, 44010);
   (44012, 44013); (64286, 64286); (65024, 65039); (65056, 65071); (66045, 66045);
   (66272, 66272); (66422, 66426); (68097, 68099); (68101, 68102); (68108, 68111);
   (68152, 68154); (68159, 68159); (68325, 68326); (68900, 68903); (69291, 69292);
   (69446, 69456); (69506, 69509); (69632, 69634); (69688, 69702); (69744, 69744);
   (69747, 69748); (69759, 69762); (69808, 69818); (69826, 69826); (69888, 69890);
   (69927, 69940); (69957, 69958); (70003, 70003); (70016, 70018); (70067, 70080);
   (70089, 70092); (70094, 70095); (70188, 70199); (70206, 70206); (70367, 70378);
   (70400, 70403); (70459, 70460); (70462, 70468); (70471, 70472); (70475, 70477);
   (70487, 70487); (70498, 70499); (70502, 70508); (70512, 70516); (70709, 70726);
   (70750, 70750); (70832, 70851); (71087, 71093); (71096, 71104); (71132, 71133);
   (71216, 71232); (71339, 71351); (71453, 71467); (71724, 71738); (71984, 71989);
   (71991, 71992); (71995, 71998); (72000, 72000); (72002, 72003); (72145, 72151);
   (72154, 72160); (72164, 72164); (72193, 72202); (72243, 72249); (72251, 72254);
   (72263, 72263); (72273, 72283); (72330, 72345); (72751, 72758); (72760, 72767);
   (72850, 72871); (72873, 72886); (73009, 73014); (73018, 73018); (73020, 73021);
   (73023, 73029); (73031, 73031); (73098, 73102); (73104, 73105); (73107, 73111);
   (73459, 73462); (92912, 92916); (92976, 92982); (94031, 94031); (94033, 94087);
   (94095, 94098); (94180, 94180); (94192, 94193); (113821, 113822); (118528, 118573);
   (118576, 118598); (119141, 119145); (119149, 119154); (119163, 119170); (119173, 119179);
   (119210, 119213); (119362, 119364); (121344, 121398); (121403, 121452); (121461, 121461);
   (121476, 121476); (121499, 121503); (121505, 121519); (122880, 122886); (122888, 122904);
   (122907, 122913); (122915, 122916); (122918, 122922); (123184, 123190); (123566, 123566);
   (123628, 123631); (125136, 125142); (125252, 125258); (917760, 917999)].

(** The property Cased. *)
Definition cased_ranges : list (N * N) :=
  [(65, 90); (97, 122); (170, 170); (181, 181); (186, 186); (192, 214); (216, 246); (248, 442);
   (444, 447); (452, 659); (661, 696); (704, 705); (736, 740); (837, 837); (880, 883);
   (886, 887); (890, 893); (895, 895); (902, 902); (904, 906); (908, 908); (910, 929);
   (931, 1013); (1015, 1153); (1162, 1327); (1329, 1366); (1376, 1416); (4256, 4293);
   (4295, 4295); (4301, 4301); (4304, 4346); (4349, 4351); (5024, 5109); (5112, 5117);
   (7296, 7304); (7312, 7354); (7357, 7359); (7424, 7615); (7680, 7957); (7960, 7965);
   (7968, 8005); (8008, 8013); (8016, 8023); (8025, 8025); (8027, 8027); (8029, 8029);
   (8031, 8061); (8064, 8116); (8118, 8124); (8126, 8126); (8130, 8132); (8134, 8140);
   (8144, 8147); (8150, 8155); (8160, 8172); (8178, 8180); (8182, 8188); (8305, 8305);
   (8319, 8319); (8336, 8348); (8450, 8450); (8455, 8455); (8458, 8467); (8469, 8469);
   (8473, 8477); (8484, 8484); (8486, 8486); (8488, 8488); (8490, 8493); (8495, 8500);
   (8505, 8505); (8508, 8511); (8517, 8521); (8526, 8526); (8544, 8575); (8579, 8580);
   (9398, 9449); (11264, 11492); (11499, 11502); (11506, 11507); (11520, 11557);
   (11559, 11559); (11565, 11565); (42560, 42605); (42624, 42653); (42786, 42887);
   (42891, 42894); (42896, 42954); (42960, 42961); (42963, 42963); (42965, 42969);
   (42997, 42998); (43000, 43002); (43824, 43866); (43868, 43880); (43888, 43967);
   (64256, 64262); (64275, 64279); (65313, 65338); (65345, 65370); (66560, 66639);
   (66736, 66771); (66776, 66811); (66928, 66938); (66940, 66954); (66956, 66962);
   (66964, 66965); (66967, 66977); (66979, 66993); (66995, 67001); (67003, 67004);
   (67456, 67456); (67459, 67461); (67463, 67504); (67506, 67514); (68736, 68786);
   (68800, 68850); (71840, 71903); (93760, 93823); (119808, 119892); (119894, 119964);
   (119966, 119967); (119970, 119970); (119973, 119974); (119977, 119980); (119982, 119993);
   (119995, 119995); (119997, 120003); (120005, 120069); (120071, 120074); (120077, 120084);
   (120086, 120092); (120094, 120121); (120123, 120126); (120128, 120132); (120134, 120134);
   (120138, 120144); (120146, 120485); (120488, 120512); (120514, 120538); (120540, 120570);
   (120572, 120596); (120598, 120628); (120630, 120654); (120656, 120686); (120688, 120712);
   (120714, 120744); (120746, 120770); (120772, 120779); (122624, 122633); (122635, 122654);
   (125184, 125251); (127280, 127305); (127312, 127337); (127344, 127369)].

(** The property Case_Ignorable. *)
Definition case_ignorable_ranges : list (N * N) :=
  [(39, 39); (46, 46); (58, 58); (94, 94); (96, 96); (168, 168); (173, 173); (175, 175);
   (180, 180); (183, 184); (688, 879); (884, 885); (890, 890); (900, 901); (903, 903);
   (1155, 1161); (1369, 1369); (1375, 1375); (1425, 1469); (1471, 1471); (1473, 1474);
   (1476, 1477); (1479, 1479); (1524, 1524); (1536, 1541); (1552, 1562); (1564, 1564);
   (1600, 1600); (1611, 1631); (1648, 1648); (1750, 1757); (1759, 1768); (1770, 1773);
   (1807, 1807); (1809, 1809); (1840, 1866); (1958, 1968); (2027, 2037); (2042, 2042);
   (2045, 2045); (2070, 2093); (2137, 2139); (2184, 2184); (2192, 2193); (2200, 2207);
   (2249, 2306); (2362, 2362); (2364, 2364); (2369, 2376); (2381, 2381); (2385, 2391);
   (2402, 2403); (2417, 2417); (2433, 2433); (2492, 2492); (2497, 2500); (2509, 2509);
   (2530, 2531); (2558, 2558); (2561, 2562); (2620, 2620); (2625, 2626); (2631, 2632);
   (2635, 2637); (2641, 2641); (2672, 2673); (2677, 2677); (2689, 2690); (2748, 2748);
   (2753, 2757); (2759, 2760); (2765, 2765); (2786, 2787); (2810, 2815); (2817, 2817);
   (2876, 2876); (2879, 2879); (2881, 2884); (2893, 2893); (2901, 2902); (2914, 2915);
   (2946, 2946); (3008, 3008); (3021, 3021); (3072, 3072); (3076, 3076); (3132, 3132);
   (3134, 3136); (3142, 3144); (3146, 3149); (3157, 3158); (3170, 3171); (3201, 3201);
   (3260, 3260); (3263, 3263); (3270, 3270); (3276, 3277); (3298, 3299); (3328, 3329);
   (3387, 3388); (3393, 3396); (3405, 3405); (3426, 3427); (3457, 3457); (3530, 3530);
   (3538, 3540); (3542, 3542); (3633, 3633); (3636, 3642); (3654, 3662); (3761, 3761);
   (3764, 3772); (3782, 3782); (3784, 3789); (3864, 3865); (3893, 3893); (3895, 3895);
   (3897, 3897); (3953, 3966); (3968, 3972); (3974, 3975); (3981, 3991); (3993, 4028);
   (4038, 4038); (4141, 4144); (4146, 4151); (4153, 4154); (4157, 4158); (4184, 4185);
   (4190, 4192); (4209, 4212); (4226, 4226); (4229, 4230); (4237, 4237); (4253, 4253);
   (4348, 4348); (4957, 4959); (5906, 5908); (5938, 5939); (5970, 5971); (6002, 6003);
   (6068, 6069); (6071, 6077); (6086, 6086); (6089, 6099); (6103, 6103); (6109, 6109);
   (6155, 6159); (6211, 6211); (6277, 6278); (6313, 6313); (6432, 6434); (6439, 6440);
   (6450, 6450); (6457, 6459); (6679, 6680); (6683, 6683); (6742, 6742); (6744, 6750);
   (6752, 6752); (6754, 6754); (6757, 6764); (6771, 6780); (6783, 6783); (6823, 6823);
   (6832, 6862); (6912, 6915); (6964, 6964); (6966, 6970); (6972, 6972); (6978, 6978);
   (7019, 7027); (7040, 7041); (7074, 7077); (7080, 7081); (7083, 7085); (7142, 7142);
   (7144, 7145); (7149, 7149); (7151, 7153); (7212, 7219); (7222, 7223); (7288, 7293);
   (7376, 7378); (7380, 7392); (7394, 7400); (7405, 7405); (7412, 7412); (7416, 7417);
   (7468, 7530); (7544, 7544); (7579, 7679); (8125, 8125); (8127, 8129); (8141, 8143);
   (8157, 8159); (8173, 8175); (8189, 8190); (8203, 8207); (8216, 8217); (8228, 8228);
   (8231, 8231); (8234, 8238); (8288, 8292); (8294, 8303); (8305, 8305); (8319, 8319);
   (8336, 8348); (8400, 8432); (11388, 11389); (11503, 11505); (11631, 11631); (11647, 11647);
   (11744, 11775); (11823, 11823); (12293, 12293); (12330, 12333); (12337, 12341);
   (12347, 12347); (12441, 12446); (12540, 12542); (40981, 40981); (42232, 42237);
   (42508, 42508); (42607, 42610); (42612, 42621); (42623, 42623); (42652, 42655);
   (42736, 42737); (42752, 42785); (42864, 42864); (42888, 42890); (42994, 42996);
   (43000, 43001); (43010, 43010); (43014, 43014); (43019, 43019); (43045, 43046);
   (43052, 43052); (43204, 43205); (43232, 43249); (43263, 43263); (43302, 43309);
   (43335, 43345); (43392, 43394); (43443, 43443); (43446, 43449); (43452, 43453);
   (43471, 43471); (43493, 43494); (43561, 43566); (43569, 43570); (43573, 43574);
   (43587, 43587); (43596, 43596); (43632, 43632); (43644, 43644); (43696, 43696);
   (43698, 43700); (43703, 43704); (43710, 43711); (43713, 43713); (43741, 43741);
   (43756, 43757); (43763, 43764); (43766, 43766); (43867, 43871); (43881, 43883);
   (44005, 44005); (44008, 44008); (44013, 44013); (64286, 64286); (64434, 64450);
   (65024, 65039); (65043, 65043); (65056, 65071); (65106, 65106); (65109, 65109);
   (65279, 65279); (65287, 65287); (65294, 65294); (65306, 65306); (65342, 65342);
   (65344, 65344); (65392, 65392); (65438, 65439); (65507, 65507); (65529, 65531);
   (66045, 66045); (66272, 66272); (66422, 66426); (67456, 67461); (67463, 67504);
   (67506, 67514); (68097, 68099); (68101, 68102); (68108, 68111); (68152, 68154);
   (68159, 68159); (68325, 68326); (68900, 68903); (69291, 69292); (69446, 69456);
   (69506, 69509); (69633, 69633); (69688, 69702); (69744, 69744); (69747, 69748);
   (69759, 69761); (69811, 69814); (69817, 69818); (69821, 69821); (69826, 69826);
   (69837, 69837); (69888, 69890); (69927, 69931); (69933, 69940); (70003, 70003);
   (70016, 70017); (70070, 70078); (70089, 70092); (70095, 70095); (70191, 70193);
   (70196, 70196); (70198, 70199); (70206, 70206); (70367, 70367); (70371, 70378);
   (70400, 70401); (70459, 70460); (70464, 70464); (70502, 70508); (70512, 70516);
   (70712, 70719); (70722, 70724); (70726, 70726); (70750, 70750); (70835, 70840);
   (70842, 70842); (70847, 70848); (70850, 70851); (71090, 71093); (71100, 71101);
   (71103, 71104); (71132, 71133); (71219, 71226); (71229, 71229); (71231, 71232);
   (71339, 71339); (71341, 71341); (71344, 71349); (71351, 71351); (71453, 71455);
   (71458, 71461); (71463, 71467); (71727, 71735); (71737, 71738); (71995, 71996);
   (71998, 71998); (72003, 72003); (72148, 72151); (72154, 72155); (72160, 72160);
   (72193, 72202); (72243, 72248); (72251, 72254); (72263, 72263); (72273, 72278);
   (72281, 72283); (72330, 72342); (72344, 72345); (72752, 72758); (72760, 72765);
   (72767, 72767); (72850, 72871); (72874, 72880); (72882, 72883); (72885, 72886);
   (73009, 73014); (73018, 73018); (73020, 73021); (73023, 73029); (73031, 73031);
   (73104, 73105); (73109, 73109); (73111, 73111); (73459, 73460); (78896, 78904);
   (92912, 92916); (92976, 92982); (92992, 92995); (94031, 94031); (94095, 94111);
   (94176, 94177); (94179, 94180); (110576, 110579); (110581, 110587); (110589, 110590);
   (113821, 113822); (113824, 113827); (118528, 118573); (118576, 118598); (119143, 119145);
   (119155, 119170); (119173, 119179); (119210, 119213); (119362, 119364); (121344, 121398);
   (121403, 121452); (121461, 121461); (121476, 121476); (121499, 121503); (121505, 121519);
   (122880, 122886); (122888, 122904); (122907, 122913); (122915, 122916); (122918, 122922);
   (123184, 123197); (123566, 123566); (123628, 123631); (125136, 125142); (125252, 125259);
   (127995, 127999); (917505, 917505); (917536, 917631); (917760, 917999)].


Fixpoint point_find (tbl : list (N * list N)) (c : N) : option (list N) :=
  match tbl with
  | [] => None
  | (k, v) :: tl => if k =? c then Some v else point_find tl c
  end.

Fixpoint in_ranges (tbl : list (N * N)) (c : N) : bool :=
  match tbl with
  | [] => false
  | (lo, hi) :: tl => in_range lo hi c || in_ranges tl c
  end.

Fixpoint range_class (tbl : list (N * N * N)) (c : N) : N :=
  match tbl with
  | [] => 0
  | (lo, hi, k) :: tl => if in_range lo hi c then k else range_class tl c
  end.

(** *** [String.prototype.toUpperCase] and [toLowerCase]

    The full case mappings of Unicode, without locale.  Basic Latin and
    Latin-1 Supplement are written out; the other code points are looked up
    in the tables. *)
Definition upper_point (c : N) : list N :=
  if is_lower c then [c - 32]
  else if c =? 181 then [924]
  else if c =? 223 then [83; 83]
  else if in_range 224 254 c && negb (c =? 247) then [c - 32]
  else if c =? 255 then [376]
  else if c <? 256 then [c]
  else match point_find upper_table c with Some v => v | None => [c] end.

Definition lower_point (c : N) : list N :=
  if is_upper c then [c + 32]
  else if in_range 192 222 c && negb (c =? 215) then [c + 32]
  else if c <? 256 then [c]
  else match point_find lower_table c with Some v => v | None => [c] end.

Definition is_cased (c : N) : bool := in_ranges cased_ranges c.
Definition is_case_ignorable (c : N) : bool := in_ranges case_ignorable_ranges c.

(** The one mapping that depends on the context: capital sigma (U+03A3) is
    lower-cased to the final form U+03C2 when it follows a cased letter and
    is not followed by one, case-ignorable code points being skipped on
    either side; [before] tells that a cased letter precedes. *)
Fixpoint followed_by_cased (l : list N) : bool :=
  match l with
  | [] => false
  | c :: tl => if is_case_ignorable c then followed_by_cased tl else is_cased c
  end.

Fixpoint lower_points (before : bool) (l : list N) : list N :=
  match l with
  | [] => []
  | c :: tl =>
      (if c =? 931
       then (if before && negb (followed_by_cased tl) then [962] else [963])
       else lower_point c)
      ++ lower_points (if is_case_ignorable c then before else is_cased c) tl
  end.

Definition toUpperCase (s : jsstring) : jsstring :=
  of_code_points (flat_map upper_point (code_points s)).
Definition toLowerCase (s : jsstring) : jsstring :=
  of_code_points (lower_points false (code_points s)).

(** *** [String.prototype.normalize('NFD')]

    Canonical decomposition of every code point (Hangul syllables by
    arithmetic, the others by table), then canonical ordering: a code point
    of combining class other than 0 moves back over the code points of
    greater class before it. *)
Definition hangul_point (c : N) : list N :=
  let s := c - 44032 in
  let l := 4352 + s / 588 in
  let v := 4449 + (s mod 588) / 28 in
  let t := 4519 + s mod 28 in
  if t =? 4519 then [l; v] else [l; v; t].

Definition nfd_point (c : N) : list N :=
  if c <? 192 then [c]
  else if in_range 44032 55203 c then hangul_point c
  else match point_find nfd_table c with Some v => v | None => [c] end.

Definition combining_class (c : N) : N :=
  if c <? 768 then 0 else range_class ccc_ranges c.

(** [racc] holds the code points already ordered, last one first. *)
Fixpoint insert_mark (c : N) (racc : list N) : list N :=
  match racc with
  | h :: tl =>
      if combining_class c <? combining_class h
      then h :: insert_mark c tl else c :: racc
  | [] => [c]
  end.

Definition reorder_step (racc : list N) (c : N) : list N :=
  if combining_class c =? 0 then c :: racc else insert_mark c racc.

Definition canonical_order (l : list N) : list N :=
  rev (fold_left reorder_step l []).

Definition normalizeNFD (s : jsstring) : jsstring :=
  of_code_points (canonical_order (flat_map nfd_point (code_points s))).

(** [\p{M}]: the general category Mark. *)
Definition is_mark (c : N) : bool :=
  if c <? 768 then false else in_ranges mark_ranges c.

(** [s.replace(/\p{M}/gu, '')] *)
Definition remove_marks (s : jsstring) : jsstring :=
  of_code_points (filter (fun c => negb (is_mark c)) (code_points s)).

End Js.

Import Js.

(* ------------------------------------------------------------------ *)
(** ** Regular expressions *)

Module Regex.

(** Syntax of the fragment used by the source.  [Class p] matches one code
    unit satisfying [p]; [AnyPoint] is [.] under the [u] flag (one code
    point, a surrogate pair counting as one); [Star g a] is [a*] when [g]
    is true and [a*?] otherwise; [Group i a] is the i-th capturing group. *)
Inductive regex : Type :=
| Empty
| Class (p : N -> bool)
| AnyPoint
| Bol
| Eol
| WordBoundary
| Seq (a b : regex)
| Alt (a b : regex)
| Star (greedy : bool) (a : regex)
| Group (i : nat) (a : regex).

Record mstate : Type := MState {
  m_prev : option N;                (* code unit before the position *)
  m_rest : jsstring;                (* input from the position on *)
  m_caps : list (nat * jsstring)    (* captures, latest first *)
}.

Definition advance (st : mstate) (c : N) (tl : jsstring) : mstate :=
  MState (Some c) tl (m_caps st).

Definition word_before (st : mstate) : bool :=
  match m_prev st with Some c => is_word c | None => false end.
Definition word_after (st : mstate) : bool :=
  match m_rest st with c :: _ => is_word c | [] => false end.

(** One repetition [a*] (greedy) or [a*?] (lazy); [step] runs the body.  An
    iteration that consumes nothing is rejected, as in ECMAScript, hence the
    repetition runs at most once per remaining code unit and [fuel], set to
    one more than their number, is never exhausted. *)
Fixpoint star_loop (step : (mstate -> option mstate) -> mstate -> option mstate)
         (greedy : bool) (k : mstate -> option mstate) (fuel : nat)
         (st0 : mstate) {struct fuel} : option mstate :=
  match fuel with
  | O => k st0
  | S fuel' =>
      let again :=
        step (fun st1 =>
                if Nat.ltb (List.length (m_rest st1)) (List.length (m_rest st0))
                then star_loop step greedy k fuel' st1 else None) st0 in
      if greedy then
        match again with Some res => Some res | None => k st0 end
      else
        match k st0 with Some res => Some res | None => again end
  end.

(** Backtracking matcher in continuation-passing style: [k] is what remains
    to be matched after [r]. *)
Fixpoint rmatch (r : regex) (k : mstate -> option mstate) (st : mstate)
  : option mstate :=
  match r with
  | Empty => k st
  | Class p =>
      match m_rest st with
      | c :: tl => if p c then k (advance st c tl) else None
      | [] => None
      end
  | AnyPoint =>
      match m_rest st with
      | h :: l :: tl =>
          if is_high_surrogate h && is_low_surrogate l
          then k (advance st l tl)
          else if is_line_terminator h then None
          else k (advance st h (l :: tl))
      | [c] => if is_line_terminator c then None else k (advance st c [])
      | [] => None
      end
  | Bol => match m_prev st with None => k st | Some _ => None end
  | Eol => match m_rest st with [] => k st | _ :: _ => None end
  | WordBoundary => if xorb (word_before st) (word_after st) then k st else None
  | Seq a b => rmatch a (rmatch b k) st
  | Alt a b =>
      match rmatch a k st with
      | Some res => Some res
      | None => rmatch b k st
      end
  | Star greedy a =>
      star_loop (rmatch a) greedy k (S (List.length (m_rest st))) st
  | Group i a =>
      rmatch a (fun st1 =>
        k (MState (m_prev st1) (m_rest st1)
             ((i, firstn (Nat.sub (List.length (m_rest st))
                                  (List.length (m_rest st1)))
                         (m_rest st)) :: m_caps st1))) st
  end.

(** Derived forms. *)
Definition Plus (greedy : bool) (a : regex) : regex := Seq a (Star greedy a).
Definition Opt (a : regex) : regex := Alt a Empty.
Definition Chr (c : N) : regex := Class (N.eqb c).
Fixpoint SeqAll (rs : list regex) : regex :=
  match rs with
  | [] => Empty
  | [r] => r
  | r :: tl => Seq r (SeqAll tl)
  end.

(** A letter of a literal under the [i] flag: both ASCII cases.  None of
    the letters used in the literals of the source (a c d e i l r t u and
    L R D A) has a further case variant, with or without the [u] flag. *)
Definition ci (upper : N) : regex :=
  Class (fun c => (c =? upper) || (c =? upper + 32)).

Fixpoint lookup_cap (i : nat) (caps : list (nat * jsstring)) : option jsstring :=
  match caps with
  | [] => None
  | (j, s) :: tl => if Nat.eqb i j then Some s else lookup_cap i tl
  end.

Record rmatch_result : Type := MatchResult {
  before : jsstring;     (* input before the match *)
  matched : jsstring;    (* the matched substring, $& *)
  after : jsstring;      (* input after the match *)
  groups : list (nat * jsstring)
}.

Definition group (i : nat) (m : rmatch_result) : option jsstring :=
  lookup_cap i (groups m).

(** [RegExp.prototype.exec] for a regex without the [g] flag: the first
    start position, from the left, at which the pattern matches.  [pre] is
    the reversed input already skipped. *)
Fixpoint exec_from (r : regex) (pre : jsstring) (s : jsstring)
  : option rmatch_result :=
  match rmatch r Some (MState (hd_error pre) s []) with
  | Some st =>
      Some (MatchResult (rev pre)
              (firstn (Nat.sub (List.length s) (List.length (m_rest st))) s)
              (m_rest st) (m_caps st))
  | None =>
      match s with
      | [] => None
      | c :: tl => exec_from r (c :: pre) tl
      end
  end.

Definition exec (r : regex) (s : jsstring) : option rmatch_result :=
  exec_from r [] s.

(** [r.test(s)] *)
Definition test (r : regex) (s : jsstring) : bool :=
  match exec r s with Some _ => true | None => false end.

(** [s.replace(r, '$1')] for a regex without the [g] flag. *)
Definition replace_first_by_group1 (r : regex) (s : jsstring) : jsstring :=
  match exec r s with
  | Some m =>
      before m ++ match group 1 m with Some g => g | None => [] end ++ after m
  | None => s
  end.

End Regex.

Import Regex.

(* ------------------------------------------------------------------ *)
(** ** scripts/lib/parser.ts: article number normalisation *)

Module Normalizer.

Definition cA : N := 65.
Definition cD : N := 68.
Definition cL : N := 76.
Definition cR : N := 82.

(** [(L|R|D|A)] under the [i] flag. *)
Definition CLASS_LETTER : regex := Alt (ci cL) (Alt (ci cR) (Alt (ci cD) (ci cA))).

(** ^ (L|R|D|A) \. \s*   flag i *)
Definition PREFIX_DOT : regex :=
  SeqAll [Bol; Group 1 CLASS_LETTER; Chr cDOT; Star true (Class is_ws)].

(** ^ (L|R|D|A) \* \s*   flag i *)
Definition PREFIX_STAR : regex :=
  SeqAll [Bol; Group 1 CLASS_LETTER; Chr cSTAR; Star true (Class is_ws)].

Definition normalizeArticleNum (raw : jsstring) : jsstring :=
  if negb (truthy raw) then []
  else
    trim
      (replace_runs is_ws []
         (replace_first_by_group1 PREFIX_STAR
            (replace_first_by_group1 PREFIX_DOT raw))).

(** [[LRDA]] under the [i] flag: one of L R D A, in either case. *)
Definition is_class_letter (c : N) : bool :=
  existsb (fun u => (c =? u) || (c =? u + 32)) [cL; cR; cD; cA].

(** [/^([LRDA])(\d)/i] *)
Definition PREFIX_DIGIT : regex :=
  SeqAll [Bol; Group 1 (Class is_class_letter); Group 2 (Class is_digit)].

(** The [prefixNames] table of [articleTitle]. *)
Definition prefixNames : list (jsstring * jsstring) :=
  [ (lit "L", lit "L."); (lit "R", lit "R."); (lit "D", lit "D."); (lit "A", lit "A.") ].

Fixpoint table_get (tbl : list (jsstring * jsstring)) (key : jsstring)
  : option jsstring :=
  match tbl with
  | [] => None
  | (k, v) :: tl => if str_eqb k key then Some v else table_get tl key
  end.

Definition articleTitle (num : jsstring) : jsstring :=
  let normalized := normalizeArticleNum num in
  match exec PREFIX_DIGIT normalized with
  | Some prefixMatch =>
      let prefix :=
        toUpperCase (match group 1 prefixMatch with Some g => g | None => [] end) in
      let rest := skipn 1 normalized in
      lit "Article "
        ++ (match table_get prefixNames prefix with Some n => n | None => prefix end)
        ++ lit " " ++ rest
  | None => lit "Article " ++ normalized
  end.

End Normalizer.

(* ------------------------------------------------------------------ *)
(** ** src/citation/parser.ts *)

Module Citation.

Inductive citation_type : Type := statute | unknown.

Record ParsedCitation : Type := {
  valid : bool;
  type : citation_type;
  title : option jsstring;
  year : option N;
  section : option jsstring;
  error : option jsstring
}.

(** [[A-Za-z]] under the [i] and [u] flags: case-insensitive matching goes
    through simple case folding, which also sends U+017F to s and U+212A
    to k. *)
Definition letter_iu (c : N) : bool :=
  is_upper c || is_lower c || (c =? 383) || (c =? 8490).

Definition alnum_iu (c : N) : bool := letter_iu c || is_digit c.

Definition WS : regex := Class is_ws.
Definition DIGITS : regex := Plus true (Class is_digit).

(** The source's ARTICLE_TOKEN, written here with blanks between its parts:
    (?: [A-Za-z] \s* \.? \s* )? \d+ (?: - \d+ )* (?: - [A-Za-z0-9]+ )* . *)
Definition ARTICLE_TOKEN : regex :=
  SeqAll [Opt (SeqAll [Class letter_iu; Star true WS; Opt (Chr cDOT); Star true WS]);
          DIGITS;
          Star true (Seq (Chr cHYPHEN) DIGITS);
          Star true (Seq (Chr cHYPHEN) (Plus true (Class alnum_iu)))].

(** (?: article | art\.? ) under the [i] flag. *)
Definition KEYWORD : regex :=
  Alt (SeqAll [ci 65; ci 82; ci 84; ci 73; ci 67; ci 76; ci 69])
      (SeqAll [ci 65; ci 82; ci 84; Opt (Chr cDOT)]).

(** ^ (.+?) , \s* (?: article | art\.? ) \s* (ARTICLE_TOKEN) \.? $   flags iu *)
Definition TITLE_THEN_ARTICLE : regex :=
  SeqAll [Bol; Group 1 (Plus false AnyPoint); Chr cCOMMA; Star true WS;
          KEYWORD; Star true WS; Group 2 ARTICLE_TOKEN; Opt (Chr cDOT); Eol].

(** ^ (?: article | art\.? ) \s* (ARTICLE_TOKEN) \s+ d (?: e | u ) \s+ (.+) $   flags iu *)
Definition ARTICLE_THEN_TITLE : regex :=
  SeqAll [Bol; KEYWORD; Star true WS; Group 1 ARTICLE_TOKEN; Plus true WS;
          ci 68; Alt (ci 69) (ci 85); Plus true WS;
          Group 2 (Plus true AnyPoint); Eol].

(** ^ (.+?) \s+ (?: article | art\.? ) \s* (ARTICLE_TOKEN) \.? $   flags iu *)
Definition TITLE_ARTICLE_NO_COMMA : regex :=
  SeqAll [Bol; Group 1 (Plus false AnyPoint); Plus true WS;
          KEYWORD; Star true WS; Group 2 ARTICLE_TOKEN; Opt (Chr cDOT); Eol].

(** The first replacement turns U+2019 and the backtick into an apostrophe,
    the second turns every whitespace run into one space; then [trim]. *)
Definition normalizeInput (value : jsstring) : jsstring :=
  trim
    (replace_runs is_ws [cSPACE]
       (replace_each (fun c => (c =? 8217) || (c =? cBACKTICK)) [cAPOS] value)).

Definition is_title_punct (c : N) : bool :=
  (c =? cDOT) || (c =? cCOMMA) || (c =? cSEMI) || (c =? cCOLON).

(** [/[.,;:]+$/u] *)
Definition TRAILING_PUNCT : regex := Seq (Plus true (Class is_title_punct)) Eol.

Definition replace_first (r : regex) (rep : jsstring) (s : jsstring) : jsstring :=
  match exec r s with
  | Some m => before m ++ rep ++ after m
  | None => s
  end.

Definition normalizeTitle (value : jsstring) : jsstring :=
  trim (replace_runs is_ws [cSPACE] (replace_first TRAILING_PUNCT [] value)).

Definition normalizeArticleRef (value : jsstring) : jsstring :=
  toUpperCase
    (replace_each (N.eqb cDOT) [] (replace_runs is_ws [] value)).

Definition cap (i : nat) (m : rmatch_result) : jsstring :=
  match group i m with Some g => g | None => [] end.

Definition tryParsePatterns (citation : jsstring) : option (jsstring * jsstring) :=
  match exec TITLE_THEN_ARTICLE citation with
  | Some titleFirst =>
      Some (normalizeTitle (cap 1 titleFirst), normalizeArticleRef (cap 2 titleFirst))
  | None =>
      match exec ARTICLE_THEN_TITLE citation with
      | Some articleFirst =>
          Some (normalizeTitle (cap 2 articleFirst),
                normalizeArticleRef (cap 1 articleFirst))
      | None =>
          match exec TITLE_ARTICLE_NO_COMMA citation with
          | Some noComma =>
              Some (normalizeTitle (cap 1 noComma), normalizeArticleRef (cap 2 noComma))
          | None => None
          end
      end
  end.

(** [/\b(1[89]\d{2}|20\d{2})\b/] *)
Definition YEAR : regex :=
  SeqAll [WordBoundary;
          Group 1 (Alt (SeqAll [Chr 49; Class (fun c => (c =? 56) || (c =? 57));
                                Class is_digit; Class is_digit])
                       (SeqAll [Chr 50; Chr 48; Class is_digit; Class is_digit]));
          WordBoundary].

(** [Number.parseInt(s, 10)] on a string of decimal digits. *)
Definition parseInt (s : jsstring) : N :=
  fold_left (fun acc c => acc * 10 + (c - 48)) s 0.

Definition parseCitation (citation : jsstring) : ParsedCitation :=
  let trimmed := trim citation in
  if negb (truthy trimmed) then
    {| valid := false; type := unknown; title := None; year := None;
       section := None; error := Some (lit "Empty citation") |}
  else
    let normalized := normalizeInput trimmed in
    match tryParsePatterns normalized with
    | None =>
        {| valid := false; type := unknown; title := None; year := None;
           section := None;
           error := Some (lit "Could not parse French citation: "
                            ++ [cQUOTE] ++ trimmed ++ [cQUOTE]) |}
    | Some (ptitle, psection) =>
        {| valid := true; type := statute; title := Some ptitle;
           year := option_map (fun m => parseInt (cap 1 m)) (exec YEAR ptitle);
           section := Some psection; error := None |}
    end.

End Citation.

Import Normalizer Citation.

(* ------------------------------------------------------------------ *)
(** ** src/citation/validator.ts *)

Module Validator.

(** Rows of the two tables read by the validator. *)
Record LegalDocument : Type := {
  d_id : jsstring;
  d_title : jsstring;
  d_short_name : option jsstring;
  d_status : jsstring
}.

Record LegalProvision : Type := {
  p_document_id : jsstring;
  p_provision_ref : jsstring;
  p_section : jsstring
}.

Record Database : Type := {
  legal_documents : list LegalDocument;
  legal_provisions : list LegalProvision
}.

Record ValidationResult : Type := {
  citation : ParsedCitation;
  document_exists : bool;
  provision_exists : bool;
  document_title : option jsstring;
  status : option jsstring;
  warnings : list jsstring
}.

Definition normalizeLookup (value : jsstring) : jsstring :=
  trim
    (replace_runs (fun c => negb (is_lower c || is_digit c)) [cSPACE]
       (toLowerCase (remove_marks (normalizeNFD value)))).

(** Insertion into a JavaScript [Set] of strings (insertion order kept). *)
Definition set_add (x : jsstring) (l : list jsstring) : list jsstring :=
  if existsb (str_eqb x) l then l else l ++ [x].

(** ^ART with flag i *)
Definition ART_PREFIX : regex := SeqAll [Bol; ci 65; ci 82; ci 84].

(** ^ ([A-Z]) (\d.* ) $ *)
Definition LETTER_DIGITS : regex :=
  SeqAll [Bol; Group 1 (Class is_upper);
          Group 2 (Seq (Class is_digit)
                       (Star true (Class (fun c => negb (is_line_terminator c)))));
          Eol].

Definition buildSectionCandidates (section : jsstring) : list jsstring :=
  let normalized :=
    toUpperCase (replace_each (N.eqb cDOT) [] (replace_runs is_ws [] section)) in
  let withoutArtPrefix := replace_first ART_PREFIX [] normalized in
  let candidates := set_add withoutArtPrefix (set_add normalized []) in
  let candidates :=
    match exec LETTER_DIGITS withoutArtPrefix with
    | Some letterMatch => set_add (cap 1 letterMatch ++ cap 2 letterMatch) candidates
    | None => candidates
    end in
  filter truthy candidates.

(** SQLite's built-in [upper] and [lower] act on ASCII letters only. *)
Definition sql_upper (s : jsstring) : jsstring :=
  map (fun c => if is_lower c then c - 32 else c) s.
Definition sql_lower (s : jsstring) : jsstring :=
  map (fun c => if is_upper c then c + 32 else c) s.

(** The provision query: is there a row of [legal_provisions] for the
    document whose section (upper-cased, periods removed) is among the
    section candidates or whose provision_ref (lower-cased) is among the
    provision_ref candidates. *)
Definition provision_query (db : Database) (doc_id : jsstring)
           (sectionCandidates provisionRefCandidates : list jsstring) : bool :=
  existsb (fun row =>
    str_eqb (p_document_id row) doc_id
    && (existsb (str_eqb (sql_upper (replace_each (N.eqb cDOT) [] (p_section row))))
                sectionCandidates
        || existsb (str_eqb (sql_lower (p_provision_ref row)))
                   provisionRefCandidates))
    (legal_provisions db).

(** Score of one document against the normalised title: the inner loop over
    [doc.title, doc.short_name ?? '', doc.id]. *)
Definition score_candidate (target : jsstring) (score : Z) (candidate : jsstring) : Z :=
  if negb (truthy candidate) then score
  else
    let normalized := normalizeLookup candidate in
    if negb (truthy normalized) then score
    else if str_eqb normalized target then Z.max score 4
    else if includes normalized target then Z.max score 3
    else if includes target normalized then Z.max score 2
    else score.

Definition doc_candidates (doc : LegalDocument) : list jsstring :=
  [d_title doc; match d_short_name doc with Some n => n | None => [] end; d_id doc].

Definition score_doc (target : jsstring) (doc : LegalDocument) : Z :=
  fold_left (score_candidate target) (doc_candidates doc) 0%Z.

(** The outer loop: [(bestDoc, bestScore)], starting from [(undefined, -1)]. *)
Definition best_step (target : jsstring) (acc : option LegalDocument * Z)
           (doc : LegalDocument) : option LegalDocument * Z :=
  let score := score_doc target doc in
  if (snd acc <? score)%Z then (Some doc, score) else acc.

Definition best_match (target : jsstring) (docs : list LegalDocument)
  : option LegalDocument * Z :=
  fold_left (best_step target) docs (None, (-1)%Z).

Definition resolve_document (db : Database) (ptitle : jsstring) : option LegalDocument :=
  let '(bestDoc, bestScore) := best_match (normalizeLookup ptitle) (legal_documents db) in
  if (0 <? bestScore)%Z then bestDoc else None.

(** The body of [validateCitation] once [parseCitation] has returned. *)
Definition validateParsed (db : Database) (parsed : ParsedCitation) : ValidationResult :=
  if negb (valid parsed) then
    {| citation := parsed; document_exists := false; provision_exists := false;
       document_title := None; status := None;
       warnings := [match error parsed with
                    | Some e => e
                    | None => lit "Invalid citation format"
                    end] |}
  else
    match title parsed with
    | None | Some [] =>
        {| citation := parsed; document_exists := false; provision_exists := false;
           document_title := None; status := None;
           warnings := [lit "Citation does not include a recognizable statute title"] |}
    | Some ptitle =>
        match resolve_document db ptitle with
        | None =>
            {| citation := parsed; document_exists := false;
               provision_exists := false;
               document_title := None; status := None;
               warnings := [lit "Document " ++ [cQUOTE] ++ ptitle ++ [cQUOTE]
                              ++ lit " not found in database"] |}
        | Some doc =>
            let warnings0 :=
              if str_eqb (d_status doc) (lit "repealed")
              then [lit "This statute has been repealed"] else [] in
            match section parsed with
            | None | Some [] =>
                {| citation := parsed; document_exists := true;
                   provision_exists := true;
                   document_title := Some (d_title doc);
                   status := Some (d_status doc);
                   warnings := warnings0 |}
            | Some psection =>
                let sectionCandidates := buildSectionCandidates psection in
                let provisionRefCandidates :=
                  map (fun value =>
                         if starts_with (lit "ART") value then toLowerCase value
                         else toLowerCase (lit "art" ++ value))
                      sectionCandidates in
                let provisionExists :=
                  provision_query db (d_id doc) sectionCandidates
                                  provisionRefCandidates in
                {| citation := parsed; document_exists := true;
                   provision_exists := provisionExists;
                   document_title := Some (d_title doc);
                   status := Some (d_status doc);
                   warnings :=
                     if provisionExists then warnings0
                     else warnings0 ++
                          [lit "Article " ++ psection ++ lit " not found in "
                             ++ d_title doc] |}
            end
        end
    end.

Definition validateCitation (db : Database) (citation : jsstring) : ValidationResult :=
  validateParsed db (parseCitation citation).

End Validator.

(* ------------------------------------------------------------------ *)
(** ** src/citation/formatter.ts *)

Module Formatter.

Inductive CitationFormat : Type := full | short | pinpoint | other_format.

Definition buildArticleRef (section : jsstring) : jsstring :=
  let normalized :=
    toUpperCase (replace_each (N.eqb cDOT) [] (replace_runs is_ws [] section)) in
  match exec Validator.LETTER_DIGITS normalized with
  | Some prefixed => cap 1 prefixed ++ lit ". " ++ cap 2 prefixed
  | None => normalized
  end.

Definition formatCitation (parsed : ParsedCitation) (format : CitationFormat)
  : jsstring :=
  match section parsed with
  | None | Some [] => []
  | Some psection =>
      if negb (valid parsed) then []
      else
        let article := buildArticleRef psection in
        let with_title (sep : jsstring) :=
          match title parsed with
          | None | Some [] => lit "art. " ++ article
          | Some t => t ++ sep ++ lit "art. " ++ article
          end in
        match format with
        | full => with_title (lit ", ")
        | short => with_title (lit " ")
        | pinpoint => lit "art. " ++ article
        | other_format => with_title (lit ", ")
        end
  end.

End Formatter.

(* ------------------------------------------------------------------ *)
(** ** src/utils/fts-query.ts *)

Module Fts.

Definition word (cs : list N) : regex :=
  SeqAll (WordBoundary :: map Chr cs ++ [WordBoundary]).

(** The source's EXPLICIT_FTS_SYNTAX (no flags): a double quote, or one of
    the words AND, OR, NOT between word boundaries (groups 1 to 3), or an
    asterisk at the end of the input. *)
Definition EXPLICIT_FTS_SYNTAX : regex :=
  Alt (Chr cQUOTE)
   (Alt (Group 1 (word [65; 78; 68]))
    (Alt (Group 2 (word [79; 82]))
     (Alt (Group 3 (word [78; 79; 84]))
          (Seq (Chr cSTAR) Eol)))).

(** The source's FTS5_SPECIAL_CHARS: ( ) : { } ^ + . *)
Definition FTS5_SPECIAL_CHARS (c : N) : bool :=
  (c =? cLPAREN) || (c =? cRPAREN) || (c =? cCOLON) || (c =? cLBRACE)
  || (c =? cRBRACE) || (c =? cCARET) || (c =? cPLUS) || (c =? cDOT).

Record FtsQueryVariants : Type := {
  primary : jsstring;
  fallback : option jsstring
}.

Definition sanitizeFtsInput (raw : jsstring) : jsstring :=
  trim (replace_runs is_ws [cSPACE] (replace_each FTS5_SPECIAL_CHARS [cSPACE] raw)).

(** [s.split(/\s+/)]: [cur] is the reversed piece being read, [in_sep] tells
    that the previous code unit belonged to a separator. *)
Fixpoint split_ws_aux (cur : jsstring) (in_sep : bool) (s : jsstring)
  : list jsstring :=
  match s with
  | [] => [rev cur]
  | c :: tl =>
      if is_ws c then
        if in_sep then split_ws_aux [] true tl
        else rev cur :: split_ws_aux [] true tl
      else split_ws_aux (c :: cur) false tl
  end.

Definition split_ws (s : jsstring) : list jsstring := split_ws_aux [] false s.

(** Code units kept by the token filter: word characters, whitespace,
    U+00C0 to U+024F and the hyphen. *)
Definition is_token_char (c : N) : bool :=
  is_word c || is_ws c || in_range 192 591 c || (c =? cHYPHEN).

(** [parts.join(sep)] *)
Fixpoint join (sep : jsstring) (parts : list jsstring) : jsstring :=
  match parts with
  | [] => []
  | [p] => p
  | p :: tl => p ++ sep ++ join sep tl
  end.

Definition buildFtsQueryVariants (query : jsstring) : FtsQueryVariants :=
  let trimmed := trim query in
  if test EXPLICIT_FTS_SYNTAX trimmed then
    let sanitized := sanitizeFtsInput trimmed in
    {| primary := if truthy sanitized then sanitized else trimmed;
       fallback := None |}
  else
    let tokens :=
      map (replace_each (fun c => negb (is_token_char c)) [])
          (filter (fun t => Nat.ltb 0 (List.length t))
                  (split_ws (sanitizeFtsInput trimmed))) in
    match tokens with
    | [] => {| primary := trimmed; fallback := None |}
    | _ :: _ =>
        {| primary := join (lit " ") (map (fun t => [cQUOTE] ++ t ++ [cQUOTE; cSTAR]) tokens);
           fallback := Some (join (lit " OR ") (map (fun t => t ++ [cSTAR]) tokens)) |}
    end.

End Fts.

Import Validator Formatter Fts.

(* ------------------------------------------------------------------ *)
(** ** scripts/lib/parser.ts: LEGI dates *)

Module LegiDate.

(** The argument of [parseLegiDate]: a string, a number or [undefined].  The
    XML reader hands over digit-only values as numbers; they are modelled as
    natural numbers.  (A number that is not a natural number below 10^21
    prints with a sign, a point or an exponent, and no such print has eight
    digits only, so it yields [undefined] like every natural number that
    does not have exactly eight digits.) *)
Inductive legi_raw : Type :=
| RawUndefined
| RawString (s : jsstring)
| RawNumber (n : N).

Fixpoint uint_units (d : Decimal.uint) : jsstring :=
  match d with
  | Decimal.Nil => []
  | Decimal.D0 d' => 48 :: uint_units d'
  | Decimal.D1 d' => 49 :: uint_units d'
  | Decimal.D2 d' => 50 :: uint_units d'
  | Decimal.D3 d' => 51 :: uint_units d'
  | Decimal.D4 d' => 52 :: uint_units d'
  | Decimal.D5 d' => 53 :: uint_units d'
  | Decimal.D6 d' => 54 :: uint_units d'
  | Decimal.D7 d' => 55 :: uint_units d'
  | Decimal.D8 d' => 56 :: uint_units d'
  | Decimal.D9 d' => 57 :: uint_units d'
  end.

(** [String(n)] for a natural number. *)
Definition string_of_N (n : N) : jsstring := uint_units (N.to_uint n).

Definition DIGIT : regex := Class is_digit.

(** [/^\d{4}-\d{2}-\d{2}$/] *)
Definition ISO_DATE : regex :=
  SeqAll [Bol; DIGIT; DIGIT; DIGIT; DIGIT; Chr cHYPHEN; DIGIT; DIGIT;
          Chr cHYPHEN; DIGIT; DIGIT; Eol].

(** [/^\d{8}$/] *)
Definition COMPACT_DATE : regex :=
  SeqAll [Bol; DIGIT; DIGIT; DIGIT; DIGIT; DIGIT; DIGIT; DIGIT; DIGIT; Eol].

(** [s.slice(a, b)] for [0 <= a <= b]. *)
Definition slice (a b : nat) (s : jsstring) : jsstring :=
  firstn (Nat.sub b a) (skipn a s).

Definition parseLegiDate (raw : legi_raw) : option jsstring :=
  let go (text : jsstring) :=
    let s := trim text in
    if test ISO_DATE s then
      if starts_with (lit "2999") s then None else Some s
    else if Nat.eqb (List.length s) 8 && test COMPACT_DATE s then
      let year := slice 0 4 s in
      let month := slice 4 6 s in
      let day := slice 6 8 s in
      if str_eqb year (lit "2999") then None
      else Some (year ++ [cHYPHEN] ++ month ++ [cHYPHEN] ++ day)
    else None in
  match raw with
  | RawUndefined => None
  | RawString s => if truthy s then go s else None
  | RawNumber n => if n =? 0 then None else go (string_of_N n)
  end.

End LegiDate.

(* ------------------------------------------------------------------ *)
(** ** scripts/check-updates.ts: archive time stamps *)

Module Updates.

Definition TWO_DIGITS (i : nat) : regex := Group i (Seq LegiDate.DIGIT LegiDate.DIGIT).

(** [/^(\d{4})(\d{2})(\d{2})-(\d{2})(\d{2})(\d{2})$/] *)
Definition ARCHIVE_TOKEN : regex :=
  SeqAll [Bol;
          Group 1 (SeqAll [LegiDate.DIGIT; LegiDate.DIGIT; LegiDate.DIGIT; LegiDate.DIGIT]);
          TWO_DIGITS 2; TWO_DIGITS 3; Chr cHYPHEN;
          TWO_DIGITS 4; TWO_DIGITS 5; TWO_DIGITS 6; Eol].

Definition parseArchiveTokenToIso (token : jsstring) : option jsstring :=
  match exec ARCHIVE_TOKEN token with
  | None => None
  | Some m =>
      Some (cap 1 m ++ [cHYPHEN] ++ cap 2 m ++ [cHYPHEN] ++ cap 3 m ++ lit "T"
            ++ cap 4 m ++ [cCOLON] ++ cap 5 m ++ [cCOLON] ++ cap 6 m ++ lit "Z")
  end.

End Updates.

(* ------------------------------------------------------------------ *)
(** ** src/utils/statute-id.ts *)

Module StatuteId.

Definition isValidStatuteId (id : jsstring) : bool :=
  Nat.ltb 0 (List.length id) && Nat.ltb 0 (List.length (trim id)).

Definition statuteIdCandidates (id : jsstring) : list jsstring :=
  let trimmed := toLowerCase (trim id) in
  let candidates := set_add trimmed [] in
  let candidates := set_add (trim id) candidates in
  let candidates :=
    if includes trimmed [cSPACE]
    then set_add (replace_runs is_ws [cHYPHEN] trimmed) candidates
    else candidates in
  let candidates :=
    if includes trimmed [cHYPHEN]
    then set_add (replace_each (N.eqb cHYPHEN) [cSPACE] trimmed) candidates
    else candidates in
  candidates.

(** [SELECT id FROM legal_documents WHERE id = ? LIMIT 1] *)
Definition select_by_id (db : Database) (id : jsstring) : option LegalDocument :=
  find (fun d => str_eqb (d_id d) id) (legal_documents db).

Section Resolve.

(** The engine's [LIKE] operator on a pattern and a title: [Some b] for its
    truth value, [None] when the engine rejects the evaluation (the query
    then throws). *)
Variable title_like : jsstring -> jsstring -> option bool.

(** [SELECT id FROM legal_documents WHERE title LIKE ? LIMIT 1]: rows are
    visited in table order until one matches.  The outer [None] is a thrown
    query, the inner [None] is no row. *)
Fixpoint select_by_title (pattern : jsstring) (docs : list LegalDocument)
  : option (option LegalDocument) :=
  match docs with
  | [] => Some None
  | d :: tl =>
      match title_like pattern (d_title d) with
      | None => None
      | Some true => Some (Some d)
      | Some false => select_by_title pattern tl
      end
  end.

Definition resolveExistingStatuteId (db : Database) (inputId : jsstring)
  : option (option jsstring) :=
  match select_by_id db inputId with
  | Some exact => Some (Some (d_id exact))
  | None =>
      let lower := toLowerCase (trim inputId) in
      match (if negb (str_eqb lower inputId) then select_by_id db lower else None) with
      | Some byLower => Some (Some (d_id byLower))
      | None =>
          option_map (option_map d_id)
            (select_by_title ([37] ++ inputId ++ [37]) (legal_documents db))
      end
  end.

End Resolve.

(** SQLite's [LIKE] with its default settings: [%] stands for any sequence,
    [_] for one character (a surrogate pair counting as one), any other
    character for itself, ASCII letters compared without case. *)
Definition like_unit_eq (a b : N) : bool :=
  (if is_upper a then a + 32 else a) =? (if is_upper b then b + 32 else b).

Fixpoint sql_like (pattern : jsstring) (text : jsstring) : bool :=
  match pattern with
  | [] => match text with [] => true | _ :: _ => false end
  | c :: pattern' =>
      if c =? 37 then
        (fix any (t : jsstring) : bool :=
           sql_like pattern' t
           || match t with [] => false | _ :: t' => any t' end) text
      else if c =? 95 then
        match text with
        | h :: l :: t' =>
            if is_high_surrogate h && is_low_surrogate l
            then sql_like pattern' t' else sql_like pattern' (l :: t')
        | [_] => sql_like pattern' []
        | [] => false
        end
      else
        match text with
        | d :: t' => like_unit_eq c d && sql_like pattern' t'
        | [] => false
        end
  end.

End StatuteId.

(* ------------------------------------------------------------------ *)
(** ** scripts/build-db.ts: seed provisions *)

Module BuildDb.

Record ProvisionSeed : Type := {
  provision_ref : jsstring;
  chapter : option jsstring;
  seed_section : jsstring;
  seed_title : option jsstring;
  content : jsstring;
  valid_from : option jsstring;
  valid_to : option jsstring
}.

Definition normalizeWhitespace (text : jsstring) : jsstring :=
  trim (replace_runs is_ws [cSPACE] text).

(** [{ ...prov, provision_ref: ref }] *)
Definition with_ref (prov : ProvisionSeed) (ref : jsstring) : ProvisionSeed :=
  {| provision_ref := ref; chapter := chapter prov;
     seed_section := seed_section prov; seed_title := seed_title prov;
     content := content prov; valid_from := valid_from prov;
     valid_to := valid_to prov |}.

(** A JavaScript [Map] from strings: entries in insertion order; [set] on a
    key already present replaces the value where it stands. *)
Fixpoint map_get (m : list (jsstring * ProvisionSeed)) (key : jsstring)
  : option ProvisionSeed :=
  match m with
  | [] => None
  | (k, v) :: tl => if str_eqb k key then Some v else map_get tl key
  end.

Fixpoint map_set (m : list (jsstring * ProvisionSeed)) (key : jsstring)
         (value : ProvisionSeed) : list (jsstring * ProvisionSeed) :=
  match m with
  | [] => [(key, value)]
  | (k, v) :: tl =>
      if str_eqb k key then (k, value) :: tl else (k, v) :: map_set tl key value
  end.

Definition content_length (prov : ProvisionSeed) : nat :=
  List.length (normalizeWhitespace (content prov)).

Definition dedupe_step (byRef : list (jsstring * ProvisionSeed))
           (prov : ProvisionSeed) : list (jsstring * ProvisionSeed) :=
  let ref := trim (provision_ref prov) in
  match map_get byRef ref with
  | None => map_set byRef ref (with_ref prov ref)
  | Some existing =>
      if Nat.ltb (content_length existing) (content_length prov)
      then map_set byRef ref (with_ref prov ref)
      else byRef
  end.

Definition dedupeProvisions (provisions : list ProvisionSeed) : list ProvisionSeed :=
  map snd (fold_left dedupe_step provisions []).

End BuildDb.

(* ------------------------------------------------------------------ *)
(** ** scripts/ingest.ts: provisions from fetched articles *)

Module Ingest.

Record FetchedArticle : Type := {
  art_id : jsstring;
  art_num : jsstring;
  art_title : jsstring;
  art_content : jsstring;
  art_dateDebut : option jsstring;
  art_dateFin : option jsstring;
  art_etat : jsstring;
  art_codeId : option jsstring;
  art_codeName : option jsstring;
  art_url : option jsstring
}.

Record SeedProvision : Type := {
  sp_provision_ref : jsstring;
  sp_chapter : option jsstring;
  sp_section : jsstring;
  sp_title : jsstring;
  sp_content : jsstring
}.

Record SeedDocument : Type := {
  sd_id : jsstring;
  sd_title : jsstring;
  sd_title_en : option jsstring;
  sd_short_name : option jsstring;
  sd_status : jsstring;
  sd_issued_date : option jsstring;
  sd_in_force_date : option jsstring;
  sd_url : jsstring;
  sd_description : option jsstring;
  sd_provisions : list SeedProvision
}.

(** [x || y] on strings. *)
Definition or_else (x y : jsstring) : jsstring := if truthy x then x else y.

(** The [articles.map((art, index) => ...)] of [apiArticlesToSeed]; [index]
    is the position of the first article of [articles]. *)
Fixpoint seed_provisions (index : N) (articles : list FetchedArticle)
  : list SeedProvision :=
  match articles with
  | [] => []
  | art :: tl =>
      let normalized := normalizeArticleNum (art_num art) in
      {| sp_provision_ref := lit "art" ++ normalized;
         sp_chapter := None;
         sp_section := or_else normalized (LegiDate.string_of_N (index + 1));
         sp_title := or_else (art_title art) (articleTitle (art_num art));
         sp_content := art_content art |}
      :: seed_provisions (index + 1) tl
  end.

(** [{ ...config.manualSeed, provisions }] *)
Definition apiArticlesToSeed (manualSeed : SeedDocument)
           (articles : list FetchedArticle) : SeedDocument :=
  {| sd_id := sd_id manualSeed; sd_title := sd_title manualSeed;
     sd_title_en := sd_title_en manualSeed;
     sd_short_name := sd_short_name manualSeed;
     sd_status := sd_status manualSeed;
     sd_issued_date := sd_issued_date manualSeed;
     sd_in_force_date := sd_in_force_date manualSeed;
     sd_url := sd_url manualSeed;
     sd_description := sd_description manualSeed;
     sd_provisions := seed_provisions 0 articles |}.

End Ingest.

(* ------------------------------------------------------------------ *)
(** ** A small database used by the examples *)

Definition db0 : Database :=
  {| legal_documents :=
       [ {| d_id := lit "code-penal"; d_title := lit "Code pénal";
            d_short_name := None; d_status := lit "in_force" |};
         {| d_id := lit "code-defense"; d_title := lit "Code de la défense";
            d_short_name := None; d_status := lit "in_force" |} ];
     legal_provisions :=
       [ {| p_document_id := lit "code-penal"; p_provision_ref := lit "art323-1";
            p_section := lit "323-1" |};
         {| p_document_id := lit "code-defense"; p_provision_ref := lit "artL2321-1";
            p_section := lit "L2321-1" |} ] |}.

(** A seed provision of section 1 with the given reference and content. *)
Definition seed0 (ref text : jsstring) : BuildDb.ProvisionSeed :=
  {| BuildDb.provision_ref := ref; BuildDb.chapter := None;
     BuildDb.seed_section := lit "1"; BuildDb.seed_title := None;
     BuildDb.content := text; BuildDb.valid_from := None;
     BuildDb.valid_to := None |}.

(* ------------------------------------------------------------------ *)
(** ** Closed forms used by the proofs *)

(** State reached after the longest run of code units satisfying [p]. *)
Fixpoint run_state (p : N -> bool) (prev : option N) (rest : jsstring)
         (caps : list (nat * jsstring)) : mstate :=
  match rest with
  | c :: tl => if p c then run_state p (Some c) tl caps else MState prev rest caps
  | [] => MState prev [] caps
  end.

(** Effect of the two anchored replacements of [normalizeArticleNum]: a
    class letter followed by [sep] loses [sep] and the whitespace after it. *)
Definition strip_prefix_sep (sep : N) (s : jsstring) : jsstring :=
  match s with
  | c :: d :: tl =>
      if is_class_letter c && (d =? sep) then c :: drop_while is_ws tl else s
  | _ => s
  end.

Definition remove_ws (s : jsstring) : jsstring :=
  filter (fun c => negb (is_ws c)) s.

(** The string starts with a class letter directly followed by a period or
    an asterisk: the shape the anchored replacements still act on. *)
Definition prefix_sep_head (s : jsstring) : bool :=
  match s with
  | c :: d :: _ => is_class_letter c && ((d =? cDOT) || (d =? cSTAR))
  | _ => false
  end.

(** The separators accepted after the class letter. *)
Definition separators : list jsstring := [[]; [cDOT]; [cSTAR]; [cDOT; cSTAR]].

(** Digits, hyphens and upper-case ASCII letters: the characters that
    every step of the normalisers leaves alone. *)
Definition is_body_char (c : N) : bool :=
  is_digit c || (c =? cHYPHEN) || is_upper c.

(** Article tokens in any spelling.  The body of a token is a digit followed
    by digits, letters and hyphens; before it there may be one letter,
    followed by whitespace, or by whitespace, a period and whitespace.  (The
    letters are those of [[A-Za-z]] under the [i] and [u] flags.)  These
    are the strings of [token_parts], recognised by [article_token]; every
    string that the pattern ARTICLE_TOKEN matches is one of them. *)
Definition is_token_body_char (c : N) : bool := alnum_iu c || (c =? cHYPHEN).

Inductive token_parts : jsstring -> Prop :=
| parts_bare (d : N) (rest : jsstring) :
    is_digit d = true -> forallb is_token_body_char rest = true ->
    token_parts (d :: rest)
| parts_plain (l : N) (ws : jsstring) (d : N) (rest : jsstring) :
    letter_iu l = true -> forallb is_ws ws = true ->
    is_digit d = true -> forallb is_token_body_char rest = true ->
    token_parts (l :: ws ++ d :: rest)
| parts_dot (l : N) (w1 w2 : jsstring) (d : N) (rest : jsstring) :
    letter_iu l = true -> forallb is_ws w1 = true -> forallb is_ws w2 = true ->
    is_digit d = true -> forallb is_token_body_char rest = true ->
    token_parts (l :: w1 ++ cDOT :: w2 ++ d :: rest).

Definition token_body (b : jsstring) : bool :=
  match b with
  | d :: rest => is_digit d && forallb is_token_body_char rest
  | [] => false
  end.

Definition article_token (t : jsstring) : bool :=
  match t with
  | [] => false
  | l :: tl =>
      if letter_iu l then
        token_body
          (drop_while is_ws
             (match drop_while is_ws tl with
              | d :: r => if d =? cDOT then r else d :: r
              | [] => []
              end))
      else token_body t
  end.

(** Upper case of a token character, and the token characters that
    upper-casing leaves alone: all but a to z and U+017F. *)
Definition upper_letter (c : N) : N :=
  if is_lower c then c - 32 else if c =? 383 then 83 else c.

Definition upper_stable (c : N) : bool := negb (is_lower c || (c =? 383)).

Definition has_dot (t : jsstring) : bool := existsb (N.eqb cDOT) t.

Definition dot_follows_head (t : jsstring) : bool :=
  match t with
  | _ :: d :: _ => d =? cDOT
  | _ => false
  end.

(** The tokens on which [normalizeArticleRef] and [normalizeArticleNum]
    agree: no lower-case letter, and the period, if there is one, directly
    after an initial class letter. *)
Definition normalisers_agree (t : jsstring) : bool :=
  forallb upper_stable t
  && (negb (has_dot t)
      || (match t with l :: _ => is_class_letter l | [] => false end
          && dot_follows_head t)).

(** The strings on which [articleTitle] and [buildArticleRef] agree, read
    off the normalised number.  [upper_fixed x]: [x] has no period and
    upper-casing leaves it as it is.  [letter_digit_head p x]: [x] starts
    with a code unit of [p] followed by a digit.  [star_after_class t]: the
    second replacement of [normalizeArticleNum] takes an asterisk out of
    [t].  The renderings agree when no asterisk is taken out and either the
    normalised number starts with a class letter and a digit and what comes
    after the digit is [upper_fixed], or it does not start so, is
    [upper_fixed] as a whole, and does not start with an upper-case letter
    and a digit. *)
Definition remove_dots (x : jsstring) : jsstring :=
  filter (fun c => negb (cDOT =? c)) x.

Definition upper_fixed (x : jsstring) : bool :=
  negb (has_dot x) && str_eqb (toUpperCase x) x.

Definition letter_digit_head (p : N -> bool) (x : jsstring) : bool :=
  match x with
  | c :: d :: _ => p c && is_digit d
  | _ => false
  end.

Definition star_after_class (t : jsstring) : bool :=
  match strip_prefix_sep cDOT t with
  | c :: s :: _ => is_class_letter c && (s =? cSTAR)
  | _ => false
  end.

Definition renderings_agree (t : jsstring) : bool :=
  negb (star_after_class t)
  && (if letter_digit_head is_class_letter (normalizeArticleNum t)
      then upper_fixed (skipn 2 (normalizeArticleNum t))
      else upper_fixed (normalizeArticleNum t)
           && negb (letter_digit_head is_upper (normalizeArticleNum t))).

(** The same on article tokens, character by character: no lower-case
    letter after the first code unit, which is a digit, or a class letter
    in either case whose period, if there is one, follows it directly, or
    U+212A without period. *)
Definition token_renderings_agree (t : jsstring) : bool :=
  match t with
  | [] => false
  | h :: tl =>
      forallb upper_stable tl
      && (is_digit h
          || (is_class_letter h && (negb (has_dot t) || dot_follows_head t))
          || ((h =? 8490) && negb (has_dot t)))
  end.

(** The primary query that the specification describes for explicit syntax:
    the trimmed input with the dangerous characters taken out and nothing
    else changed. *)
Definition spec_explicit_primary (q : jsstring) : jsstring :=
  filter (fun c => negb (FTS5_SPECIAL_CHARS c)) (trim q).

(** The relation tested by the scoring loop between the normalised title
    [target] and one field of a document: the field is not empty, neither is
    its normalised form, and the two normalised strings are equal or one
    contains the other. *)
Definition related (target candidate : jsstring) : bool :=
  truthy candidate && truthy (normalizeLookup candidate)
  && (str_eqb (normalizeLookup candidate) target
      || includes (normalizeLookup candidate) target
      || includes target (normalizeLookup candidate)).

(** Code units that [sanitizeFtsInput] keeps as they are. *)
Definition is_safe_char (c : N) : bool := negb (is_ws c) && negb (FTS5_SPECIAL_CHARS c).

(** The substring captured as the article token by the first pattern of
    [tryParsePatterns] that matches. *)
Definition matchedToken (citation : jsstring) : option jsstring :=
  match exec TITLE_THEN_ARTICLE citation with
  | Some titleFirst => Some (cap 2 titleFirst)
  | None =>
      match exec ARTICLE_THEN_TITLE citation with
      | Some articleFirst => Some (cap 1 articleFirst)
      | None =>
          match exec TITLE_ARTICLE_NO_COMMA citation with
          | Some noComma => Some (cap 2 noComma)
          | None => None
          end
      end
  end.


(** Scenario inputs. *)
Definition scenario1 : jsstring := lit "Code de la défense, art. L. 2321-1".
Definition scenario5 : jsstring := lit "Code imaginaire, art. 1".
Definition scenario6 : jsstring :=
  [cQUOTE] ++ lit "traitement automatisé" ++ [cQUOTE] ++ lit " AND "
  ++ [cQUOTE] ++ lit "données personnelles" ++ [cQUOTE].

(** Declarative reading of the patterns: [reach r st st'] holds when [r] can
    match from the position [st] to the position [st'].  It records what the
    proofs need (the code units consumed and the captures made) and leaves
    out the side conditions of [.] and [\b]; the matcher is sound for it, and
    it is used to bound what a successful match has captured. *)
Inductive reach : regex -> mstate -> mstate -> Prop :=
| reach_empty st : reach Empty st st
| reach_class p st c tl :
    m_rest st = c :: tl -> p c = true -> reach (Class p) st (advance st c tl)
| reach_pair st h l tl :
    m_rest st = h :: l :: tl -> reach AnyPoint st (advance st l tl)
| reach_unit st c tl :
    m_rest st = c :: tl -> reach AnyPoint st (advance st c tl)
| reach_bol st : m_prev st = None -> reach Bol st st
| reach_eol st : m_rest st = [] -> reach Eol st st
| reach_boundary st : reach WordBoundary st st
| reach_seq a b st st1 st2 :
    reach a st st1 -> reach b st1 st2 -> reach (Seq a b) st st2
| reach_alt_left a b st st1 : reach a st st1 -> reach (Alt a b) st st1
| reach_alt_right a b st st1 : reach b st st1 -> reach (Alt a b) st st1
| reach_star_stop g a st : reach (Star g a) st st
| reach_star_step g a st st1 st2 :
    reach a st st1 -> reach (Star g a) st1 st2 -> reach (Star g a) st st2
| reach_group i a st st1 :
    reach a st st1 ->
    reach (Group i a) st
          (MState (m_prev st1) (m_rest st1)
                  ((i, firstn (Nat.sub (List.length (m_rest st))
                                       (List.length (m_rest st1)))
                              (m_rest st)) :: m_caps st1)).

Fixpoint capture_free (r : regex) : bool :=
  match r with
  | Seq a b | Alt a b => capture_free a && capture_free b
  | Star _ a => capture_free a
  | Group _ _ => false
  | _ => true
  end.

(** A string is collapsed for [p] and [sp] when its code units in [p] are
    all [sp] and no two of them are adjacent; [prev_in] tells that the code
    unit before the string is in [p]. *)
Fixpoint collapsed_aux (p : N -> bool) (sp : N) (prev_in : bool) (s : jsstring)
  : bool :=
  match s with
  | [] => true
  | c :: tl =>
      if p c then (c =? sp) && negb prev_in && collapsed_aux p sp true tl
      else collapsed_aux p sp false tl
  end.

(** Neither the first nor the last code unit is whitespace. *)
Definition no_outer_ws (s : jsstring) : bool :=
  match s with
  | [] => true
  | c :: _ => negb (is_ws c) && negb (is_ws (last s c))
  end.

(** Code units that [normalizeLookup] may return. *)
Definition is_lookup_char (c : N) : bool := is_lower c || is_digit c || (c =? cSPACE).

(** Code units of a token matched by ARTICLE_TOKEN, and of the token that
    [normalizeArticleRef] makes of it. *)
Definition is_token_in_char (c : N) : bool :=
  letter_iu c || is_ws c || (c =? cDOT) || is_digit c || (c =? cHYPHEN).

Definition is_section_char (c : N) : bool :=
  is_upper c || is_digit c || (c =? cHYPHEN) || (c =? 8490).

(** Every character class of [r] lies within [q], and [r] has no dot. *)
Fixpoint class_within (q : N -> bool) (r : regex) : Prop :=
  match r with
  | Class p => forall c, p c = true -> q c = true
  | AnyPoint => False
  | Seq a b | Alt a b => class_within q a /\ class_within q b
  | Star _ a | Group _ a => class_within q a
  | _ => True
  end.

(** The shape YYYY-MM-DD. *)
Definition is_iso_date (s : jsstring) : bool :=
  match s with
  | [y1; y2; y3; y4; h1; m1; m2; h2; d1; d2] =>
      forallb is_digit [y1; y2; y3; y4; m1; m2; d1; d2]
      && (cHYPHEN =? h1) && (cHYPHEN =? h2)
  | _ => false
  end.

(** Eight digits. *)
Definition is_compact_date (s : jsstring) : bool :=
  Nat.eqb (List.length s) 8 && forallb is_digit s.

(** The date read from a trimmed text, by position. *)
Definition legi_date_of (s : jsstring) : option jsstring :=
  if is_iso_date s then
    if starts_with (lit "2999") s then None else Some s
  else if is_compact_date s then
    if str_eqb (LegiDate.slice 0 4 s) (lit "2999") then None
    else Some (LegiDate.slice 0 4 s ++ [cHYPHEN] ++ LegiDate.slice 4 6 s
               ++ [cHYPHEN] ++ LegiDate.slice 6 8 s)
  else None.

(** The ISO print of an archive token, by position. *)
Definition archive_iso (s : jsstring) : jsstring :=
  LegiDate.slice 0 4 s ++ [cHYPHEN] ++ LegiDate.slice 4 6 s ++ [cHYPHEN]
  ++ LegiDate.slice 6 8 s ++ lit "T" ++ LegiDate.slice 9 11 s ++ [cCOLON]
  ++ LegiDate.slice 11 13 s ++ [cCOLON] ++ LegiDate.slice 13 15 s ++ lit "Z".

(** The shape YYYYMMDD-HHMMSS. *)
Definition is_archive_token (s : jsstring) : bool :=
  match s with
  | [y1; y2; y3; y4; m1; m2; d1; d2; h; h1; h2; n1; n2; s1; s2] =>
      forallb is_digit [y1; y2; y3; y4; m1; m2; d1; d2; h1; h2; n1; n2; s1; s2]
      && (cHYPHEN =? h)
  | _ => false
  end.

(** What the scoring loop holds after the documents [seen]: nothing yet, or
    the first document of highest score among them. *)
Definition best_so_far (target : jsstring) (seen : list LegalDocument)
           (acc : option LegalDocument * Z) : Prop :=
  match fst acc with
  | None => seen = [] /\ snd acc = (-1)%Z
  | Some d =>
      snd acc = score_doc target d
      /\ exists l1 l2, seen = l1 ++ d :: l2
           /\ (forall x, In x l1 -> (score_doc target x < score_doc target d)%Z)
           /\ (forall x, In x l2 -> (score_doc target x <= score_doc target d)%Z)
  end.

(** What the loop of [dedupeProvisions] holds after the provisions [seen]:
    distinct keys; every entry stored under its own reference and made from
    a provision seen, with the reference trimmed; every provision seen
    represented by an entry whose content is at least as long; no more
    entries than provisions. *)
Definition dedupe_invariant (seen : list BuildDb.ProvisionSeed)
           (m : list (jsstring * BuildDb.ProvisionSeed)) : Prop :=
  NoDup (map fst m)
  /\ (forall k x, In (k, x) m ->
        BuildDb.provision_ref x = k
        /\ exists p, In p seen /\ trim (BuildDb.provision_ref p) = k
                     /\ x = BuildDb.with_ref p k)
  /\ (forall p, In p seen ->
        exists v, BuildDb.map_get m (trim (BuildDb.provision_ref p)) = Some v
                  /\ (BuildDb.content_length p <= BuildDb.content_length v)%nat)
  /\ (List.length m <= List.length seen)%nat.

(** A provision as [apiArticlesToSeed] makes it: a section and a title that
    are not empty, a reference without whitespace that trimming leaves as it
    is, made of the text art and the section, or of the text art alone. *)
Definition provision_well_formed (p : Ingest.SeedProvision) : Prop :=
  Ingest.sp_section p <> []
  /\ Ingest.sp_title p <> []
  /\ forallb (fun c => negb (is_ws c)) (Ingest.sp_provision_ref p) = true
  /\ trim (Ingest.sp_provision_ref p) = Ingest.sp_provision_ref p
  /\ (Ingest.sp_provision_ref p = lit "art" ++ Ingest.sp_section p
      \/ Ingest.sp_provision_ref p = lit "art").

(** Boolean tests on code units turned into arithmetic. *)
Ltac bool_to_prop :=
  repeat first
    [ rewrite orb_true_iff | rewrite andb_true_iff
    | rewrite orb_false_iff | rewrite andb_false_iff
    | rewrite negb_true_iff | rewrite negb_false_iff
    | rewrite N.leb_le | rewrite N.leb_gt
    | rewrite N.eqb_eq | rewrite N.eqb_neq ].

Ltac bool_to_prop_in H :=
  repeat first
    [ rewrite orb_true_iff in H | rewrite andb_true_iff in H
    | rewrite orb_false_iff in H | rewrite andb_false_iff in H
    | rewrite negb_true_iff in H | rewrite negb_false_iff in H
    | rewrite N.leb_le in H | rewrite N.leb_gt in H
    | rewrite N.eqb_eq in H | rewrite N.eqb_neq in H ].

(** Evaluation of the matcher on a string of known length, test by test. *)
Ltac eval_match :=
  cbn [rmatch m_rest m_caps m_prev advance forallb andb];
  repeat match goal with
         | |- context [is_digit ?c] =>
             destruct (is_digit c);
             cbn [rmatch m_rest m_caps m_prev advance forallb andb];
             try reflexivity
         | |- context [cHYPHEN =? ?c] =>
             destruct (cHYPHEN =? c);
             cbn [rmatch m_rest m_caps m_prev advance forallb andb];
             try reflexivity
         end;
  try (repeat first [rewrite andb_false_r | rewrite andb_true_r];
       cbn [andb]; reflexivity).

(* ------------------------------------------------------------------ *)
(** ** Lemmas on strings *)

Section StringFacts.

Variable p : N -> bool.

Lemma replace_runs_aux_nil : forall s b,
  replace_runs_aux p [] b s = filter (fun c => negb (p c)) s.
Proof.
  induction s as [|c tl IH]; intros b; simpl; [reflexivity|].
  destruct (p c); simpl.
  - destruct b; simpl; apply IH.
  - f_equal. apply IH.
Qed.

Lemma replace_runs_nil : forall s,
  replace_runs p [] s = filter (fun c => negb (p c)) s.
Proof. intros s. apply replace_runs_aux_nil. Qed.

Lemma replace_each_nil : forall s,
  replace_each p [] s = filter (fun c => negb (p c)) s.
Proof.
  induction s as [|c tl IH]; simpl; [reflexivity|].
  destruct (p c); simpl; [apply IH | f_equal; apply IH].
Qed.

Lemma drop_while_app_all : forall ws s,
  forallb p ws = true -> drop_while p (ws ++ s) = drop_while p s.
Proof.
  induction ws as [|w tl IH]; intros s H; simpl in *; [reflexivity|].
  apply andb_true_iff in H as [Hw Htl]. rewrite Hw. now apply IH.
Qed.

Lemma drop_while_head_false : forall c s,
  p c = false -> drop_while p (c :: s) = c :: s.
Proof. intros c s H. simpl. now rewrite H. Qed.

Lemma filter_neg_all : forall ws,
  forallb p ws = true -> filter (fun c => negb (p c)) ws = [].
Proof.
  induction ws as [|w tl IH]; intros H; simpl in *; [reflexivity|].
  apply andb_true_iff in H as [Hw Htl]. rewrite Hw. simpl. now apply IH.
Qed.

Lemma filter_neg_id : forall s,
  forallb (fun c => negb (p c)) s = true -> filter (fun c => negb (p c)) s = s.
Proof.
  induction s as [|c tl IH]; intros H; simpl in *; [reflexivity|].
  apply andb_true_iff in H as [Hc Htl]. rewrite Hc. f_equal. now apply IH.
Qed.

Lemma filter_neg_forallb : forall s,
  forallb (fun c => negb (p c)) (filter (fun c => negb (p c)) s) = true.
Proof.
  induction s as [|c tl IH]; simpl; [reflexivity|].
  destruct (p c) eqn:E; simpl; [assumption|]. now rewrite E.
Qed.

Lemma drop_while_none : forall s,
  forallb (fun c => negb (p c)) s = true -> drop_while p s = s.
Proof.
  intros [|c tl] H; simpl in *; [reflexivity|].
  apply andb_true_iff in H as [Hc _]. apply negb_true_iff in Hc. now rewrite Hc.
Qed.

Lemma In_drop_while : forall c s,
  In c s -> p c = false -> In c (drop_while p s).
Proof.
  induction s as [|x tl IH]; intros Hin Hc; simpl in *; [assumption|].
  destruct (p x) eqn:E.
  - destruct Hin as [->|Hin]; [congruence | now apply IH].
  - exact Hin.
Qed.

Lemma filter_drop_while : forall s,
  filter (fun c => negb (p c)) (drop_while p s) = filter (fun c => negb (p c)) s.
Proof.
  induction s as [|c tl IH]; simpl; [reflexivity|].
  destruct (p c) eqn:E; simpl; [exact IH | now rewrite E].
Qed.

End StringFacts.

Lemma forallb_rev : forall (q : N -> bool) s, forallb q (rev s) = forallb q s.
Proof.
  intros q s. induction s as [|c tl IH]; simpl; [reflexivity|].
  rewrite forallb_app, IH. simpl. rewrite andb_true_r. apply andb_comm.
Qed.

Lemma filter_rev : forall (q : N -> bool) s, filter q (rev s) = rev (filter q s).
Proof.
  intros q s. induction s as [|c tl IH]; simpl; [reflexivity|].
  rewrite filter_app, IH. simpl. destruct (q c); simpl; [reflexivity|].
  now rewrite app_nil_r.
Qed.

Lemma trim_no_ws : forall s,
  forallb (fun c => negb (is_ws c)) s = true -> trim s = s.
Proof.
  intros s H. unfold trim, trimEnd, trimStart.
  rewrite (drop_while_none is_ws s H).
  rewrite drop_while_none by (now rewrite forallb_rev).
  apply rev_involutive.
Qed.

Lemma In_trim : forall c s, In c s -> is_ws c = false -> In c (trim s).
Proof.
  intros c s Hin Hc. unfold trim, trimEnd, trimStart.
  apply in_rev. rewrite rev_involutive.
  apply In_drop_while; [|assumption].
  apply in_rev. rewrite rev_involutive.
  now apply In_drop_while.
Qed.

Lemma filter_trim : forall s,
  filter (fun c => negb (is_ws c)) (trim s) = filter (fun c => negb (is_ws c)) s.
Proof.
  intros s. unfold trim, trimEnd, trimStart.
  rewrite <- (rev_involutive (filter _ (rev _))).
  rewrite <- filter_rev, rev_involutive, filter_drop_while.
  rewrite filter_rev, rev_involutive. apply filter_drop_while.
Qed.

Lemma truthy_false : forall s, truthy s = false -> s = [].
Proof. now intros [|c tl]. Qed.

Lemma truthy_true : forall s, truthy s = true <-> s <> [].
Proof. intros [|c tl]; simpl; split; congruence. Qed.

Lemma str_eqb_refl : forall s, str_eqb s s = true.
Proof. induction s as [|c tl IH]; simpl; [reflexivity|]. now rewrite N.eqb_refl. Qed.

(* ------------------------------------------------------------------ *)
(** ** Lemmas on the matcher *)

Section MatcherFacts.

Variable k : mstate -> option mstate.

Lemma star_loop_class_greedy : forall p step fuel st res,
  (forall k0 st0, step k0 st0 = rmatch (Class p) k0 st0) ->
  (List.length (m_rest st) < fuel)%nat ->
  k (run_state p (m_prev st) (m_rest st) (m_caps st)) = Some res ->
  star_loop step true k fuel st = Some res.
Proof.
  intros p step fuel st res Hstep. revert st res.
  induction fuel as [|fuel IH]; intros [prev rest caps] res Hlt Hk;
    simpl in Hlt, Hk; [lia|].
  cbn [star_loop]. rewrite Hstep. cbn [rmatch m_rest].
  destruct rest as [|c tl]; simpl in Hk.
  - exact Hk.
  - destruct (p c) eqn:E.
    + assert (Hl : Nat.ltb (List.length tl) (List.length (c :: tl)) = true)
        by (apply Nat.ltb_lt; simpl; lia).
      unfold advance. cbn [m_rest m_caps]. rewrite Hl.
      rewrite (IH (MState (Some c) tl caps) res); simpl;
        [reflexivity | simpl in Hlt; lia | exact Hk].
    + exact Hk.
Qed.

Lemma rmatch_star_class : forall p st res,
  k (run_state p (m_prev st) (m_rest st) (m_caps st)) = Some res ->
  rmatch (Star true (Class p)) k st = Some res.
Proof.
  intros p st res H. cbn [rmatch].
  apply star_loop_class_greedy with (p := p); [reflexivity|lia|exact H].
Qed.

Lemma rmatch_CLASS_LETTER : forall st,
  rmatch CLASS_LETTER k st =
  match m_rest st with
  | c :: tl => if is_class_letter c then k (advance st c tl) else None
  | [] => None
  end.
Proof.
  intros st. unfold CLASS_LETTER, ci, is_class_letter. simpl.
  destruct (m_rest st) as [|c tl]; [reflexivity|].
  unfold cL, cR, cD, cA.
  repeat match goal with
         | |- context [c =? ?b] => destruct (c =? b); simpl
         end;
    try reflexivity; destruct (k _); reflexivity.
Qed.

Lemma rmatch_bol_inside : forall r st c,
  m_prev st = Some c -> rmatch (Seq Bol r) k st = None.
Proof. intros r st c H. simpl. now rewrite H. Qed.

End MatcherFacts.

Lemma firstn_sub_cons : forall (c : N) tl,
  firstn (Nat.sub (List.length (c :: tl)) (List.length tl)) (c :: tl) = [c].
Proof.
  intros c tl.
  replace (Nat.sub (List.length (c :: tl)) (List.length tl)) with 1%nat
    by (change (List.length (c :: tl)) with (S (List.length tl)); lia).
  reflexivity.
Qed.

Lemma exec_from_bol : forall r s pre,
  pre <> [] -> exec_from (Seq Bol r) pre s = None.
Proof.
  intros r. induction s as [|c tl IH]; intros pre Hpre;
    destruct pre as [|x pre']; try congruence.
  - reflexivity.
  - change (exec_from (Seq Bol r) (x :: pre') (c :: tl))
      with (match rmatch (Seq Bol r) Some (MState (Some x) (c :: tl) []) with
            | Some st =>
                Some (MatchResult (rev (x :: pre'))
                        (firstn (Nat.sub (List.length (c :: tl))
                                         (List.length (m_rest st))) (c :: tl))
                        (m_rest st) (m_caps st))
            | None => exec_from (Seq Bol r) (c :: x :: pre') tl
            end).
    rewrite (rmatch_bol_inside Some r (MState (Some x) (c :: tl) []) x) by reflexivity.
    apply IH. congruence.
Qed.

(** An anchored pattern matches at the start of the input or nowhere. *)
Lemma exec_bol : forall r s,
  exec (Seq Bol r) s =
  match rmatch r Some (MState None s []) with
  | Some st =>
      Some (MatchResult []
              (firstn (Nat.sub (List.length s) (List.length (m_rest st))) s)
              (m_rest st) (m_caps st))
  | None => None
  end.
Proof.
  intros r s. unfold exec.
  destruct s as [|c tl]; simpl.
  - destruct (rmatch r Some _); reflexivity.
  - destruct (rmatch r Some _); [reflexivity|].
    apply exec_from_bol. congruence.
Qed.

Lemma m_rest_run_state : forall p prev rest caps,
  m_rest (run_state p prev rest caps) = drop_while p rest.
Proof.
  intros p prev rest. revert prev.
  induction rest as [|c tl IH]; intros prev caps; simpl; [reflexivity|].
  destruct (p c); [apply IH | reflexivity].
Qed.

Lemma m_caps_run_state : forall p prev rest caps,
  m_caps (run_state p prev rest caps) = caps.
Proof.
  intros p prev rest. revert prev.
  induction rest as [|c tl IH]; intros prev caps; simpl; [reflexivity|].
  destruct (p c); [apply IH | reflexivity].
Qed.

(* ------------------------------------------------------------------ *)
(** ** The article number normaliser in closed form *)

Lemma rmatch_prefix_sep : forall sep s,
  rmatch (SeqAll [Group 1 CLASS_LETTER; Chr sep; Star true (Class is_ws)])
         Some (MState None s []) =
  match s with
  | c :: d :: tl =>
      if is_class_letter c && (d =? sep)
      then Some (run_state is_ws (Some d) tl [(1%nat, [c])])
      else None
  | _ => None
  end.
Proof.
  intros sep s. cbn [SeqAll]. unfold Chr. cbn [rmatch].
  rewrite rmatch_CLASS_LETTER. cbn [m_rest].
  destruct s as [|c tl]; [reflexivity|].
  destruct (is_class_letter c); [|destruct tl; reflexivity].
  unfold advance. cbn [m_rest m_prev m_caps]. rewrite firstn_sub_cons.
  destruct tl as [|d tl]; [reflexivity|].
  rewrite (N.eqb_sym sep d). cbn [andb].
  destruct (d =? sep); [|reflexivity].
  unfold advance. cbn [m_caps].
  change (star_loop (rmatch (Class is_ws)) true Some
            (S (List.length (m_rest (MState (Some d) tl [(1%nat, [c])]))))
            (MState (Some d) tl [(1%nat, [c])]))
    with (rmatch (Star true (Class is_ws)) Some (MState (Some d) tl [(1%nat, [c])])).
  apply rmatch_star_class. reflexivity.
Qed.

Lemma replace_prefix_sep : forall sep s,
  replace_first_by_group1
    (SeqAll [Bol; Group 1 CLASS_LETTER; Chr sep; Star true (Class is_ws)]) s
  = strip_prefix_sep sep s.
Proof.
  intros sep s. unfold replace_first_by_group1.
  change (SeqAll [Bol; Group 1 CLASS_LETTER; Chr sep; Star true (Class is_ws)])
    with (Seq Bol (SeqAll [Group 1 CLASS_LETTER; Chr sep; Star true (Class is_ws)])).
  rewrite exec_bol, rmatch_prefix_sep. unfold strip_prefix_sep.
  destruct s as [|c [|d tl]]; try reflexivity.
  destruct (is_class_letter c && (d =? sep)); [|reflexivity].
  unfold group. cbn [before after groups].
  rewrite m_rest_run_state, m_caps_run_state. reflexivity.
Qed.

(** [normalizeArticleNum] strips a period, then an asterisk, after a leading
    class letter, and removes all whitespace. *)
Lemma normalizeArticleNum_closed : forall raw,
  normalizeArticleNum raw =
  remove_ws (strip_prefix_sep cSTAR (strip_prefix_sep cDOT raw)).
Proof.
  intros raw. unfold normalizeArticleNum.
  destruct raw as [|c tl]; [reflexivity|]. cbn [truthy negb].
  unfold PREFIX_DOT, PREFIX_STAR. rewrite !replace_prefix_sep.
  rewrite replace_runs_nil. unfold remove_ws.
  apply trim_no_ws. apply filter_neg_forallb.
Qed.

Lemma ws_not_sep : forall x, is_ws x = true -> (x =? cDOT) = false /\ (x =? cSTAR) = false.
Proof.
  intros x H. split.
  - destruct (N.eqb_spec x cDOT) as [->|]; [vm_compute in H; discriminate|reflexivity].
  - destruct (N.eqb_spec x cSTAR) as [->|]; [vm_compute in H; discriminate|reflexivity].
Qed.

Lemma in_range_spec : forall lo hi c, in_range lo hi c = true <-> lo <= c <= hi.
Proof.
  intros lo hi c. unfold in_range.
  rewrite andb_true_iff, !N.leb_le. tauto.
Qed.

Lemma in_range_false : forall lo hi c, in_range lo hi c = false <-> c < lo \/ hi < c.
Proof.
  intros lo hi c. unfold in_range.
  rewrite andb_false_iff, !N.leb_gt. tauto.
Qed.

Lemma digit_not_sep : forall d, is_digit d = true ->
  (d =? cDOT) = false /\ (d =? cSTAR) = false /\ is_ws d = false.
Proof.
  intros d H. apply in_range_spec in H. unfold cDOT, cSTAR, is_ws, in_range.
  repeat split;
    repeat match goal with
           | |- _ || _ = false => apply orb_false_iff; split
           | |- _ && _ = false => apply andb_false_iff
           | |- (_ =? _) = false => apply N.eqb_neq; lia
           end.
  - right. apply N.leb_gt. lia.
  - left. apply N.leb_gt. lia.
Qed.

Lemma class_letter_cases : forall c, is_class_letter c = true ->
  In c [76; 108; 82; 114; 68; 100; 65; 97].
Proof.
  intros c H. unfold is_class_letter, cL, cR, cD, cA in H. simpl in H.
  repeat (apply orb_true_iff in H as [H|H]);
    try discriminate; apply N.eqb_eq in H; subst; simpl; tauto.
Qed.

Lemma class_letter_not_ws : forall c, is_class_letter c = true -> is_ws c = false.
Proof.
  intros c H. apply class_letter_cases in H. simpl in H.
  repeat (destruct H as [<-|H]; [reflexivity|]). contradiction.
Qed.

Lemma strip_prefix_sep_keep : forall sep c y,
  match y with x :: _ => (x =? sep) = false | [] => True end ->
  strip_prefix_sep sep (c :: y) = c :: y.
Proof.
  intros sep c [|x tl] H; simpl; [reflexivity|].
  rewrite H, andb_false_r. reflexivity.
Qed.

Lemma ws_digit_head : forall ws d rest,
  forallb is_ws ws = true -> is_digit d = true ->
  match ws ++ d :: rest with
  | x :: _ => (x =? cDOT) = false /\ (x =? cSTAR) = false
  | [] => True
  end.
Proof.
  intros [|w ws] d rest Hws Hd; simpl in *.
  - destruct (digit_not_sep d Hd) as (H1 & H2 & _). now split.
  - apply andb_true_iff in Hws as [Hw _]. now apply ws_not_sep.
Qed.

Lemma remove_ws_ws_digit : forall ws d rest,
  forallb is_ws ws = true -> is_digit d = true ->
  remove_ws (ws ++ d :: rest) = d :: remove_ws rest.
Proof.
  intros ws d rest Hws Hd. unfold remove_ws.
  rewrite filter_app, (filter_neg_all is_ws ws Hws). simpl.
  destruct (digit_not_sep d Hd) as (_ & _ & H). now rewrite H.
Qed.

Lemma drop_ws_digit : forall ws d rest,
  forallb is_ws ws = true -> is_digit d = true ->
  drop_while is_ws (ws ++ d :: rest) = d :: rest.
Proof.
  intros ws d rest Hws Hd. rewrite drop_while_app_all by assumption.
  apply drop_while_head_false. now destruct (digit_not_sep d Hd) as (_ & _ & H).
Qed.

(** The normaliser on a class letter, a separator, whitespace and a digit. *)
Lemma normalizeArticleNum_shape : forall c d sep ws rest,
  is_class_letter c = true ->
  In sep separators ->
  forallb is_ws ws = true ->
  is_digit d = true ->
  normalizeArticleNum (c :: sep ++ ws ++ d :: rest) = c :: d :: remove_ws rest.
Proof.
  intros c d sep ws rest Hc Hsep Hws Hd.
  rewrite normalizeArticleNum_closed.
  pose proof (ws_digit_head ws d rest Hws Hd) as Hhead.
  pose proof (digit_not_sep d Hd) as (Hd1 & Hd2 & Hd3).
  pose proof (class_letter_not_ws c Hc) as Hcw.
  assert (Hfin : remove_ws (c :: d :: rest) = c :: d :: remove_ws rest).
  { unfold remove_ws. simpl. now rewrite Hcw, Hd3. }
  unfold separators in Hsep. simpl in Hsep.
  destruct Hsep as [<-|[<-|[<-|[<-|[]]]]]; cbn [app].
  - rewrite !strip_prefix_sep_keep
      by (destruct (ws ++ d :: rest); [exact I | tauto]).
    unfold remove_ws. cbn [filter]. rewrite Hcw. cbn [negb]. f_equal.
    now apply remove_ws_ws_digit.
  - unfold strip_prefix_sep at 2. rewrite Hc, N.eqb_refl. cbn [andb].
    rewrite drop_ws_digit by assumption.
    rewrite strip_prefix_sep_keep by exact Hd2. exact Hfin.
  - rewrite strip_prefix_sep_keep by reflexivity.
    unfold strip_prefix_sep. rewrite Hc, N.eqb_refl. cbn [andb].
    rewrite drop_ws_digit by assumption. exact Hfin.
  - unfold strip_prefix_sep at 2. rewrite Hc, N.eqb_refl. cbn [andb].
    rewrite drop_while_head_false by reflexivity.
    unfold strip_prefix_sep. rewrite Hc, N.eqb_refl. cbn [andb].
    rewrite drop_ws_digit by assumption. exact Hfin.
Qed.

(* ------------------------------------------------------------------ *)
(** ** Fixed points of the normaliser *)

Lemma drop_while_length : forall (p : N -> bool) s,
  (List.length (drop_while p s) <= List.length s)%nat.
Proof.
  intros p. induction s as [|c tl IH]; simpl; [lia|].
  destruct (p c); simpl; lia.
Qed.

Lemma strip_prefix_sep_length : forall sep s,
  (List.length (strip_prefix_sep sep s) <= List.length s)%nat.
Proof.
  intros sep [|c [|d tl]]; simpl; try lia.
  destruct (is_class_letter c && (d =? sep)); simpl; [|lia].
  pose proof (drop_while_length is_ws tl). lia.
Qed.

Lemma strip_prefix_sep_shorter : forall sep c tl,
  is_class_letter c = true ->
  (List.length (strip_prefix_sep sep (c :: sep :: tl)) < List.length (c :: sep :: tl))%nat.
Proof.
  intros sep c tl Hc. simpl. rewrite Hc, N.eqb_refl. simpl.
  pose proof (drop_while_length is_ws tl). lia.
Qed.

Lemma remove_ws_length : forall s, (List.length (remove_ws s) <= List.length s)%nat.
Proof. intros s. apply filter_length_le. Qed.

Lemma remove_ws_fixed : forall s, remove_ws (remove_ws s) = remove_ws s.
Proof.
  intros s. unfold remove_ws. apply filter_neg_id. apply filter_neg_forallb.
Qed.

Lemma normalizeArticleNum_no_ws : forall s,
  forallb (fun c => negb (is_ws c)) (normalizeArticleNum s) = true.
Proof.
  intros s. rewrite normalizeArticleNum_closed. apply filter_neg_forallb.
Qed.

(** A whitespace-free string without a pending separator is left alone. *)
Lemma normalizeArticleNum_fixed : forall x,
  forallb (fun c => negb (is_ws c)) x = true ->
  prefix_sep_head x = false ->
  normalizeArticleNum x = x.
Proof.
  intros x Hws Hhead. rewrite normalizeArticleNum_closed.
  assert (Hdot : strip_prefix_sep cDOT x = x).
  { destruct x as [|c [|d tl]]; try reflexivity. simpl in *.
    destruct (is_class_letter c); [|reflexivity]. simpl in *.
    apply orb_false_iff in Hhead as [-> _]. reflexivity. }
  assert (Hstar : strip_prefix_sep cSTAR x = x).
  { destruct x as [|c [|d tl]]; try reflexivity. simpl in *.
    destruct (is_class_letter c); [|reflexivity]. simpl in *.
    apply orb_false_iff in Hhead as [_ ->]. reflexivity. }
  rewrite Hdot, Hstar. unfold remove_ws. now apply filter_neg_id.
Qed.

(** A pending separator is consumed by one more application. *)
Lemma normalizeArticleNum_shrinks : forall x,
  prefix_sep_head x = true ->
  (List.length (normalizeArticleNum x) < List.length x)%nat.
Proof.
  intros x Hhead. rewrite normalizeArticleNum_closed.
  destruct x as [|c [|d tl]]; try discriminate. simpl in Hhead.
  apply andb_true_iff in Hhead as [Hc Hd].
  pose proof (remove_ws_length
                (strip_prefix_sep cSTAR (strip_prefix_sep cDOT (c :: d :: tl)))) as H1.
  apply orb_true_iff in Hd as [Hd|Hd]; apply N.eqb_eq in Hd; subst d.
  - pose proof (strip_prefix_sep_length cSTAR (strip_prefix_sep cDOT (c :: cDOT :: tl))).
    pose proof (strip_prefix_sep_shorter cDOT c tl Hc). lia.
  - rewrite (strip_prefix_sep_keep cDOT c (cSTAR :: tl)) in * by reflexivity.
    pose proof (strip_prefix_sep_shorter cSTAR c tl Hc). lia.
Qed.

(* ------------------------------------------------------------------ *)
(** ** Code points, case mappings and normalisation *)

Lemma code_points_plain : forall s,
  forallb (fun c => c <? 55296) s = true -> code_points s = s.
Proof.
  induction s as [|h tl IH]; intros H; [reflexivity|].
  cbn [forallb] in H. apply andb_true_iff in H as [Hh Htl].
  cbn [code_points].
  assert (Hhigh : is_high_surrogate h = false).
  { apply N.ltb_lt in Hh. unfold is_high_surrogate, in_range. bool_to_prop. lia. }
  rewrite Hhigh. cbn [andb].
  destruct tl as [|l tl']; [reflexivity|]. f_equal. now apply IH.
Qed.

Lemma of_code_points_bmp : forall l,
  forallb (fun c => c <? 65536) l = true -> of_code_points l = l.
Proof.
  induction l as [|c tl IH]; intros H; [reflexivity|].
  cbn [forallb] in H. apply andb_true_iff in H as [Hc Htl].
  unfold of_code_points. cbn [flat_map]. unfold units_of at 1. rewrite Hc.
  cbn [app]. f_equal. now apply IH.
Qed.

Lemma point_find_In : forall tbl c v, point_find tbl c = Some v -> In (c, v) tbl.
Proof.
  induction tbl as [|[k x] tl IH]; intros c v H; simpl in H; [discriminate|].
  destruct (N.eqb_spec k c) as [->|_].
  - injection H as <-. now left.
  - right. now apply IH.
Qed.

Lemma upper_table_bmp :
  forallb (fun kv => (65536 <=? fst kv) || forallb (fun x => x <? 65536) (snd kv))
          upper_table = true.
Proof. vm_compute. reflexivity. Qed.

Lemma upper_point_bmp : forall c,
  c < 65536 -> forallb (fun x => x <? 65536) (upper_point c) = true.
Proof.
  intros c Hc. unfold upper_point.
  destruct (is_lower c) eqn:E1.
  { cbn [forallb]. rewrite andb_true_r. apply N.ltb_lt. lia. }
  destruct (c =? 181); [reflexivity|].
  destruct (c =? 223); [reflexivity|].
  destruct (in_range 224 254 c && negb (c =? 247)) eqn:E2.
  { cbn [forallb]. rewrite andb_true_r. apply N.ltb_lt. lia. }
  destruct (c =? 255); [reflexivity|].
  destruct (c <? 256) eqn:E3.
  { cbn [forallb]. rewrite andb_true_r. apply N.ltb_lt. lia. }
  destruct (point_find upper_table c) as [v|] eqn:E.
  - apply point_find_In in E.
    pose proof upper_table_bmp as Ht. rewrite forallb_forall in Ht.
    specialize (Ht _ E). cbn [fst snd] in Ht.
    apply orb_true_iff in Ht as [Ht|Ht]; [|exact Ht].
    apply N.leb_le in Ht. lia.
  - cbn [forallb]. rewrite andb_true_r. apply N.ltb_lt. lia.
Qed.

(** On a string without surrogates [toUpperCase] works code unit by code
    unit. *)
Lemma toUpperCase_plain : forall s,
  forallb (fun c => c <? 55296) s = true ->
  toUpperCase s = flat_map upper_point s.
Proof.
  intros s H. unfold toUpperCase. rewrite (code_points_plain s H).
  apply of_code_points_bmp. apply forallb_forall. intros x Hx.
  apply in_flat_map in Hx as (c & Hc & Hx).
  rewrite forallb_forall in H. specialize (H c Hc). apply N.ltb_lt in H.
  pose proof (upper_point_bmp c ltac:(lia)) as Hb.
  rewrite forallb_forall in Hb. now apply Hb.
Qed.

(** A code unit that is not a surrogate is a code point of the string. *)
Lemma In_code_points : forall c s,
  c < 55296 -> In c s -> In c (code_points s).
Proof.
  intros c s Hc.
  assert (Hgen : forall n s, (List.length s <= n)%nat -> In c s -> In c (code_points s)).
  { induction n as [|n IH]; intros [|h tl] Hlen Hin; try contradiction.
    - simpl in Hlen. lia.
    - cbn [code_points]. destruct tl as [|l tl'].
      + exact Hin.
      + simpl in Hlen.
        destruct (is_high_surrogate h && is_low_surrogate l) eqn:E.
        * apply andb_true_iff in E as [Eh El].
          unfold is_high_surrogate, is_low_surrogate, in_range in Eh, El.
          bool_to_prop_in Eh. bool_to_prop_in El.
          right. apply IH; [simpl; lia|].
          destruct Hin as [->|[->|Hin]]; [lia | lia | exact Hin].
        * destruct Hin as [->|Hin]; [now left|].
          right. apply IH; [simpl; lia | exact Hin]. }
  intros Hin. now apply (Hgen (List.length s) s).
Qed.

Lemma In_of_code_points : forall c l,
  c < 65536 -> In c l -> In c (of_code_points l).
Proof.
  intros c l Hc Hin. unfold of_code_points. apply in_flat_map.
  exists c. split; [exact Hin|]. unfold units_of.
  replace (c <? 65536) with true by (symmetry; apply N.ltb_lt; lia).
  now left.
Qed.

Lemma In_toUpperCase_fixed : forall d s,
  d < 55296 -> upper_point d = [d] -> In d s -> In d (toUpperCase s).
Proof.
  intros d s Hd Hup Hin. unfold toUpperCase.
  apply In_of_code_points; [lia|]. apply in_flat_map.
  exists d. split; [now apply In_code_points|]. rewrite Hup. now left.
Qed.

Lemma code_points_nonempty : forall s, s <> [] -> code_points s <> [].
Proof.
  intros [|h [|l tl]] H; [now contradiction H | discriminate |].
  cbn [code_points]. destruct (is_high_surrogate h && is_low_surrogate l); discriminate.
Qed.

Lemma of_code_points_nonempty : forall l, l <> [] -> of_code_points l <> [].
Proof.
  intros [|c tl] H; [now contradiction H|].
  unfold of_code_points. cbn [flat_map]. unfold units_of at 1.
  destruct (c <? 65536); discriminate.
Qed.

Lemma lower_table_nonempty :
  forallb (fun kv => match snd kv with [] => false | _ :: _ => true end)
          lower_table = true.
Proof. vm_compute. reflexivity. Qed.

Lemma lower_point_nonempty : forall c, lower_point c <> [].
Proof.
  intros c. unfold lower_point.
  destruct (is_upper c); [discriminate|].
  destruct (in_range 192 222 c && negb (c =? 215)); [discriminate|].
  destruct (c <? 256); [discriminate|].
  destruct (point_find lower_table c) as [v|] eqn:E; [|discriminate].
  apply point_find_In in E.
  pose proof lower_table_nonempty as Ht. rewrite forallb_forall in Ht.
  specialize (Ht _ E). cbn [snd] in Ht. destruct v; [discriminate | discriminate].
Qed.

Lemma toLowerCase_nonempty : forall s, s <> [] -> toLowerCase s <> [].
Proof.
  intros s H. unfold toLowerCase. apply of_code_points_nonempty.
  pose proof (code_points_nonempty s H) as Hc.
  destruct (code_points s) as [|c tl]; [now contradiction Hc|].
  cbn [lower_points].
  destruct (c =? 931).
  - destruct (false && negb (followed_by_cased tl)); discriminate.
  - pose proof (lower_point_nonempty c) as Hl.
    destruct (lower_point c); [now contradiction Hl | discriminate].
Qed.

(** Lower-case ASCII letters, digits and the space are left as they are by
    decomposition, mark removal and lower-casing. *)
Lemma canonical_order_starters : forall l,
  forallb (fun c => combining_class c =? 0) l = true -> canonical_order l = l.
Proof.
  intros l H. unfold canonical_order.
  assert (Hgen : forall l acc,
            forallb (fun c => combining_class c =? 0) l = true ->
            fold_left reorder_step l acc = rev l ++ acc).
  { clear l H. induction l as [|c tl IH]; intros acc H; [reflexivity|].
    cbn [forallb] in H. apply andb_true_iff in H as [Hc Htl].
    cbn [fold_left]. unfold reorder_step at 2. rewrite Hc.
    rewrite (IH _ Htl). cbn [rev]. now rewrite <- app_assoc. }
  rewrite (Hgen l [] H), app_nil_r. apply rev_involutive.
Qed.

Lemma normalizeNFD_ascii : forall s,
  forallb (fun c => c <? 128) s = true -> normalizeNFD s = s.
Proof.
  intros s H. unfold normalizeNFD.
  assert (Hplain : forallb (fun c => c <? 55296) s = true).
  { apply forallb_forall. intros c Hc. rewrite forallb_forall in H.
    specialize (H c Hc). apply N.ltb_lt in H. apply N.ltb_lt. lia. }
  rewrite (code_points_plain s Hplain).
  assert (Hflat : flat_map nfd_point s = s).
  { clear Hplain. induction s as [|c tl IH]; [reflexivity|].
    cbn [forallb] in H. apply andb_true_iff in H as [Hc Htl].
    cbn [flat_map]. unfold nfd_point at 1.
    replace (c <? 192) with true
      by (symmetry; apply N.ltb_lt in Hc; apply N.ltb_lt; lia).
    cbn [app]. f_equal. now apply IH. }
  rewrite Hflat, canonical_order_starters.
  - apply of_code_points_bmp. apply forallb_forall. intros c Hc.
    rewrite forallb_forall in H. specialize (H c Hc).
    apply N.ltb_lt in H. apply N.ltb_lt. lia.
  - apply forallb_forall. intros c Hc.
    rewrite forallb_forall in H. specialize (H c Hc). apply N.ltb_lt in H.
    unfold combining_class.
    replace (c <? 768) with true by (symmetry; apply N.ltb_lt; lia).
    reflexivity.
Qed.

Lemma remove_marks_ascii : forall s,
  forallb (fun c => c <? 128) s = true -> remove_marks s = s.
Proof.
  intros s H. unfold remove_marks.
  assert (Hplain : forallb (fun c => c <? 55296) s = true).
  { apply forallb_forall. intros c Hc. rewrite forallb_forall in H.
    specialize (H c Hc). apply N.ltb_lt in H. apply N.ltb_lt. lia. }
  rewrite (code_points_plain s Hplain).
  assert (Hfilter : filter (fun c => negb (is_mark c)) s = s).
  { clear Hplain. induction s as [|c tl IH]; [reflexivity|].
    cbn [forallb] in H. apply andb_true_iff in H as [Hc Htl].
    cbn [filter]. unfold is_mark at 1.
    replace (c <? 768) with true
      by (symmetry; apply N.ltb_lt in Hc; apply N.ltb_lt; lia).
    cbn [negb]. f_equal. now apply IH. }
  rewrite Hfilter.
  apply of_code_points_bmp. apply forallb_forall. intros c Hc.
  rewrite forallb_forall in H. specialize (H c Hc).
  apply N.ltb_lt in H. apply N.ltb_lt. lia.
Qed.

(* ------------------------------------------------------------------ *)
(** ** Digits, hyphens and upper-case letters *)

Lemma body_char_range : forall x, is_body_char x = true ->
  48 <= x <= 57 \/ x = 45 \/ 65 <= x <= 90.
Proof.
  intros x H. unfold is_body_char, is_digit, is_upper, in_range, cHYPHEN in H.
  bool_to_prop_in H. lia.
Qed.

Lemma body_char_not_ws : forall x, is_body_char x = true -> is_ws x = false.
Proof.
  intros x H. apply body_char_range in H.
  unfold is_ws, in_range. bool_to_prop. lia.
Qed.

Lemma body_char_not_dot : forall x, is_body_char x = true -> (cDOT =? x) = false.
Proof.
  intros x H. apply body_char_range in H. unfold cDOT. bool_to_prop. lia.
Qed.

Lemma body_char_upper : forall x, is_body_char x = true -> upper_point x = [x].
Proof.
  intros x H. apply body_char_range in H. unfold upper_point.
  replace (is_lower x) with false
    by (symmetry; unfold is_lower, in_range; bool_to_prop; lia).
  replace (x =? 181) with false by (symmetry; bool_to_prop; lia).
  replace (x =? 223) with false by (symmetry; bool_to_prop; lia).
  replace (in_range 224 254 x) with false
    by (symmetry; unfold in_range; bool_to_prop; lia).
  replace (x =? 255) with false by (symmetry; bool_to_prop; lia).
  replace (x <? 256) with true by (symmetry; apply N.ltb_lt; lia).
  reflexivity.
Qed.

Lemma digit_is_body : forall d, is_digit d = true -> is_body_char d = true.
Proof. intros d H. unfold is_body_char. now rewrite H. Qed.

Lemma digit_not_class_letter : forall d, is_digit d = true -> is_class_letter d = false.
Proof.
  intros d H. apply in_range_spec in H.
  unfold is_class_letter, cL, cR, cD, cA. simpl. bool_to_prop. lia.
Qed.

Lemma digit_not_upper : forall d, is_digit d = true -> is_upper d = false.
Proof.
  intros d H. apply in_range_spec in H. unfold is_upper, in_range.
  bool_to_prop. lia.
Qed.

Lemma drop_while_split : forall (p : N -> bool) y,
  exists ws, y = ws ++ drop_while p y /\ forallb p ws = true.
Proof.
  intros p. induction y as [|c tl IH]; simpl.
  - exists []. split; reflexivity.
  - destruct (p c) eqn:E.
    + destruct IH as (ws & Heq & Hws). exists (c :: ws). simpl.
      rewrite E, Hws. split; [now rewrite <- Heq | reflexivity].
    + exists []. split; reflexivity.
Qed.

(* ------------------------------------------------------------------ *)
(** ** Prefix splitting in [articleTitle] and [buildArticleRef] *)

Lemma rmatch_seq : forall a b k st,
  rmatch (Seq a b) k st = rmatch a (rmatch b k) st.
Proof. reflexivity. Qed.

Lemma rmatch_group_class : forall i p k st,
  rmatch (Group i (Class p)) k st =
  match m_rest st with
  | c :: tl =>
      if p c then k (MState (Some c) tl ((i, [c]) :: m_caps st)) else None
  | [] => None
  end.
Proof.
  intros i p k [prev rest caps]. cbn [rmatch m_rest m_caps].
  destruct rest as [|c tl]; [reflexivity|].
  destruct (p c); [|reflexivity].
  unfold advance. cbn [m_rest m_prev m_caps]. now rewrite firstn_sub_cons.
Qed.

Lemma run_state_all : forall p rest prev caps,
  forallb p rest = true ->
  exists prev', run_state p prev rest caps = MState prev' [] caps.
Proof.
  intros p. induction rest as [|c tl IH]; intros prev caps H; simpl in *.
  - now exists prev.
  - apply andb_true_iff in H as [Hc Htl]. rewrite Hc. now apply IH.
Qed.

Lemma exec_PREFIX_DIGIT_hit : forall c d rest,
  is_class_letter c = true -> is_digit d = true ->
  exists m, exec PREFIX_DIGIT (c :: d :: rest) = Some m /\ group 1 m = Some [c].
Proof.
  intros c d rest Hc Hd. unfold PREFIX_DIGIT.
  cbn [SeqAll]. rewrite exec_bol.
  rewrite rmatch_seq, rmatch_group_class. cbn [m_rest m_caps].
  rewrite Hc.
  rewrite rmatch_group_class. cbn [m_rest m_caps]. rewrite Hd.
  eexists. split; reflexivity.
Qed.

Lemma exec_PREFIX_DIGIT_miss : forall d rest,
  is_class_letter d = false -> exec PREFIX_DIGIT (d :: rest) = None.
Proof.
  intros d rest Hd. unfold PREFIX_DIGIT.
  cbn [SeqAll]. rewrite exec_bol.
  rewrite rmatch_seq, rmatch_group_class. cbn [m_rest m_caps].
  now rewrite Hd.
Qed.

(** A group made of one code unit of [pd] and a greedy run of [p] that
    reaches the end of the input captures the whole remaining input. *)
Lemma rmatch_group_head_run : forall i pd p k prev d tl caps,
  pd d = true -> forallb p tl = true ->
  exists prev', forall res,
    k (MState prev' [] ((i, d :: tl) :: caps)) = Some res ->
    rmatch (Group i (Seq (Class pd) (Star true (Class p)))) k
           (MState prev (d :: tl) caps) = Some res.
Proof.
  intros i pd p k prev d tl caps Hd Htl.
  destruct (run_state_all p tl (Some d) caps Htl) as (prev' & Hrun).
  exists prev'. intros res Hk.
  cbn [rmatch m_rest]. rewrite Hd. unfold advance. cbn [m_caps m_rest].
  apply star_loop_class_greedy with (p := p).
  - reflexivity.
  - cbn [m_rest]. lia.
  - cbn [m_prev m_rest m_caps]. rewrite Hrun. cbn [m_prev m_rest m_caps].
    rewrite Nat.sub_0_r, firstn_all. exact Hk.
Qed.

Lemma exec_LETTER_DIGITS_hit : forall c d rest,
  is_upper c = true -> is_digit d = true ->
  forallb (fun x => negb (is_line_terminator x)) rest = true ->
  exists m, exec LETTER_DIGITS (c :: d :: rest) = Some m
            /\ cap 1 m = [c] /\ cap 2 m = d :: rest.
Proof.
  intros c d rest Hc Hd Hrest. unfold LETTER_DIGITS.
  cbn [SeqAll]. rewrite exec_bol.
  rewrite rmatch_seq, rmatch_group_class. cbn [m_rest m_caps]. rewrite Hc.
  rewrite rmatch_seq.
  destruct (rmatch_group_head_run 2 is_digit
              (fun x => negb (is_line_terminator x)) (rmatch Eol Some)
              (Some c) d rest [(1%nat, [c])] Hd Hrest) as (prev' & Hrun).
  erewrite Hrun by reflexivity.
  eexists. split; [reflexivity|]. split; reflexivity.
Qed.

Lemma exec_LETTER_DIGITS_miss : forall d rest,
  is_upper d = false -> exec LETTER_DIGITS (d :: rest) = None.
Proof.
  intros d rest Hd. unfold LETTER_DIGITS.
  cbn [SeqAll]. rewrite exec_bol.
  rewrite rmatch_seq, rmatch_group_class. cbn [m_rest m_caps]. now rewrite Hd.
Qed.

(* ------------------------------------------------------------------ *)
(** ** Scored document resolution *)

Section Scoring.

Variable target : jsstring.

Lemma score_candidate_lower : forall score cand,
  (score <= score_candidate target score cand)%Z.
Proof.
  intros score cand. unfold score_candidate.
  repeat match goal with |- context [if ?b then _ else _] => destruct b end; lia.
Qed.

Lemma best_match_nonpositive : forall docs acc,
  (snd acc <= 0)%Z ->
  (forall d, In d docs -> score_doc target d = 0%Z) ->
  (snd (fold_left (best_step target) docs acc) <= 0)%Z.
Proof.
  induction docs as [|d tl IH]; intros acc Hacc Hall; simpl; [exact Hacc|].
  apply IH.
  - unfold best_step. rewrite (Hall d (or_introl eq_refl)).
    destruct (snd acc <? 0)%Z; simpl; lia.
  - intros d' Hd'. apply Hall. now right.
Qed.

Lemma score_candidate_zero : forall cand,
  score_candidate target 0 cand = 0%Z <-> related target cand = false.
Proof.
  intros cand. unfold score_candidate, related.
  destruct (truthy cand); cbn [negb andb]; [|tauto].
  destruct (truthy (normalizeLookup cand)); cbn [negb andb]; [|tauto].
  destruct (str_eqb (normalizeLookup cand) target); cbn [orb];
    [split; [lia | discriminate]|].
  destruct (includes (normalizeLookup cand) target); cbn [orb];
    [split; [lia | discriminate]|].
  destruct (includes target (normalizeLookup cand));
    [split; [lia | discriminate] | tauto].
Qed.

Lemma score_candidate_related : forall score cand,
  related target cand = false -> score_candidate target score cand = score.
Proof.
  intros score cand H. unfold score_candidate. unfold related in H.
  destruct (truthy cand); cbn [negb andb] in *; [|reflexivity].
  destruct (truthy (normalizeLookup cand)); cbn [negb andb] in *; [|reflexivity].
  apply orb_false_iff in H as [H H3]. apply orb_false_iff in H as [H1 H2].
  now rewrite H1, H2, H3.
Qed.

(** A document scores zero exactly when none of its title, short name and
    id is related to the target (empty fields, and fields that normalise to
    the empty string, are skipped). *)
Lemma score_doc_zero_iff : forall doc,
  score_doc target doc = 0%Z
  <-> forallb (fun cand => negb (related target cand)) (doc_candidates doc) = true.
Proof.
  intros doc. unfold score_doc, doc_candidates. cbn [fold_left forallb].
  set (a := d_title doc).
  set (b := match d_short_name doc with Some n => n | None => [] end).
  set (c := d_id doc).
  rewrite andb_true_r, !andb_true_iff, !negb_true_iff.
  split.
  - intros H.
    pose proof (score_candidate_lower 0 a) as Ha.
    pose proof (score_candidate_lower (score_candidate target 0 a) b) as Hb.
    pose proof (score_candidate_lower
                  (score_candidate target (score_candidate target 0 a) b) c) as Hc.
    assert (H1 : score_candidate target 0 a = 0%Z) by lia.
    rewrite H1 in *.
    assert (H2 : score_candidate target 0 b = 0%Z) by lia.
    rewrite H2 in *.
    now rewrite <- !score_candidate_zero.
  - intros (Ha & Hb & Hc).
    now rewrite !score_candidate_related.
Qed.

End Scoring.

Lemma resolve_document_none : forall db ptitle,
  (forall d, In d (legal_documents db) ->
             score_doc (normalizeLookup ptitle) d = 0%Z) ->
  resolve_document db ptitle = None.
Proof.
  intros db ptitle Hall. unfold resolve_document, best_match.
  pose proof (best_match_nonpositive (normalizeLookup ptitle)
                (legal_documents db) (None, (-1)%Z)) as H.
  destruct (fold_left _ _ _) as [bestDoc bestScore]. simpl in H.
  assert (Hle : (bestScore <= 0)%Z) by (apply H; [lia | exact Hall]).
  apply Z.ltb_ge in Hle. now rewrite Hle.
Qed.

(* ------------------------------------------------------------------ *)
(** ** The full-text query builder *)

Lemma exec_from_start : forall r s pre m,
  exec_from r pre s = Some m ->
  exists prev suf st,
    rmatch r Some (MState prev suf []) = Some st /\ incl suf s
    /\ groups m = m_caps st.
Proof.
  intros r. induction s as [|c tl IH]; intros pre m H; simpl in H.
  - destruct (rmatch r Some (MState (hd_error pre) [] [])) as [st|] eqn:E;
      [|discriminate].
    injection H as <-.
    exists (hd_error pre), [], st. repeat split; [exact E | apply incl_refl].
  - destruct (rmatch r Some (MState (hd_error pre) (c :: tl) [])) as [st|] eqn:E.
    + injection H as <-.
      exists (hd_error pre), (c :: tl), st. repeat split; [exact E | apply incl_refl].
    + destruct (IH _ _ H) as (prev & suf & st & Hst & Hincl & Hg).
      exists prev, suf, st. repeat split; [exact Hst | now apply incl_tl | exact Hg].
Qed.

Lemma explicit_head : forall st res,
  rmatch EXPLICIT_FTS_SYNTAX Some st = Some res ->
  exists c tl, m_rest st = c :: tl /\ is_safe_char c = true.
Proof.
  intros [prev rest caps] res H.
  unfold EXPLICIT_FTS_SYNTAX, word, Chr in H.
  cbn [SeqAll map app rmatch m_rest m_prev] in H.
  destruct rest as [|c tl].
  - repeat match type of H with
           | context [if ?b then _ else _] => destruct b
           end; discriminate.
  - exists c, tl. split; [reflexivity|].
    destruct (cQUOTE =? c) eqn:E1; [apply N.eqb_eq in E1; now subst c|].
    destruct (65 =? c) eqn:E2; [apply N.eqb_eq in E2; now subst c|].
    destruct (79 =? c) eqn:E3; [apply N.eqb_eq in E3; now subst c|].
    destruct (78 =? c) eqn:E4; [apply N.eqb_eq in E4; now subst c|].
    destruct (cSTAR =? c) eqn:E5; [apply N.eqb_eq in E5; now subst c|].
    exfalso.
    repeat match type of H with
           | context [if xorb ?a ?b then _ else _] => destruct (xorb a b)
           end; discriminate.
Qed.

Lemma In_replace_each : forall (p : N -> bool) rep c s,
  In c s -> p c = false -> In c (replace_each p rep s).
Proof.
  intros p rep c. induction s as [|x tl IH]; intros Hin Hc; simpl in *; [assumption|].
  destruct Hin as [->|Hin].
  - rewrite Hc. now left.
  - destruct (p x); [apply in_or_app; right | right]; now apply IH.
Qed.

Lemma In_replace_runs_aux : forall (p : N -> bool) rep c s b,
  In c s -> p c = false -> In c (replace_runs_aux p rep b s).
Proof.
  intros p rep c. induction s as [|x tl IH]; intros b Hin Hc; simpl in *; [assumption|].
  destruct Hin as [->|Hin].
  - rewrite Hc. now left.
  - destruct (p x); [apply in_or_app; right | right]; now apply IH.
Qed.

Lemma safe_char_split : forall c,
  is_safe_char c = true -> is_ws c = false /\ FTS5_SPECIAL_CHARS c = false.
Proof.
  intros c H. unfold is_safe_char in H.
  apply andb_true_iff in H as [H1 H2].
  now rewrite negb_true_iff in H1, H2.
Qed.

Lemma In_sanitizeFtsInput : forall c s,
  In c s -> is_safe_char c = true -> In c (sanitizeFtsInput s).
Proof.
  intros c s Hin Hsafe. destruct (safe_char_split c Hsafe) as [Hw Hs].
  unfold sanitizeFtsInput. apply In_trim; [|exact Hw].
  apply In_replace_runs_aux; [|exact Hw].
  now apply In_replace_each.
Qed.

(** Input recognised as explicit FTS5 syntax is never sanitised away. *)
Lemma explicit_sanitized_truthy : forall t,
  test EXPLICIT_FTS_SYNTAX t = true -> truthy (sanitizeFtsInput t) = true.
Proof.
  intros t H. unfold test, exec in H.
  destruct (exec_from EXPLICIT_FTS_SYNTAX [] t) as [m|] eqn:E; [|discriminate].
  destruct (exec_from_start _ _ _ _ E) as (prev & suf & st & Hst & Hincl & _).
  destruct (explicit_head _ _ Hst) as (c & tl & Hrest & Hsafe).
  simpl in Hrest. subst suf.
  assert (Hin : In c (sanitizeFtsInput t)).
  { apply In_sanitizeFtsInput; [|exact Hsafe]. apply Hincl. now left. }
  destruct (sanitizeFtsInput t); [contradiction | reflexivity].
Qed.

Lemma filter_ws_replace_runs_aux : forall s b,
  remove_ws (replace_runs_aux is_ws [cSPACE] b s) = remove_ws s.
Proof.
  unfold remove_ws.
  induction s as [|c tl IH]; intros b; simpl; [reflexivity|].
  destruct (is_ws c) eqn:E; simpl.
  - destruct b; simpl; apply IH.
  - rewrite E. simpl. f_equal. apply IH.
Qed.

Lemma filter_ws_replace_special : forall s,
  remove_ws (replace_each FTS5_SPECIAL_CHARS [cSPACE] s) = filter is_safe_char s.
Proof.
  unfold remove_ws, is_safe_char.
  induction s as [|c tl IH]; simpl; [reflexivity|].
  destruct (FTS5_SPECIAL_CHARS c) eqn:E; simpl.
  - rewrite andb_false_r. apply IH.
  - rewrite andb_true_r. destruct (is_ws c); simpl; [|f_equal]; apply IH.
Qed.

(** Up to whitespace, sanitising only deletes the FTS5 special characters. *)
Lemma sanitizeFtsInput_chars : forall s,
  remove_ws (sanitizeFtsInput s) = filter is_safe_char s.
Proof.
  intros s. unfold sanitizeFtsInput, remove_ws. rewrite filter_trim.
  fold (remove_ws (replace_runs is_ws [cSPACE] (replace_each FTS5_SPECIAL_CHARS [cSPACE] s))).
  unfold replace_runs. rewrite filter_ws_replace_runs_aux.
  apply filter_ws_replace_special.
Qed.

Lemma filter_safe_trim : forall s,
  filter is_safe_char (trim s) = filter is_safe_char s.
Proof.
  intros s.
  assert (H : forall x, filter is_safe_char x
                        = filter (fun c => negb (FTS5_SPECIAL_CHARS c)) (remove_ws x)).
  { intros x. unfold remove_ws, is_safe_char.
    induction x as [|a tl IH]; simpl; [reflexivity|].
    destruct (is_ws a); simpl; [exact IH|].
    destruct (FTS5_SPECIAL_CHARS a); simpl; [|f_equal]; exact IH. }
  rewrite (H (trim s)), (H s). unfold remove_ws. now rewrite filter_trim.
Qed.

Lemma join_quoted_nonempty : forall sep t tl,
  join sep (map (fun x => [cQUOTE] ++ x ++ [cQUOTE; cSTAR]) (t :: tl)) <> [].
Proof. intros sep t [|u tl]; simpl; discriminate. Qed.

Lemma primary_nonempty : forall s,
  trim s <> [] -> primary (buildFtsQueryVariants s) <> [].
Proof.
  intros s Htrim. unfold buildFtsQueryVariants.
  destruct (test EXPLICIT_FTS_SYNTAX (trim s)).
  - cbn [primary]. destruct (sanitizeFtsInput (trim s)) eqn:E; simpl;
      [exact Htrim | discriminate].
  - destruct (map _ (filter _ (split_ws (sanitizeFtsInput (trim s))))) as [|t tl].
    + exact Htrim.
    + cbn [primary]. apply join_quoted_nonempty.
Qed.

(* ------------------------------------------------------------------ *)
(** ** The parser's article token *)

Lemma tryParsePatterns_token : forall citation,
  option_map snd (tryParsePatterns citation)
  = option_map normalizeArticleRef (matchedToken citation).
Proof.
  intros citation. unfold tryParsePatterns, matchedToken.
  destruct (exec TITLE_THEN_ARTICLE citation); [reflexivity|].
  destruct (exec ARTICLE_THEN_TITLE citation); [reflexivity|].
  destruct (exec TITLE_ARTICLE_NO_COMMA citation); reflexivity.
Qed.

Lemma parseCitation_valid_section : forall s,
  valid (parseCitation s) = true ->
  exists tok, matchedToken (normalizeInput (trim s)) = Some tok
              /\ section (parseCitation s) = Some (normalizeArticleRef tok).
Proof.
  intros s H. unfold parseCitation in *.
  destruct (negb (truthy (trim s))); [discriminate|].
  pose proof (tryParsePatterns_token (normalizeInput (trim s))) as Htok.
  destruct (tryParsePatterns (normalizeInput (trim s))) as [[ptitle psection]|];
    [|discriminate].
  destruct (matchedToken (normalizeInput (trim s))) as [tok|]; [|discriminate].
  simpl in Htok. injection Htok as ->. exists tok. split; reflexivity.
Qed.

(* ------------------------------------------------------------------ *)
(** ** Soundness of the matcher *)

Lemma star_loop_sound : forall g a step,
  (forall k st res, step k st = Some res ->
                    exists st', reach a st st' /\ k st' = Some res) ->
  forall k fuel st res,
    star_loop step g k fuel st = Some res ->
    exists st', reach (Star g a) st st' /\ k st' = Some res.
Proof.
  intros g a step Hstep k.
  assert (Hstop : forall st res, k st = Some res ->
            exists st', reach (Star g a) st st' /\ k st' = Some res).
  { intros st res H. exists st. split; [apply reach_star_stop | exact H]. }
  induction fuel as [|fuel IH]; intros st res H; cbn [star_loop] in H.
  - now apply Hstop.
  - assert (Hagain : forall res0,
              step (fun st1 =>
                      if Nat.ltb (List.length (m_rest st1)) (List.length (m_rest st))
                      then star_loop step g k fuel st1 else None) st = Some res0 ->
              exists st', reach (Star g a) st st' /\ k st' = Some res0).
    { intros res0 H0. apply Hstep in H0 as (st1 & Hreach & Hk).
      destruct (Nat.ltb _ _); [|discriminate].
      destruct (IH _ _ Hk) as (st2 & Hreach2 & Hk2).
      exists st2. split; [|exact Hk2].
      now apply reach_star_step with (st1 := st1). }
    destruct g.
    + destruct (step _ st) as [res0|] eqn:E.
      * injection H as <-. now apply Hagain.
      * now apply Hstop.
    + destruct (k st) as [res0|] eqn:E.
      * injection H as <-. now apply Hstop.
      * now apply Hagain.
Qed.

Theorem rmatch_sound : forall r k st res,
  rmatch r k st = Some res ->
  exists st', reach r st st' /\ k st' = Some res.
Proof.
  induction r as [ | p | | | | | a IHa b IHb | a IHa b IHb | g a IHa | i a IHa];
    intros k st res H; cbn [rmatch] in H.
  - exists st. split; [constructor | exact H].
  - destruct (m_rest st) as [|c tl] eqn:E; [discriminate|].
    destruct (p c) eqn:Ep; [|discriminate].
    exists (advance st c tl). split; [now apply reach_class | exact H].
  - destruct (m_rest st) as [|h [|l tl]] eqn:E; [discriminate| |].
    + destruct (is_line_terminator h); [discriminate|].
      exists (advance st h []). split; [now apply reach_unit | exact H].
    + destruct (is_high_surrogate h && is_low_surrogate l).
      * exists (advance st l tl). split; [now apply reach_pair with (h := h) | exact H].
      * destruct (is_line_terminator h); [discriminate|].
        exists (advance st h (l :: tl)). split; [now apply reach_unit | exact H].
  - destruct (m_prev st) eqn:E; [discriminate|].
    exists st. split; [now apply reach_bol | exact H].
  - destruct (m_rest st) eqn:E; [|discriminate].
    exists st. split; [now apply reach_eol | exact H].
  - destruct (xorb _ _); [|discriminate].
    exists st. split; [apply reach_boundary | exact H].
  - apply IHa in H as (st1 & Ha & H). apply IHb in H as (st2 & Hb & H).
    exists st2. split; [now apply reach_seq with (st1 := st1) | exact H].
  - destruct (rmatch a k st) as [res0|] eqn:E.
    + injection H as <-. apply IHa in E as (st1 & Ha & E).
      exists st1. split; [now apply reach_alt_left | exact E].
    + apply IHb in H as (st1 & Hb & H).
      exists st1. split; [now apply reach_alt_right | exact H].
  - apply (star_loop_sound g a (rmatch a) IHa) in H. exact H.
  - apply IHa in H as (st1 & Ha & H).
    eexists. split; [apply reach_group; exact Ha | exact H].
Qed.

(** A match only moves forward: what remains is a suffix of what was there. *)
Lemma reach_consumed : forall r st st',
  reach r st st' -> exists w, m_rest st = w ++ m_rest st'.
Proof.
  intros r st st' H.
  induction H as [ st | p st c tl E _ | st h l tl E | st c tl E | st _ | st _ | st
                 | a b st st1 st2 _ [w1 E1] _ [w2 E2]
                 | a b st st1 _ IH | a b st st1 _ IH
                 | g a st | g a st st1 st2 _ [w1 E1] _ [w2 E2]
                 | i a st st1 _ [w E] ];
    try (exists []; reflexivity).
  - exists [c]. now rewrite E.
  - exists [h; l]. now rewrite E.
  - exists [c]. now rewrite E.
  - exists (w1 ++ w2). now rewrite E1, E2, app_assoc.
  - exact IH.
  - exact IH.
  - exists (w1 ++ w2). now rewrite E1, E2, app_assoc.
  - exists w. exact E.
Qed.

Lemma reach_capture_free : forall r st st',
  reach r st st' -> capture_free r = true -> m_caps st' = m_caps st.
Proof.
  intros r st st' H.
  induction H; intros Hfree; cbn [capture_free] in Hfree;
    try reflexivity; try discriminate.
  - apply andb_true_iff in Hfree as [Ha Hb].
    now rewrite IHreach2, IHreach1.
  - apply andb_true_iff in Hfree as [Ha Hb]. now apply IHreach.
  - apply andb_true_iff in Hfree as [Ha Hb]. now apply IHreach.
  - rewrite IHreach2 by exact Hfree. now apply IHreach1.
Qed.

Lemma firstn_consumed : forall (w rest : jsstring),
  firstn (Nat.sub (List.length (w ++ rest)) (List.length rest)) (w ++ rest) = w.
Proof.
  intros w rest. rewrite length_app.
  replace (Nat.sub (List.length w + List.length rest) (List.length rest))
    with (List.length w + 0)%nat by lia.
  rewrite firstn_app_2. simpl. apply app_nil_r.
Qed.

(* ------------------------------------------------------------------ *)
(** ** A parsed citation always carries an article token *)

Lemma reach_seq_inv : forall a b st st2,
  reach (Seq a b) st st2 -> exists st1, reach a st st1 /\ reach b st1 st2.
Proof. intros a b st st2 H. inversion H; subst. eauto. Qed.

Lemma reach_group_inv : forall i a st st',
  reach (Group i a) st st' -> capture_free a = true ->
  exists w st1, reach a st st1 /\ m_rest st = w ++ m_rest st1
                /\ m_caps st' = (i, w) :: m_caps st.
Proof.
  intros i a st st' H Hfree. inversion H as [ | | | | | | | | | | | | i0 a0 st0 st1 Ha ]; subst.
  destruct (reach_consumed _ _ _ Ha) as (w & Hw).
  exists w, st1. split; [exact Ha|]. split; [exact Hw|].
  cbn [m_caps]. rewrite (reach_capture_free _ _ _ Ha Hfree).
  rewrite Hw at 2. rewrite Hw at 1. now rewrite firstn_consumed.
Qed.

Lemma reach_token_digit : forall st st1,
  reach ARTICLE_TOKEN st st1 ->
  exists w d w', m_rest st = w ++ d :: w' ++ m_rest st1 /\ is_digit d = true.
Proof.
  intros st st1 H. unfold ARTICLE_TOKEN, DIGITS, Plus in H. cbn [SeqAll] in H.
  apply reach_seq_inv in H as (sa & Hopt & H).
  apply reach_seq_inv in H as (sb & Hdig & Htail).
  apply reach_seq_inv in Hdig as (sx & Hd & Hds).
  inversion Hd as [ | p st0 d tl E Ed | | | | | | | | | | | ]; subst.
  destruct (reach_consumed _ _ _ Hopt) as (w0 & E0).
  destruct (reach_consumed _ _ _ Hds) as (w1 & E1).
  destruct (reach_consumed _ _ _ Htail) as (w2 & E2).
  cbn [advance m_rest] in E1.
  exists w0, d, (w1 ++ w2). split; [|exact Ed].
  now rewrite E0, E, E1, E2, app_assoc.
Qed.

Lemma token_capture_free : capture_free ARTICLE_TOKEN = true.
Proof. reflexivity. Qed.

(** The token group of a successful match holds a digit. *)
Lemma reach_token_group : forall i st st',
  reach (Group i ARTICLE_TOKEN) st st' ->
  exists tok, m_caps st' = (i, tok) :: m_caps st /\ existsb is_digit tok = true.
Proof.
  intros i st st' H.
  destruct (reach_group_inv _ _ _ _ H token_capture_free) as (w & st1 & Ha & Hw & Hc).
  exists w. split; [exact Hc|].
  destruct (reach_token_digit _ _ Ha) as (w0 & d & w1 & E & Hd).
  rewrite Hw in E.
  assert (Hwd : w = w0 ++ d :: w1).
  { apply app_inv_tail with (l := m_rest st1).
    rewrite E, <- app_assoc. reflexivity. }
  rewrite Hwd, existsb_app. simpl. rewrite Hd. now rewrite orb_true_r.
Qed.

Lemma rmatch_TITLE_THEN_ARTICLE_token : forall st0 st,
  rmatch TITLE_THEN_ARTICLE Some st0 = Some st ->
  exists tok, lookup_cap 2 (m_caps st) = Some tok /\ existsb is_digit tok = true.
Proof.
  intros st0 st H. apply rmatch_sound in H as (st' & H & [= <-]).
  unfold TITLE_THEN_ARTICLE in H. cbn [SeqAll] in H.
  apply reach_seq_inv in H as (s1 & _ & H).
  apply reach_seq_inv in H as (s2 & _ & H).
  apply reach_seq_inv in H as (s3 & _ & H).
  apply reach_seq_inv in H as (s4 & _ & H).
  apply reach_seq_inv in H as (s5 & _ & H).
  apply reach_seq_inv in H as (s6 & _ & H).
  apply reach_seq_inv in H as (s7 & Htok & H).
  destruct (reach_token_group _ _ _ Htok) as (tok & Hcaps & Hdig).
  exists tok. split; [|exact Hdig].
  rewrite (reach_capture_free _ _ _ H eq_refl), Hcaps. reflexivity.
Qed.

Lemma rmatch_TITLE_ARTICLE_NO_COMMA_token : forall st0 st,
  rmatch TITLE_ARTICLE_NO_COMMA Some st0 = Some st ->
  exists tok, lookup_cap 2 (m_caps st) = Some tok /\ existsb is_digit tok = true.
Proof.
  intros st0 st H. apply rmatch_sound in H as (st' & H & [= <-]).
  unfold TITLE_ARTICLE_NO_COMMA in H. cbn [SeqAll] in H.
  apply reach_seq_inv in H as (s1 & _ & H).
  apply reach_seq_inv in H as (s2 & _ & H).
  apply reach_seq_inv in H as (s3 & _ & H).
  apply reach_seq_inv in H as (s4 & _ & H).
  apply reach_seq_inv in H as (s5 & _ & H).
  apply reach_seq_inv in H as (s6 & Htok & H).
  destruct (reach_token_group _ _ _ Htok) as (tok & Hcaps & Hdig).
  exists tok. split; [|exact Hdig].
  rewrite (reach_capture_free _ _ _ H eq_refl), Hcaps. reflexivity.
Qed.

Lemma rmatch_ARTICLE_THEN_TITLE_token : forall st0 st,
  rmatch ARTICLE_THEN_TITLE Some st0 = Some st ->
  exists tok, lookup_cap 1 (m_caps st) = Some tok /\ existsb is_digit tok = true.
Proof.
  intros st0 st H. apply rmatch_sound in H as (st' & H & [= <-]).
  unfold ARTICLE_THEN_TITLE in H. cbn [SeqAll] in H.
  apply reach_seq_inv in H as (s1 & _ & H).
  apply reach_seq_inv in H as (s2 & _ & H).
  apply reach_seq_inv in H as (s3 & _ & H).
  apply reach_seq_inv in H as (s4 & Htok & H).
  destruct (reach_token_group _ _ _ Htok) as (tok & Hcaps & Hdig).
  apply reach_seq_inv in H as (s5 & H5 & H).
  apply reach_seq_inv in H as (s6 & H6 & H).
  apply reach_seq_inv in H as (s7 & H7 & H).
  apply reach_seq_inv in H as (s8 & H8 & H).
  apply reach_seq_inv in H as (s9 & Htitle & H).
  destruct (reach_group_inv _ _ _ _ Htitle eq_refl) as (w & sx & _ & _ & Hc9).
  exists tok. split; [|exact Hdig].
  rewrite (reach_capture_free _ _ _ H eq_refl), Hc9.
  rewrite (reach_capture_free _ _ _ H8 eq_refl),
          (reach_capture_free _ _ _ H7 eq_refl),
          (reach_capture_free _ _ _ H6 eq_refl),
          (reach_capture_free _ _ _ H5 eq_refl), Hcaps.
  reflexivity.
Qed.

Lemma exec_token : forall r i citation m,
  (forall st0 st, rmatch r Some st0 = Some st ->
     exists tok, lookup_cap i (m_caps st) = Some tok /\ existsb is_digit tok = true) ->
  exec r citation = Some m -> existsb is_digit (cap i m) = true.
Proof.
  intros r i citation m Hr H. unfold exec in H.
  destruct (exec_from_start _ _ _ _ H) as (prev & suf & st & Hst & _ & Hg).
  destruct (Hr _ _ Hst) as (tok & Hl & Hd).
  unfold cap, group. now rewrite Hg, Hl.
Qed.

Lemma matchedToken_digit : forall citation tok,
  matchedToken citation = Some tok -> existsb is_digit tok = true.
Proof.
  intros citation tok H. unfold matchedToken in H.
  destruct (exec TITLE_THEN_ARTICLE citation) as [m|] eqn:E1.
  { injection H as <-.
    exact (exec_token _ _ _ _ rmatch_TITLE_THEN_ARTICLE_token E1). }
  destruct (exec ARTICLE_THEN_TITLE citation) as [m|] eqn:E2.
  { injection H as <-.
    exact (exec_token _ _ _ _ rmatch_ARTICLE_THEN_TITLE_token E2). }
  destruct (exec TITLE_ARTICLE_NO_COMMA citation) as [m|] eqn:E3; [|discriminate].
  injection H as <-.
  exact (exec_token _ _ _ _ rmatch_TITLE_ARTICLE_NO_COMMA_token E3).
Qed.

Lemma normalizeArticleRef_digit : forall tok,
  existsb is_digit tok = true -> normalizeArticleRef tok <> [].
Proof.
  intros tok H. apply existsb_exists in H as (d & Hin & Hd).
  pose proof (digit_is_body d Hd) as Hb.
  assert (Hin' : In d (normalizeArticleRef tok)).
  { unfold normalizeArticleRef. apply In_toUpperCase_fixed.
    - pose proof (body_char_range d Hb). lia.
    - exact (body_char_upper d Hb).
    - apply In_replace_each; [|now apply body_char_not_dot].
      apply In_replace_runs_aux; [exact Hin | now apply body_char_not_ws]. }
  intros E. now rewrite E in Hin'.
Qed.

(** Every valid result of [parseCitation] has a non-empty article token: the
    document-level branch of the validator is not reached from a string. *)
Theorem parseCitation_section_nonempty : forall s,
  valid (parseCitation s) = true ->
  exists sec, section (parseCitation s) = Some sec /\ sec <> [].
Proof.
  intros s H.
  destruct (parseCitation_valid_section s H) as (tok & Hm & Hsec).
  exists (normalizeArticleRef tok). split; [exact Hsec|].
  apply normalizeArticleRef_digit.
  now apply matchedToken_digit with (citation := normalizeInput (trim s)).
Qed.

(* ------------------------------------------------------------------ *)
(** ** The documented examples and the repository's tests, replayed *)

(** The examples of the doc comment of [normalizeArticleNum]. *)
Example normalizeArticleNum_documented :
  map normalizeArticleNum
      [lit "L. 323-1"; lit "L.323-1"; lit "L323-1"; lit "R.* 2321-1";
       lit "D. 98-206"; lit "323-1"]
  = [lit "L323-1"; lit "L323-1"; lit "L323-1"; lit "R2321-1";
     lit "D98-206"; lit "323-1"].
Proof. vm_compute. reflexivity. Qed.

(** The test file of [parseCitation]. *)
Example parse_article_first :
  let parsed := parseCitation (lit "Article L. 2321-1 du Code de la défense") in
  valid parsed = true
  /\ title parsed = Some (lit "Code de la défense")
  /\ section parsed = Some (lit "L2321-1").
Proof. vm_compute. repeat split. Qed.

Example parse_numeric_article :
  let parsed := parseCitation (lit "Code pénal, article 323-1") in
  valid parsed = true
  /\ title parsed = Some (lit "Code pénal")
  /\ section parsed = Some (lit "323-1").
Proof. vm_compute. repeat split. Qed.

Example parse_unknown_format :
  parseCitation (lit "random free text") =
  {| valid := false; type := unknown; title := None; year := None;
     section := None;
     error := Some (lit "Could not parse French citation: "
                      ++ [cQUOTE] ++ lit "random free text" ++ [cQUOTE]) |}.
Proof. vm_compute. reflexivity. Qed.

Example parse_year_hint :
  year (parseCitation (lit "Loi n° 78-17 du 6 janvier 1978, art. 1")) = Some 1978.
Proof. vm_compute. reflexivity. Qed.

(** tests/citation/formatter.test.ts *)
Example format_styles :
  let parsed := {| valid := true; type := statute;
                   title := Some (lit "Code de la défense"); year := None;
                   section := Some (lit "L2321-1"); error := None |} in
  formatCitation parsed full = lit "Code de la défense, art. L. 2321-1"
  /\ formatCitation parsed short = lit "Code de la défense art. L. 2321-1"
  /\ formatCitation parsed pinpoint = lit "art. L. 2321-1".
Proof. vm_compute. repeat split. Qed.

Example format_invalid :
  formatCitation {| valid := false; type := unknown; title := None; year := None;
                    section := None; error := None |} full = [].
Proof. reflexivity. Qed.

(** tests/citation/validator.test.ts, on the two documents of [db0]. *)
Example validate_accent_insensitive :
  let result := validateCitation db0 (lit "Code de la defense, art. L. 2321-1") in
  document_exists result = true /\ provision_exists result = true
  /\ warnings result = [].
Proof. vm_compute. repeat split. Qed.

Example validate_missing_provision :
  let result := validateCitation db0 (lit "Code pénal, art. 999-999") in
  document_exists result = true /\ provision_exists result = false
  /\ warnings result = [lit "Article 999-999 not found in Code pénal"].
Proof. vm_compute. repeat split. Qed.

(** Case mapping, decomposition and mark removal beyond Latin-1: letters of
    Latin Extended, a combining mark of another block, a final sigma, a
    one-to-many mapping, a Hangul syllable and a code point above U+FFFF. *)
Example normalizeLookup_beyond_latin1 :
  normalizeLookup (lit "Dvořák") = lit "dvorak"
  /\ normalizeLookup (lit "Ÿ") = lit "y"
  /\ normalizeLookup [97; 8400; 98] = lit "ab".
Proof. vm_compute. repeat split. Qed.

Example case_mapping_beyond_latin1 :
  toLowerCase (lit "ŒUVRE") = lit "œuvre"
  /\ toLowerCase (lit "ΟΔΟΣ ΣΑΣ") = lit "οδος σας"
  /\ toUpperCase (lit "straße 𐐨") = lit "STRASSE 𐐀"
  /\ normalizeNFD (lit "한ǻ") = [4370; 4449; 4523; 97; 778; 769].
Proof. vm_compute. repeat split. Qed.

Example statuteIdCandidates_beyond_latin1 :
  StatuteId.statuteIdCandidates (lit "Œuvre-Ÿ")
  = [lit "œuvre-ÿ"; lit "Œuvre-Ÿ"; lit "œuvre ÿ"].
Proof. vm_compute. reflexivity. Qed.

(** A plain query: one quoted prefix term per token, and the OR fallback. *)
Example fts_plain_query :
  buildFtsQueryVariants (lit "données personnelles") =
  {| primary := [cQUOTE] ++ lit "données" ++ [cQUOTE; cSTAR; cSPACE; cQUOTE]
                  ++ lit "personnelles" ++ [cQUOTE; cSTAR];
     fallback := Some (lit "données* OR personnelles*") |}.
Proof. vm_compute. reflexivity. Qed.

(* ================================================================== *)
(** * Properties of the functions *)

(* ------------------------------------------------------------------ *)
(** ** Trimming and whitespace collapsing *)

Lemma str_eqb_eq : forall a b, str_eqb a b = true <-> a = b.
Proof.
  induction a as [|x a IH]; intros [|y b]; simpl; split; intros H;
    try reflexivity; try discriminate.
  - apply andb_true_iff in H as [Hx Hab]. apply N.eqb_eq in Hx.
    apply IH in Hab. now subst.
  - injection H as -> ->. rewrite N.eqb_refl. now apply IH.
Qed.

Lemma str_eqb_neq : forall a b, str_eqb a b = false <-> a <> b.
Proof.
  intros a b. split; intros H.
  - intros E. apply str_eqb_eq in E. congruence.
  - destruct (str_eqb a b) eqn:E; [|reflexivity].
    apply str_eqb_eq in E. contradiction.
Qed.

Lemma drop_while_head : forall (p : N -> bool) s,
  match drop_while p s with [] => True | c :: _ => p c = false end.
Proof.
  intros p. induction s as [|c tl IH]; simpl; [exact I|].
  destruct (p c) eqn:E; [exact IH | exact E].
Qed.

Lemma drop_while_fixed : forall (p : N -> bool) s,
  match s with [] => True | c :: _ => p c = false end -> drop_while p s = s.
Proof. intros p [|c tl] H; simpl; [reflexivity | now rewrite H]. Qed.

Lemma trimEnd_prefix : forall s, exists t, s = trimEnd s ++ t /\ forallb is_ws t = true.
Proof.
  intros s. unfold trimEnd.
  destruct (drop_while_split is_ws (rev s)) as (ws & Heq & Hws).
  exists (rev ws). split.
  - rewrite <- rev_app_distr, <- Heq. now rewrite rev_involutive.
  - now rewrite forallb_rev.
Qed.

Lemma trimEnd_last : forall s c,
  trimEnd s <> [] -> is_ws (last (trimEnd s) c) = false.
Proof.
  intros s c H. unfold trimEnd in *.
  pose proof (drop_while_head is_ws (rev s)) as Hh.
  destruct (drop_while is_ws (rev s)) as [|x tl]; [now contradiction H|].
  simpl. now rewrite last_last.
Qed.

Lemma trim_head : forall s,
  match trim s with [] => True | c :: _ => is_ws c = false end.
Proof.
  intros s. unfold trim, trimStart.
  pose proof (drop_while_head is_ws s) as Hh.
  destruct (trimEnd_prefix (drop_while is_ws s)) as (t & Heq & _).
  destruct (trimEnd (drop_while is_ws s)) as [|c tl]; [exact I|].
  rewrite Heq in Hh. exact Hh.
Qed.

Lemma trim_no_outer_ws : forall s, no_outer_ws (trim s) = true.
Proof.
  intros s. unfold no_outer_ws.
  pose proof (trim_head s) as Hh.
  destruct (trim s) as [|c tl] eqn:E; [reflexivity|].
  rewrite Hh. cbn [negb andb]. rewrite <- E. unfold trim.
  rewrite trimEnd_last; [reflexivity|].
  fold (trim s). now rewrite E.
Qed.

Lemma no_outer_ws_trim : forall s, no_outer_ws s = true -> trim s = s.
Proof.
  intros s H. unfold no_outer_ws in H.
  destruct s as [|c tl]; [reflexivity|].
  apply andb_true_iff in H as [Hc Hl]. apply negb_true_iff in Hc, Hl.
  unfold trim, trimStart. rewrite drop_while_fixed by exact Hc.
  unfold trimEnd. rewrite drop_while_fixed; [apply rev_involutive|].
  destruct (rev (c :: tl)) as [|x r] eqn:E; [exact I|].
  assert (Hx : c :: tl = rev r ++ [x]).
  { rewrite <- (rev_involutive (c :: tl)), E. reflexivity. }
  rewrite Hx, last_last in Hl. exact Hl.
Qed.

Lemma trim_idempotent : forall s, trim (trim s) = trim s.
Proof. intros s. apply no_outer_ws_trim. apply trim_no_outer_ws. Qed.

Lemma trim_sub : forall s, exists a b, s = a ++ trim s ++ b.
Proof.
  intros s. unfold trim, trimStart.
  destruct (drop_while_split is_ws s) as (a & Ha & _).
  destruct (trimEnd_prefix (drop_while is_ws s)) as (b & Hb & _).
  exists a, b. now rewrite <- Hb.
Qed.

Lemma In_trim_inv : forall c s, In c (trim s) -> In c s.
Proof.
  intros c s H. destruct (trim_sub s) as (a & b & Heq). rewrite Heq.
  apply in_or_app. right. apply in_or_app. now left.
Qed.

Lemma trim_length : forall s, (List.length (trim s) <= List.length s)%nat.
Proof.
  intros s. destruct (trim_sub s) as (a & b & Heq).
  rewrite Heq at 2. rewrite !length_app. lia.
Qed.

Section Collapsing.

Variable p : N -> bool.
Variable sp : N.
Hypothesis Hsp : p sp = true.

Lemma replace_runs_collapsed : forall s b,
  collapsed_aux p sp b (replace_runs_aux p [sp] b s) = true.
Proof.
  induction s as [|c tl IH]; intros b; simpl; [reflexivity|].
  destruct (p c) eqn:E.
  - destruct b; simpl; [apply IH|].
    rewrite Hsp, N.eqb_refl. simpl. apply IH.
  - simpl. rewrite E. apply IH.
Qed.

Lemma collapsed_replace_runs : forall s b,
  collapsed_aux p sp b s = true -> replace_runs_aux p [sp] b s = s.
Proof.
  induction s as [|c tl IH]; intros b H; simpl in *; [reflexivity|].
  destruct (p c) eqn:E.
  - apply andb_true_iff in H as [H Htl]. apply andb_true_iff in H as [Hc Hb].
    apply N.eqb_eq in Hc. apply negb_true_iff in Hb. subst b c.
    simpl. f_equal. now apply IH.
  - f_equal. now apply IH.
Qed.

Lemma collapsed_weaken : forall s b,
  collapsed_aux p sp b s = true -> collapsed_aux p sp false s = true.
Proof.
  intros [|c tl] b H; simpl in *; [reflexivity|].
  destruct (p c); [|exact H].
  apply andb_true_iff in H as [H Htl]. apply andb_true_iff in H as [Hc _].
  now rewrite Hc, Htl.
Qed.

Lemma collapsed_suffix : forall a s b,
  collapsed_aux p sp b (a ++ s) = true -> collapsed_aux p sp false s = true.
Proof.
  induction a as [|c tl IH]; intros s b H; simpl in *.
  - now apply collapsed_weaken with (b := b).
  - destruct (p c).
    + apply andb_true_iff in H as [_ H]. now apply IH with (b := true).
    + now apply IH with (b := false).
Qed.

Lemma collapsed_prefix : forall s t b,
  collapsed_aux p sp b (s ++ t) = true -> collapsed_aux p sp b s = true.
Proof.
  induction s as [|c tl IH]; intros t b H; simpl in *; [reflexivity|].
  destruct (p c).
  - apply andb_true_iff in H as [H Htl]. rewrite H. simpl. now apply IH with (t := t).
  - now apply IH with (t := t).
Qed.

Lemma collapsed_trim : forall s b,
  collapsed_aux p sp b s = true -> collapsed_aux p sp false (trim s) = true.
Proof.
  intros s b H. destruct (trim_sub s) as (a & t & Heq). rewrite Heq in H.
  apply collapsed_suffix in H. now apply collapsed_prefix in H.
Qed.

End Collapsing.

Lemma replace_each_none : forall (p : N -> bool) rep s,
  forallb (fun c => negb (p c)) s = true -> replace_each p rep s = s.
Proof.
  intros p rep. induction s as [|c tl IH]; intros H; simpl in *; [reflexivity|].
  apply andb_true_iff in H as [Hc Htl]. apply negb_true_iff in Hc.
  rewrite Hc. f_equal. now apply IH.
Qed.

Lemma In_replace_each_inv : forall (p : N -> bool) rep c s,
  In c (replace_each p rep s) -> In c rep \/ (In c s /\ p c = false).
Proof.
  intros p rep c. induction s as [|x tl IH]; intros H; simpl in *; [contradiction|].
  destruct (p x) eqn:E.
  - apply in_app_or in H as [H|H]; [now left|].
    destruct (IH H) as [H'|[H' Hp]]; [now left | right; split; [now right | exact Hp]].
  - destruct H as [->|H]; [right; split; [now left | exact E]|].
    destruct (IH H) as [H'|[H' Hp]]; [now left | right; split; [now right | exact Hp]].
Qed.

Lemma In_replace_runs_aux_inv : forall (p : N -> bool) rep c s b,
  In c (replace_runs_aux p rep b s) -> In c rep \/ (In c s /\ p c = false).
Proof.
  intros p rep c. induction s as [|x tl IH]; intros b H; simpl in *; [contradiction|].
  destruct (p x) eqn:E.
  - apply in_app_or in H as [H|H].
    + destruct b; [contradiction | now left].
    + destruct (IH _ H) as [H'|[H' Hp]];
        [now left | right; split; [now right | exact Hp]].
  - destruct H as [->|H]; [right; split; [now left | exact E]|].
    destruct (IH _ H) as [H'|[H' Hp]];
      [now left | right; split; [now right | exact Hp]].
Qed.

Lemma replace_each_length : forall (p : N -> bool) x s,
  List.length (replace_each p [x] s) = List.length s.
Proof.
  intros p x. induction s as [|c tl IH]; simpl; [reflexivity|].
  destruct (p c); simpl; now rewrite IH.
Qed.

Lemma replace_runs_aux_length : forall (p : N -> bool) x s b,
  (List.length (replace_runs_aux p [x] b s) <= List.length s)%nat.
Proof.
  intros p x. induction s as [|c tl IH]; intros b; simpl; [lia|].
  destruct (p c).
  - destruct b; simpl; specialize (IH true); lia.
  - simpl. specialize (IH false). lia.
Qed.

(* ------------------------------------------------------------------ *)
(** ** The sanitiser and the lookup normaliser in normal form *)

Lemma space_is_ws : is_ws cSPACE = true.
Proof. reflexivity. Qed.

Lemma sanitizeFtsInput_no_special : forall s c,
  In c (sanitizeFtsInput s) -> FTS5_SPECIAL_CHARS c = false.
Proof.
  intros s c H. unfold sanitizeFtsInput in H.
  apply In_trim_inv in H. unfold replace_runs in H.
  apply In_replace_runs_aux_inv in H as [H|[H _]].
  - destruct H as [<-|[]]. reflexivity.
  - apply In_replace_each_inv in H as [H|[_ H]]; [|exact H].
    destruct H as [<-|[]]. reflexivity.
Qed.

Lemma sanitizeFtsInput_collapsed : forall s,
  collapsed_aux is_ws cSPACE false (sanitizeFtsInput s) = true.
Proof.
  intros s. unfold sanitizeFtsInput, replace_runs.
  apply collapsed_trim with (b := false).
  apply replace_runs_collapsed. exact space_is_ws.
Qed.

Lemma sanitizeFtsInput_fixed : forall s,
  sanitizeFtsInput (sanitizeFtsInput s) = sanitizeFtsInput s.
Proof.
  intros s. unfold sanitizeFtsInput at 1.
  rewrite replace_each_none.
  - unfold replace_runs.
    rewrite collapsed_replace_runs by apply sanitizeFtsInput_collapsed.
    unfold sanitizeFtsInput. apply trim_idempotent.
  - apply forallb_forall. intros c Hc.
    now rewrite (sanitizeFtsInput_no_special s c Hc).
Qed.

Lemma sanitizeFtsInput_length : forall s,
  (List.length (sanitizeFtsInput s) <= List.length s)%nat.
Proof.
  intros s. unfold sanitizeFtsInput, replace_runs.
  pose proof (trim_length (replace_runs_aux is_ws [cSPACE] false
                             (replace_each FTS5_SPECIAL_CHARS [cSPACE] s))).
  pose proof (replace_runs_aux_length is_ws cSPACE
                (replace_each FTS5_SPECIAL_CHARS [cSPACE] s) false).
  rewrite replace_each_length in *. lia.
Qed.

Lemma lookup_char_not_alnum_space : forall c,
  is_lookup_char c = true -> negb (is_lower c || is_digit c) = true -> c = cSPACE.
Proof.
  intros c H Hn. unfold is_lookup_char in H. apply negb_true_iff in Hn.
  rewrite Hn in H. simpl in H. now apply N.eqb_eq.
Qed.

Lemma normalizeLookup_chars : forall value c,
  In c (normalizeLookup value) -> is_lookup_char c = true.
Proof.
  intros value c H. unfold normalizeLookup in H.
  apply In_trim_inv in H. unfold replace_runs in H.
  apply In_replace_runs_aux_inv in H as [H|[_ H]].
  - destruct H as [<-|[]]. reflexivity.
  - apply negb_false_iff in H. unfold is_lookup_char. now rewrite H.
Qed.

Lemma not_alnum_space : negb (is_lower cSPACE || is_digit cSPACE) = true.
Proof. reflexivity. Qed.

Lemma normalizeLookup_collapsed : forall value,
  collapsed_aux (fun c => negb (is_lower c || is_digit c)) cSPACE false
                (normalizeLookup value) = true.
Proof.
  intros value. unfold normalizeLookup, replace_runs.
  apply collapsed_trim with (b := false).
  apply replace_runs_collapsed. exact not_alnum_space.
Qed.

Lemma lookup_char_ascii : forall c, is_lookup_char c = true -> c < 128.
Proof.
  intros c H. unfold is_lookup_char, is_lower, is_digit, in_range, cSPACE in H.
  bool_to_prop_in H. lia.
Qed.

Lemma lower_points_lookup : forall s before,
  forallb is_lookup_char s = true -> lower_points before s = s.
Proof.
  induction s as [|c tl IH]; intros before H; [reflexivity|].
  cbn [forallb] in H. apply andb_true_iff in H as [Hc Htl].
  pose proof (lookup_char_ascii c Hc) as Hlt.
  cbn [lower_points].
  replace (c =? 931) with false by (symmetry; apply N.eqb_neq; lia).
  assert (Hl : lower_point c = [c]).
  { unfold is_lookup_char, is_lower, is_digit, in_range, cSPACE in Hc.
    bool_to_prop_in Hc. unfold lower_point.
    replace (is_upper c) with false
      by (symmetry; unfold is_upper, in_range; bool_to_prop; lia).
    replace (in_range 192 222 c) with false
      by (symmetry; unfold in_range; bool_to_prop; lia).
    replace (c <? 256) with true by (symmetry; apply N.ltb_lt; lia).
    reflexivity. }
  rewrite Hl. cbn [app]. f_equal. now apply IH.
Qed.

Lemma lookup_chars_prepared : forall s,
  forallb is_lookup_char s = true ->
  toLowerCase (remove_marks (normalizeNFD s)) = s.
Proof.
  intros s H.
  assert (Hascii : forallb (fun c => c <? 128) s = true).
  { apply forallb_forall. intros c Hc. rewrite forallb_forall in H.
    apply N.ltb_lt. now apply lookup_char_ascii, H. }
  rewrite (normalizeNFD_ascii s Hascii), (remove_marks_ascii s Hascii).
  unfold toLowerCase.
  rewrite code_points_plain, (lower_points_lookup s false H).
  - apply of_code_points_bmp. apply forallb_forall. intros c Hc.
    rewrite forallb_forall in Hascii. specialize (Hascii c Hc).
    apply N.ltb_lt in Hascii. apply N.ltb_lt. lia.
  - apply forallb_forall. intros c Hc.
    rewrite forallb_forall in Hascii. specialize (Hascii c Hc).
    apply N.ltb_lt in Hascii. apply N.ltb_lt. lia.
Qed.

Lemma normalizeLookup_fixed : forall value,
  normalizeLookup (normalizeLookup value) = normalizeLookup value.
Proof.
  intros value. unfold normalizeLookup at 1.
  rewrite lookup_chars_prepared
    by (apply forallb_forall; apply normalizeLookup_chars).
  unfold replace_runs.
  rewrite collapsed_replace_runs by apply normalizeLookup_collapsed.
  unfold normalizeLookup. apply trim_idempotent.
Qed.

(* ------------------------------------------------------------------ *)
(** ** What the query variants are made of *)

Lemma split_ws_nonempty_piece : forall s cur b,
  (b = true -> cur = []) ->
  cur <> [] \/ (exists c, In c s /\ is_ws c = false) ->
  exists piece, In piece (split_ws_aux cur b s) /\ piece <> [].
Proof.
  induction s as [|c tl IH]; intros cur b Hb H; simpl.
  - destruct H as [H|(c & [] & _)].
    exists (rev cur). split; [now left|].
    intros E. apply H. rewrite <- (rev_involutive cur), E. reflexivity.
  - destruct (is_ws c) eqn:E.
    + assert (Htl : cur <> [] \/ exists x, In x tl /\ is_ws x = false).
      { destruct H as [H|(x & [->|Hx] & Hw)]; [now left|congruence|].
        right. now exists x. }
      destruct b.
      * rewrite (Hb eq_refl) in Htl.
        destruct Htl as [Htl|Htl]; [congruence|].
        apply IH; [reflexivity | now right].
      * destruct cur as [|x cur'].
        -- destruct Htl as [Htl|Htl]; [congruence|].
           destruct (IH [] true (fun _ => eq_refl) (or_intror Htl)) as (pc & Hin & Hne).
           exists pc. split; [now right | exact Hne].
        -- exists (rev (x :: cur')). split; [now left|].
           simpl. intros Enil. now apply app_eq_nil in Enil as [_ Enil].
    + apply IH; [discriminate | left; discriminate].
Qed.

Lemma In_split_ws_aux : forall s cur b piece c,
  In piece (split_ws_aux cur b s) -> In c piece -> In c cur \/ In c s.
Proof.
  induction s as [|x tl IH]; intros cur b piece c Hp Hc; simpl in Hp.
  - destruct Hp as [<-|[]]. left. now apply in_rev.
  - destruct (is_ws x).
    + destruct b.
      * destruct (IH _ _ _ _ Hp Hc) as [[]|H]. right. now right.
      * destruct Hp as [<-|Hp]; [left; now apply in_rev|].
        destruct (IH _ _ _ _ Hp Hc) as [[]|H]. right. now right.
    + destruct (IH _ _ _ _ Hp Hc) as [[->|H]|H];
        [right; now left | now left | right; now right].
Qed.

Lemma In_join : forall sep parts c,
  In c (join sep parts) -> In c sep \/ exists piece, In piece parts /\ In c piece.
Proof.
  intros sep. induction parts as [|piece tl IH]; intros c H; simpl in H; [contradiction|].
  destruct tl as [|q tl'].
  - right. exists piece. split; [now left | exact H].
  - apply in_app_or in H as [H|H]; [right; exists piece; split; [now left|exact H]|].
    apply in_app_or in H as [H|H]; [now left|].
    destruct (IH _ H) as [H'|(pc & Hin & Hc)]; [now left|].
    right. exists pc. split; [now right | exact Hc].
Qed.

(** The tokens of the plain branch. *)
Lemma tokens_chars : forall san t c,
  In t (map (replace_each (fun x => negb (is_token_char x)) [])
            (filter (fun t => Nat.ltb 0 (List.length t)) (split_ws san))) ->
  In c t -> In c san.
Proof.
  intros san t c Ht Hc. apply in_map_iff in Ht as (piece & <- & Hp).
  apply filter_In in Hp as [Hp _].
  apply In_replace_each_inv in Hc as [[]|[Hc _]].
  unfold split_ws in Hp.
  destruct (In_split_ws_aux _ _ _ _ _ Hp Hc) as [[]|H]. exact H.
Qed.

Lemma tokens_nil_iff : forall san,
  no_outer_ws san = true ->
  (map (replace_each (fun x => negb (is_token_char x)) [])
       (filter (fun t => Nat.ltb 0 (List.length t)) (split_ws san)) = []
   <-> san = []).
Proof.
  intros san Hsan. split.
  - intros H. destruct san as [|c tl]; [reflexivity|]. exfalso.
    unfold no_outer_ws in Hsan. apply andb_true_iff in Hsan as [Hc _].
    apply negb_true_iff in Hc.
    destruct (split_ws_nonempty_piece (c :: tl) [] false) as (piece & Hin & Hne).
    + discriminate.
    + right. exists c. split; [now left | exact Hc].
    + apply map_eq_nil in H.
      assert (Hf : In piece (filter (fun t => Nat.ltb 0 (List.length t))
                                    (split_ws (c :: tl)))).
      { apply filter_In. split; [exact Hin|].
        destruct piece; [congruence | reflexivity]. }
      rewrite H in Hf. contradiction.
  - intros ->. reflexivity.
Qed.

Lemma sanitizeFtsInput_no_outer_ws : forall s, no_outer_ws (sanitizeFtsInput s) = true.
Proof. intros s. unfold sanitizeFtsInput. apply trim_no_outer_ws. Qed.

Lemma variants_chars : forall q c,
  sanitizeFtsInput (trim q) <> [] ->
  In c (primary (buildFtsQueryVariants q))
  \/ (exists fb, fallback (buildFtsQueryVariants q) = Some fb /\ In c fb) ->
  In c (sanitizeFtsInput (trim q)) \/ In c ([cQUOTE; cSTAR] ++ lit " OR ").
Proof.
  intros q c Hne H. unfold buildFtsQueryVariants in H.
  destruct (test EXPLICIT_FTS_SYNTAX (trim q)).
  - cbn [primary fallback] in H.
    destruct H as [H|(fb & Hfb & _)]; [|discriminate].
    destruct (sanitizeFtsInput (trim q)) as [|x tl]; [congruence|].
    left. exact H.
  - pose proof (tokens_chars (sanitizeFtsInput (trim q))) as Hchars.
    pose proof (tokens_nil_iff (sanitizeFtsInput (trim q))
                  (sanitizeFtsInput_no_outer_ws (trim q))) as Hnil.
    destruct (map _ (filter _ (split_ws (sanitizeFtsInput (trim q)))))
      as [|t tl] eqn:Etok.
    { exfalso. apply Hne. now apply Hnil. }
    remember (t :: tl) as toks eqn:Etoks.
    cbn [primary fallback] in H.
    destruct H as [H|(fb & Hfb & H)].
    + apply In_join in H as [H|(piece & Hp & H)].
      * right. simpl in H. destruct H as [<-|[]]. simpl. tauto.
      * apply in_map_iff in Hp as (t' & <- & Ht').
        apply in_app_or in H as [H|H]; [right; simpl in *; tauto|].
        apply in_app_or in H as [H|H]; [|right; simpl in *; tauto].
        left. now apply Hchars with (t := t').
    + injection Hfb as <-.
      apply In_join in H as [H|(piece & Hp & H)].
      * right. simpl in *. tauto.
      * apply in_map_iff in Hp as (t' & <- & Ht').
        apply in_app_or in H as [H|H]; [|right; simpl in *; tauto].
        left. now apply Hchars with (t := t').
Qed.

Lemma variants_raw : forall q,
  sanitizeFtsInput (trim q) = [] ->
  buildFtsQueryVariants q = {| primary := trim q; fallback := None |}.
Proof.
  intros q Hsan. unfold buildFtsQueryVariants.
  destruct (test EXPLICIT_FTS_SYNTAX (trim q)) eqn:E.
  - apply explicit_sanitized_truthy in E. now rewrite Hsan in E.
  - now rewrite Hsan.
Qed.

Lemma fallback_none_iff : forall q,
  fallback (buildFtsQueryVariants q) = None
  <-> test EXPLICIT_FTS_SYNTAX (trim q) = true \/ sanitizeFtsInput (trim q) = [].
Proof.
  intros q. split.
  - intros H. unfold buildFtsQueryVariants in H.
    destruct (test EXPLICIT_FTS_SYNTAX (trim q)); [now left|]. right.
    pose proof (tokens_nil_iff (sanitizeFtsInput (trim q))
                  (sanitizeFtsInput_no_outer_ws (trim q))) as Hnil.
    destruct (map _ (filter _ (split_ws (sanitizeFtsInput (trim q))))) as [|t tl];
      [now apply Hnil | discriminate].
  - intros [H|H].
    + unfold buildFtsQueryVariants. now rewrite H.
    + now rewrite (variants_raw q H).
Qed.

(** X1.  The sanitised string holds none of the characters ( ) : { } ^ + . ;
    it neither starts nor ends with whitespace, and its whitespace is made of
    single spaces. *)
Theorem X1_sanitize_normal_form :
  forall s : jsstring,
    forallb (fun c => negb (FTS5_SPECIAL_CHARS c)) (sanitizeFtsInput s) = true
    /\ no_outer_ws (sanitizeFtsInput s) = true
    /\ collapsed_aux is_ws cSPACE false (sanitizeFtsInput s) = true.
Proof.
  intros s. split; [|split].
  - apply forallb_forall. intros c Hc.
    now rewrite (sanitizeFtsInput_no_special s c Hc).
  - apply sanitizeFtsInput_no_outer_ws.
  - apply sanitizeFtsInput_collapsed.
Qed.

(** X2.  Sanitising is idempotent and never makes the string longer. *)
Theorem X2_sanitize_idempotent :
  forall s : jsstring,
    sanitizeFtsInput (sanitizeFtsInput s) = sanitizeFtsInput s
    /\ (List.length (sanitizeFtsInput s) <= List.length s)%nat.
Proof.
  intros s. split; [apply sanitizeFtsInput_fixed | apply sanitizeFtsInput_length].
Qed.

(** X3.  Whenever the sanitised, trimmed query is not empty, no FTS5 special
    character reaches the engine: neither the primary variant nor the
    fallback holds one of ( ) : { } ^ + . *)
Theorem X3_variants_safe :
  forall q : jsstring,
    sanitizeFtsInput (trim q) <> [] ->
    forallb (fun c => negb (FTS5_SPECIAL_CHARS c))
            (primary (buildFtsQueryVariants q)) = true
    /\ match fallback (buildFtsQueryVariants q) with
       | Some fb => forallb (fun c => negb (FTS5_SPECIAL_CHARS c)) fb = true
       | None => True
       end.
Proof.
  intros q Hne.
  assert (Hsafe : forall c,
            In c (sanitizeFtsInput (trim q)) \/ In c ([cQUOTE; cSTAR] ++ lit " OR ") ->
            negb (FTS5_SPECIAL_CHARS c) = true).
  { intros c [H|H].
    - now rewrite (sanitizeFtsInput_no_special _ c H).
    - simpl in H. repeat (destruct H as [<-|H]; [reflexivity|]). contradiction. }
  split.
  - apply forallb_forall. intros c Hc. apply Hsafe.
    apply variants_chars; [exact Hne | now left].
  - destruct (fallback (buildFtsQueryVariants q)) as [fb|] eqn:E; [|exact I].
    apply forallb_forall. intros c Hc. apply Hsafe.
    apply variants_chars; [exact Hne|]. right. exists fb. now split.
Qed.

Lemma X3_witness :
  forallb (fun c => negb (FTS5_SPECIAL_CHARS c))
          (primary (buildFtsQueryVariants (lit "art. (L323-1)"))) = true
  /\ match fallback (buildFtsQueryVariants (lit "art. (L323-1)")) with
     | Some fb => forallb (fun c => negb (FTS5_SPECIAL_CHARS c)) fb = true
     | None => True
     end.
Proof. apply (X3_variants_safe (lit "art. (L323-1)")). vm_compute. discriminate. Defined.

(** X4.  When the trimmed query is made of FTS5 special characters and
    whitespace only, it is handed over as typed: the primary variant is the
    trimmed input, unsanitised, and there is no fallback. *)
Theorem X4_variants_raw :
  forall q : jsstring,
    sanitizeFtsInput (trim q) = [] ->
    buildFtsQueryVariants q = {| primary := trim q; fallback := None |}.
Proof. exact variants_raw. Qed.

Lemma X4_witness :
  buildFtsQueryVariants (lit " (.) ") = {| primary := lit "(.)"; fallback := None |}.
Proof. apply (X4_variants_raw (lit " (.) ")). reflexivity. Defined.

(** X5.  The fallback variant is absent exactly when the trimmed query shows
    explicit FTS5 syntax or sanitises to the empty string. *)
Theorem X5_fallback_absent :
  forall q : jsstring,
    fallback (buildFtsQueryVariants q) = None
    <-> test EXPLICIT_FTS_SYNTAX (trim q) = true \/ sanitizeFtsInput (trim q) = [].
Proof. exact fallback_none_iff. Qed.

(* ------------------------------------------------------------------ *)
(** ** What a match has consumed *)

Lemma reach_within : forall q r st st',
  reach r st st' -> class_within q r ->
  exists w, m_rest st = w ++ m_rest st' /\ forallb q w = true.
Proof.
  intros q r st st' H.
  induction H as [ st | p st c tl E Hp | st h l tl E | st c tl E | st _ | st _ | st
                 | a b st st1 st2 _ IH1 _ IH2
                 | a b st st1 _ IH | a b st st1 _ IH
                 | g a st | g a st st1 st2 _ IH1 _ IH2
                 | i a st st1 _ IH ];
    intros Hq; cbn [class_within] in Hq;
    try (exists []; split; reflexivity); try contradiction.
  - exists [c]. split; [now rewrite E|]. simpl. now rewrite (Hq c Hp).
  - destruct Hq as [Ha Hb].
    destruct (IH1 Ha) as (w1 & E1 & Hw1). destruct (IH2 Hb) as (w2 & E2 & Hw2).
    exists (w1 ++ w2). split; [now rewrite E1, E2, app_assoc|].
    now rewrite forallb_app, Hw1, Hw2.
  - apply IH. tauto.
  - apply IH. tauto.
  - destruct (IH1 Hq) as (w1 & E1 & Hw1). destruct (IH2 Hq) as (w2 & E2 & Hw2).
    exists (w1 ++ w2). split; [now rewrite E1, E2, app_assoc|].
    now rewrite forallb_app, Hw1, Hw2.
  - exact (IH Hq).
Qed.

Lemma reach_class_inv : forall p st st',
  reach (Class p) st st' ->
  exists c, m_rest st = c :: m_rest st' /\ p c = true /\ m_caps st' = m_caps st.
Proof.
  intros p st st' H.
  inversion H as [ | p0 st0 c tl E Hp | | | | | | | | | | | ]; subst.
  exists c. now repeat split.
Qed.

Lemma reach_boundary_inv : forall st st', reach WordBoundary st st' -> st' = st.
Proof. intros st st' H. now inversion H. Qed.

Lemma reach_eol_inv : forall st st', reach Eol st st' -> st' = st /\ m_rest st = [].
Proof. intros st st' H. inversion H; subst. now split. Qed.

Lemma reach_alt_inv : forall a b st st',
  reach (Alt a b) st st' -> reach a st st' \/ reach b st st'.
Proof. intros a b st st' H. inversion H; subst; tauto. Qed.

Lemma reach_group_whole : forall i a st st',
  reach (Group i a) st st' -> capture_free a = true ->
  exists w st1, reach a st st1 /\ m_rest st = w ++ m_rest st1
                /\ m_rest st' = m_rest st1
                /\ m_caps st' = (i, w) :: m_caps st.
Proof.
  intros i a st st' H Hfree.
  inversion H as [ | | | | | | | | | | | | i0 a0 st0 st1 Ha ]; subst.
  destruct (reach_consumed _ _ _ Ha) as (w & Hw).
  exists w, st1. split; [exact Ha|]. split; [exact Hw|]. split; [reflexivity|].
  cbn [m_caps]. rewrite (reach_capture_free _ _ _ Ha Hfree).
  rewrite Hw at 2. rewrite Hw at 1. now rewrite firstn_consumed.
Qed.

Lemma token_class_within : class_within is_token_in_char ARTICLE_TOKEN.
Proof.
  unfold ARTICLE_TOKEN, DIGITS, WS, Plus, Opt, Chr.
  cbn [class_within SeqAll].
  repeat split; intros c H; unfold is_token_in_char;
    try (apply N.eqb_eq in H; subst c; reflexivity);
    try (rewrite H; now rewrite ?orb_true_r).
  all: unfold alnum_iu in H;
       apply orb_true_iff in H as [H|H]; rewrite H; now rewrite ?orb_true_r.
Qed.

Lemma reach_token_group_chars : forall i st st',
  reach (Group i ARTICLE_TOKEN) st st' ->
  exists tok, m_caps st' = (i, tok) :: m_caps st
              /\ forallb is_token_in_char tok = true.
Proof.
  intros i st st' H.
  destruct (reach_group_whole _ _ _ _ H token_capture_free)
    as (w & st1 & Ha & Hw & _ & Hc).
  exists w. split; [exact Hc|].
  destruct (reach_within is_token_in_char _ _ _ Ha token_class_within)
    as (w' & Hw' & Hq).
  rewrite Hw in Hw'. apply app_inv_tail in Hw'. now subst w'.
Qed.

Section TokenProperty.

Variable P : jsstring -> Prop.
Hypothesis HP : forall i st st',
  reach (Group i ARTICLE_TOKEN) st st' ->
  exists tok, m_caps st' = (i, tok) :: m_caps st /\ P tok.

Lemma title_then_article_token : forall st0 st,
  rmatch TITLE_THEN_ARTICLE Some st0 = Some st ->
  exists tok, lookup_cap 2 (m_caps st) = Some tok /\ P tok.
Proof.
  intros st0 st H. apply rmatch_sound in H as (st' & H & [= <-]).
  unfold TITLE_THEN_ARTICLE in H. cbn [SeqAll] in H.
  do 6 (apply reach_seq_inv in H as (? & _ & H)).
  apply reach_seq_inv in H as (s7 & Htok & H).
  destruct (HP _ _ _ Htok) as (tok & Hcaps & Hdig).
  exists tok. split; [|exact Hdig].
  rewrite (reach_capture_free _ _ _ H eq_refl), Hcaps. reflexivity.
Qed.

Lemma title_article_no_comma_token : forall st0 st,
  rmatch TITLE_ARTICLE_NO_COMMA Some st0 = Some st ->
  exists tok, lookup_cap 2 (m_caps st) = Some tok /\ P tok.
Proof.
  intros st0 st H. apply rmatch_sound in H as (st' & H & [= <-]).
  unfold TITLE_ARTICLE_NO_COMMA in H. cbn [SeqAll] in H.
  do 5 (apply reach_seq_inv in H as (? & _ & H)).
  apply reach_seq_inv in H as (s6 & Htok & H).
  destruct (HP _ _ _ Htok) as (tok & Hcaps & Hdig).
  exists tok. split; [|exact Hdig].
  rewrite (reach_capture_free _ _ _ H eq_refl), Hcaps. reflexivity.
Qed.

Lemma article_then_title_token : forall st0 st,
  rmatch ARTICLE_THEN_TITLE Some st0 = Some st ->
  exists tok, lookup_cap 1 (m_caps st) = Some tok /\ P tok.
Proof.
  intros st0 st H. apply rmatch_sound in H as (st' & H & [= <-]).
  unfold ARTICLE_THEN_TITLE in H. cbn [SeqAll] in H.
  do 3 (apply reach_seq_inv in H as (? & _ & H)).
  apply reach_seq_inv in H as (s4 & Htok & H).
  destruct (HP _ _ _ Htok) as (tok & Hcaps & Hdig).
  apply reach_seq_inv in H as (s5 & H5 & H).
  apply reach_seq_inv in H as (s6 & H6 & H).
  apply reach_seq_inv in H as (s7 & H7 & H).
  apply reach_seq_inv in H as (s8 & H8 & H).
  apply reach_seq_inv in H as (s9 & Htitle & H).
  destruct (reach_group_inv _ _ _ _ Htitle eq_refl) as (w & sx & _ & _ & Hc9).
  exists tok. split; [|exact Hdig].
  rewrite (reach_capture_free _ _ _ H eq_refl), Hc9.
  rewrite (reach_capture_free _ _ _ H8 eq_refl),
          (reach_capture_free _ _ _ H7 eq_refl),
          (reach_capture_free _ _ _ H6 eq_refl),
          (reach_capture_free _ _ _ H5 eq_refl), Hcaps.
  reflexivity.
Qed.

Lemma exec_cap : forall r i citation m,
  (forall st0 st, rmatch r Some st0 = Some st ->
     exists tok, lookup_cap i (m_caps st) = Some tok /\ P tok) ->
  exec r citation = Some m -> P (cap i m).
Proof.
  intros r i citation m Hr H. unfold exec in H.
  destruct (exec_from_start _ _ _ _ H) as (prev & suf & st & Hst & _ & Hg).
  destruct (Hr _ _ Hst) as (tok & Hl & Hd).
  unfold cap, group. now rewrite Hg, Hl.
Qed.

Lemma matchedToken_property : forall citation tok,
  matchedToken citation = Some tok -> P tok.
Proof.
  intros citation tok H. unfold matchedToken in H.
  destruct (exec TITLE_THEN_ARTICLE citation) as [m|] eqn:E1.
  { injection H as <-. exact (exec_cap _ _ _ _ title_then_article_token E1). }
  destruct (exec ARTICLE_THEN_TITLE citation) as [m|] eqn:E2.
  { injection H as <-. exact (exec_cap _ _ _ _ article_then_title_token E2). }
  destruct (exec TITLE_ARTICLE_NO_COMMA citation) as [m|] eqn:E3; [|discriminate].
  injection H as <-. exact (exec_cap _ _ _ _ title_article_no_comma_token E3).
Qed.

End TokenProperty.

Lemma matchedToken_chars : forall citation tok,
  matchedToken citation = Some tok -> forallb is_token_in_char tok = true.
Proof.
  intros citation tok.
  apply (matchedToken_property (fun t => forallb is_token_in_char t = true)
           reach_token_group_chars).
Qed.

(* ------------------------------------------------------------------ *)
(** ** The result of [parseCitation] *)

Lemma section_char_range : forall x, is_section_char x = true ->
  48 <= x <= 57 \/ x = 45 \/ 65 <= x <= 90 \/ x = 8490.
Proof.
  intros x H. unfold is_section_char, is_digit, is_upper, in_range, cHYPHEN in H.
  bool_to_prop_in H. lia.
Qed.

Lemma section_char_not_ws : forall x, is_section_char x = true -> is_ws x = false.
Proof.
  intros x H. apply section_char_range in H.
  unfold is_ws, in_range. bool_to_prop. lia.
Qed.

Lemma section_char_not_dot : forall x, is_section_char x = true -> (cDOT =? x) = false.
Proof.
  intros x H. apply section_char_range in H. unfold cDOT. bool_to_prop. lia.
Qed.

Lemma section_char_not_terminator : forall x,
  is_section_char x = true -> is_line_terminator x = false.
Proof.
  intros x H. apply section_char_range in H.
  unfold is_line_terminator. bool_to_prop. lia.
Qed.

Lemma section_char_upper : forall x, is_section_char x = true -> upper_point x = [x].
Proof.
  intros x H. apply section_char_range in H.
  destruct H as [H|[H|[H| ->]]]; [| | |vm_compute; reflexivity].
  all: unfold upper_point;
    replace (is_lower x) with false
      by (symmetry; unfold is_lower, in_range; bool_to_prop; lia);
    replace (x =? 181) with false by (symmetry; bool_to_prop; lia);
    replace (x =? 223) with false by (symmetry; bool_to_prop; lia);
    replace (in_range 224 254 x) with false
      by (symmetry; unfold in_range; bool_to_prop; lia);
    replace (x =? 255) with false by (symmetry; bool_to_prop; lia);
    replace (x <? 256) with true by (symmetry; apply N.ltb_lt; lia);
    reflexivity.
Qed.

Lemma section_chars_plain : forall s,
  forallb is_section_char s = true -> forallb (fun c => c <? 55296) s = true.
Proof.
  intros s H. apply forallb_forall. intros c Hc. rewrite forallb_forall in H.
  pose proof (section_char_range c (H c Hc)). apply N.ltb_lt. lia.
Qed.

Lemma flat_map_fixed : forall (f : N -> list N) s,
  (forall c, In c s -> f c = [c]) -> flat_map f s = s.
Proof.
  intros f. induction s as [|c tl IH]; intros H; [reflexivity|].
  cbn [flat_map]. rewrite (H c (or_introl eq_refl)). cbn [app]. f_equal.
  apply IH. intros x Hx. apply H. now right.
Qed.

Lemma normalizeArticleRef_section_fixed : forall s,
  forallb is_section_char s = true -> normalizeArticleRef s = s.
Proof.
  intros s H. unfold normalizeArticleRef.
  assert (Hws : replace_runs is_ws [] s = s).
  { rewrite replace_runs_nil. apply filter_neg_id.
    apply forallb_forall. intros c Hc. rewrite forallb_forall in H.
    now rewrite (section_char_not_ws c (H c Hc)). }
  assert (Hdot : replace_each (N.eqb cDOT) [] s = s).
  { rewrite replace_each_nil. apply filter_neg_id.
    apply forallb_forall. intros c Hc. rewrite forallb_forall in H.
    now rewrite (section_char_not_dot c (H c Hc)). }
  rewrite Hws, Hdot, (toUpperCase_plain s (section_chars_plain s H)).
  apply flat_map_fixed. intros c Hc. rewrite forallb_forall in H.
  now apply section_char_upper, H.
Qed.

(** A token character that is neither whitespace nor a period. *)
Lemma token_char_cases : forall x,
  is_token_in_char x = true -> is_ws x = false -> (cDOT =? x) = false ->
  65 <= x <= 90 \/ 97 <= x <= 122 \/ x = 383 \/ x = 8490
  \/ 48 <= x <= 57 \/ x = 45.
Proof.
  intros x Hx Hws Hdot. unfold is_token_in_char in Hx.
  rewrite Hws, (N.eqb_sym x cDOT), Hdot in Hx. rewrite !orb_false_r in Hx.
  unfold letter_iu, is_upper, is_lower, is_digit, in_range, cHYPHEN in Hx.
  bool_to_prop_in Hx. lia.
Qed.

(** Upper-casing a token character that is neither whitespace nor a period
    gives section characters. *)
Lemma upper_point_token_char : forall x c,
  is_token_in_char x = true -> is_ws x = false -> (cDOT =? x) = false ->
  In c (upper_point x) -> is_section_char c = true.
Proof.
  intros x c Hx Hws Hdot Hc.
  destruct (token_char_cases x Hx Hws Hdot) as [Hr|[Hr|[->|[->|Hr]]]].
  - rewrite section_char_upper in Hc.
    + destruct Hc as [<-|[]]. unfold is_section_char, is_upper, in_range.
      bool_to_prop. lia.
    + unfold is_section_char, is_upper, in_range. bool_to_prop. lia.
  - unfold upper_point in Hc.
    replace (is_lower x) with true in Hc
      by (symmetry; unfold is_lower, in_range; bool_to_prop; lia).
    destruct Hc as [<-|[]]. unfold is_section_char, is_upper, in_range.
    bool_to_prop. lia.
  - vm_compute in Hc. destruct Hc as [<-|[]]. reflexivity.
  - vm_compute in Hc. destruct Hc as [<-|[]]. reflexivity.
  - rewrite section_char_upper in Hc.
    + destruct Hc as [<-|[]].
      unfold is_section_char, is_digit, is_upper, in_range, cHYPHEN.
      bool_to_prop. lia.
    + unfold is_section_char, is_digit, is_upper, in_range, cHYPHEN.
      bool_to_prop. lia.
Qed.

(** What is left of a token once whitespace and periods are removed holds no
    surrogate. *)
Lemma token_stripped_plain : forall tok,
  forallb is_token_in_char tok = true ->
  forallb (fun c => c <? 55296)
          (replace_each (N.eqb cDOT) [] (replace_runs is_ws [] tok)) = true.
Proof.
  intros tok Htok. apply forallb_forall. intros x Hx.
  apply In_replace_each_inv in Hx as [[]|[Hx Hdot]].
  unfold replace_runs in Hx.
  apply In_replace_runs_aux_inv in Hx as [[]|[Hx Hws]].
  rewrite forallb_forall in Htok.
  pose proof (token_char_cases x (Htok x Hx) Hws Hdot). apply N.ltb_lt. lia.
Qed.

Lemma normalizeArticleRef_chars : forall tok,
  forallb is_token_in_char tok = true ->
  forallb is_section_char (normalizeArticleRef tok) = true.
Proof.
  intros tok Htok. apply forallb_forall. intros c Hc.
  unfold normalizeArticleRef in Hc.
  rewrite (toUpperCase_plain _ (token_stripped_plain tok Htok)) in Hc.
  apply in_flat_map in Hc as (x & Hx & Hc).
  apply In_replace_each_inv in Hx as [[]|[Hx Hdot]].
  unfold replace_runs in Hx.
  apply In_replace_runs_aux_inv in Hx as [[]|[Hx Hws]].
  apply upper_point_token_char with (x := x); try assumption.
  now apply (proj1 (forallb_forall _ _) Htok).
Qed.

Lemma parseCitation_section_chars : forall s sec,
  valid (parseCitation s) = true ->
  section (parseCitation s) = Some sec ->
  forallb is_section_char sec = true.
Proof.
  intros s sec Hvalid Hsec.
  destruct (parseCitation_valid_section s Hvalid) as (tok & Hm & Hs).
  rewrite Hs in Hsec. injection Hsec as <-.
  apply normalizeArticleRef_chars. now apply matchedToken_chars in Hm.
Qed.

(** The year group of a match of YEAR. *)
Lemma reach_four : forall p1 p2 p3 p4 st st',
  reach (SeqAll [Class p1; Class p2; Class p3; Class p4]) st st' ->
  exists c1 c2 c3 c4,
    m_rest st = c1 :: c2 :: c3 :: c4 :: m_rest st'
    /\ p1 c1 = true /\ p2 c2 = true /\ p3 c3 = true /\ p4 c4 = true.
Proof.
  intros p1 p2 p3 p4 st st' H. cbn [SeqAll] in H.
  apply reach_seq_inv in H as (s1 & H1 & H).
  apply reach_seq_inv in H as (s2 & H2 & H).
  apply reach_seq_inv in H as (s3 & H3 & H4).
  apply reach_class_inv in H1 as (c1 & E1 & Hp1 & _).
  apply reach_class_inv in H2 as (c2 & E2 & Hp2 & _).
  apply reach_class_inv in H3 as (c3 & E3 & Hp3 & _).
  apply reach_class_inv in H4 as (c4 & E4 & Hp4 & _).
  exists c1, c2, c3, c4. rewrite E1, E2, E3, E4. now repeat split.
Qed.

Lemma year_group_bounds : forall st0 st,
  rmatch YEAR Some st0 = Some st ->
  exists w, lookup_cap 1 (m_caps st) = Some w /\ 1800 <= parseInt w <= 2099.
Proof.
  intros st0 st H. apply rmatch_sound in H as (st' & H & [= <-]).
  unfold YEAR in H. cbn [SeqAll] in H.
  apply reach_seq_inv in H as (s1 & _ & H).
  apply reach_seq_inv in H as (s2 & Hg & Hb).
  apply reach_boundary_inv in Hb. subst st'.
  destruct (reach_group_whole _ _ _ _ Hg eq_refl) as (w & sx & Ha & Hw & _ & Hc).
  exists w. split; [now rewrite Hc|].
  unfold Chr in Ha.
  apply reach_alt_inv in Ha as [Ha|Ha];
    apply reach_four in Ha as (c1 & c2 & c3 & c4 & E & H1 & H2 & H3 & H4);
    rewrite Hw in E;
    change (c1 :: c2 :: c3 :: c4 :: m_rest sx)
      with ([c1; c2; c3; c4] ++ m_rest sx) in E;
    apply app_inv_tail in E; subst w;
    unfold parseInt; cbn [fold_left];
    unfold is_digit, in_range in H3, H4;
    bool_to_prop_in H1; bool_to_prop_in H2;
    bool_to_prop_in H3; bool_to_prop_in H4; lia.
Qed.

Lemma parseCitation_year_bounds : forall s y,
  year (parseCitation s) = Some y -> 1800 <= y <= 2099.
Proof.
  intros s y H. unfold parseCitation in H.
  destruct (negb (truthy (trim s))); [discriminate|].
  destruct (tryParsePatterns (normalizeInput (trim s))) as [[ptitle psection]|];
    [|discriminate].
  cbn [year] in H.
  destruct (exec YEAR ptitle) as [m|] eqn:E; [|discriminate].
  injection H as <-.
  unfold exec in E.
  destruct (exec_from_start _ _ _ _ E) as (prev & suf & st & Hst & _ & Hg).
  destruct (year_group_bounds _ _ Hst) as (w & Hl & Hb).
  unfold cap, group. now rewrite Hg, Hl.
Qed.

Lemma normalizeArticleRef_filter : forall s,
  normalizeArticleRef s =
  toUpperCase
    (filter (fun c => negb (cDOT =? c)) (filter (fun c => negb (is_ws c)) s)).
Proof.
  intros s. unfold normalizeArticleRef.
  now rewrite replace_runs_nil, replace_each_nil.
Qed.

Lemma section_toUpperCase : forall s,
  forallb is_section_char s = true -> toUpperCase s = s.
Proof.
  intros s H. rewrite (toUpperCase_plain s (section_chars_plain s H)).
  apply flat_map_fixed. intros c Hc. rewrite forallb_forall in H.
  now apply section_char_upper, H.
Qed.

Lemma section_filter_fixed : forall s,
  forallb is_section_char s = true ->
  filter (fun c => negb (cDOT =? c)) (filter (fun c => negb (is_ws c)) s) = s.
Proof.
  intros s H.
  rewrite (filter_neg_id is_ws s), (filter_neg_id (N.eqb cDOT) s);
    [reflexivity| |]; apply forallb_forall; intros c Hc;
    rewrite forallb_forall in H.
  - now rewrite (section_char_not_dot c (H c Hc)).
  - now rewrite (section_char_not_ws c (H c Hc)).
Qed.

Lemma exec_LETTER_DIGITS_short : forall c s,
  match s with d :: _ => is_digit d = false | [] => True end ->
  exec LETTER_DIGITS (c :: s) = None.
Proof.
  intros c s Hs. unfold LETTER_DIGITS.
  cbn [SeqAll]. rewrite exec_bol.
  rewrite rmatch_seq, rmatch_group_class. cbn [m_rest m_caps].
  destruct (is_upper c); [|reflexivity].
  cbn [rmatch m_rest]. destruct s as [|d tl]; [reflexivity|]. now rewrite Hs.
Qed.

(** Reading back what [buildArticleRef] prints gives the token again. *)
Lemma buildArticleRef_read_back : forall sec,
  forallb is_section_char sec = true ->
  normalizeArticleRef (buildArticleRef sec) = sec.
Proof.
  intros sec Hsec. unfold buildArticleRef.
  change (toUpperCase (replace_each (N.eqb cDOT) [] (replace_runs is_ws [] sec)))
    with (normalizeArticleRef sec).
  rewrite (normalizeArticleRef_section_fixed sec Hsec).
  destruct sec as [|c [|d rest]].
  - reflexivity.
  - rewrite exec_LETTER_DIGITS_short by exact I.
    now apply normalizeArticleRef_section_fixed.
  - destruct (is_upper c && is_digit d) eqn:E.
    + apply andb_true_iff in E as [Hc Hd].
      cbn [forallb] in Hsec.
      apply andb_true_iff in Hsec as [Hsc Hsec].
      apply andb_true_iff in Hsec as [Hsd Hrest].
      destruct (exec_LETTER_DIGITS_hit c d rest Hc Hd) as (m & -> & -> & ->).
      { apply forallb_forall. intros x Hx.
        rewrite (section_char_not_terminator x); [reflexivity|].
        now apply (proj1 (forallb_forall _ _) Hrest). }
      assert (Hall : forallb is_section_char (c :: d :: rest) = true)
        by (cbn [forallb]; now rewrite Hsc, Hsd).
      assert (Hbody : forallb is_section_char (d :: rest) = true)
        by (cbn [forallb]; now rewrite Hsd).
      rewrite normalizeArticleRef_filter.
      change ([c] ++ lit ". " ++ d :: rest) with (c :: [cDOT; cSPACE] ++ d :: rest).
      remember (d :: rest) as body eqn:Ebody.
      cbn [filter app].
      rewrite (section_char_not_ws c Hsc). cbn [negb filter].
      rewrite (section_char_not_dot c Hsc). cbn [negb].
      change (is_ws cDOT) with false. change (is_ws cSPACE) with true.
      cbn [negb filter]. rewrite N.eqb_refl. cbn [negb].
      rewrite (section_filter_fixed body Hbody).
      apply section_toUpperCase. cbn [forallb]. now rewrite Hsc, Hbody.
    + apply andb_false_iff in E as [E|E].
      * rewrite exec_LETTER_DIGITS_miss by exact E.
        now apply normalizeArticleRef_section_fixed.
      * rewrite exec_LETTER_DIGITS_short by exact E.
        now apply normalizeArticleRef_section_fixed.
Qed.

Lemma section_some_valid : forall s sec,
  section (parseCitation s) = Some sec -> valid (parseCitation s) = true.
Proof.
  intros s sec H. unfold parseCitation in *.
  destruct (negb (truthy (trim s))); [discriminate|].
  destruct (tryParsePatterns (normalizeInput (trim s))) as [[ptitle psection]|];
    [reflexivity | discriminate].
Qed.

Lemma normalizeArticleRef_keeps_digit : forall tok,
  existsb is_digit tok = true -> existsb is_digit (normalizeArticleRef tok) = true.
Proof.
  intros tok H. apply existsb_exists in H as (d & Hin & Hd).
  apply existsb_exists. exists d. split; [|exact Hd].
  pose proof (digit_is_body d Hd) as Hb.
  unfold normalizeArticleRef. apply In_toUpperCase_fixed.
  - pose proof (body_char_range d Hb). lia.
  - exact (body_char_upper d Hb).
  - apply In_replace_each; [|now apply body_char_not_dot].
    apply In_replace_runs_aux; [exact Hin | now apply body_char_not_ws].
Qed.

(** X6.  The result of [parseCitation] has one of two shapes.  Valid: type
    statute, a title, a non-empty article token and no error.  Invalid:
    type unknown, no title, year or token, and an error that is
    "Empty citation" for an input of whitespace only and otherwise quotes
    the trimmed input. *)
Theorem X6_parse_result_shape :
  forall s : jsstring,
    (valid (parseCitation s) = true
     /\ type (parseCitation s) = statute
     /\ error (parseCitation s) = None
     /\ (exists t, title (parseCitation s) = Some t)
     /\ (exists sec, section (parseCitation s) = Some sec /\ sec <> []))
    \/ (valid (parseCitation s) = false
        /\ type (parseCitation s) = unknown
        /\ title (parseCitation s) = None
        /\ year (parseCitation s) = None
        /\ section (parseCitation s) = None
        /\ error (parseCitation s) =
           Some (if truthy (trim s)
                 then lit "Could not parse French citation: "
                        ++ [cQUOTE] ++ trim s ++ [cQUOTE]
                 else lit "Empty citation")).
Proof.
  intros s.
  destruct (valid (parseCitation s)) eqn:Hvalid.
  - left. destruct (parseCitation_section_nonempty s Hvalid) as (sec & Hsec & Hne).
    unfold parseCitation in *.
    destruct (negb (truthy (trim s))); [discriminate|].
    destruct (tryParsePatterns (normalizeInput (trim s))) as [[ptitle psection]|];
      [|discriminate].
    cbn [valid type error title section] in *.
    split; [reflexivity|]. split; [reflexivity|]. split; [reflexivity|].
    split; [now exists ptitle|].
    exists sec. split; [exact Hsec | exact Hne].
  - right. unfold parseCitation in *.
    destruct (truthy (trim s)); cbn [negb] in *; [|now repeat split].
    destruct (tryParsePatterns (normalizeInput (trim s))) as [[ptitle psection]|];
      [discriminate | now repeat split].
Qed.

(** X7.  A year hint, when there is one, lies between 1800 and 2099. *)
Theorem X7_year_hint_bounds :
  forall (s : jsstring) (y : N),
    year (parseCitation s) = Some y -> 1800 <= y <= 2099.
Proof. exact parseCitation_year_bounds. Qed.

Lemma X7_witness :
  year (parseCitation (lit "Loi n° 78-17 du 6 janvier 1978, art. 1")) = Some 1978
  /\ 1800 <= 1978 <= 2099.
Proof.
  split; [vm_compute; reflexivity|].
  apply (X7_year_hint_bounds (lit "Loi n° 78-17 du 6 janvier 1978, art. 1") 1978).
  vm_compute. reflexivity.
Defined.

(** X8.  The article token of a parsed citation is made of upper-case ASCII
    letters, digits, hyphens and U+212A only (no whitespace, no period, no
    lower-case letter), and holds at least one digit. *)
Theorem X8_section_alphabet :
  forall s sec : jsstring,
    section (parseCitation s) = Some sec ->
    forallb is_section_char sec = true /\ existsb is_digit sec = true.
Proof.
  intros s sec Hsec. pose proof (section_some_valid s sec Hsec) as Hvalid.
  split; [now apply parseCitation_section_chars with (s := s)|].
  destruct (parseCitation_valid_section s Hvalid) as (tok & Hm & Hs).
  rewrite Hs in Hsec. injection Hsec as <-.
  apply normalizeArticleRef_keeps_digit. now apply matchedToken_digit in Hm.
Qed.

Lemma X8_witness :
  section (parseCitation (lit "Code pénal article l . 3-a.")) = Some (lit "L3-A")
  /\ forallb is_section_char (lit "L3-A") = true
  /\ existsb is_digit (lit "L3-A") = true.
Proof.
  split; [vm_compute; reflexivity|].
  apply (X8_section_alphabet (lit "Code pénal article l . 3-a.") (lit "L3-A")).
  vm_compute. reflexivity.
Defined.

(** X9.  Round trip on the article token: for a parsed citation, the pinpoint
    format is "art. " followed by the rendered token, and normalising the
    rendered token gives the token back. *)
Theorem X9_token_round_trip :
  forall s sec : jsstring,
    section (parseCitation s) = Some sec ->
    formatCitation (parseCitation s) pinpoint = lit "art. " ++ buildArticleRef sec
    /\ normalizeArticleRef (buildArticleRef sec) = sec.
Proof.
  intros s sec Hsec. pose proof (section_some_valid s sec Hsec) as Hvalid.
  split.
  - unfold formatCitation. rewrite Hsec, Hvalid.
    destruct sec as [|c tl]; [|reflexivity].
    destruct (parseCitation_section_nonempty s Hvalid) as (sec' & Hs' & Hne).
    congruence.
  - apply buildArticleRef_read_back.
    now apply parseCitation_section_chars with (s := s).
Qed.

Lemma X9_witness :
  formatCitation (parseCitation scenario1) pinpoint
    = lit "art. " ++ buildArticleRef (lit "L2321-1")
  /\ normalizeArticleRef (buildArticleRef (lit "L2321-1")) = lit "L2321-1".
Proof. apply (X9_token_round_trip scenario1 (lit "L2321-1")). vm_compute. reflexivity. Defined.

(* ------------------------------------------------------------------ *)
(** ** The validator *)

Lemma score_doc_nonneg : forall target doc, (0 <= score_doc target doc)%Z.
Proof.
  intros target doc. unfold score_doc, doc_candidates. cbn [fold_left].
  pose proof (score_candidate_lower target 0 (d_title doc)).
  pose proof (score_candidate_lower target
                (score_candidate target 0 (d_title doc))
                (match d_short_name doc with Some n => n | None => [] end)).
  pose proof (score_candidate_lower target
                (score_candidate target
                   (score_candidate target 0 (d_title doc))
                   (match d_short_name doc with Some n => n | None => [] end))
                (d_id doc)).
  lia.
Qed.

Lemma best_step_invariant : forall target seen acc doc,
  best_so_far target seen acc ->
  best_so_far target (seen ++ [doc]) (best_step target acc doc).
Proof.
  intros target seen [bd bs] doc H. unfold best_so_far, best_step in *.
  cbn [fst snd] in *.
  destruct (bs <? score_doc target doc)%Z eqn:E; cbn [fst snd].
  - apply Z.ltb_lt in E. split; [reflexivity|].
    exists seen, []. split; [reflexivity|]. split; [|intros x []].
    intros x Hx. destruct bd as [d|].
    + destruct H as (Hbs & l1 & l2 & -> & H1 & H2). subst bs.
      apply in_app_or in Hx as [Hx|[->|Hx]];
        [specialize (H1 x Hx) | | specialize (H2 x Hx)]; lia.
    + destruct H as [-> _]. contradiction.
  - apply Z.ltb_ge in E. destruct bd as [d|].
    + destruct H as (Hbs & l1 & l2 & -> & H1 & H2). subst bs.
      split; [reflexivity|]. exists l1, (l2 ++ [doc]).
      split; [now rewrite <- app_assoc|]. split; [exact H1|].
      intros x Hx. apply in_app_or in Hx as [Hx|[<-|[]]]; [now apply H2 | exact E].
    + destruct H as [_ ->]. pose proof (score_doc_nonneg target doc). lia.
Qed.

Lemma best_fold_invariant : forall target docs seen acc,
  best_so_far target seen acc ->
  best_so_far target (seen ++ docs) (fold_left (best_step target) docs acc).
Proof.
  intros target. induction docs as [|d tl IH]; intros seen acc H; simpl.
  - now rewrite app_nil_r.
  - replace (seen ++ d :: tl) with ((seen ++ [d]) ++ tl)
      by (now rewrite <- app_assoc).
    apply IH. now apply best_step_invariant.
Qed.

Lemma best_match_spec : forall target docs,
  best_so_far target docs (best_match target docs).
Proof.
  intros target docs. unfold best_match.
  apply (best_fold_invariant target docs [] (None, (-1)%Z)).
  unfold best_so_far. simpl. now split.
Qed.

Lemma resolve_document_some : forall db t d,
  resolve_document db t = Some d ->
  (0 < score_doc (normalizeLookup t) d)%Z
  /\ exists l1 l2, legal_documents db = l1 ++ d :: l2
       /\ (forall x, In x l1 ->
             (score_doc (normalizeLookup t) x < score_doc (normalizeLookup t) d)%Z)
       /\ (forall x, In x l2 ->
             (score_doc (normalizeLookup t) x <= score_doc (normalizeLookup t) d)%Z).
Proof.
  intros db t d H. unfold resolve_document in H.
  pose proof (best_match_spec (normalizeLookup t) (legal_documents db)) as Hspec.
  destruct (best_match (normalizeLookup t) (legal_documents db)) as [bd bs].
  destruct (0 <? bs)%Z eqn:E; [|discriminate]. subst bd.
  unfold best_so_far in Hspec. cbn [fst snd] in Hspec.
  destruct Hspec as (Hbs & Hrest). apply Z.ltb_lt in E. split; [lia | exact Hrest].
Qed.

Lemma resolve_document_none_iff : forall db t,
  resolve_document db t = None
  <-> forall x, In x (legal_documents db) -> score_doc (normalizeLookup t) x = 0%Z.
Proof.
  intros db t. split; [|apply resolve_document_none].
  intros H x Hx. unfold resolve_document in H.
  pose proof (best_match_spec (normalizeLookup t) (legal_documents db)) as Hspec.
  destruct (best_match (normalizeLookup t) (legal_documents db)) as [bd bs].
  unfold best_so_far in Hspec. cbn [fst snd] in Hspec.
  destruct bd as [d|].
  - destruct Hspec as (Hbs & l1 & l2 & Hdocs & H1 & H2).
    destruct (0 <? bs)%Z eqn:E; [discriminate|]. apply Z.ltb_ge in E.
    pose proof (score_doc_nonneg (normalizeLookup t) x).
    pose proof (score_doc_nonneg (normalizeLookup t) d).
    rewrite Hdocs in Hx. apply in_app_or in Hx as [Hx|[<-|Hx]];
      [specialize (H1 x Hx) | | specialize (H2 x Hx)]; lia.
  - destruct Hspec as [Hnil _]. rewrite Hnil in Hx. contradiction.
Qed.

(** The captures of LETTER_DIGITS make up the whole string. *)
Lemma exec_LETTER_DIGITS_whole : forall s m,
  exec LETTER_DIGITS s = Some m -> cap 1 m ++ cap 2 m = s.
Proof.
  intros s m H. unfold LETTER_DIGITS in H. cbn [SeqAll] in H.
  rewrite exec_bol in H.
  destruct (rmatch _ Some (MState None s [])) as [st|] eqn:E; [|discriminate].
  injection H as <-.
  apply rmatch_sound in E as (st' & E & [= <-]).
  apply reach_seq_inv in E as (s1 & H1 & E).
  apply reach_seq_inv in E as (s2 & H2 & E).
  apply reach_eol_inv in E as [-> Hend].
  destruct (reach_group_whole _ _ _ _ H1 eq_refl) as (w1 & x1 & _ & E1 & R1 & C1).
  destruct (reach_group_whole _ _ _ _ H2 eq_refl) as (w2 & x2 & _ & E2 & R2 & C2).
  cbn [m_rest m_caps] in E1, C1.
  unfold cap, group. cbn [groups]. rewrite C2, C1. cbn [lookup_cap Nat.eqb].
  rewrite E1, <- R1, E2, <- R2, Hend. now rewrite app_nil_r.
Qed.

Lemma set_add_member : forall x l, existsb (str_eqb x) (set_add x l) = true.
Proof.
  intros x l. unfold set_add.
  destruct (existsb (str_eqb x) l) eqn:E; [exact E|].
  rewrite existsb_app. simpl. now rewrite str_eqb_refl, orb_true_r.
Qed.

Lemma buildSectionCandidates_two : forall section,
  buildSectionCandidates section =
  filter truthy
    (set_add (replace_first ART_PREFIX [] (normalizeArticleRef section))
             [normalizeArticleRef section]).
Proof.
  intros section. unfold buildSectionCandidates.
  change (toUpperCase (replace_each (N.eqb cDOT) [] (replace_runs is_ws [] section)))
    with (normalizeArticleRef section).
  change (set_add (normalizeArticleRef section) [])
    with [normalizeArticleRef section].
  destruct (exec LETTER_DIGITS (replace_first ART_PREFIX [] (normalizeArticleRef section)))
    as [m|] eqn:E; [|reflexivity].
  rewrite (exec_LETTER_DIGITS_whole _ _ E).
  unfold set_add at 1. now rewrite set_add_member.
Qed.

(** X10.  The result of [validateCitation] is coherent: it carries the parsed
    citation; a provision is never reported without its document; the
    document's title and status are given exactly when the document exists;
    a missing document comes with exactly one warning; and there are never
    more than two warnings. *)
Theorem X10_validation_coherent :
  forall (db : Database) (s : jsstring),
    citation (validateCitation db s) = parseCitation s
    /\ (provision_exists (validateCitation db s) = true ->
        document_exists (validateCitation db s) = true)
    /\ (document_exists (validateCitation db s) = true
        <-> exists t st, document_title (validateCitation db s) = Some t
                         /\ status (validateCitation db s) = Some st)
    /\ (document_exists (validateCitation db s) = false ->
        exists w, warnings (validateCitation db s) = [w])
    /\ (List.length (warnings (validateCitation db s)) <= 2)%nat.
Proof.
  intros db s. unfold validateCitation, validateParsed.
  destruct (negb (valid (parseCitation s))).
  { cbn. repeat split; try discriminate; try lia; eauto.
    intros (t & st & H & _). discriminate. }
  destruct (title (parseCitation s)) as [[|c t]|].
  1, 3: cbn; repeat split; try discriminate; try lia; eauto;
        intros (t' & st & H & _); discriminate.
  destruct (resolve_document db (c :: t)) as [doc|].
  2: { cbn. repeat split; try discriminate; try lia; eauto.
       intros (t' & st & H & _). discriminate. }
  destruct (section (parseCitation s)) as [[|x sec]|];
    destruct (str_eqb (d_status doc) (lit "repealed"));
    try destruct (provision_query db (d_id doc) _ _);
    cbn; repeat split; try discriminate; try lia; eauto.
Qed.

(** X11.  When the scored resolution finds a document, it is a stored
    document of positive score; no document stored before it scores as much
    and no document stored after it scores more. *)
Theorem X11_resolution_first_best :
  forall (db : Database) (t : jsstring) (d : LegalDocument),
    resolve_document db t = Some d ->
    (0 < score_doc (normalizeLookup t) d)%Z
    /\ exists l1 l2, legal_documents db = l1 ++ d :: l2
         /\ (forall x, In x l1 ->
               (score_doc (normalizeLookup t) x < score_doc (normalizeLookup t) d)%Z)
         /\ (forall x, In x l2 ->
               (score_doc (normalizeLookup t) x <= score_doc (normalizeLookup t) d)%Z).
Proof. exact resolve_document_some. Qed.

Lemma X11_witness :
  (0 < score_doc (normalizeLookup (lit "Code de la defense"))
         {| d_id := lit "code-defense"; d_title := lit "Code de la défense";
            d_short_name := None; d_status := lit "in_force" |})%Z
  /\ exists l1 l2,
       legal_documents db0 =
         l1 ++ {| d_id := lit "code-defense"; d_title := lit "Code de la défense";
                  d_short_name := None; d_status := lit "in_force" |} :: l2
       /\ (forall x, In x l1 ->
             (score_doc (normalizeLookup (lit "Code de la defense")) x
              < score_doc (normalizeLookup (lit "Code de la defense"))
                  {| d_id := lit "code-defense"; d_title := lit "Code de la défense";
                     d_short_name := None; d_status := lit "in_force" |})%Z)
       /\ (forall x, In x l2 ->
             (score_doc (normalizeLookup (lit "Code de la defense")) x
              <= score_doc (normalizeLookup (lit "Code de la defense"))
                   {| d_id := lit "code-defense"; d_title := lit "Code de la défense";
                      d_short_name := None; d_status := lit "in_force" |})%Z).
Proof.
  apply (X11_resolution_first_best db0 (lit "Code de la defense")).
  vm_compute. reflexivity.
Defined.

(** X12.  For a citation that parses with a non-empty title, the document is
    reported as existing exactly when some stored document has a positive
    score against the normalised title. *)
Theorem X12_document_exists_iff :
  forall (db : Database) (s t : jsstring),
    valid (parseCitation s) = true ->
    title (parseCitation s) = Some t ->
    t <> [] ->
    (document_exists (validateCitation db s) = true
     <-> exists d, In d (legal_documents db)
                   /\ (0 < score_doc (normalizeLookup t) d)%Z).
Proof.
  intros db s t Hvalid Htitle Hne.
  unfold validateCitation, validateParsed. rewrite Hvalid, Htitle. cbn [negb].
  destruct t as [|c tl]; [congruence|].
  destruct (resolve_document db (c :: tl)) as [doc|] eqn:E.
  - apply resolve_document_some in E as (Hpos & l1 & l2 & Hdocs & _).
    split.
    + intros _. exists doc. split; [|exact Hpos].
      rewrite Hdocs. apply in_or_app. right. now left.
    + intros _. now destruct (section (parseCitation s)) as [[|x sec]|].
  - split; [discriminate|].
    intros (d & Hd & Hpos).
    pose proof (proj1 (resolve_document_none_iff db (c :: tl)) E d Hd). lia.
Qed.

Lemma X12_witness :
  document_exists (validateCitation db0 (lit "Code pénal, art. 999-999")) = true
  <-> exists d, In d (legal_documents db0)
                /\ (0 < score_doc (normalizeLookup (lit "Code pénal")) d)%Z.
Proof.
  apply (X12_document_exists_iff db0 (lit "Code pénal, art. 999-999") (lit "Code pénal"));
    [reflexivity | reflexivity | discriminate].
Defined.

(** X13.  The provision lookup tries at most two spellings of the section:
    the normalised token and the same without a leading ART; the form
    rebuilt from the letter and the digits is always the second of these
    again.  Empty spellings are dropped. *)
Theorem X13_section_candidates :
  forall section : jsstring,
    buildSectionCandidates section =
      filter truthy
        (set_add (replace_first ART_PREFIX [] (normalizeArticleRef section))
                 [normalizeArticleRef section])
    /\ (List.length (buildSectionCandidates section) <= 2)%nat.
Proof.
  intros section. split; [apply buildSectionCandidates_two|].
  rewrite buildSectionCandidates_two.
  unfold set_add. destruct (existsb _ _); simpl;
    repeat match goal with |- context [truthy ?x] => destruct (truthy x) end;
    simpl; lia.
Qed.

(** X14.  [normalizeLookup] returns lower-case ASCII letters, digits and
    spaces only, with no space at either end and no two spaces in a row; it
    is idempotent. *)
Theorem X14_normalizeLookup_normal_form :
  forall value : jsstring,
    forallb is_lookup_char (normalizeLookup value) = true
    /\ no_outer_ws (normalizeLookup value) = true
    /\ collapsed_aux (fun c => negb (is_lower c || is_digit c)) cSPACE false
                     (normalizeLookup value) = true
    /\ normalizeLookup (normalizeLookup value) = normalizeLookup value.
Proof.
  intros value. split; [|split; [|split]].
  - apply forallb_forall. apply normalizeLookup_chars.
  - unfold normalizeLookup. apply trim_no_outer_ws.
  - apply normalizeLookup_collapsed.
  - apply normalizeLookup_fixed.
Qed.

(* ------------------------------------------------------------------ *)
(** ** The formatter and the article number normaliser *)

(** X15.  [formatCitation] returns the empty string exactly for an invalid
    citation or one without article token; every style ends with the
    pinpoint rendering, and an unknown style is rendered as [full]. *)
Theorem X15_format_styles :
  forall (parsed : ParsedCitation) (format : CitationFormat),
    (formatCitation parsed format = []
     <-> valid parsed = false \/ section parsed = None \/ section parsed = Some [])
    /\ (exists pre, formatCitation parsed format
                    = pre ++ formatCitation parsed pinpoint)
    /\ formatCitation parsed other_format = formatCitation parsed full.
Proof.
  intros parsed format. unfold formatCitation.
  destruct (section parsed) as [[|c sec]|].
  1, 3: split; [split; auto | split; [now exists [] | reflexivity]].
  destruct (valid parsed); cbn [negb].
  - split; [|split].
    + split.
      * destruct format, (title parsed) as [[|x t]|]; discriminate.
      * intros [H|[H|H]]; discriminate.
    + destruct format, (title parsed) as [[|x t]|];
        try (now exists []);
        try (now exists ((x :: t) ++ lit ", "); rewrite <- !app_assoc);
        try (now exists ((x :: t) ++ lit " "); rewrite <- !app_assoc).
    + reflexivity.
  - split; [split; auto | split; [now exists [] | reflexivity]].
Qed.

Lemma iter_normalize_settles : forall k x,
  forallb (fun c => negb (is_ws c)) x = true ->
  (List.length x <= k)%nat ->
  exists n, (n <= k)%nat
            /\ Nat.iter (S n) normalizeArticleNum x = Nat.iter n normalizeArticleNum x.
Proof.
  induction k as [|k IH]; intros x Hws Hlen.
  - destruct x; [|simpl in Hlen; lia]. exists 0%nat. split; [lia | reflexivity].
  - destruct (prefix_sep_head x) eqn:E.
    + pose proof (normalizeArticleNum_shrinks x E) as Hshrink.
      destruct (IH (normalizeArticleNum x) (normalizeArticleNum_no_ws x))
        as (n & Hn & Hfix); [lia|].
      exists (S n). split; [lia|].
      rewrite !Nat.iter_succ_r in *. exact Hfix.
    + exists 0%nat. split; [lia|]. simpl.
      now apply normalizeArticleNum_fixed.
Qed.

Lemma normalizeArticleNum_length : forall s,
  (List.length (normalizeArticleNum s) <= List.length s)%nat.
Proof.
  intros s. rewrite normalizeArticleNum_closed.
  pose proof (remove_ws_length (strip_prefix_sep cSTAR (strip_prefix_sep cDOT s))).
  pose proof (strip_prefix_sep_length cSTAR (strip_prefix_sep cDOT s)).
  pose proof (strip_prefix_sep_length cDOT s). lia.
Qed.

(** X16.  The normalised article number holds no whitespace and is never
    longer than the input. *)
Theorem X16_normalize_no_whitespace :
  forall s : jsstring,
    forallb (fun c => negb (is_ws c)) (normalizeArticleNum s) = true
    /\ (List.length (normalizeArticleNum s) <= List.length s)%nat.
Proof.
  intros s. split; [apply normalizeArticleNum_no_ws | apply normalizeArticleNum_length].
Qed.

(** X17.  Repeating [normalizeArticleNum] settles: from any input, after at
    most one application more than the input has code units, a further
    application changes nothing. *)
Theorem X17_normalize_settles :
  forall s : jsstring,
    exists n, (n <= S (List.length s))%nat
              /\ Nat.iter (S n) normalizeArticleNum s
                 = Nat.iter n normalizeArticleNum s.
Proof.
  intros s.
  destruct (iter_normalize_settles (List.length s) (normalizeArticleNum s)
              (normalizeArticleNum_no_ws s) (normalizeArticleNum_length s))
    as (n & Hn & Hfix).
  exists (S n). split; [lia|].
  rewrite !Nat.iter_succ_r in *. exact Hfix.
Qed.

(* ------------------------------------------------------------------ *)
(** ** LEGI dates and archive time stamps *)

Lemma test_ISO_DATE : forall s, test LegiDate.ISO_DATE s = is_iso_date s.
Proof.
  intros s. unfold test, LegiDate.ISO_DATE, LegiDate.DIGIT, Chr.
  cbn [SeqAll]. rewrite exec_bol. unfold is_iso_date.
  destruct s as [|c1 s1]; [reflexivity|].
  destruct s1 as [|c2 s2]; [eval_match|].
  destruct s2 as [|c3 s3]; [eval_match|].
  destruct s3 as [|c4 s4]; [eval_match|].
  destruct s4 as [|c5 s5]; [eval_match|].
  destruct s5 as [|c6 s6]; [eval_match|].
  destruct s6 as [|c7 s7]; [eval_match|].
  destruct s7 as [|c8 s8]; [eval_match|].
  destruct s8 as [|c9 s9]; [eval_match|].
  destruct s9 as [|c10 s10]; [eval_match|].
  destruct s10 as [|c11 s11]; eval_match.
Qed.

Lemma test_COMPACT_DATE : forall s,
  Nat.eqb (List.length s) 8 && test LegiDate.COMPACT_DATE s = is_compact_date s.
Proof.
  intros s. unfold is_compact_date, test, LegiDate.COMPACT_DATE, LegiDate.DIGIT.
  cbn [SeqAll]. rewrite exec_bol.
  destruct s as [|c1 s1]; [reflexivity|].
  destruct s1 as [|c2 s2]; [reflexivity|].
  destruct s2 as [|c3 s3]; [reflexivity|].
  destruct s3 as [|c4 s4]; [reflexivity|].
  destruct s4 as [|c5 s5]; [reflexivity|].
  destruct s5 as [|c6 s6]; [reflexivity|].
  destruct s6 as [|c7 s7]; [reflexivity|].
  destruct s7 as [|c8 s8]; [reflexivity|].
  destruct s8 as [|c9 s9]; [|reflexivity].
  cbn [List.length Nat.eqb]. eval_match.
Qed.

Lemma exec_ARCHIVE_TOKEN : forall s,
  Updates.parseArchiveTokenToIso s
  = if is_archive_token s then Some (archive_iso s) else None.
Proof.
  intros s.
  unfold Updates.parseArchiveTokenToIso, Updates.ARCHIVE_TOKEN,
    Updates.TWO_DIGITS, LegiDate.DIGIT, Chr.
  cbn [SeqAll]. rewrite exec_bol. unfold is_archive_token.
  destruct s as [|c1 s1]; [reflexivity|].
  destruct s1 as [|c2 s2]; [eval_match|].
  destruct s2 as [|c3 s3]; [eval_match|].
  destruct s3 as [|c4 s4]; [eval_match|].
  destruct s4 as [|c5 s5]; [eval_match|].
  destruct s5 as [|c6 s6]; [eval_match|].
  destruct s6 as [|c7 s7]; [eval_match|].
  destruct s7 as [|c8 s8]; [eval_match|].
  destruct s8 as [|c9 s9]; [eval_match|].
  destruct s9 as [|c10 s10]; [eval_match|].
  destruct s10 as [|c11 s11]; [eval_match|].
  destruct s11 as [|c12 s12]; [eval_match|].
  destruct s12 as [|c13 s13]; [eval_match|].
  destruct s13 as [|c14 s14]; [eval_match|].
  destruct s14 as [|c15 s15]; [eval_match|].
  destruct s15 as [|c16 s16]; eval_match.
Qed.

Lemma digit_not_ws : forall c, is_digit c = true -> is_ws c = false.
Proof.
  intros c H. unfold is_digit, is_ws, in_range in *.
  bool_to_prop_in H. bool_to_prop. lia.
Qed.

(** The date that [parseLegiDate] reads from a trimmed text. *)
Lemma parseLegiDate_text : forall text,
  LegiDate.parseLegiDate (LegiDate.RawString text)
  = legi_date_of (trim text).
Proof.
  intros text. unfold LegiDate.parseLegiDate, legi_date_of.
  destruct text as [|c tl]; [reflexivity|].
  cbn [truthy]. cbv beta zeta.
  rewrite test_ISO_DATE, test_COMPACT_DATE. reflexivity.
Qed.

Lemma iso_date_trim : forall s, is_iso_date s = true -> trim s = s.
Proof.
  intros s H. apply no_outer_ws_trim. unfold is_iso_date in H.
  destruct s as [|y1 [|y2 [|y3 [|y4 [|h1 [|m1 [|m2 [|h2 [|d1 [|d2 [|x tl]]]]]]]]]]];
    try discriminate.
  cbn [forallb] in H. bool_to_prop_in H.
  unfold no_outer_ws. cbn [last].
  rewrite !digit_not_ws; [reflexivity| |]; tauto.
Qed.

Lemma compact_date_trim : forall s, is_compact_date s = true -> trim s = s.
Proof.
  intros s H. apply no_outer_ws_trim. unfold is_compact_date in H.
  destruct s as [|y1 [|y2 [|y3 [|y4 [|m1 [|m2 [|d1 [|d2 [|x tl]]]]]]]]];
    try discriminate.
  cbn [forallb List.length Nat.eqb] in H. bool_to_prop_in H.
  unfold no_outer_ws. cbn [last].
  rewrite !digit_not_ws; [reflexivity| |]; tauto.
Qed.

Lemma legi_date_of_shape : forall s r,
  legi_date_of s = Some r ->
  is_iso_date r = true /\ starts_with (lit "2999") r = false.
Proof.
  intros s r. unfold legi_date_of.
  destruct (is_iso_date s) eqn:Hiso.
  - destruct (starts_with (lit "2999") s) eqn:Hs; [discriminate|].
    intros [= <-]. now split.
  - destruct (is_compact_date s) eqn:Hc; [|discriminate].
    unfold is_compact_date in Hc.
    destruct s as [|y1 [|y2 [|y3 [|y4 [|m1 [|m2 [|d1 [|d2 [|x tl]]]]]]]]];
      try discriminate.
    cbn [LegiDate.slice Nat.sub skipn firstn app].
    destruct (str_eqb [y1; y2; y3; y4] (lit "2999")) eqn:Hy; [discriminate|].
    intros [= <-].
    cbn [forallb List.length Nat.eqb andb] in Hc.
    split.
    + unfold is_iso_date. cbn [forallb].
      rewrite !N.eqb_refl. rewrite !andb_true_r.
      bool_to_prop_in Hc. bool_to_prop. tauto.
    + change (lit "2999") with [50; 57; 57; 57] in Hy |- *.
      cbn [str_eqb starts_with] in Hy |- *.
      rewrite (N.eqb_sym 50), !(N.eqb_sym 57), andb_true_r.
      rewrite andb_true_r in Hy. exact Hy.
Qed.

Lemma legi_date_of_fixed : forall s r,
  legi_date_of s = Some r -> legi_date_of r = Some r.
Proof.
  intros s r H. apply legi_date_of_shape in H as [Hiso H2999].
  unfold legi_date_of. now rewrite Hiso, H2999.
Qed.

Lemma parseLegiDate_number : forall n,
  LegiDate.parseLegiDate (LegiDate.RawNumber n)
  = LegiDate.parseLegiDate (LegiDate.RawString (LegiDate.string_of_N n)).
Proof.
  intros n. destruct (N.eqb_spec n 0) as [->|Hn].
  - reflexivity.
  - unfold LegiDate.parseLegiDate.
    apply N.eqb_neq in Hn. rewrite Hn.
    destruct (LegiDate.string_of_N n) as [|c tl] eqn:E; reflexivity.
Qed.

(** X18.  A date returned by [parseLegiDate] has the shape YYYY-MM-DD, does
    not begin with 2999, and is read back as itself. *)
Theorem X18_legi_date_shape :
  forall (raw : LegiDate.legi_raw) (r : jsstring),
    LegiDate.parseLegiDate raw = Some r ->
    is_iso_date r = true
    /\ starts_with (lit "2999") r = false
    /\ LegiDate.parseLegiDate (LegiDate.RawString r) = Some r.
Proof.
  intros raw r H.
  assert (Hof : exists s, legi_date_of s = Some r).
  { destruct raw as [|text|n].
    - discriminate.
    - rewrite parseLegiDate_text in H. eauto.
    - rewrite parseLegiDate_number, parseLegiDate_text in H. eauto. }
  destruct Hof as (s & Hs).
  destruct (legi_date_of_shape s r Hs) as [Hiso H2999].
  split; [exact Hiso|]. split; [exact H2999|].
  rewrite parseLegiDate_text, (iso_date_trim r Hiso).
  exact (legi_date_of_fixed s r Hs).
Qed.

Lemma X18_witness :
  LegiDate.parseLegiDate (LegiDate.RawNumber 20240131) = Some (lit "2024-01-31")
  /\ is_iso_date (lit "2024-01-31") = true
  /\ starts_with (lit "2999") (lit "2024-01-31") = false
  /\ LegiDate.parseLegiDate (LegiDate.RawString (lit "2024-01-31"))
     = Some (lit "2024-01-31").
Proof.
  split; [vm_compute; reflexivity|].
  apply (X18_legi_date_shape (LegiDate.RawNumber 20240131) (lit "2024-01-31")).
  vm_compute. reflexivity.
Defined.

(** X19.  An eight-digit string and its spelling with hyphens are read as
    the same date, and the only eight-digit strings without a date are those
    of the year 2999. *)
Theorem X19_legi_date_spellings :
  forall s : jsstring,
    is_compact_date s = true ->
    LegiDate.parseLegiDate (LegiDate.RawString s)
    = LegiDate.parseLegiDate
        (LegiDate.RawString (LegiDate.slice 0 4 s ++ [cHYPHEN]
                             ++ LegiDate.slice 4 6 s ++ [cHYPHEN]
                             ++ LegiDate.slice 6 8 s))
    /\ (LegiDate.parseLegiDate (LegiDate.RawString s) = None
        <-> starts_with (lit "2999") s = true).
Proof.
  intros s H.
  assert (Hshape : exists y1 y2 y3 y4 m1 m2 d1 d2,
             s = [y1; y2; y3; y4; m1; m2; d1; d2]).
  { unfold is_compact_date in H.
    destruct s as [|y1 [|y2 [|y3 [|y4 [|m1 [|m2 [|d1 [|d2 [|x tl]]]]]]]]];
      try discriminate.
    now exists y1, y2, y3, y4, m1, m2, d1, d2. }
  destruct Hshape as (y1 & y2 & y3 & y4 & m1 & m2 & d1 & d2 & ->).
  assert (Hiso : is_iso_date [y1; y2; y3; y4; cHYPHEN; m1; m2; cHYPHEN; d1; d2] = true).
  { unfold is_compact_date in H. cbn [forallb List.length Nat.eqb andb] in H.
    unfold is_iso_date. cbn [forallb]. rewrite !N.eqb_refl, !andb_true_r.
    rewrite andb_true_r in H. exact H. }
  assert (Hnot : is_iso_date [y1; y2; y3; y4; m1; m2; d1; d2] = false) by reflexivity.
  rewrite !parseLegiDate_text.
  rewrite (compact_date_trim _ H).
  cbn [LegiDate.slice Nat.sub skipn firstn app].
  rewrite (iso_date_trim _ Hiso).
  unfold legi_date_of. rewrite Hiso, Hnot, H.
  cbn [LegiDate.slice Nat.sub skipn firstn app].
  change (lit "2999") with [50; 57; 57; 57].
  cbn [str_eqb starts_with].
  rewrite (N.eqb_sym 50), !(N.eqb_sym 57), !andb_true_r.
  destruct ((y1 =? 50) && ((y2 =? 57) && ((y3 =? 57) && (y4 =? 57)))).
  - split; [reflexivity|]. split; reflexivity.
  - split; [reflexivity|]. split; discriminate.
Qed.

Lemma X19_witness :
  is_compact_date (lit "29990101") = true
  /\ LegiDate.parseLegiDate (LegiDate.RawString (lit "29990101"))
     = LegiDate.parseLegiDate (LegiDate.RawString (lit "2999-01-01"))
  /\ (LegiDate.parseLegiDate (LegiDate.RawString (lit "29990101")) = None
      <-> starts_with (lit "2999") (lit "29990101") = true).
Proof.
  split; [vm_compute; reflexivity|].
  apply (X19_legi_date_spellings (lit "29990101")).
  vm_compute. reflexivity.
Defined.

(** X20.  [parseArchiveTokenToIso] accepts exactly the tokens of the shape
    YYYYMMDD-HHMMSS; its result has twenty code units, is built from the
    token by position, and begins with a date of the shape YYYY-MM-DD. *)
Theorem X20_archive_token :
  forall s : jsstring,
    match Updates.parseArchiveTokenToIso s with
    | Some r =>
        is_archive_token s = true
        /\ r = archive_iso s
        /\ List.length r = 20%nat
        /\ is_iso_date (firstn 10 r) = true
    | None => is_archive_token s = false
    end.
Proof.
  intros s. rewrite exec_ARCHIVE_TOKEN.
  destruct (is_archive_token s) eqn:H; [|reflexivity].
  split; [reflexivity|]. split; [reflexivity|].
  unfold is_archive_token in H.
  destruct s as [|c1 [|c2 [|c3 [|c4 [|c5 [|c6 [|c7 [|c8 [|c9 [|c10 [|c11
    [|c12 [|c13 [|c14 [|c15 [|c16 tl]]]]]]]]]]]]]]]]; try discriminate.
  split; [reflexivity|].
  cbn [forallb] in H. bool_to_prop_in H.
  unfold archive_iso. cbn [LegiDate.slice Nat.sub skipn firstn app].
  unfold is_iso_date. cbn [forallb]. rewrite !N.eqb_refl, !andb_true_r.
  bool_to_prop. tauto.
Qed.

(* ------------------------------------------------------------------ *)
(** ** Statute identifiers *)

Lemma existsb_str_eqb_In : forall x l, existsb (str_eqb x) l = true <-> In x l.
Proof.
  intros x l. rewrite existsb_exists. split.
  - intros (y & Hin & Heq). apply str_eqb_eq in Heq. now subst.
  - intros H. exists x. split; [exact H | now apply str_eqb_eq].
Qed.

Lemma NoDup_snoc : forall (x : list N) l, NoDup l -> ~ In x l -> NoDup (l ++ [x]).
Proof.
  intros x. induction l as [|y l IH]; intros Hnd Hx; simpl.
  - constructor; [intros [] | constructor].
  - inversion Hnd as [|y' l' Hy Hl]; subst. constructor.
    + intros Hin. apply in_app_or in Hin as [Hin|[<-|[]]]; [now apply Hy|].
      apply Hx. now left.
    + apply IH; [exact Hl|]. intros Hin. apply Hx. now right.
Qed.

Lemma set_add_NoDup : forall x l, NoDup l -> NoDup (set_add x l).
Proof.
  intros x l H. unfold set_add.
  destruct (existsb (str_eqb x) l) eqn:E; [exact H|].
  apply NoDup_snoc; [exact H|].
  intros Hin. apply existsb_str_eqb_In in Hin. congruence.
Qed.

Lemma set_add_In : forall y x l, In y (set_add x l) <-> y = x \/ In y l.
Proof.
  intros y x l. unfold set_add.
  destruct (existsb (str_eqb x) l) eqn:E.
  - apply existsb_str_eqb_In in E. split; [now right|].
    intros [->|H]; assumption.
  - rewrite in_app_iff. simpl. split.
    + intros [H|[<-|[]]]; [now right | now left].
    + intros [->|H]; [right; now left | now left].
Qed.

Lemma set_add_length : forall x l,
  (List.length l <= List.length (set_add x l) <= S (List.length l))%nat.
Proof.
  intros x l. unfold set_add. destruct (existsb (str_eqb x) l).
  - lia.
  - rewrite length_app. simpl. lia.
Qed.

Lemma set_add_hd : forall x y l d, hd d (set_add x (y :: l)) = y.
Proof.
  intros x y l d. unfold set_add.
  destruct (existsb (str_eqb x) (y :: l)); reflexivity.
Qed.

Lemma set_add_cons : forall x y l, exists l', set_add x (y :: l) = y :: l'.
Proof.
  intros x y l. unfold set_add.
  destruct (existsb (str_eqb x) (y :: l)); simpl; eauto.
Qed.

(** The candidates as a chain of insertions. *)
Lemma statuteIdCandidates_chain : forall id,
  exists l1 l2 l3,
    l1 = set_add (trim id) [toLowerCase (trim id)]
    /\ (l2 = l1 \/ l2 = set_add (replace_runs is_ws [cHYPHEN] (toLowerCase (trim id))) l1)
    /\ (l3 = l2 \/ l3 = set_add (replace_each (N.eqb cHYPHEN) [cSPACE]
                                   (toLowerCase (trim id))) l2)
    /\ StatuteId.statuteIdCandidates id = l3.
Proof.
  intros id. unfold StatuteId.statuteIdCandidates. cbv zeta.
  change (set_add (toLowerCase (trim id)) []) with [toLowerCase (trim id)].
  set (lower := toLowerCase (trim id)).
  set (l1 := set_add (trim id) [lower]).
  set (l2 := if includes lower [cSPACE]
             then set_add (replace_runs is_ws [cHYPHEN] lower) l1 else l1).
  exists l1, l2,
    (if includes lower [cHYPHEN]
     then set_add (replace_each (N.eqb cHYPHEN) [cSPACE] lower) l2 else l2).
  split; [reflexivity|].
  split; [|split; [|reflexivity]].
  - subst l2. destruct (includes lower [cSPACE]); [right|left]; reflexivity.
  - destruct (includes lower [cHYPHEN]); [right|left]; reflexivity.
Qed.

Lemma replace_runs_aux_nonempty : forall (p : N -> bool) x s,
  s <> [] -> replace_runs_aux p [x] false s <> [].
Proof.
  intros p x [|c tl] H; [now contradiction H|].
  simpl. destruct (p c); discriminate.
Qed.

Lemma isValidStatuteId_trim : forall id,
  StatuteId.isValidStatuteId id = true <-> trim id <> [].
Proof.
  intros id. unfold StatuteId.isValidStatuteId.
  pose proof (trim_length id) as Hlen.
  rewrite andb_true_iff, !Nat.ltb_lt. split.
  - intros [_ H] E. rewrite E in H. simpl in H. lia.
  - intros H. destruct (trim id) as [|c tl]; [now contradiction H|].
    simpl in *. lia.
Qed.

(** X21.  The candidates of [statuteIdCandidates] are pairwise distinct,
    between one and four, begin with the trimmed identifier in lower case,
    and contain the trimmed identifier as it was written. *)
Theorem X21_candidates_set :
  forall id : jsstring,
    NoDup (StatuteId.statuteIdCandidates id)
    /\ (1 <= List.length (StatuteId.statuteIdCandidates id) <= 4)%nat
    /\ hd [] (StatuteId.statuteIdCandidates id) = toLowerCase (trim id)
    /\ In (trim id) (StatuteId.statuteIdCandidates id).
Proof.
  intros id.
  destruct (statuteIdCandidates_chain id) as (l1 & l2 & l3 & H1 & H2 & H3 & ->).
  assert (N1 : NoDup l1).
  { subst l1. apply set_add_NoDup. constructor; [intros [] | constructor]. }
  assert (L1 : (1 <= List.length l1 <= 2)%nat).
  { subst l1. pose proof (set_add_length (trim id) [toLowerCase (trim id)]) as H.
    simpl in H. lia. }
  assert (C1 : exists t, l1 = toLowerCase (trim id) :: t).
  { subst l1. apply set_add_cons. }
  assert (I1 : In (trim id) l1).
  { subst l1. apply set_add_In. now left. }
  assert (N2 : NoDup l2).
  { destruct H2 as [->| ->]; [exact N1 | now apply set_add_NoDup]. }
  assert (L2 : (1 <= List.length l2 <= 3)%nat).
  { destruct H2 as [->| ->]; [lia|].
    pose proof (set_add_length (replace_runs is_ws [cHYPHEN] (toLowerCase (trim id))) l1).
    lia. }
  assert (C2 : exists t, l2 = toLowerCase (trim id) :: t).
  { destruct H2 as [->| ->]; [exact C1|].
    destruct C1 as (t & ->). apply set_add_cons. }
  assert (I2 : In (trim id) l2).
  { destruct H2 as [->| ->]; [exact I1|]. apply set_add_In. now right. }
  split; [|split; [|split]].
  - destruct H3 as [->| ->]; [exact N2 | now apply set_add_NoDup].
  - destruct H3 as [->| ->]; [lia|].
    pose proof (set_add_length (replace_each (N.eqb cHYPHEN) [cSPACE]
                                  (toLowerCase (trim id))) l2).
    lia.
  - destruct H3 as [->| ->]; destruct C2 as (t & ->);
      [reflexivity | apply set_add_hd].
  - destruct H3 as [->| ->]; [exact I2|]. apply set_add_In. now right.
Qed.

(** X22.  [isValidStatuteId] holds exactly when something is left after
    trimming.  For a valid identifier no candidate is empty; for an invalid
    one the empty string is the only candidate. *)
Theorem X22_valid_candidates :
  forall id : jsstring,
    (StatuteId.isValidStatuteId id = true <-> trim id <> [])
    /\ (if StatuteId.isValidStatuteId id
        then Forall (fun c => c <> []) (StatuteId.statuteIdCandidates id)
        else StatuteId.statuteIdCandidates id = [[]]).
Proof.
  intros id. split; [apply isValidStatuteId_trim|].
  destruct (StatuteId.isValidStatuteId id) eqn:Hv.
  - apply isValidStatuteId_trim in Hv.
    assert (Hl : toLowerCase (trim id) <> []).
    { now apply toLowerCase_nonempty. }
    destruct (statuteIdCandidates_chain id) as (l1 & l2 & l3 & H1 & H2 & H3 & ->).
    apply Forall_forall. intros c Hc.
    assert (Hcases : c = toLowerCase (trim id) \/ c = trim id
                     \/ c = replace_runs is_ws [cHYPHEN] (toLowerCase (trim id))
                     \/ c = replace_each (N.eqb cHYPHEN) [cSPACE] (toLowerCase (trim id))).
    { assert (Hc1 : forall x, In x l1 -> x = toLowerCase (trim id) \/ x = trim id).
      { intros x Hx. subst l1. apply set_add_In in Hx as [->|[<-|[]]]; tauto. }
      assert (Hc2 : forall x, In x l2 ->
                 x = toLowerCase (trim id) \/ x = trim id
                 \/ x = replace_runs is_ws [cHYPHEN] (toLowerCase (trim id))).
      { intros x Hx. destruct H2 as [->| ->].
        - destruct (Hc1 x Hx); tauto.
        - apply set_add_In in Hx as [->|Hx]; [tauto|].
          destruct (Hc1 x Hx); tauto. }
      destruct H3 as [->| ->].
      - destruct (Hc2 c Hc) as [?|[?|?]]; tauto.
      - apply set_add_In in Hc as [->|Hc]; [tauto|].
        destruct (Hc2 c Hc) as [?|[?|?]]; tauto. }
    destruct Hcases as [->|[->|[->| ->]]].
    + exact Hl.
    + exact Hv.
    + apply replace_runs_aux_nonempty. exact Hl.
    + intros E. apply (f_equal (@List.length N)) in E.
      rewrite replace_each_length in E.
      destruct (toLowerCase (trim id)); [now contradiction Hl | discriminate].
  - assert (Ht : trim id = []).
    { destruct (trim id) eqn:E; [reflexivity|].
      assert (Hne : trim id <> []) by (rewrite E; discriminate).
      apply isValidStatuteId_trim in Hne. congruence. }
    unfold StatuteId.statuteIdCandidates. rewrite Ht. reflexivity.
Qed.

Lemma select_by_id_some : forall db id d,
  StatuteId.select_by_id db id = Some d ->
  In d (legal_documents db) /\ d_id d = id.
Proof.
  intros db id d H. unfold StatuteId.select_by_id in H.
  apply find_some in H as [Hin Heq]. apply str_eqb_eq in Heq. now split.
Qed.

Lemma select_by_id_none : forall db id,
  StatuteId.select_by_id db id = None <-> ~ In id (map d_id (legal_documents db)).
Proof.
  intros db id. unfold StatuteId.select_by_id. split.
  - intros H Hin. apply in_map_iff in Hin as (d & Hd & Hin).
    pose proof (find_none _ _ H d Hin) as Hf. cbv beta in Hf.
    rewrite Hd, str_eqb_refl in Hf. discriminate.
  - intros H. destruct (find _ _) as [d|] eqn:E; [|reflexivity].
    apply find_some in E as [Hin Heq]. apply str_eqb_eq in Heq.
    exfalso. apply H. apply in_map_iff. now exists d.
Qed.

Lemma select_by_id_stored : forall db id,
  In id (map d_id (legal_documents db)) ->
  exists d, StatuteId.select_by_id db id = Some d /\ d_id d = id.
Proof.
  intros db id H. destruct (StatuteId.select_by_id db id) as [d|] eqn:E.
  - exists d. split; [reflexivity|]. now apply select_by_id_some in E.
  - apply select_by_id_none in E. contradiction.
Qed.

Section TitleSearch.

Variable title_like : jsstring -> jsstring -> option bool.

Lemma select_by_title_some : forall pattern docs d,
  StatuteId.select_by_title title_like pattern docs = Some (Some d) ->
  In d docs /\ title_like pattern (d_title d) = Some true.
Proof.
  intros pattern. induction docs as [|x tl IH]; intros d H; simpl in H.
  - discriminate.
  - destruct (title_like pattern (d_title x)) as [[|]|] eqn:E.
    + injection H as <-. split; [now left | exact E].
    + destruct (IH d H) as [Hin Hl]. split; [now right | exact Hl].
    + discriminate.
Qed.

Lemma select_by_title_none : forall pattern docs,
  StatuteId.select_by_title title_like pattern docs = Some None <->
  forall d, In d docs -> title_like pattern (d_title d) = Some false.
Proof.
  intros pattern. induction docs as [|x tl IH]; simpl.
  - split; [intros _ d [] | reflexivity].
  - destruct (title_like pattern (d_title x)) as [[|]|] eqn:E.
    + split; [discriminate|]. intros H.
      specialize (H x (or_introl eq_refl)). congruence.
    + rewrite IH. split.
      * intros H d [<-|Hin]; [exact E | now apply H].
      * intros H d Hin. apply H. now right.
    + split; [discriminate|]. intros H.
      specialize (H x (or_introl eq_refl)). congruence.
Qed.

Lemma select_by_title_found : forall pattern docs d,
  (forall x, In x docs -> title_like pattern (d_title x) <> None) ->
  In d docs -> title_like pattern (d_title d) = Some true ->
  exists d', StatuteId.select_by_title title_like pattern docs = Some (Some d')
             /\ In d' docs.
Proof.
  intros pattern. induction docs as [|x tl IH]; intros d Htot Hin Hd; simpl.
  - contradiction.
  - destruct (title_like pattern (d_title x)) as [[|]|] eqn:E.
    + exists x. split; [reflexivity | now left].
    + destruct Hin as [->|Hin]; [congruence|].
      destruct (IH d) as (d' & Hs & Hin'); try assumption.
      * intros y Hy. apply Htot. now right.
      * exists d'. split; [exact Hs | now right].
    + exfalso. apply (Htot x); [now left | exact E].
Qed.

End TitleSearch.

(** [LIKE] with a leading [%]: some suffix of the text matches the rest. *)
Lemma sql_like_percent : forall pattern a b,
  StatuteId.sql_like pattern b = true ->
  StatuteId.sql_like (37 :: pattern) (a ++ b) = true.
Proof.
  intros pattern. induction a as [|c a IH]; intros b H.
  - cbn [app]. destruct b as [|x b]; cbn [StatuteId.sql_like];
      change (37 =? 37) with true; cbv iota; rewrite H; reflexivity.
  - specialize (IH b H). cbn [app StatuteId.sql_like] in IH |- *.
    change (37 =? 37) with true in IH |- *. cbv iota in IH |- *.
    rewrite IH. apply orb_true_r.
Qed.

Lemma like_unit_eq_refl : forall c, StatuteId.like_unit_eq c c = true.
Proof. intros c. unfold StatuteId.like_unit_eq. apply N.eqb_refl. Qed.

Lemma sql_like_prefix : forall p q t,
  StatuteId.sql_like q t = true ->
  StatuteId.sql_like (p ++ q) (p ++ t) = true.
Proof.
  induction p as [|c p IH]; intros q t H; [exact H|].
  specialize (IH q t H).
  destruct (N.eqb_spec c 37) as [->|H37].
  - apply (sql_like_percent (p ++ q) [37] (p ++ t)). exact IH.
  - cbn [app StatuteId.sql_like].
    apply N.eqb_neq in H37. rewrite H37.
    destruct (N.eqb_spec c 95) as [->|H95].
    + destruct (p ++ t) as [|l t'] eqn:E; exact IH.
    + rewrite like_unit_eq_refl. exact IH.
Qed.

(** SQLite's [LIKE] finds every fragment of a text. *)
Lemma sql_like_fragment : forall a f b,
  StatuteId.sql_like ([37] ++ f ++ [37]) (a ++ f ++ b) = true.
Proof.
  intros a f b. apply (sql_like_percent (f ++ [37]) a (f ++ b)).
  apply sql_like_prefix.
  rewrite <- (app_nil_r b). apply (sql_like_percent [] b []). reflexivity.
Qed.

Lemma resolve_sound :
  forall (title_like : jsstring -> jsstring -> option bool)
         (db : Database) (inputId i : jsstring),
    StatuteId.resolveExistingStatuteId title_like db inputId = Some (Some i) ->
    exists d, In d (legal_documents db) /\ d_id d = i
      /\ (i = inputId \/ i = toLowerCase (trim inputId)
          \/ title_like ([37] ++ inputId ++ [37]) (d_title d) = Some true).
Proof.
  intros title_like db inputId i H. unfold StatuteId.resolveExistingStatuteId in H.
  destruct (StatuteId.select_by_id db inputId) as [exact|] eqn:E1.
  - apply select_by_id_some in E1 as [Hin Hid]. injection H as <-.
    exists exact. tauto.
  - cbv zeta in H.
    destruct (if negb (str_eqb (toLowerCase (trim inputId)) inputId)
              then StatuteId.select_by_id db (toLowerCase (trim inputId))
              else None) as [byLower|] eqn:E2.
    + destruct (negb (str_eqb (toLowerCase (trim inputId)) inputId)); [|discriminate].
      apply select_by_id_some in E2 as [Hin Hid]. injection H as <-.
      exists byLower. tauto.
    + destruct (StatuteId.select_by_title title_like _ _) as [[d|]|] eqn:E3;
        try discriminate.
      apply select_by_title_some in E3 as [Hin Hl]. injection H as <-.
      exists d. tauto.
Qed.

Lemma resolve_stored_first :
  forall (title_like : jsstring -> jsstring -> option bool)
         (db : Database) (inputId i : jsstring),
    In i (map d_id (legal_documents db)) ->
    i = inputId
    \/ (i = toLowerCase (trim inputId)
        /\ ~ In inputId (map d_id (legal_documents db))) ->
    StatuteId.resolveExistingStatuteId title_like db inputId = Some (Some i).
Proof.
  intros title_like db inputId i Hin Hcase.
  unfold StatuteId.resolveExistingStatuteId.
  destruct Hcase as [->|[-> Hnot]].
  - destruct (select_by_id_stored db inputId Hin) as (d & -> & Hd).
    now rewrite Hd.
  - apply select_by_id_none in Hnot. rewrite Hnot. cbv zeta.
    destruct (str_eqb (toLowerCase (trim inputId)) inputId) eqn:E.
    + apply str_eqb_eq in E. rewrite E in Hin.
      apply select_by_id_none in Hnot. contradiction.
    + cbn [negb].
      destruct (select_by_id_stored db _ Hin) as (d & -> & Hd).
      now rewrite Hd.
Qed.

Lemma resolve_none_iff :
  forall (title_like : jsstring -> jsstring -> option bool)
         (db : Database) (inputId : jsstring),
    StatuteId.resolveExistingStatuteId title_like db inputId = Some None
    <-> (~ In inputId (map d_id (legal_documents db))
         /\ ~ In (toLowerCase (trim inputId)) (map d_id (legal_documents db))
         /\ forall d, In d (legal_documents db) ->
              title_like ([37] ++ inputId ++ [37]) (d_title d) = Some false).
Proof.
  intros title_like db inputId. unfold StatuteId.resolveExistingStatuteId.
  destruct (StatuteId.select_by_id db inputId) as [exact|] eqn:E1.
  - split; [discriminate|]. intros (H & _).
    apply select_by_id_none in H. congruence.
  - cbv zeta. pose proof E1 as N1. apply select_by_id_none in N1.
    destruct (str_eqb (toLowerCase (trim inputId)) inputId) eqn:E.
    + apply str_eqb_eq in E. cbn [negb]. rewrite E.
      rewrite <- select_by_title_none.
      destruct (StatuteId.select_by_title title_like _ _) as [[d|]|];
        cbn [option_map]; split; try discriminate; try tauto.
      * intros (_ & _ & H). discriminate.
      * intros (_ & _ & H). discriminate.
    + cbn [negb].
      destruct (StatuteId.select_by_id db (toLowerCase (trim inputId)))
        as [byLower|] eqn:E2.
      * split; [discriminate|]. intros (_ & H & _).
        apply select_by_id_none in H. congruence.
      * apply select_by_id_none in E2.
        rewrite <- select_by_title_none.
        destruct (StatuteId.select_by_title title_like _ _) as [[d|]|];
          cbn [option_map]; split; try discriminate; try tauto.
        -- intros (_ & _ & H). discriminate.
        -- intros (_ & _ & H). discriminate.
Qed.

Lemma resolve_total :
  forall (title_like : jsstring -> jsstring -> option bool)
         (db : Database) (inputId : jsstring),
    (forall d, In d (legal_documents db) ->
       title_like ([37] ++ inputId ++ [37]) (d_title d) <> None) ->
    StatuteId.resolveExistingStatuteId title_like db inputId <> None.
Proof.
  intros title_like db inputId Htot. unfold StatuteId.resolveExistingStatuteId.
  destruct (StatuteId.select_by_id db inputId); [discriminate|]. cbv zeta.
  destruct (if negb (str_eqb (toLowerCase (trim inputId)) inputId)
            then StatuteId.select_by_id db (toLowerCase (trim inputId))
            else None); [discriminate|].
  revert Htot. generalize (legal_documents db). intros docs.
  induction docs as [|x tl IH]; intros Htot;
    cbn [StatuteId.select_by_title option_map]; [discriminate|].
  destruct (title_like ([37] ++ inputId ++ [37]) (d_title x)) as [[|]|] eqn:E.
  - discriminate.
  - apply IH. intros d Hd. apply Htot. now right.
  - exfalso. apply (Htot x); [now left | exact E].
Qed.

(** X23.  An identifier returned by [resolveExistingStatuteId] is the
    identifier of a stored document: the input itself, the trimmed input in
    lower case, or a document whose title the [LIKE] operator accepts for
    the input between two [%]. *)
Theorem X23_resolved_id_stored :
  forall (title_like : jsstring -> jsstring -> option bool)
         (db : Database) (inputId i : jsstring),
    StatuteId.resolveExistingStatuteId title_like db inputId = Some (Some i) ->
    exists d, In d (legal_documents db) /\ d_id d = i
      /\ (i = inputId \/ i = toLowerCase (trim inputId)
          \/ title_like ([37] ++ inputId ++ [37]) (d_title d) = Some true).
Proof. exact resolve_sound. Qed.

Lemma X23_witness :
  StatuteId.resolveExistingStatuteId
    (fun pattern text => Some (StatuteId.sql_like pattern text)) db0
    (lit "de la") = Some (Some (lit "code-defense"))
  /\ exists d, In d (legal_documents db0) /\ d_id d = lit "code-defense"
       /\ (lit "code-defense" = lit "de la"
           \/ lit "code-defense" = toLowerCase (trim (lit "de la"))
           \/ Some (StatuteId.sql_like ([37] ++ lit "de la" ++ [37]) (d_title d))
              = Some true).
Proof.
  split; [vm_compute; reflexivity|].
  apply (X23_resolved_id_stored
           (fun pattern text => Some (StatuteId.sql_like pattern text)) db0
           (lit "de la") (lit "code-defense")).
  vm_compute. reflexivity.
Defined.

(** X24.  Identifiers come first: a stored identifier resolves to itself,
    and an input that is not stored but whose trimmed lower-case form is
    resolves to that form, whatever the titles are and without the [LIKE]
    operator being consulted. *)
Theorem X24_stored_id_first :
  forall (title_like : jsstring -> jsstring -> option bool)
         (db : Database) (inputId i : jsstring),
    In i (map d_id (legal_documents db)) ->
    i = inputId
    \/ (i = toLowerCase (trim inputId)
        /\ ~ In inputId (map d_id (legal_documents db))) ->
    StatuteId.resolveExistingStatuteId title_like db inputId = Some (Some i).
Proof. exact resolve_stored_first. Qed.

Lemma X24_witness :
  In (lit "code-penal") (map d_id (legal_documents db0))
  /\ StatuteId.resolveExistingStatuteId (fun _ _ => None) db0 (lit " CODE-PENAL ")
     = Some (Some (lit "code-penal")).
Proof.
  split; [vm_compute; tauto|].
  apply (X24_stored_id_first (fun _ _ => None) db0 (lit " CODE-PENAL ")
           (lit "code-penal")).
  - vm_compute. tauto.
  - right. split; [vm_compute; reflexivity|].
    vm_compute. intros [H|[H|[]]]; discriminate.
Defined.

(** X25.  [resolveExistingStatuteId] returns null exactly when neither the
    input nor its trimmed lower-case form is a stored identifier and the
    [LIKE] operator rejects every title. *)
Theorem X25_unresolved_iff :
  forall (title_like : jsstring -> jsstring -> option bool)
         (db : Database) (inputId : jsstring),
    StatuteId.resolveExistingStatuteId title_like db inputId = Some None
    <-> (~ In inputId (map d_id (legal_documents db))
         /\ ~ In (toLowerCase (trim inputId)) (map d_id (legal_documents db))
         /\ forall d, In d (legal_documents db) ->
              title_like ([37] ++ inputId ++ [37]) (d_title d) = Some false).
Proof. exact resolve_none_iff. Qed.

(** X26.  When the [LIKE] operator never fails and finds every fragment of a
    text (as SQLite's does), every fragment of a stored title resolves to a
    stored identifier; the empty input is such a fragment. *)
Theorem X26_title_fragment_resolves :
  forall (title_like : jsstring -> jsstring -> option bool)
         (db : Database) (d : LegalDocument) (a inputId b : jsstring),
    (forall pattern text, title_like pattern text <> None) ->
    (forall a' f b', title_like ([37] ++ f ++ [37]) (a' ++ f ++ b') = Some true) ->
    In d (legal_documents db) ->
    d_title d = a ++ inputId ++ b ->
    exists i, StatuteId.resolveExistingStatuteId title_like db inputId = Some (Some i)
              /\ In i (map d_id (legal_documents db)).
Proof.
  intros title_like db d a inputId b Htot Hlike Hin Htitle.
  destruct (StatuteId.resolveExistingStatuteId title_like db inputId)
    as [[i|]|] eqn:E.
  - exists i. split; [reflexivity|].
    apply resolve_sound in E as (d' & Hd' & Hid & _).
    apply in_map_iff. now exists d'.
  - exfalso. apply resolve_none_iff in E as (_ & _ & E).
    specialize (E d Hin). rewrite Htitle, Hlike in E. discriminate.
  - exfalso. revert E. apply resolve_total. intros x _. apply Htot.
Qed.

Lemma X26_witness :
  exists i,
    StatuteId.resolveExistingStatuteId
      (fun pattern text => Some (StatuteId.sql_like pattern text)) db0 []
    = Some (Some i)
    /\ In i (map d_id (legal_documents db0)).
Proof.
  apply (X26_title_fragment_resolves
           (fun pattern text => Some (StatuteId.sql_like pattern text)) db0
           {| d_id := lit "code-penal"; d_title := lit "Code pénal";
              d_short_name := None; d_status := lit "in_force" |}
           (lit "Code") [] (lit " pénal")).
  - discriminate.
  - intros a' f b'. now rewrite sql_like_fragment.
  - vm_compute. tauto.
  - vm_compute. reflexivity.
Defined.

(* ------------------------------------------------------------------ *)
(** ** Seed provisions without duplicates *)

Lemma map_get_In : forall m key v,
  BuildDb.map_get m key = Some v -> In (key, v) m.
Proof.
  induction m as [|[k x] tl IH]; intros key v H; simpl in H; [discriminate|].
  destruct (str_eqb k key) eqn:E.
  - apply str_eqb_eq in E. injection H as <-. subst. now left.
  - right. now apply IH.
Qed.

Lemma map_get_none : forall m key,
  BuildDb.map_get m key = None <-> ~ In key (map fst m).
Proof.
  induction m as [|[k x] tl IH]; intros key; simpl.
  - split; [intros _ [] | reflexivity].
  - destruct (str_eqb k key) eqn:E.
    + apply str_eqb_eq in E. split; [discriminate|]. intros H.
      exfalso. apply H. now left.
    + apply str_eqb_neq in E. rewrite IH. tauto.
Qed.

Lemma map_get_set_same : forall m key v,
  BuildDb.map_get (BuildDb.map_set m key v) key = Some v.
Proof.
  induction m as [|[k x] tl IH]; intros key v; simpl.
  - now rewrite str_eqb_refl.
  - destruct (str_eqb k key) eqn:E; simpl; rewrite E; [reflexivity | apply IH].
Qed.

Lemma map_get_set_other : forall m key v key',
  key' <> key ->
  BuildDb.map_get (BuildDb.map_set m key v) key' = BuildDb.map_get m key'.
Proof.
  induction m as [|[k x] tl IH]; intros key v key' H; simpl.
  - assert (E : str_eqb key key' = false) by (apply str_eqb_neq; congruence).
    now rewrite E.
  - destruct (str_eqb k key) eqn:E; simpl.
    + apply str_eqb_eq in E. subst k.
      assert (E' : str_eqb key key' = false) by (apply str_eqb_neq; congruence).
      now rewrite E'.
    + destruct (str_eqb k key'); [reflexivity | now apply IH].
Qed.

Lemma map_set_absent : forall m key v,
  BuildDb.map_get m key = None -> BuildDb.map_set m key v = m ++ [(key, v)].
Proof.
  induction m as [|[k x] tl IH]; intros key v H; simpl in *; [reflexivity|].
  destruct (str_eqb k key); [discriminate|]. f_equal. now apply IH.
Qed.

Lemma map_set_present : forall m key v old,
  BuildDb.map_get m key = Some old ->
  map fst (BuildDb.map_set m key v) = map fst m.
Proof.
  induction m as [|[k x] tl IH]; intros key v old H; simpl in *; [discriminate|].
  destruct (str_eqb k key); simpl; [reflexivity|]. f_equal. now apply IH with old.
Qed.

Lemma In_map_set : forall m key v k x,
  In (k, x) (BuildDb.map_set m key v) -> (k = key /\ x = v) \/ In (k, x) m.
Proof.
  induction m as [|[k0 x0] tl IH]; intros key v k x H; simpl in H.
  - destruct H as [[= <- <-]|[]]. now left.
  - destruct (str_eqb k0 key) eqn:E.
    + apply str_eqb_eq in E. subst k0.
      destruct H as [[= <- <-]|H]; [now left | right; now right].
    + destruct H as [H|H]; [right; now left|].
      destruct (IH _ _ _ _ H) as [?|?]; [now left | right; now right].
Qed.

Lemma NoDup_keys_get : forall m k x,
  NoDup (map fst m) -> In (k, x) m -> BuildDb.map_get m k = Some x.
Proof.
  induction m as [|[k0 x0] tl IH]; intros k x Hnd Hin; simpl in *; [contradiction|].
  inversion Hnd as [|a l Hk Htl]; subst.
  destruct Hin as [[= -> ->]|Hin].
  - now rewrite str_eqb_refl.
  - destruct (str_eqb k0 k) eqn:E.
    + apply str_eqb_eq in E. subst k0. exfalso. apply Hk.
      apply in_map_iff. now exists (k, x).
    + now apply IH.
Qed.

Lemma with_ref_same : forall o, BuildDb.with_ref o (BuildDb.provision_ref o) = o.
Proof. intros []. reflexivity. Qed.

Lemma dedupe_step_invariant : forall seen m prov,
  dedupe_invariant seen m -> dedupe_invariant (seen ++ [prov]) (BuildDb.dedupe_step m prov).
Proof.
  intros seen m prov (Hnd & Hval & Hcov & Hlen).
  unfold BuildDb.dedupe_step. cbv zeta.
  set (ref := trim (BuildDb.provision_ref prov)).
  assert (Hnew : forall k x,
            In (k, x) (BuildDb.map_set m ref (BuildDb.with_ref prov ref)) ->
            BuildDb.provision_ref x = k
            /\ exists p, In p (seen ++ [prov])
                 /\ trim (BuildDb.provision_ref p) = k
                 /\ x = BuildDb.with_ref p k).
  { intros k x Hin. apply In_map_set in Hin as [[-> ->]|Hin].
    - split; [reflexivity|]. exists prov. split; [|now split].
      apply in_or_app. right. now left.
    - destruct (Hval k x Hin) as (Hk & p & Hp & Hpk & Hx).
      split; [exact Hk|]. exists p. split; [|now split].
      apply in_or_app. now left. }
  assert (Hold : forall k x, In (k, x) m ->
            BuildDb.provision_ref x = k
            /\ exists p, In p (seen ++ [prov])
                 /\ trim (BuildDb.provision_ref p) = k
                 /\ x = BuildDb.with_ref p k).
  { intros k x Hin. destruct (Hval k x Hin) as (Hk & p & Hp & Hpk & Hx).
    split; [exact Hk|]. exists p. split; [|now split].
    apply in_or_app. now left. }
  destruct (BuildDb.map_get m ref) as [existing|] eqn:Hget.
  - destruct (Nat.ltb (BuildDb.content_length existing) (BuildDb.content_length prov)) eqn:Hlt.
    + split; [|split; [exact Hnew|split]].
      * now rewrite (map_set_present m ref _ existing Hget).
      * intros p Hp. apply in_app_or in Hp as [Hp|[<-|[]]].
        -- destruct (Hcov p Hp) as (v & Hv & Hle).
           destruct (list_eq_dec N.eq_dec (trim (BuildDb.provision_ref p)) ref) as [E|E].
           ++ rewrite E, map_get_set_same. eexists. split; [reflexivity|].
              rewrite E, Hget in Hv. injection Hv as <-.
              apply Nat.ltb_lt in Hlt. unfold BuildDb.content_length in *.
              cbn [BuildDb.with_ref BuildDb.content]. lia.
           ++ rewrite map_get_set_other by exact E. eauto.
        -- fold ref. rewrite map_get_set_same. eexists. split; [reflexivity|].
           unfold BuildDb.content_length. cbn [BuildDb.with_ref BuildDb.content]. lia.
      * rewrite length_app.
        pose proof (f_equal (@List.length _) (map_set_present m ref
                      (BuildDb.with_ref prov ref) existing Hget)) as Hl.
        rewrite !length_map in Hl. simpl. lia.
    + split; [exact Hnd|split; [exact Hold|split]].
      * intros p Hp. apply in_app_or in Hp as [Hp|[<-|[]]]; [now apply Hcov|].
        fold ref. exists existing. split; [exact Hget|].
        apply Nat.ltb_ge in Hlt. exact Hlt.
      * rewrite length_app. simpl. lia.
  - rewrite (map_set_absent m ref _ Hget).
    split; [|split; [|split]].
    + rewrite map_app. simpl. apply NoDup_snoc; [exact Hnd|].
      now apply map_get_none.
    + intros k x Hin. apply Hnew. now rewrite (map_set_absent m ref _ Hget).
    + intros p Hp.
      rewrite <- (map_set_absent m ref (BuildDb.with_ref prov ref) Hget).
      apply in_app_or in Hp as [Hp|[<-|[]]].
      * destruct (Hcov p Hp) as (v & Hv & Hle).
        destruct (list_eq_dec N.eq_dec (trim (BuildDb.provision_ref p)) ref) as [E|E].
        -- rewrite E, Hget in Hv. discriminate.
        -- rewrite map_get_set_other by exact E. eauto.
      * fold ref. rewrite map_get_set_same. eexists. split; [reflexivity|].
        unfold BuildDb.content_length. cbn [BuildDb.with_ref BuildDb.content]. lia.
    + rewrite !length_app. simpl. lia.
Qed.

Lemma dedupe_fold_invariant : forall rest seen m,
  dedupe_invariant seen m ->
  dedupe_invariant (seen ++ rest) (fold_left BuildDb.dedupe_step rest m).
Proof.
  induction rest as [|prov rest IH]; intros seen m H; simpl.
  - now rewrite app_nil_r.
  - replace (seen ++ prov :: rest) with ((seen ++ [prov]) ++ rest)
      by (now rewrite <- app_assoc).
    apply IH. now apply dedupe_step_invariant.
Qed.

Lemma dedupe_invariant_final : forall provisions,
  dedupe_invariant provisions (fold_left BuildDb.dedupe_step provisions []).
Proof.
  intros provisions.
  apply (dedupe_fold_invariant provisions [] []).
  split; [constructor|]. split; [intros k x []|]. split; [intros p []|].
  simpl. lia.
Qed.

Lemma dedupe_keys : forall seen m,
  dedupe_invariant seen m -> map BuildDb.provision_ref (map snd m) = map fst m.
Proof.
  intros seen m (_ & Hval & _). induction m as [|[k x] tl IH]; simpl; [reflexivity|].
  f_equal.
  - apply (Hval k x). now left.
  - apply IH. intros k' x' Hin. apply Hval. now right.
Qed.

Lemma dedupe_fresh : forall l m,
  (forall o, In o l ->
     trim (BuildDb.provision_ref o) = BuildDb.provision_ref o) ->
  NoDup (map fst m ++ map BuildDb.provision_ref l) ->
  fold_left BuildDb.dedupe_step l m
  = m ++ map (fun o => (BuildDb.provision_ref o, o)) l.
Proof.
  induction l as [|o l IH]; intros m Htrim Hnd; simpl.
  - now rewrite app_nil_r.
  - assert (Hget : BuildDb.map_get m (BuildDb.provision_ref o) = None).
    { apply map_get_none. intros Hin.
      apply NoDup_remove_2 in Hnd. apply Hnd. apply in_or_app. now left. }
    unfold BuildDb.dedupe_step at 2. cbv zeta.
    rewrite (Htrim o (or_introl eq_refl)), Hget.
    rewrite (map_set_absent m _ _ Hget), with_ref_same.
    rewrite IH.
    + now rewrite <- app_assoc.
    + intros x Hx. apply Htrim. now right.
    + rewrite map_app. simpl. now rewrite <- app_assoc.
Qed.

Lemma dedupe_output : forall provisions,
  NoDup (map BuildDb.provision_ref (BuildDb.dedupeProvisions provisions))
  /\ (List.length (BuildDb.dedupeProvisions provisions) <= List.length provisions)%nat
  /\ (forall o, In o (BuildDb.dedupeProvisions provisions) ->
        exists p, In p provisions
                  /\ o = BuildDb.with_ref p (trim (BuildDb.provision_ref p))).
Proof.
  intros provisions. unfold BuildDb.dedupeProvisions.
  pose proof (dedupe_invariant_final provisions) as Hinv.
  pose proof (dedupe_keys _ _ Hinv) as Hkeys.
  destruct Hinv as (Hnd & Hval & Hcov & Hlen).
  split; [now rewrite Hkeys|]. split; [now rewrite length_map|].
  intros o Ho. apply in_map_iff in Ho as ([k x] & Heq & Hin).
  simpl in Heq. subst x.
  destruct (Hval k o Hin) as (_ & p & Hp & Hk & Ho).
  exists p. split; [exact Hp|]. now rewrite Hk.
Qed.

Lemma dedupe_covers : forall provisions p,
  In p provisions ->
  exists o, In o (BuildDb.dedupeProvisions provisions)
    /\ BuildDb.provision_ref o = trim (BuildDb.provision_ref p)
    /\ (BuildDb.content_length p <= BuildDb.content_length o)%nat.
Proof.
  intros provisions p Hp. unfold BuildDb.dedupeProvisions.
  destruct (dedupe_invariant_final provisions) as (Hnd & Hval & Hcov & Hlen).
  destruct (Hcov p Hp) as (v & Hv & Hle).
  apply map_get_In in Hv.
  exists v. split; [|split; [|exact Hle]].
  - apply in_map_iff. now exists (trim (BuildDb.provision_ref p), v).
  - now apply (Hval _ _ Hv).
Qed.

(** X27.  The provisions returned by [dedupeProvisions] have pairwise
    distinct references, are no more than the provisions given, and each of
    them is one of the provisions given with its reference trimmed. *)
Theorem X27_dedupe_distinct :
  forall provisions : list BuildDb.ProvisionSeed,
    NoDup (map BuildDb.provision_ref (BuildDb.dedupeProvisions provisions))
    /\ (List.length (BuildDb.dedupeProvisions provisions)
        <= List.length provisions)%nat
    /\ (forall o, In o (BuildDb.dedupeProvisions provisions) ->
          exists p, In p provisions
                    /\ o = BuildDb.with_ref p (trim (BuildDb.provision_ref p))).
Proof. exact dedupe_output. Qed.

(** X28.  Every provision given to [dedupeProvisions] is represented in the
    result: some returned provision carries its trimmed reference, with a
    content that is at least as long once whitespace is normalised. *)
Theorem X28_dedupe_keeps_longest :
  forall (provisions : list BuildDb.ProvisionSeed) (p : BuildDb.ProvisionSeed),
    In p provisions ->
    exists o, In o (BuildDb.dedupeProvisions provisions)
      /\ BuildDb.provision_ref o = trim (BuildDb.provision_ref p)
      /\ (BuildDb.content_length p <= BuildDb.content_length o)%nat.
Proof. exact dedupe_covers. Qed.

Lemma X28_witness :
  BuildDb.dedupeProvisions
    [seed0 (lit "art1") (lit "court"); seed0 (lit " art1 ") (lit "plus  long")]
  = [seed0 (lit "art1") (lit "plus  long")]
  /\ exists o,
       In o (BuildDb.dedupeProvisions
               [seed0 (lit "art1") (lit "court");
                seed0 (lit " art1 ") (lit "plus  long")])
       /\ BuildDb.provision_ref o
          = trim (BuildDb.provision_ref (seed0 (lit "art1") (lit "court")))
       /\ (BuildDb.content_length (seed0 (lit "art1") (lit "court"))
           <= BuildDb.content_length o)%nat.
Proof.
  split; [vm_compute; reflexivity|].
  apply (X28_dedupe_keeps_longest
           [seed0 (lit "art1") (lit "court"); seed0 (lit " art1 ") (lit "plus  long")]
           (seed0 (lit "art1") (lit "court"))).
  simpl. tauto.
Defined.

(** X29.  [dedupeProvisions] is idempotent, and the references it returns
    are trimmed. *)
Theorem X29_dedupe_idempotent :
  forall provisions : list BuildDb.ProvisionSeed,
    BuildDb.dedupeProvisions (BuildDb.dedupeProvisions provisions)
    = BuildDb.dedupeProvisions provisions
    /\ Forall (fun o => trim (BuildDb.provision_ref o) = BuildDb.provision_ref o)
         (BuildDb.dedupeProvisions provisions).
Proof.
  intros provisions.
  destruct (dedupe_output provisions) as (Hnd & _ & Hfrom).
  assert (Htrim : forall o, In o (BuildDb.dedupeProvisions provisions) ->
            trim (BuildDb.provision_ref o) = BuildDb.provision_ref o).
  { intros o Ho. destruct (Hfrom o Ho) as (p & _ & ->).
    cbn [BuildDb.with_ref BuildDb.provision_ref]. apply trim_idempotent. }
  split; [|now apply Forall_forall].
  unfold BuildDb.dedupeProvisions at 1.
  rewrite (dedupe_fresh _ [] Htrim Hnd).
  cbn [app]. rewrite map_map. cbn [snd]. apply map_id.
Qed.

(* ------------------------------------------------------------------ *)
(** ** Provisions made from fetched articles *)

Lemma string_of_N_nonempty : forall n, 0 < n -> LegiDate.string_of_N n <> [].
Proof.
  intros n Hn. unfold LegiDate.string_of_N.
  destruct n as [|p]; [lia|]. cbn [N.to_uint].
  pose proof (DecimalPos.Unsigned.to_uint_nonnil p) as Hp.
  destruct (Pos.to_uint p); [now contradiction Hp | | | | | | | | | |];
    discriminate.
Qed.

Lemma no_ws_no_outer_ws : forall s,
  forallb (fun c => negb (is_ws c)) s = true -> no_outer_ws s = true.
Proof.
  intros s H. unfold no_outer_ws. destruct s as [|c tl]; [reflexivity|].
  rewrite forallb_forall in H.
  rewrite (H c (or_introl eq_refl)). cbn [andb]. apply H.
  destruct (exists_last (l := c :: tl)) as (l' & a & E); [discriminate|].
  rewrite E, last_last. apply in_or_app. right. now left.
Qed.

Lemma articleTitle_nonempty : forall num, articleTitle num <> [].
Proof.
  intros num. unfold articleTitle. cbv zeta.
  destruct (exec PREFIX_DIGIT (normalizeArticleNum num)); discriminate.
Qed.

Lemma seed_provisions_spec : forall articles index,
  List.length (Ingest.seed_provisions index articles) = List.length articles
  /\ map Ingest.sp_content (Ingest.seed_provisions index articles)
     = map Ingest.art_content articles
  /\ Forall provision_well_formed (Ingest.seed_provisions index articles).
Proof.
  induction articles as [|art tl IH]; intros index; cbn [Ingest.seed_provisions].
  - repeat split. constructor.
  - destruct (IH (index + 1)) as (Hlen & Hcontent & Hall).
    cbn [List.length map Ingest.sp_content]. rewrite Hlen, Hcontent.
    split; [reflexivity|]. split; [reflexivity|].
    constructor; [|exact Hall].
    unfold provision_well_formed.
    cbn [Ingest.sp_section Ingest.sp_title Ingest.sp_provision_ref].
    pose proof (normalizeArticleNum_no_ws (Ingest.art_num art)) as Hws.
    assert (Href : forallb (fun c => negb (is_ws c))
                     (lit "art" ++ normalizeArticleNum (Ingest.art_num art)) = true).
    { rewrite forallb_app, Hws. reflexivity. }
    split; [|split; [|split; [|split]]].
    + unfold Ingest.or_else.
      destruct (normalizeArticleNum (Ingest.art_num art)) as [|c n];
        cbn [truthy]; [|discriminate].
      apply string_of_N_nonempty. lia.
    + unfold Ingest.or_else.
      destruct (Ingest.art_title art) as [|c t]; cbn [truthy]; [|discriminate].
      apply articleTitle_nonempty.
    + exact Href.
    + apply no_outer_ws_trim. now apply no_ws_no_outer_ws.
    + unfold Ingest.or_else.
      destruct (normalizeArticleNum (Ingest.art_num art)) as [|c n];
        cbn [truthy]; [right; reflexivity | left; reflexivity].
Qed.

(** X30.  [apiArticlesToSeed] returns one provision per article, in order
    and with the article's content.  No provision has an empty section or
    an empty title; every reference is free of whitespace (so trimming
    leaves it as it is) and is the text art followed by the section, or the
    bare text art when the article number normalises to nothing. *)
Theorem X30_seed_provisions :
  forall (manualSeed : Ingest.SeedDocument) (articles : list Ingest.FetchedArticle),
    List.length (Ingest.sd_provisions (Ingest.apiArticlesToSeed manualSeed articles))
    = List.length articles
    /\ map Ingest.sp_content
         (Ingest.sd_provisions (Ingest.apiArticlesToSeed manualSeed articles))
       = map Ingest.art_content articles
    /\ Forall provision_well_formed
         (Ingest.sd_provisions (Ingest.apiArticlesToSeed manualSeed articles)).
Proof.
  intros manualSeed articles. cbn [Ingest.apiArticlesToSeed Ingest.sd_provisions].
  apply seed_provisions_spec.
Qed.

(* ------------------------------------------------------------------ *)
(** ** Article tokens in any spelling *)

Lemma token_body_char_cases : forall c,
  is_token_body_char c = true ->
  48 <= c <= 57 \/ c = 45 \/ 65 <= c <= 90 \/ 97 <= c <= 122 \/ c = 383 \/ c = 8490.
Proof.
  intros c H.
  unfold is_token_body_char, alnum_iu, letter_iu, is_upper, is_lower, is_digit,
    in_range, cHYPHEN in H.
  bool_to_prop_in H. lia.
Qed.

Lemma letter_is_body_char : forall l, letter_iu l = true -> is_token_body_char l = true.
Proof. intros l H. unfold is_token_body_char, alnum_iu. now rewrite H. Qed.

Lemma digit_is_token_body_char : forall d, is_digit d = true -> is_token_body_char d = true.
Proof.
  intros d H. unfold is_token_body_char, alnum_iu. rewrite H.
  now rewrite orb_true_r.
Qed.

Lemma token_body_char_not_ws : forall c, is_token_body_char c = true -> is_ws c = false.
Proof.
  intros c H. apply token_body_char_cases in H.
  unfold is_ws, in_range. bool_to_prop. lia.
Qed.

Lemma token_body_char_not_dot : forall c,
  is_token_body_char c = true -> (cDOT =? c) = false.
Proof.
  intros c H. apply token_body_char_cases in H. unfold cDOT. bool_to_prop. lia.
Qed.

Lemma token_body_char_not_star : forall c,
  is_token_body_char c = true -> (c =? cSTAR) = false.
Proof.
  intros c H. apply token_body_char_cases in H. unfold cSTAR. bool_to_prop. lia.
Qed.

Lemma upper_point_body_char : forall c,
  is_token_body_char c = true -> upper_point c = [upper_letter c].
Proof.
  intros c H. apply token_body_char_cases in H.
  destruct H as [H|[H|[H|[H|[ -> | -> ]]]]];
    try (vm_compute; reflexivity).
  all: unfold upper_point, upper_letter.
  4: { replace (is_lower c) with true
         by (symmetry; unfold is_lower, in_range; bool_to_prop; lia).
       reflexivity. }
  all: replace (is_lower c) with false
         by (symmetry; unfold is_lower, in_range; bool_to_prop; lia);
       replace (c =? 181) with false by (symmetry; bool_to_prop; lia);
       replace (c =? 223) with false by (symmetry; bool_to_prop; lia);
       replace (in_range 224 254 c) with false
         by (symmetry; unfold in_range; bool_to_prop; lia);
       replace (c =? 255) with false by (symmetry; bool_to_prop; lia);
       replace (c <? 256) with true by (symmetry; apply N.ltb_lt; lia);
       replace (c =? 383) with false by (symmetry; bool_to_prop; lia);
       reflexivity.
Qed.

Lemma upper_letter_fixed_iff : forall c, upper_letter c = c <-> upper_stable c = true.
Proof.
  intros c. unfold upper_letter, upper_stable.
  destruct (is_lower c) eqn:El.
  - cbn [orb negb]. split; [|discriminate].
    unfold is_lower, in_range in El. bool_to_prop_in El. lia.
  - destruct (N.eqb_spec c 383) as [->|Hn]; cbn [orb negb].
    + split; [discriminate | discriminate].
    + split; reflexivity.
Qed.

Lemma map_upper_fixed_iff : forall x,
  map upper_letter x = x <-> forallb upper_stable x = true.
Proof.
  induction x as [|c tl IH]; cbn [map forallb]; [split; reflexivity|].
  rewrite andb_true_iff, <- IH, <- upper_letter_fixed_iff. split.
  - intros [= Hc Htl]. now split.
  - intros [Hc Htl]. now rewrite Hc, Htl.
Qed.

Lemma upper_letter_digit : forall d, is_digit d = true -> upper_letter d = d.
Proof.
  intros d H. apply upper_letter_fixed_iff. apply in_range_spec in H.
  unfold upper_stable, is_lower, in_range. bool_to_prop. lia.
Qed.

Lemma upper_letter_body_char : forall c,
  is_token_body_char c = true -> is_section_char (upper_letter c) = true.
Proof.
  intros c H. apply token_body_char_cases in H. unfold upper_letter.
  destruct H as [H|[H|[H|[H|[ -> | -> ]]]]]; try reflexivity.
  4: { replace (is_lower c) with true
         by (symmetry; unfold is_lower, in_range; bool_to_prop; lia).
       unfold is_section_char, is_upper, in_range. bool_to_prop. lia. }
  all: replace (is_lower c) with false
         by (symmetry; unfold is_lower, in_range; bool_to_prop; lia);
       replace (c =? 383) with false by (symmetry; bool_to_prop; lia);
       unfold is_section_char, is_digit, is_upper, in_range, cHYPHEN;
       bool_to_prop; lia.
Qed.

Lemma flat_map_single : forall (f : N -> list N) (g : N -> N) x,
  (forall c, In c x -> f c = [g c]) -> flat_map f x = map g x.
Proof.
  intros f g. induction x as [|c tl IH]; intros H; [reflexivity|].
  cbn [flat_map map]. rewrite (H c (or_introl eq_refl)). cbn [app]. f_equal.
  apply IH. intros y Hy. apply H. now right.
Qed.

Lemma toUpperCase_body : forall x,
  forallb is_token_body_char x = true -> toUpperCase x = map upper_letter x.
Proof.
  intros x H. rewrite toUpperCase_plain.
  - apply flat_map_single. intros c Hc. rewrite forallb_forall in H.
    now apply upper_point_body_char, H.
  - apply forallb_forall. intros c Hc. rewrite forallb_forall in H.
    pose proof (token_body_char_cases c (H c Hc)). apply N.ltb_lt. lia.
Qed.

Lemma body_filter_fixed : forall x,
  forallb is_token_body_char x = true ->
  filter (fun c => negb (cDOT =? c)) (filter (fun c => negb (is_ws c)) x) = x.
Proof.
  intros x H.
  rewrite (filter_neg_id is_ws x), (filter_neg_id (N.eqb cDOT) x);
    [reflexivity| |]; apply forallb_forall; intros c Hc;
    rewrite forallb_forall in H.
  - now rewrite (token_body_char_not_dot c (H c Hc)).
  - now rewrite (token_body_char_not_ws c (H c Hc)).
Qed.

Lemma ws_filter_empty : forall ws,
  forallb is_ws ws = true ->
  filter (fun c => negb (cDOT =? c)) (filter (fun c => negb (is_ws c)) ws) = [].
Proof. intros ws H. now rewrite (filter_neg_all is_ws ws H). Qed.

Lemma body_remove_ws_any : forall x,
  forallb is_token_body_char x = true -> remove_ws x = x.
Proof.
  intros x H. unfold remove_ws. apply filter_neg_id.
  apply forallb_forall. intros c Hc. rewrite forallb_forall in H.
  now rewrite (token_body_char_not_ws c (H c Hc)).
Qed.

Lemma ws_remove_ws : forall ws, forallb is_ws ws = true -> remove_ws ws = [].
Proof. intros ws H. unfold remove_ws. now apply filter_neg_all. Qed.

Lemma remove_ws_app : forall a b, remove_ws (a ++ b) = remove_ws a ++ remove_ws b.
Proof. intros a b. unfold remove_ws. apply filter_app. Qed.

(** The two normal forms of a token, shape by shape. *)
Section TokenNormalForms.

Variables (d : N) (rest : jsstring).
Hypothesis Hd : is_digit d = true.
Hypothesis Hrest : forallb is_token_body_char rest = true.

Let Hbody : forallb is_token_body_char (d :: rest) = true.
Proof. cbn [forallb]. now rewrite (digit_is_token_body_char d Hd), Hrest. Qed.

Lemma ref_bare :
  normalizeArticleRef (d :: rest) = d :: map upper_letter rest.
Proof.
  rewrite normalizeArticleRef_filter, (body_filter_fixed _ Hbody),
    (toUpperCase_body _ Hbody).
  cbn [map]. now rewrite (upper_letter_digit d Hd).
Qed.

Lemma ref_plain : forall l ws,
  letter_iu l = true -> forallb is_ws ws = true ->
  normalizeArticleRef (l :: ws ++ d :: rest)
  = upper_letter l :: d :: map upper_letter rest.
Proof.
  intros l ws Hl Hws.
  pose proof (letter_is_body_char l Hl) as Hlb.
  assert (Hall : forallb is_token_body_char (l :: d :: rest) = true)
    by (cbn [forallb] in *; now rewrite Hlb).
  rewrite normalizeArticleRef_filter.
  assert (Hs : filter (fun c => negb (cDOT =? c))
                 (filter (fun c => negb (is_ws c)) (l :: ws ++ d :: rest))
               = l :: d :: rest).
  { cbn [filter]. rewrite (token_body_char_not_ws l Hlb). cbn [negb filter].
    rewrite (token_body_char_not_dot l Hlb). cbn [negb]. f_equal.
    rewrite filter_app, (filter_neg_all is_ws ws Hws). cbn [app].
    exact (body_filter_fixed _ Hbody). }
  rewrite Hs, (toUpperCase_body _ Hall).
  cbn [map]. now rewrite (upper_letter_digit d Hd).
Qed.

Lemma ref_dot : forall l w1 w2,
  letter_iu l = true -> forallb is_ws w1 = true -> forallb is_ws w2 = true ->
  normalizeArticleRef (l :: w1 ++ cDOT :: w2 ++ d :: rest)
  = upper_letter l :: d :: map upper_letter rest.
Proof.
  intros l w1 w2 Hl H1 H2.
  pose proof (letter_is_body_char l Hl) as Hlb.
  assert (Hall : forallb is_token_body_char (l :: d :: rest) = true)
    by (cbn [forallb] in *; now rewrite Hlb).
  rewrite normalizeArticleRef_filter.
  assert (Hs : filter (fun c => negb (cDOT =? c))
                 (filter (fun c => negb (is_ws c))
                    (l :: w1 ++ cDOT :: w2 ++ d :: rest))
               = l :: d :: rest).
  { cbn [filter]. rewrite (token_body_char_not_ws l Hlb). cbn [negb filter].
    rewrite (token_body_char_not_dot l Hlb). cbn [negb]. f_equal.
    rewrite filter_app, (filter_neg_all is_ws w1 H1). cbn [app filter].
    change (is_ws cDOT) with false. cbn [negb filter].
    rewrite N.eqb_refl. cbn [negb].
    rewrite filter_app, (filter_neg_all is_ws w2 H2). cbn [app].
    exact (body_filter_fixed _ Hbody). }
  rewrite Hs, (toUpperCase_body _ Hall).
  cbn [map]. now rewrite (upper_letter_digit d Hd).
Qed.

Lemma num_bare : normalizeArticleNum (d :: rest) = d :: rest.
Proof.
  apply normalizeArticleNum_fixed.
  - apply forallb_forall. intros c Hc.
    pose proof Hbody as Hb. rewrite forallb_forall in Hb.
    now rewrite (token_body_char_not_ws c (Hb c Hc)).
  - destruct rest; cbn [prefix_sep_head]; [reflexivity|].
    now rewrite (digit_not_class_letter d Hd).
Qed.

(** Without period: the whitespace goes. *)
Lemma num_plain : forall l ws,
  letter_iu l = true -> forallb is_ws ws = true ->
  normalizeArticleNum (l :: ws ++ d :: rest) = l :: d :: rest.
Proof.
  intros l ws Hl Hws. rewrite normalizeArticleNum_closed.
  rewrite !strip_prefix_sep_keep.
  - change (l :: ws ++ d :: rest) with ([l] ++ ws ++ d :: rest).
    rewrite !remove_ws_app, (ws_remove_ws ws Hws), (body_remove_ws_any _ Hbody).
    rewrite (body_remove_ws_any [l]); [reflexivity|].
    cbn [forallb]. now rewrite (letter_is_body_char l Hl).
  - pose proof (ws_digit_head ws d rest Hws Hd) as H.
    destruct (ws ++ d :: rest); [exact I | tauto].
  - pose proof (ws_digit_head ws d rest Hws Hd) as H.
    destruct (ws ++ d :: rest); [exact I | tauto].
Qed.

(** A period directly after a class letter goes with the whitespace. *)
Lemma num_dot_class : forall l w2,
  is_class_letter l = true -> forallb is_ws w2 = true ->
  normalizeArticleNum (l :: cDOT :: w2 ++ d :: rest) = l :: d :: rest.
Proof.
  intros l w2 Hl H2.
  change (l :: cDOT :: w2 ++ d :: rest) with (l :: [cDOT] ++ w2 ++ d :: rest).
  rewrite (normalizeArticleNum_shape l d [cDOT] w2 rest Hl); try assumption.
  - now rewrite (body_remove_ws_any rest Hrest).
  - unfold separators. simpl. tauto.
Qed.

(** Any other period stays. *)
Lemma num_dot_kept : forall l w1 w2,
  letter_iu l = true -> forallb is_ws w1 = true -> forallb is_ws w2 = true ->
  is_class_letter l = false \/ w1 <> [] ->
  normalizeArticleNum (l :: w1 ++ cDOT :: w2 ++ d :: rest) = l :: cDOT :: d :: rest.
Proof.
  intros l w1 w2 Hl H1 H2 Hcase. rewrite normalizeArticleNum_closed.
  assert (Hkeep : forall sep, sep = cDOT \/ sep = cSTAR ->
            strip_prefix_sep sep (l :: w1 ++ cDOT :: w2 ++ d :: rest)
            = l :: w1 ++ cDOT :: w2 ++ d :: rest).
  { intros sep Hsep. unfold strip_prefix_sep.
    destruct (w1 ++ cDOT :: w2 ++ d :: rest) as [|x tl] eqn:E; [reflexivity|].
    destruct (is_class_letter l && (x =? sep)) eqn:Ec; [|reflexivity].
    apply andb_true_iff in Ec as [Ecl Ex]. apply N.eqb_eq in Ex. subst x.
    destruct Hcase as [Hn|Hn]; [congruence|].
    destruct w1 as [|w w1']; [now contradiction Hn|].
    cbn [app] in E. injection E as -> _.
    cbn [forallb] in H1. apply andb_true_iff in H1 as [Hw _].
    destruct (ws_not_sep sep Hw) as [Ha Hb].
    destruct Hsep as [->| ->]; rewrite N.eqb_refl in *; discriminate. }
  rewrite (Hkeep cDOT) by now left. rewrite (Hkeep cSTAR) by now right.
  change (l :: w1 ++ cDOT :: w2 ++ d :: rest)
    with ([l] ++ w1 ++ [cDOT] ++ w2 ++ d :: rest).
  rewrite !remove_ws_app, (ws_remove_ws w1 H1), (ws_remove_ws w2 H2),
    (body_remove_ws_any _ Hbody).
  rewrite (body_remove_ws_any [l])
    by (cbn [forallb]; now rewrite (letter_is_body_char l Hl)).
  reflexivity.
Qed.

End TokenNormalForms.

Lemma ws_upper_stable : forall ws,
  forallb is_ws ws = true -> forallb upper_stable ws = true.
Proof.
  intros ws H. apply forallb_forall. intros c Hc. rewrite forallb_forall in H.
  specialize (H c Hc). unfold upper_stable, is_lower, in_range.
  unfold is_ws, in_range in H. bool_to_prop_in H. bool_to_prop. lia.
Qed.

Lemma digit_upper_stable : forall d, is_digit d = true -> upper_stable d = true.
Proof. intros d H. apply upper_letter_fixed_iff. now apply upper_letter_digit. Qed.

Lemma ws_no_dot : forall ws, forallb is_ws ws = true -> has_dot ws = false.
Proof.
  intros ws H. unfold has_dot. apply not_true_is_false. intros E.
  apply existsb_exists in E as (c & Hc & E). apply N.eqb_eq in E. subst c.
  rewrite forallb_forall in H. specialize (H _ Hc). discriminate.
Qed.

Lemma body_no_dot : forall x,
  forallb is_token_body_char x = true -> has_dot x = false.
Proof.
  intros x H. unfold has_dot. apply not_true_is_false. intros E.
  apply existsb_exists in E as (c & Hc & E).
  rewrite forallb_forall in H. rewrite (token_body_char_not_dot c (H c Hc)) in E.
  discriminate.
Qed.

Lemma has_dot_app : forall a b, has_dot (a ++ b) = has_dot a || has_dot b.
Proof. intros a b. unfold has_dot. apply existsb_app. Qed.

Lemma letter_cases : forall l,
  letter_iu l = true -> 65 <= l <= 90 \/ 97 <= l <= 122 \/ l = 383 \/ l = 8490.
Proof.
  intros l H. unfold letter_iu, is_upper, is_lower, in_range in H.
  bool_to_prop_in H. lia.
Qed.

Lemma class_letter_is_letter : forall c, is_class_letter c = true -> letter_iu c = true.
Proof.
  intros c H. apply class_letter_cases in H. simpl in H.
  repeat (destruct H as [<-|H]; [reflexivity|]). contradiction.
Qed.

Lemma class_letter_upper : forall c,
  is_class_letter c = true -> is_upper (upper_letter c) = true.
Proof.
  intros c H. apply class_letter_cases in H. simpl in H.
  repeat (destruct H as [<-|H]; [reflexivity|]). contradiction.
Qed.

Lemma letter_upper : forall l,
  letter_iu l = true -> l <> 8490 -> is_upper (upper_letter l) = true.
Proof.
  intros l H Hn. apply letter_cases in H. unfold upper_letter.
  destruct H as [H|[H|[ -> |H]]]; [| |reflexivity|contradiction].
  - replace (is_lower l) with false
      by (symmetry; unfold is_lower, in_range; bool_to_prop; lia).
    replace (l =? 383) with false by (symmetry; bool_to_prop; lia).
    unfold is_upper, in_range. bool_to_prop. lia.
  - replace (is_lower l) with true
      by (symmetry; unfold is_lower, in_range; bool_to_prop; lia).
    unfold is_upper, in_range. bool_to_prop. lia.
Qed.

Lemma letter_not_digit : forall l, letter_iu l = true -> is_digit l = false.
Proof.
  intros l H. apply letter_cases in H. unfold is_digit, in_range.
  bool_to_prop. lia.
Qed.

(** Where the two normalisers agree. *)
Lemma normalisers_agree_iff : forall t,
  token_parts t ->
  (normalizeArticleRef t = normalizeArticleNum t <-> normalisers_agree t = true).
Proof.
  intros t [d rest Hd Hrest | l ws d rest Hl Hws Hd Hrest
            | l w1 w2 d rest Hl H1 H2 Hd Hrest].
  - rewrite (ref_bare d rest Hd Hrest), (num_bare d rest Hd Hrest).
    unfold normalisers_agree. cbn [forallb].
    assert (Hdot : has_dot (d :: rest) = false).
    { apply body_no_dot. cbn [forallb].
      now rewrite (digit_is_token_body_char d Hd), Hrest. }
    rewrite Hdot, (digit_upper_stable d Hd). cbn [negb orb andb].
    rewrite andb_true_r, <- map_upper_fixed_iff. split.
    + now intros [= E].
    + now intros ->.
  - rewrite (ref_plain d rest Hd Hrest l ws Hl Hws),
      (num_plain d rest Hd Hrest l ws Hl Hws).
    unfold normalisers_agree.
    assert (Hdot : has_dot (l :: ws ++ d :: rest) = false).
    { change (l :: ws ++ d :: rest) with ([l] ++ ws ++ d :: rest).
      rewrite !has_dot_app, (ws_no_dot ws Hws).
      rewrite (body_no_dot [l])
        by (cbn [forallb]; now rewrite (letter_is_body_char l Hl)).
      apply body_no_dot. cbn [forallb].
      now rewrite (digit_is_token_body_char d Hd), Hrest. }
    rewrite Hdot. cbn [negb orb]. rewrite andb_true_r.
    cbn [forallb]. rewrite forallb_app, (ws_upper_stable ws Hws). cbn [forallb andb].
    rewrite (digit_upper_stable d Hd). cbn [andb].
    rewrite andb_true_iff, <- map_upper_fixed_iff, <- upper_letter_fixed_iff. split.
    + intros [= E1 E2]. now split.
    + intros [-> ->]. reflexivity.
  - rewrite (ref_dot d rest Hd Hrest l w1 w2 Hl H1 H2).
    assert (Hdot : has_dot (l :: w1 ++ cDOT :: w2 ++ d :: rest) = true).
    { change (l :: w1 ++ cDOT :: w2 ++ d :: rest)
        with ([l] ++ w1 ++ [cDOT] ++ w2 ++ d :: rest).
      rewrite !has_dot_app. change (has_dot [cDOT]) with true.
      now rewrite !orb_true_r. }
    assert (Hstable : forallb upper_stable (l :: w1 ++ cDOT :: w2 ++ d :: rest)
                      = upper_stable l && forallb upper_stable rest).
    { cbn [forallb]. rewrite forallb_app, (ws_upper_stable w1 H1).
      cbn [forallb andb]. change (upper_stable cDOT) with true. cbn [andb].
      rewrite forallb_app, (ws_upper_stable w2 H2). cbn [forallb andb].
      now rewrite (digit_upper_stable d Hd). }
    unfold normalisers_agree. rewrite Hdot, Hstable. cbn [negb orb].
    destruct (is_class_letter l) eqn:Hc; [destruct w1 as [|w w1']|].
    + cbn [app dot_follows_head]. rewrite N.eqb_refl. cbn [andb].
      rewrite andb_true_r.
      rewrite (num_dot_class d rest Hd Hrest l w2 Hc H2).
      rewrite andb_true_iff, <- map_upper_fixed_iff, <- upper_letter_fixed_iff.
      split.
      * intros [= E1 E2]. now split.
      * intros [-> ->]. reflexivity.
    + rewrite (num_dot_kept d rest Hd Hrest l (w :: w1') w2 Hl H1 H2)
        by (right; discriminate).
      cbn [app dot_follows_head].
      cbn [forallb] in H1. apply andb_true_iff in H1 as [Hw _].
      destruct (ws_not_sep w Hw) as [Hwd _]. rewrite Hwd.
      cbn [andb]. rewrite andb_false_r. split; [|discriminate].
      intros E. apply (f_equal (@List.length N)) in E.
      cbn [List.length] in E. rewrite length_map in E. lia.
    + rewrite (num_dot_kept d rest Hd Hrest l w1 w2 Hl H1 H2) by now left.
      cbn [andb]. rewrite andb_false_r. split; [|discriminate].
      intros E. apply (f_equal (@List.length N)) in E.
      cbn [List.length] in E. rewrite length_map in E. lia.
Qed.

Lemma exec_PREFIX_DIGIT_short : forall c s,
  match s with d :: _ => is_digit d = false | [] => True end ->
  exec PREFIX_DIGIT (c :: s) = None.
Proof.
  intros c s Hs. unfold PREFIX_DIGIT.
  cbn [SeqAll]. rewrite exec_bol.
  rewrite rmatch_seq, rmatch_group_class. cbn [m_rest m_caps].
  destruct (is_class_letter c); [|reflexivity].
  rewrite rmatch_group_class. cbn [m_rest m_caps].
  destruct s as [|d tl]; [reflexivity|]. now rewrite Hs.
Qed.

Lemma articleTitle_miss : forall t,
  exec PREFIX_DIGIT (normalizeArticleNum t) = None ->
  articleTitle t = lit "Article " ++ normalizeArticleNum t.
Proof. intros t H. unfold articleTitle. cbv zeta. now rewrite H. Qed.

Lemma articleTitle_hit : forall t c d r,
  normalizeArticleNum t = c :: d :: r ->
  is_class_letter c = true -> is_digit d = true ->
  articleTitle t = lit "Article " ++ [upper_letter c] ++ lit ". " ++ d :: r.
Proof.
  intros t c d r Hn Hc Hd. unfold articleTitle. cbv zeta. rewrite Hn.
  destruct (exec_PREFIX_DIGIT_hit c d r Hc Hd) as (m & -> & ->).
  apply class_letter_cases in Hc. simpl in Hc.
  repeat (destruct Hc as [<-|Hc]; [reflexivity|]). contradiction.
Qed.

Lemma buildArticleRef_hit : forall t c d r,
  normalizeArticleRef t = c :: d :: r ->
  is_upper c = true -> is_digit d = true ->
  forallb (fun x => negb (is_line_terminator x)) r = true ->
  buildArticleRef t = [c] ++ lit ". " ++ d :: r.
Proof.
  intros t c d r Hn Hc Hd Hr. unfold buildArticleRef.
  change (toUpperCase (replace_each (N.eqb cDOT) [] (replace_runs is_ws [] t)))
    with (normalizeArticleRef t).
  rewrite Hn.
  destruct (exec_LETTER_DIGITS_hit c d r Hc Hd Hr) as (m & -> & -> & ->).
  reflexivity.
Qed.

Lemma buildArticleRef_miss : forall t,
  exec LETTER_DIGITS (normalizeArticleRef t) = None ->
  buildArticleRef t = normalizeArticleRef t.
Proof.
  intros t H. unfold buildArticleRef.
  change (toUpperCase (replace_each (N.eqb cDOT) [] (replace_runs is_ws [] t)))
    with (normalizeArticleRef t).
  now rewrite H.
Qed.

Lemma upper_body_no_terminator : forall rest,
  forallb is_token_body_char rest = true ->
  forallb (fun x => negb (is_line_terminator x)) (map upper_letter rest) = true.
Proof.
  intros rest H. apply forallb_forall. intros x Hx.
  apply in_map_iff in Hx as (c & <- & Hc). rewrite forallb_forall in H.
  now rewrite (section_char_not_terminator _ (upper_letter_body_char c (H c Hc))).
Qed.

(** The two renderings of a token, shape by shape. *)
Lemma title_bare : forall d rest,
  is_digit d = true -> forallb is_token_body_char rest = true ->
  articleTitle (d :: rest) = lit "Article " ++ d :: rest.
Proof.
  intros d rest Hd Hrest.
  rewrite articleTitle_miss; rewrite (num_bare d rest Hd Hrest); [reflexivity|].
  apply exec_PREFIX_DIGIT_miss. now apply digit_not_class_letter.
Qed.

Lemma build_bare : forall d rest,
  is_digit d = true -> forallb is_token_body_char rest = true ->
  buildArticleRef (d :: rest) = d :: map upper_letter rest.
Proof.
  intros d rest Hd Hrest.
  rewrite buildArticleRef_miss; rewrite (ref_bare d rest Hd Hrest); [reflexivity|].
  apply exec_LETTER_DIGITS_miss. now apply digit_not_upper.
Qed.

(** After a letter other than U+212A the token is split by
    [buildArticleRef]. *)
Lemma build_split : forall d rest,
  is_digit d = true -> forallb is_token_body_char rest = true ->
  forall t l,
  normalizeArticleRef t = upper_letter l :: d :: map upper_letter rest ->
  letter_iu l = true -> l <> 8490 ->
  buildArticleRef t = [upper_letter l] ++ lit ". " ++ d :: map upper_letter rest.
Proof.
  intros d rest Hd Hrest t l Hn Hl H8490.
  apply (buildArticleRef_hit t _ d _ Hn).
  - now apply letter_upper.
  - exact Hd.
  - now apply upper_body_no_terminator.
Qed.

Lemma build_kelvin : forall d rest,
  is_digit d = true -> forallb is_token_body_char rest = true ->
  forall t,
  normalizeArticleRef t = 8490 :: d :: map upper_letter rest ->
  buildArticleRef t = 8490 :: d :: map upper_letter rest.
Proof.
  intros d rest Hd Hrest t Hn.
  rewrite buildArticleRef_miss; rewrite Hn; [reflexivity|].
  now apply exec_LETTER_DIGITS_miss.
Qed.

(** After a class letter the token is split by [articleTitle]. *)
Lemma title_split : forall d rest,
  is_digit d = true -> forallb is_token_body_char rest = true ->
  forall t l,
  normalizeArticleNum t = l :: d :: rest -> is_class_letter l = true ->
  articleTitle t = lit "Article " ++ [upper_letter l] ++ lit ". " ++ d :: rest.
Proof. intros d rest Hd Hrest t l Hn Hl. now apply (articleTitle_hit t l d rest). Qed.

Lemma title_whole : forall d rest,
  is_digit d = true -> forallb is_token_body_char rest = true ->
  forall t l,
  normalizeArticleNum t = l :: d :: rest -> is_class_letter l = false ->
  articleTitle t = lit "Article " ++ l :: d :: rest.
Proof.
  intros d rest Hd Hrest t l Hn Hl.
  rewrite articleTitle_miss; rewrite Hn; [reflexivity|].
  now apply exec_PREFIX_DIGIT_miss.
Qed.

Lemma title_dotted : forall d rest,
  is_digit d = true -> forallb is_token_body_char rest = true ->
  forall t l,
  normalizeArticleNum t = l :: cDOT :: d :: rest ->
  articleTitle t = lit "Article " ++ l :: cDOT :: d :: rest.
Proof.
  intros d rest Hd Hrest t l Hn.
  rewrite articleTitle_miss; rewrite Hn; [reflexivity|].
  now apply exec_PREFIX_DIGIT_short.
Qed.

Lemma digit_not_dot_space : forall d,
  is_digit d = true -> d <> cDOT /\ d <> cSPACE.
Proof.
  intros d H. apply in_range_spec in H. unfold cDOT, cSPACE. lia.
Qed.

(** Where the two renderings agree. *)
Lemma token_renderings_agree_iff : forall t,
  token_parts t ->
  (articleTitle t = lit "Article " ++ buildArticleRef t
   <-> token_renderings_agree t = true).
Proof.
  intros t [d rest Hd Hrest | l ws d rest Hl Hws Hd Hrest
            | l w1 w2 d rest Hl H1 H2 Hd Hrest].
  - rewrite (title_bare d rest Hd Hrest), (build_bare d rest Hd Hrest).
    unfold token_renderings_agree. rewrite Hd. cbn [orb]. rewrite andb_true_r.
    rewrite <- map_upper_fixed_iff. split.
    + intros E. apply app_inv_head in E. now injection E.
    + now intros ->.
  - pose proof (num_plain d rest Hd Hrest l ws Hl Hws) as Hnum.
    pose proof (ref_plain d rest Hd Hrest l ws Hl Hws) as Href.
    assert (Hdot : has_dot (l :: ws ++ d :: rest) = false).
    { change (l :: ws ++ d :: rest) with ([l] ++ ws ++ d :: rest).
      rewrite !has_dot_app, (ws_no_dot ws Hws).
      rewrite (body_no_dot [l])
        by (cbn [forallb]; now rewrite (letter_is_body_char l Hl)).
      apply body_no_dot. cbn [forallb].
      now rewrite (digit_is_token_body_char d Hd), Hrest. }
    unfold token_renderings_agree. rewrite Hdot, (letter_not_digit l Hl).
    rewrite forallb_app, (ws_upper_stable ws Hws). cbn [forallb andb negb orb].
    rewrite (digit_upper_stable d Hd), !andb_true_r. cbn [andb].
    destruct (is_class_letter l) eqn:Hc; cbn [orb].
    + rewrite (title_split d rest Hd Hrest _ l Hnum Hc).
      rewrite (build_split d rest Hd Hrest _ l Href Hl).
      2:{ intros ->. discriminate. }
      rewrite andb_true_r, <- map_upper_fixed_iff. split.
      * intros E. apply app_inv_head in E. now injection E.
      * now intros ->.
    + rewrite (title_whole d rest Hd Hrest _ l Hnum Hc).
      destruct (N.eqb_spec l 8490) as [->|H8490].
      * rewrite (build_kelvin d rest Hd Hrest _ Href).
        rewrite andb_true_r, <- map_upper_fixed_iff. split.
        -- intros E. apply app_inv_head in E. now injection E.
        -- now intros ->.
      * rewrite (build_split d rest Hd Hrest _ l Href Hl H8490).
        rewrite andb_false_r. split; [|discriminate].
        intros E. apply app_inv_head in E.
        change (lit ". ") with [cDOT; cSPACE] in E. cbn [app] in E.
        injection E as _ E _. destruct (digit_not_dot_space d Hd). congruence.
  - pose proof (ref_dot d rest Hd Hrest l w1 w2 Hl H1 H2) as Href.
    assert (Hdot : has_dot (l :: w1 ++ cDOT :: w2 ++ d :: rest) = true).
    { change (l :: w1 ++ cDOT :: w2 ++ d :: rest)
        with ([l] ++ w1 ++ [cDOT] ++ w2 ++ d :: rest).
      rewrite !has_dot_app. change (has_dot [cDOT]) with true.
      now rewrite !orb_true_r. }
    assert (Hstable : forallb upper_stable (w1 ++ cDOT :: w2 ++ d :: rest)
                      = forallb upper_stable rest).
    { rewrite forallb_app, (ws_upper_stable w1 H1).
      cbn [forallb andb]. change (upper_stable cDOT) with true. cbn [andb].
      rewrite forallb_app, (ws_upper_stable w2 H2). cbn [forallb andb].
      now rewrite (digit_upper_stable d Hd). }
    unfold token_renderings_agree.
    rewrite Hdot, Hstable, (letter_not_digit l Hl). cbn [negb orb andb].
    rewrite andb_false_r, orb_false_r.
    assert (Hkept : is_class_letter l = false \/ w1 <> [] ->
              articleTitle (l :: w1 ++ cDOT :: w2 ++ d :: rest)
              <> lit "Article " ++ buildArticleRef (l :: w1 ++ cDOT :: w2 ++ d :: rest)).
    { intros Hcase.
      rewrite (title_dotted d rest Hd Hrest _ l
                 (num_dot_kept d rest Hd Hrest l w1 w2 Hl H1 H2 Hcase)).
      destruct (N.eqb_spec l 8490) as [->|H8490].
      - rewrite (build_kelvin d rest Hd Hrest _ Href).
        intros E. apply app_inv_head in E. injection E as E _.
        destruct (digit_not_dot_space d Hd). congruence.
      - rewrite (build_split d rest Hd Hrest _ l Href Hl H8490).
        intros E. apply app_inv_head in E.
        change (lit ". ") with [cDOT; cSPACE] in E. cbn [app] in E.
        injection E as _ E _. destruct (digit_not_dot_space d Hd). congruence. }
    destruct (is_class_letter l) eqn:Hc; [destruct w1 as [|w w1']|].
    + cbn [app dot_follows_head] in Href |- *. rewrite N.eqb_refl. cbn [andb].
      rewrite andb_true_r.
      rewrite (title_split d rest Hd Hrest _ l
                 (num_dot_class d rest Hd Hrest l w2 Hc H2) Hc).
      rewrite (build_split d rest Hd Hrest _ l Href Hl).
      2:{ intros ->. discriminate. }
      rewrite <- map_upper_fixed_iff. split.
      * intros E. apply app_inv_head in E. now injection E.
      * now intros ->.
    + cbn [app dot_follows_head].
      pose proof H1 as H1'. cbn [forallb] in H1'.
      apply andb_true_iff in H1' as [Hw _].
      destruct (ws_not_sep w Hw) as [Hwd _]. rewrite Hwd.
      cbn [andb]. rewrite andb_false_r. split; [|discriminate].
      intros E. exfalso. revert E. apply Hkept. right. discriminate.
    + cbn [andb]. rewrite andb_false_r. split; [|discriminate].
      intros E. exfalso. revert E. apply Hkept. now left.
Qed.

(** How both functions print a class letter. *)
Lemma class_prefix_rendering : forall c sep ws d rest,
  is_class_letter c = true -> sep = [] \/ sep = [cDOT] ->
  forallb is_ws ws = true -> is_digit d = true ->
  forallb is_token_body_char rest = true ->
  articleTitle (c :: sep ++ ws ++ d :: rest)
  = lit "Article " ++ [upper_letter c] ++ lit ". " ++ d :: rest
  /\ buildArticleRef (c :: sep ++ ws ++ d :: rest)
     = [upper_letter c] ++ lit ". " ++ d :: map upper_letter rest.
Proof.
  intros c sep ws d rest Hc Hsep Hws Hd Hrest.
  pose proof (class_letter_is_letter c Hc) as Hl.
  assert (H8490 : c <> 8490) by (intros ->; discriminate).
  destruct Hsep as [->| ->]; cbn [app]; split.
  - apply (title_split d rest Hd Hrest _ c); [|exact Hc].
    exact (num_plain d rest Hd Hrest c ws Hl Hws).
  - apply (build_split d rest Hd Hrest _ c); [|exact Hl|exact H8490].
    exact (ref_plain d rest Hd Hrest c ws Hl Hws).
  - apply (title_split d rest Hd Hrest _ c); [|exact Hc].
    exact (num_dot_class d rest Hd Hrest c ws Hc Hws).
  - apply (build_split d rest Hd Hrest _ c); [|exact Hl|exact H8490].
    exact (ref_dot d rest Hd Hrest c [] ws Hl eq_refl Hws).
Qed.

Lemma digit_not_letter : forall d, is_digit d = true -> letter_iu d = false.
Proof.
  intros d H. apply in_range_spec in H.
  unfold letter_iu, is_upper, is_lower, in_range. bool_to_prop. lia.
Qed.

(** [article_token] recognises the strings of [token_parts]. *)
Lemma token_body_spec : forall b,
  token_body b = true <->
  exists d rest, b = d :: rest /\ is_digit d = true
                 /\ forallb is_token_body_char rest = true.
Proof.
  intros [|d rest]; cbn [token_body]; split.
  - discriminate.
  - intros (d & rest & E & _). discriminate.
  - intros H. apply andb_true_iff in H as [Hd Hr]. now exists d, rest.
  - intros (d' & rest' & [= <- <-] & Hd & Hr). now rewrite Hd, Hr.
Qed.

Lemma article_token_parts : forall t, article_token t = true -> token_parts t.
Proof.
  intros [|l tl] H; cbn [article_token] in H; [discriminate|].
  destruct (letter_iu l) eqn:Hl.
  - destruct (drop_while_split is_ws tl) as (w1 & Htl & H1).
    destruct (drop_while is_ws tl) as [|x r] eqn:E1.
    { cbn [drop_while token_body] in H. discriminate. }
    destruct (N.eqb_spec x cDOT) as [->|Hx].
    + destruct (drop_while_split is_ws r) as (w2 & Hr & H2).
      apply token_body_spec in H as (d & rest & Hb & Hd & Hrest).
      rewrite Hb in Hr. rewrite Htl, Hr.
      now apply parts_dot.
    + pose proof (drop_while_head is_ws tl) as Hh. rewrite E1 in Hh.
      rewrite (drop_while_head_false is_ws x r Hh) in H.
      apply token_body_spec in H as (d & rest & [= -> ->] & Hd & Hrest).
      rewrite Htl. now apply parts_plain.
  - apply token_body_spec in H as (d & rest & [= -> ->] & Hd & Hrest).
    now apply parts_bare.
Qed.

Lemma token_parts_article_token : forall t, token_parts t -> article_token t = true.
Proof.
  intros t [d rest Hd Hrest | l ws d rest Hl Hws Hd Hrest
            | l w1 w2 d rest Hl H1 H2 Hd Hrest]; cbn [article_token].
  - rewrite (digit_not_letter d Hd). cbn [token_body]. now rewrite Hd, Hrest.
  - rewrite Hl, (drop_ws_digit ws d rest Hws Hd).
    destruct (digit_not_sep d Hd) as (Hdd & _ & Hdw). rewrite Hdd.
    rewrite (drop_while_head_false is_ws d rest Hdw).
    cbn [token_body]. now rewrite Hd, Hrest.
  - rewrite Hl, (drop_while_app_all is_ws w1 _ H1).
    rewrite (drop_while_head_false is_ws cDOT _ eq_refl), N.eqb_refl.
    rewrite (drop_ws_digit w2 d rest H2 Hd).
    cbn [token_body]. now rewrite Hd, Hrest.
Qed.

(** What ARTICLE_TOKEN matches is a token. *)
Lemma reach_empty_inv : forall st st', reach Empty st st' -> st' = st.
Proof. intros st st' H. now inversion H. Qed.

Lemma reach_ws_run : forall st st',
  reach (Star true WS) st st' ->
  exists w, m_rest st = w ++ m_rest st' /\ forallb is_ws w = true.
Proof.
  intros st st' H. apply (reach_within is_ws _ _ _ H).
  cbn [class_within WS]. unfold WS. cbn [class_within]. auto.
Qed.

Lemma reach_token_parts : forall st st1,
  reach ARTICLE_TOKEN st st1 ->
  exists w, m_rest st = w ++ m_rest st1 /\ token_parts w.
Proof.
  intros st st1 H. unfold ARTICLE_TOKEN, DIGITS, Plus, Opt in H.
  cbn [SeqAll] in H.
  apply reach_seq_inv in H as (sa & Hopt & H).
  apply reach_seq_inv in H as (sb & Hdig & Htail).
  apply reach_seq_inv in Hdig as (sd & Hd & Hds).
  apply reach_class_inv in Hd as (d & Ed & Hd & _).
  assert (Hrun : exists rest, m_rest sd = rest ++ m_rest st1
                              /\ forallb is_token_body_char rest = true).
  { destruct (reach_within is_token_body_char _ _ _ Hds) as (r1 & E1 & Hr1).
    { cbn [class_within]. intros c Hc. now apply digit_is_token_body_char. }
    destruct (reach_within is_token_body_char _ _ _ Htail) as (r2 & E2 & Hr2).
    { unfold Chr. cbn [class_within]. repeat split; intros c Hc.
      - apply N.eqb_eq in Hc. subst c. reflexivity.
      - now apply digit_is_token_body_char.
      - now apply digit_is_token_body_char.
      - apply N.eqb_eq in Hc. subst c. reflexivity.
      - unfold is_token_body_char. now rewrite Hc.
      - unfold is_token_body_char. now rewrite Hc. }
    exists (r1 ++ r2). split; [now rewrite E1, E2, app_assoc|].
    now rewrite forallb_app, Hr1, Hr2. }
  destruct Hrun as (rest & Erest & Hrest).
  apply reach_alt_inv in Hopt as [Hpre|Hnone].
  - apply reach_seq_inv in Hpre as (s1 & Hl & Hpre).
    apply reach_class_inv in Hl as (l & El & Hl & _).
    apply reach_seq_inv in Hpre as (s2 & Hw1 & Hpre).
    apply reach_ws_run in Hw1 as (w1 & E1 & H1).
    apply reach_seq_inv in Hpre as (s3 & Hdot & Hw2).
    apply reach_ws_run in Hw2 as (w2 & E2 & H2).
    apply reach_alt_inv in Hdot as [Hdot|Hdot].
    + apply reach_class_inv in Hdot as (x & Ex & Hx & _).
      apply N.eqb_eq in Hx. subst x.
      exists (l :: w1 ++ cDOT :: w2 ++ d :: rest). split.
      * rewrite El, E1, Ex, E2, Ed, Erest.
        cbn [app]. f_equal. rewrite <- !app_assoc. cbn [app].
        f_equal. f_equal. now rewrite <- app_assoc.
      * now apply parts_dot.
    + apply reach_empty_inv in Hdot. subst s3.
      exists (l :: (w1 ++ w2) ++ d :: rest). split.
      * rewrite El, E1, E2, Ed, Erest.
        cbn [app]. f_equal. now rewrite <- !app_assoc.
      * apply parts_plain; try assumption.
        now rewrite forallb_app, H1, H2.
  - apply reach_empty_inv in Hnone. subst sa.
    exists (d :: rest). split; [now rewrite Ed, Erest|].
    now apply parts_bare.
Qed.

Lemma reach_token_group_parts : forall i st st',
  reach (Group i ARTICLE_TOKEN) st st' ->
  exists tok, m_caps st' = (i, tok) :: m_caps st /\ token_parts tok.
Proof.
  intros i st st' H.
  destruct (reach_group_whole _ _ _ _ H token_capture_free)
    as (w & st1 & Ha & Hw & _ & Hc).
  exists w. split; [exact Hc|].
  destruct (reach_token_parts _ _ Ha) as (w' & Hw' & Hp).
  rewrite Hw in Hw'. apply app_inv_tail in Hw'. now subst w'.
Qed.

Lemma matchedToken_parts : forall citation tok,
  matchedToken citation = Some tok -> token_parts tok.
Proof.
  intros citation tok.
  apply (matchedToken_property token_parts reach_token_group_parts).
Qed.


(* ------------------------------------------------------------------ *)
(** ** The two renderings on arbitrary strings *)

(** Upper-casing brings in no line terminator, space or period. *)
Lemma upper_table_targets :
  forallb (fun kv =>
             negb (existsb (fun z => existsb (N.eqb z) (snd kv))
                           [10; 13; 32; 46; 8232; 8233]))
          upper_table = true.
Proof. vm_compute. reflexivity. Qed.

Lemma upper_point_target : forall z c,
  In z [10; 13; 32; 46; 8232; 8233] -> In z (upper_point c) -> c = z.
Proof.
  intros z c Hz Hin.
  assert (Hzr : z = 10 \/ z = 13 \/ z = 32 \/ z = 46 \/ z = 8232 \/ z = 8233).
  { simpl in Hz. intuition congruence. }
  unfold upper_point in Hin.
  destruct (is_lower c) eqn:E1.
  { unfold is_lower, in_range in E1. bool_to_prop_in E1.
    destruct Hin as [Hin|[]]. lia. }
  destruct (N.eqb_spec c 181) as [->|H181]; [destruct Hin as [Hin|[]]; lia|].
  destruct (N.eqb_spec c 223) as [->|H223];
    [destruct Hin as [Hin|[Hin|[]]]; lia|].
  destruct (in_range 224 254 c && negb (c =? 247)) eqn:E2.
  { unfold in_range in E2. bool_to_prop_in E2.
    destruct Hin as [Hin|[]]. lia. }
  destruct (N.eqb_spec c 255) as [->|H255]; [destruct Hin as [Hin|[]]; lia|].
  destruct (c <? 256); [destruct Hin as [Hin|[]]; exact Hin|].
  destruct (point_find upper_table c) as [v|] eqn:E.
  - exfalso. apply point_find_In in E.
    pose proof upper_table_targets as Ht. rewrite forallb_forall in Ht.
    specialize (Ht _ E). cbn [snd] in Ht. apply negb_true_iff in Ht.
    apply not_true_iff_false in Ht. apply Ht.
    apply existsb_exists. exists z. split; [exact Hz|].
    apply existsb_exists. exists z. split; [exact Hin | apply N.eqb_refl].
  - destruct Hin as [Hin|[]]. exact Hin.
Qed.

Lemma In_code_points_inv : forall z s,
  z < 65536 -> In z (code_points s) -> In z s.
Proof.
  intros z s Hz.
  assert (Hgen : forall n s, (List.length s <= n)%nat ->
                             In z (code_points s) -> In z s).
  { induction n as [|n IH]; intros [|h tl] Hlen Hin; try contradiction.
    - simpl in Hlen. lia.
    - cbn [code_points] in Hin. destruct tl as [|l tl'].
      + exact Hin.
      + simpl in Hlen.
        destruct (is_high_surrogate h && is_low_surrogate l) eqn:E.
        * destruct Hin as [Hin|Hin]; [lia|].
          right. right. apply IH; [simpl; lia | exact Hin].
        * destruct Hin as [->|Hin]; [now left|].
          right. apply IH; [simpl; lia | exact Hin]. }
  intros Hin. now apply (Hgen (List.length s) s).
Qed.

Lemma In_of_code_points_inv : forall z l,
  z < 55296 -> In z (of_code_points l) -> In z l.
Proof.
  intros z l Hz Hin. unfold of_code_points in Hin.
  apply in_flat_map in Hin as (cp & Hcp & Hin). unfold units_of in Hin.
  destruct (cp <? 65536).
  - destruct Hin as [->|[]]. exact Hcp.
  - exfalso. apply N.lt_nge in Hz. apply Hz.
    destruct Hin as [Hin|[Hin|[]]]; subst z.
    + apply (N.le_trans _ (55296 + 0)); [now rewrite N.add_0_r|].
      apply N.add_le_mono_l, N.le_0_l.
    + apply (N.le_trans _ (56320 + 0)); [rewrite N.add_0_r; discriminate|].
      apply N.add_le_mono_l, N.le_0_l.
Qed.

Lemma toUpperCase_target : forall z s,
  In z [10; 13; 32; 46; 8232; 8233] -> In z (toUpperCase s) -> In z s.
Proof.
  intros z s Hz Hin.
  assert (Hzr : z < 55296) by (simpl in Hz; intuition lia).
  unfold toUpperCase in Hin.
  apply In_of_code_points_inv in Hin; [|exact Hzr].
  apply in_flat_map in Hin as (c & Hc & Hin).
  apply (upper_point_target z c Hz) in Hin. subst c.
  apply In_code_points_inv; [lia | exact Hc].
Qed.

Lemma code_points_cons : forall c s,
  c < 55296 -> code_points (c :: s) = c :: code_points s.
Proof.
  intros c s Hc. cbn [code_points].
  replace (is_high_surrogate c) with false
    by (symmetry; unfold is_high_surrogate, in_range; bool_to_prop; lia).
  destruct s; reflexivity.
Qed.

Lemma toUpperCase_cons : forall c s,
  c < 55296 -> toUpperCase (c :: s) = upper_point c ++ toUpperCase s.
Proof.
  intros c s Hc. unfold toUpperCase. rewrite (code_points_cons c s Hc).
  cbn [flat_map]. unfold of_code_points. rewrite flat_map_app.
  fold (of_code_points (upper_point c)).
  rewrite (of_code_points_bmp (upper_point c)); [reflexivity|].
  apply upper_point_bmp. lia.
Qed.

Lemma class_letter_range : forall c, is_class_letter c = true -> 65 <= c <= 122.
Proof.
  intros c H. apply class_letter_cases in H. simpl in H.
  repeat (destruct H as [<-|H]; [lia|]). contradiction.
Qed.

Lemma toUpperCase_class_digit : forall c d x,
  is_class_letter c = true -> is_digit d = true ->
  toUpperCase (c :: d :: x) = upper_letter c :: d :: toUpperCase x.
Proof.
  intros c d x Hc Hd.
  pose proof (class_letter_range c Hc). pose proof Hd as Hdr.
  apply in_range_spec in Hdr.
  rewrite (toUpperCase_cons c) by lia. rewrite (toUpperCase_cons d) by lia.
  rewrite (upper_point_body_char c)
    by (apply letter_is_body_char; now apply class_letter_is_letter).
  rewrite (upper_point_body_char d) by now apply digit_is_token_body_char.
  now rewrite (upper_letter_digit d Hd).
Qed.

(** [remove_dots] and [remove_ws]. *)
Lemma normalizeArticleRef_remove : forall t,
  normalizeArticleRef t = toUpperCase (remove_dots (remove_ws t)).
Proof. intros t. apply normalizeArticleRef_filter. Qed.

Lemma has_dot_false_iff : forall x, has_dot x = false <-> remove_dots x = x.
Proof.
  intros x. unfold has_dot, remove_dots. split.
  - intros H. apply filter_neg_id. apply forallb_forall. intros c Hc.
    destruct (cDOT =? c) eqn:E; [|reflexivity].
    exfalso. apply not_true_iff_false in H. apply H.
    apply existsb_exists. now exists c.
  - intros H. apply not_true_is_false. intros E.
    apply existsb_exists in E as (c & Hc & E).
    rewrite <- H in Hc. apply filter_In in Hc as [_ Hc].
    rewrite E in Hc. discriminate.
Qed.

Lemma remove_dots_no_dot : forall x, ~ In cDOT (remove_dots x).
Proof.
  intros x H. unfold remove_dots in H. apply filter_In in H as [_ H].
  rewrite N.eqb_refl in H. discriminate.
Qed.

(** Upper-casing the string without its periods gives the string back
    exactly when it is [upper_fixed]. *)
Lemma upper_fixed_iff : forall x,
  toUpperCase (remove_dots x) = x <-> upper_fixed x = true.
Proof.
  intros x. unfold upper_fixed. rewrite andb_true_iff, negb_true_iff, str_eqb_eq.
  split.
  - intros E.
    assert (Hd : has_dot x = false).
    { apply not_true_is_false. intros H. unfold has_dot in H.
      apply existsb_exists in H as (c & Hc & Hcd). apply N.eqb_eq in Hcd. subst c.
      rewrite <- E in Hc.
      apply (toUpperCase_target cDOT) in Hc;
        [now apply remove_dots_no_dot in Hc | simpl; tauto]. }
    split; [exact Hd|]. apply has_dot_false_iff in Hd. now rewrite Hd in E.
  - intros [Hd E]. apply has_dot_false_iff in Hd. now rewrite Hd.
Qed.

Lemma normalizeArticleRef_no_terminator : forall t,
  forallb (fun c => negb (is_line_terminator c)) (normalizeArticleRef t) = true.
Proof.
  intros t. apply forallb_forall. intros c Hc.
  destruct (is_line_terminator c) eqn:E; [|reflexivity]. exfalso.
  assert (Hz : In c [10; 13; 32; 46; 8232; 8233]).
  { unfold is_line_terminator in E. bool_to_prop_in E. simpl.
    intuition congruence. }
  rewrite normalizeArticleRef_remove in Hc.
  apply (toUpperCase_target c _ Hz) in Hc.
  unfold remove_dots in Hc. apply filter_In in Hc as [Hc _].
  unfold remove_ws in Hc. apply filter_In in Hc as [_ Hc].
  apply negb_true_iff in Hc.
  unfold is_line_terminator in E. unfold is_ws, in_range in Hc.
  bool_to_prop_in E. bool_to_prop_in Hc. lia.
Qed.

Lemma normalizeArticleRef_no_space : forall t, ~ In cSPACE (normalizeArticleRef t).
Proof.
  intros t Hc. rewrite normalizeArticleRef_remove in Hc.
  apply (toUpperCase_target cSPACE) in Hc; [|simpl; tauto].
  unfold remove_dots in Hc. apply filter_In in Hc as [Hc _].
  unfold remove_ws in Hc. apply filter_In in Hc as [_ Hc]. discriminate.
Qed.

Lemma normalizeArticleNum_no_space : forall t, ~ In cSPACE (normalizeArticleNum t).
Proof.
  intros t Hc. pose proof (normalizeArticleNum_no_ws t) as H.
  rewrite forallb_forall in H. specialize (H _ Hc). discriminate.
Qed.

(** The two functions by cases on the head of the normalised string. *)
Lemma articleTitle_cases : forall t,
  articleTitle t
  = lit "Article "
    ++ (if letter_digit_head is_class_letter (normalizeArticleNum t)
        then [upper_letter (hd 0 (normalizeArticleNum t))] ++ lit ". "
             ++ skipn 1 (normalizeArticleNum t)
        else normalizeArticleNum t).
Proof.
  intros t. destruct (normalizeArticleNum t) as [|c [|d r]] eqn:En.
  - unfold articleTitle. cbv zeta. now rewrite En.
  - cbn [letter_digit_head]. rewrite articleTitle_miss; rewrite En; [reflexivity|].
    now apply exec_PREFIX_DIGIT_short.
  - cbn [letter_digit_head hd skipn].
    destruct (is_class_letter c) eqn:Hc; [destruct (is_digit d) eqn:Hd|]; cbn [andb].
    + exact (articleTitle_hit t c d r En Hc Hd).
    + rewrite articleTitle_miss; rewrite En; [reflexivity|].
      now apply exec_PREFIX_DIGIT_short.
    + rewrite articleTitle_miss; rewrite En; [reflexivity|].
      now apply exec_PREFIX_DIGIT_miss.
Qed.

Lemma buildArticleRef_cases : forall t,
  buildArticleRef t
  = if letter_digit_head is_upper (normalizeArticleRef t)
    then firstn 1 (normalizeArticleRef t) ++ lit ". "
         ++ skipn 1 (normalizeArticleRef t)
    else normalizeArticleRef t.
Proof.
  intros t. pose proof (normalizeArticleRef_no_terminator t) as Hlt.
  destruct (normalizeArticleRef t) as [|c [|d r]] eqn:En.
  - unfold buildArticleRef.
    change (toUpperCase (replace_each (N.eqb cDOT) [] (replace_runs is_ws [] t)))
      with (normalizeArticleRef t).
    now rewrite En.
  - cbn [letter_digit_head]. rewrite buildArticleRef_miss; rewrite En; [reflexivity|].
    now apply exec_LETTER_DIGITS_short.
  - cbn [letter_digit_head firstn skipn].
    destruct (is_upper c) eqn:Hc; [destruct (is_digit d) eqn:Hd|]; cbn [andb].
    + apply (buildArticleRef_hit t c d r En Hc Hd).
      cbn [forallb] in Hlt. apply andb_true_iff in Hlt as [_ Hlt].
      now apply andb_true_iff in Hlt as [_ Hlt].
    + rewrite buildArticleRef_miss; rewrite En; [reflexivity|].
      now apply exec_LETTER_DIGITS_short.
    + rewrite buildArticleRef_miss; rewrite En; [reflexivity|].
      now apply exec_LETTER_DIGITS_miss.
Qed.

(** The string that [buildArticleRef] upper-cases and the normalised
    number. *)
Lemma remove_dots_strip : forall t,
  remove_dots (remove_ws (strip_prefix_sep cDOT t)) = remove_dots (remove_ws t).
Proof.
  intros t. unfold strip_prefix_sep.
  destruct t as [|c [|d tl]]; try reflexivity.
  destruct (is_class_letter c && (d =? cDOT)) eqn:E; [|reflexivity].
  apply andb_true_iff in E as [Hc Hd]. apply N.eqb_eq in Hd. subst d.
  unfold remove_ws. cbn [filter].
  rewrite (class_letter_not_ws c Hc). cbn [negb].
  change (is_ws cDOT) with false. cbn [negb].
  rewrite (filter_drop_while is_ws tl).
  unfold remove_dots. cbn [filter]. rewrite N.eqb_refl. cbn [negb].
  reflexivity.
Qed.

Lemma star_free_number : forall t,
  star_after_class t = false ->
  normalizeArticleNum t = remove_ws (strip_prefix_sep cDOT t).
Proof.
  intros t H. rewrite normalizeArticleNum_closed. f_equal.
  unfold star_after_class in H. unfold strip_prefix_sep at 1.
  destruct (strip_prefix_sep cDOT t) as [|c [|s tl]]; try reflexivity.
  now rewrite H.
Qed.

Lemma star_free_remove_dots : forall t,
  star_after_class t = false ->
  remove_dots (remove_ws t) = remove_dots (normalizeArticleNum t).
Proof.
  intros t H. now rewrite (star_free_number t H), remove_dots_strip.
Qed.

Lemma star_number : forall t,
  star_after_class t = true ->
  exists c v, is_class_letter c = true
    /\ normalizeArticleNum t = c :: v
    /\ remove_dots (remove_ws t) = c :: cSTAR :: remove_dots v.
Proof.
  intros t H. unfold star_after_class in H.
  destruct (strip_prefix_sep cDOT t) as [|c [|s tl]] eqn:E; try discriminate.
  apply andb_true_iff in H as [Hc Hs]. apply N.eqb_eq in Hs. subst s.
  exists c, (remove_ws tl). split; [exact Hc|]. split.
  - rewrite normalizeArticleNum_closed, E. unfold strip_prefix_sep.
    rewrite Hc, N.eqb_refl. cbn [andb]. unfold remove_ws. cbn [filter].
    rewrite (class_letter_not_ws c Hc). cbn [negb]. f_equal.
    apply filter_drop_while.
  - rewrite <- remove_dots_strip, E. unfold remove_ws. cbn [filter].
    rewrite (class_letter_not_ws c Hc). cbn [negb].
    change (is_ws cSTAR) with false. cbn [negb].
    unfold remove_dots. cbn [filter].
    replace (cDOT =? c) with false.
    + reflexivity.
    + symmetry. pose proof (class_letter_range c Hc).
      unfold cDOT. apply N.eqb_neq. apply class_letter_cases in Hc. simpl in Hc.
      intuition lia.
Qed.

(** No string is an asterisk followed by its own upper-cased form. *)
Lemma star_upper_differs : forall v,
  v <> cSTAR :: toUpperCase (remove_dots v).
Proof.
  induction v as [|c v IH]; [discriminate|].
  intros E.
  assert (Hc : c = cSTAR) by now injection E.
  subst c.
  change (remove_dots (cSTAR :: v)) with (cSTAR :: remove_dots v) in E.
  rewrite toUpperCase_cons in E by (unfold cSTAR; lia).
  change (upper_point cSTAR) with [cSTAR] in E. cbn [app] in E.
  apply IH. now injection E.
Qed.

Lemma letter_digit_head_cons : forall p x,
  letter_digit_head p x = true ->
  exists c d r, x = c :: d :: r /\ p c = true /\ is_digit d = true.
Proof.
  intros p [|c [|d r]] H; cbn [letter_digit_head] in H; try discriminate.
  apply andb_true_iff in H as [Hc Hd]. now exists c, d, r.
Qed.

(** Where the two renderings agree. *)
Lemma renderings_agree_iff : forall t,
  articleTitle t = lit "Article " ++ buildArticleRef t
  <-> renderings_agree t = true.
Proof.
  intros t. rewrite articleTitle_cases, buildArticleRef_cases.
  unfold renderings_agree.
  destruct (star_after_class t) eqn:Hstar; cbn [negb andb].
  - (* an asterisk was taken out *)
    split; [|discriminate]. intros E. apply app_inv_head in E. exfalso.
    destruct (star_number t Hstar) as (c & v & Hc & Hn & Hr).
    rewrite normalizeArticleRef_remove, Hr in E. rewrite Hn in E.
    pose proof (class_letter_range c Hc) as Hcr.
    rewrite (toUpperCase_cons c) in E by lia.
    rewrite (toUpperCase_cons cSTAR) in E by (unfold cSTAR; lia).
    rewrite (upper_point_body_char c) in E
      by (apply letter_is_body_char; now apply class_letter_is_letter).
    change (upper_point cSTAR) with [cSTAR] in E.
    destruct (letter_digit_head is_class_letter (c :: v)) eqn:Ha;
      cbn [app letter_digit_head hd skipn] in E;
      change (is_digit cSTAR) with false in E; rewrite andb_false_r in E.
    + change (lit ". ") with [cDOT; cSPACE] in E. cbn [app] in E.
      unfold cDOT, cSTAR in E. discriminate E.
    + injection E as _ E. now apply star_upper_differs in E.
  - (* no asterisk *)
    pose proof (star_free_remove_dots t Hstar) as Hrel.
    assert (Href : normalizeArticleRef t
                   = toUpperCase (remove_dots (normalizeArticleNum t))).
    { now rewrite normalizeArticleRef_remove, Hrel. }
    pose proof (normalizeArticleRef_no_space t) as Hrs.
    pose proof (normalizeArticleNum_no_space t) as Hns.
    destruct (letter_digit_head is_class_letter (normalizeArticleNum t)) eqn:Ha.
    + destruct (letter_digit_head_cons _ _ Ha) as (c & d & n' & En & Hc & Hd).
      rewrite En in *. cbn [hd skipn].
      assert (Hr : normalizeArticleRef t
                   = upper_letter c :: d :: toUpperCase (remove_dots n')).
      { rewrite Href. unfold remove_dots. cbn [filter].
        replace (cDOT =? c) with false
          by (symmetry; pose proof (class_letter_range c Hc);
              apply N.eqb_neq; apply class_letter_cases in Hc; simpl in Hc;
              unfold cDOT; intuition lia).
        destruct (digit_not_sep d Hd) as (Hdd & _ & _).
        rewrite (N.eqb_sym cDOT d), Hdd. cbn [negb].
        now apply toUpperCase_class_digit. }
      rewrite Hr. cbn [letter_digit_head firstn skipn].
      rewrite (class_letter_upper c Hc), Hd. cbn [andb].
      rewrite <- upper_fixed_iff. split.
      * intros E. apply app_inv_head in E. cbn [app] in E.
        change (lit ". ") with [cDOT; cSPACE] in E. cbn [app] in E.
        now injection E.
      * now intros ->.
    + rewrite andb_true_iff, negb_true_iff, <- upper_fixed_iff, <- Href.
      destruct (letter_digit_head is_upper (normalizeArticleRef t)) eqn:Hb.
      * split.
        -- intros E. apply app_inv_head in E. exfalso. apply Hns.
           rewrite E. apply in_or_app. right.
           change (lit ". ") with [cDOT; cSPACE]. right. now left.
        -- intros [E H]. rewrite <- E, Hb in H. discriminate.
      * split.
        -- intros E. apply app_inv_head in E.
           split; [now symmetry|]. now rewrite E.
        -- intros [E _]. now rewrite E.
Qed.

(** The primary query in the words of the specification, up to whitespace. *)
Lemma filter_filter_and : forall (p q : N -> bool) s,
  filter p (filter q s) = filter (fun c => p c && q c) s.
Proof.
  intros p q. induction s as [|c tl IH]; [reflexivity|].
  cbn [filter]. destruct (q c); cbn [filter].
  - rewrite andb_true_r. destruct (p c); now rewrite IH.
  - now rewrite andb_false_r.
Qed.

Lemma spec_explicit_primary_chars : forall q,
  remove_ws (spec_explicit_primary q) = filter is_safe_char q.
Proof.
  intros q. unfold remove_ws, spec_explicit_primary.
  rewrite filter_filter_and. fold is_safe_char. apply filter_safe_trim.
Qed.

(** A string in the normal form of the sanitiser is left as it is. *)
Lemma sanitizeFtsInput_normal : forall s,
  forallb (fun c => negb (FTS5_SPECIAL_CHARS c)) s = true ->
  collapsed_aux is_ws cSPACE false s = true ->
  no_outer_ws s = true ->
  sanitizeFtsInput s = s.
Proof.
  intros s Hsp Hcol Hout. unfold sanitizeFtsInput.
  rewrite (replace_each_none _ _ s Hsp). unfold replace_runs.
  rewrite collapsed_replace_runs by exact Hcol.
  now apply no_outer_ws_trim.
Qed.


(* ================================================================== *)
(** * The claims *)

(** C1 (amended).  On an input made of a class letter L, R, D or A in either
    case, then an optional period, an optional asterisk and whitespace, then
    a digit, [normalizeArticleNum] drops the separator and the whitespace and
    keeps the letter as it was written (it is not upper-cased), directly
    followed by the digit and the rest of the input without its whitespace. *)
Theorem C1_normalize_prefix_kept :
  forall (c d : N) (sep ws rest : jsstring),
    is_class_letter c = true ->
    In sep separators ->
    forallb is_ws ws = true ->
    is_digit d = true ->
    normalizeArticleNum (c :: sep ++ ws ++ d :: rest) = c :: d :: remove_ws rest.
Proof. exact normalizeArticleNum_shape. Qed.

Lemma C1_witness : normalizeArticleNum (lit "R.* 2321-1") = lit "R2321-1".
Proof.
  apply (C1_normalize_prefix_kept cR 50 [cDOT; cSTAR] [cSPACE] (lit "321-1")).
  - reflexivity.
  - unfold separators. simpl. tauto.
  - reflexivity.
  - reflexivity.
Defined.

(** C1 as stated fails on its own example: the lower-case letter of
    "l. 323-1" is kept lower-case. *)
Lemma C1_counterexample :
  normalizeArticleNum (lit "l. 323-1") = lit "l323-1"
  /\ normalizeArticleNum (lit "l. 323-1") <> lit "L323-1".
Proof. split; [reflexivity | vm_compute; discriminate]. Qed.

(** C2 (amended).  [normalizeArticleNum] is idempotent at every input whose
    normalised form does not start with a class letter directly followed by
    a period or an asterisk. *)
Theorem C2_normalize_idempotent_when_settled :
  forall s : jsstring,
    prefix_sep_head (normalizeArticleNum s) = false ->
    normalizeArticleNum (normalizeArticleNum s) = normalizeArticleNum s.
Proof.
  intros s H. apply normalizeArticleNum_fixed; [|exact H].
  apply normalizeArticleNum_no_ws.
Qed.

Lemma C2_witness :
  normalizeArticleNum (normalizeArticleNum (lit "L. 323-1"))
  = normalizeArticleNum (lit "L. 323-1").
Proof. apply (C2_normalize_idempotent_when_settled (lit "L. 323-1")). reflexivity. Defined.

(** C2 as stated fails: "L..1" is normalised to "L.1", which is normalised
    to "L1". *)
Lemma C2_counterexample :
  normalizeArticleNum (normalizeArticleNum (lit "L..1"))
  <> normalizeArticleNum (lit "L..1").
Proof. vm_compute. discriminate. Qed.

(** C3.  Scenario 1: "Code de la défense, art. L. 2321-1" is matched by the
    first pattern, and parses to a valid statute citation with title
    "Code de la défense" and article token "L2321-1". *)
Theorem C3_scenario1 :
  (exists m, exec TITLE_THEN_ARTICLE (normalizeInput (trim scenario1)) = Some m
             /\ cap 1 m = lit "Code de la défense"
             /\ cap 2 m = lit "L. 2321-1")
  /\ parseCitation scenario1 =
     {| valid := true; type := statute;
        title := Some (lit "Code de la défense"); year := None;
        section := Some (lit "L2321-1"); error := None |}.
Proof.
  split.
  - eexists. split; [vm_compute; reflexivity|]. split; reflexivity.
  - vm_compute. reflexivity.
Qed.

(** C4 (amended).  When [parseCitation] succeeds, the article token it
    returns is [normalizeArticleRef] of the matched token substring (all
    whitespace and periods removed, then upper-cased).  It is
    [normalizeArticleNum] of that substring exactly when the substring holds
    no lower-case letter (a to z, U+017F) and its period, if there is one,
    directly follows an initial L, R, D or A. *)
Theorem C4_parser_token :
  forall s : jsstring,
    valid (parseCitation s) = true ->
    exists tok,
      matchedToken (normalizeInput (trim s)) = Some tok
      /\ article_token tok = true
      /\ section (parseCitation s) = Some (normalizeArticleRef tok)
      /\ (section (parseCitation s) = Some (normalizeArticleNum tok)
          <-> normalisers_agree tok = true).
Proof.
  intros s H.
  destruct (parseCitation_valid_section s H) as (tok & Hm & Hsec).
  pose proof (matchedToken_parts _ _ Hm) as Hparts.
  exists tok. split; [exact Hm|].
  split; [now apply token_parts_article_token|]. split; [exact Hsec|].
  rewrite Hsec, <- (normalisers_agree_iff tok Hparts). split.
  - now intros [= E].
  - now intros ->.
Qed.

Lemma C4_witness :
  section (parseCitation (lit "Code civil, art. B 12-3"))
  = Some (normalizeArticleNum (lit "B 12-3")).
Proof.
  destruct (C4_parser_token (lit "Code civil, art. B 12-3") eq_refl)
    as (tok & Hm & _ & _ & Hagree).
  assert (Htok : tok = lit "B 12-3")
    by (vm_compute in Hm; injection Hm as <-; reflexivity).
  subst tok. apply Hagree. reflexivity.
Defined.

(** C4 as stated fails: on "Code, art. l. 1" the parser returns "L1" while
    the normaliser sends the matched "l. 1" to "l1"; on "Code, art. B. 1"
    the parser returns "B1" while the normaliser keeps "B.1". *)
Lemma C4_counterexample :
  section (parseCitation (lit "Code, art. l. 1"))
    <> option_map normalizeArticleNum
         (matchedToken (normalizeInput (trim (lit "Code, art. l. 1"))))
  /\ section (parseCitation (lit "Code, art. B. 1"))
    <> option_map normalizeArticleNum
         (matchedToken (normalizeInput (trim (lit "Code, art. B. 1")))).
Proof. split; vm_compute; discriminate. Qed.

(** C5.  If a citation parses with a non-empty title and every stored
    document scores zero against the normalised title, [validateCitation]
    reports neither document nor provision and a single "not found"
    warning. *)
Theorem C5_no_document_scores :
  forall (db : Database) (s t : jsstring),
    valid (parseCitation s) = true ->
    title (parseCitation s) = Some t ->
    t <> [] ->
    (forall d, In d (legal_documents db) ->
               score_doc (normalizeLookup t) d = 0%Z) ->
    validateCitation db s =
    {| citation := parseCitation s;
       document_exists := false; provision_exists := false;
       document_title := None; status := None;
       warnings := [lit "Document " ++ [cQUOTE] ++ t ++ [cQUOTE]
                      ++ lit " not found in database"] |}.
Proof.
  intros db s t Hvalid Htitle Hne Hzero.
  unfold validateCitation, validateParsed.
  rewrite Hvalid, Htitle. cbn [negb].
  destruct t as [|c tl]; [congruence|].
  now rewrite (resolve_document_none db (c :: tl) Hzero).
Qed.

Lemma C5_witness :
  validateCitation db0 scenario5 =
  {| citation := parseCitation scenario5;
     document_exists := false; provision_exists := false;
     document_title := None; status := None;
     warnings := [lit "Document " ++ [cQUOTE] ++ lit "Code imaginaire" ++ [cQUOTE]
                    ++ lit " not found in database"] |}.
Proof.
  apply (C5_no_document_scores db0 scenario5 (lit "Code imaginaire")).
  - reflexivity.
  - reflexivity.
  - discriminate.
  - intros d Hd. simpl in Hd.
    destruct Hd as [<-|[<-|[]]]; vm_compute; reflexivity.
Defined.



(** C7 (amended).  Write n for [normalizeArticleNum t].  For every string t,
    [articleTitle t] is "Article " followed by [buildArticleRef t] exactly
    when no asterisk was taken out after a leading L, R, D or A and either n
    starts with one of L, R, D, A in either case and a digit, and what
    follows that letter and digit holds no period and is left unchanged by
    [toUpperCase]; or n holds no period, is left unchanged by [toUpperCase]
    and does not start with a letter A to Z and a digit.  On an article token
    in any spelling (an optional letter with whitespace and an optional
    period, then a digit followed by digits, letters and hyphens) this says:
    no character after the first is a lower-case letter (a to z, U+017F) and
    the first character is a digit, or one of L, R, D, A in either case whose
    period, if there is one, follows it directly, or U+212A without period.
    After L, R, D or A, in either case, before or without a period, both
    functions print the letter in upper case, a period and a space;
    [articleTitle] then keeps the rest as it is and [buildArticleRef]
    upper-cases it. *)
Theorem C7_title_is_article_ref :
  (forall t : jsstring,
     articleTitle t = lit "Article " ++ buildArticleRef t
     <-> renderings_agree t = true)
  /\ (forall t : jsstring,
        article_token t = true ->
        (articleTitle t = lit "Article " ++ buildArticleRef t
         <-> token_renderings_agree t = true))
  /\ (forall (c d : N) (sep ws rest : jsstring),
        is_class_letter c = true ->
        sep = [] \/ sep = [cDOT] ->
        forallb is_ws ws = true ->
        is_digit d = true ->
        forallb is_token_body_char rest = true ->
        articleTitle (c :: sep ++ ws ++ d :: rest)
        = lit "Article " ++ [upper_letter c] ++ lit ". " ++ d :: rest
        /\ buildArticleRef (c :: sep ++ ws ++ d :: rest)
           = [upper_letter c] ++ lit ". " ++ d :: map upper_letter rest).
Proof.
  split; [|split].
  - exact renderings_agree_iff.
  - intros t H. apply token_renderings_agree_iff. now apply article_token_parts.
  - intros c d sep ws rest. apply class_prefix_rendering.
Qed.

Lemma C7_witness :
  articleTitle (lit "l. 323-1") = lit "Article " ++ buildArticleRef (lit "l. 323-1")
  /\ articleTitle (lit "l. 323-1") = lit "Article L. 323-1"
  /\ buildArticleRef (lit "l. 323-1") = lit "L. 323-1".
Proof.
  split.
  - apply (proj1 (proj2 C7_title_is_article_ref) (lit "l. 323-1")); reflexivity.
  - apply (proj2 (proj2 C7_title_is_article_ref) 108 51 [cDOT] [cSPACE] (lit "23-1"));
      solve [reflexivity | right; reflexivity].
Defined.

(** C7 as stated fails: [buildArticleRef] splits after any upper-case letter
    and upper-cases the token, [articleTitle] splits only after L, R, D, A
    and keeps the case.  "B1" gives "Article B1" against "B. 1"; "1-a" gives
    "Article 1-a" against "1-A". *)
Lemma C7_counterexample :
  articleTitle (lit "B1") <> lit "Article " ++ buildArticleRef (lit "B1")
  /\ articleTitle (lit "1-a") <> lit "Article " ++ buildArticleRef (lit "1-a").
Proof. split; vm_compute; discriminate. Qed.

(** C8 (amended).  When the trimmed input shows explicit FTS5 syntax, the
    result has no fallback and its primary is the sanitised trimmed input:
    each of the characters ( ) : { } ^ + . becomes a space, every run of
    whitespace becomes one space, and the ends are trimmed.  The primary is
    never empty; it is the trimmed input itself exactly when that holds no
    dangerous character and no whitespace other than single spaces; in
    every case it agrees with the input stripped of its dangerous
    characters once whitespace is left out.  Scenario 6 comes back
    unchanged. *)
Theorem C8_explicit_syntax :
  (forall q : jsstring,
     test EXPLICIT_FTS_SYNTAX (trim q) = true ->
     buildFtsQueryVariants q =
       {| primary := sanitizeFtsInput (trim q); fallback := None |}
     /\ primary (buildFtsQueryVariants q) <> []
     /\ (primary (buildFtsQueryVariants q) = trim q
         <-> forallb (fun c => negb (FTS5_SPECIAL_CHARS c)) (trim q) = true
             /\ collapsed_aux is_ws cSPACE false (trim q) = true)
     /\ remove_ws (primary (buildFtsQueryVariants q))
        = remove_ws (spec_explicit_primary q))
  /\ buildFtsQueryVariants scenario6 = {| primary := scenario6; fallback := None |}.
Proof.
  split.
  - intros q H.
    pose proof (explicit_sanitized_truthy (trim q) H) as Htruthy.
    assert (Heq : buildFtsQueryVariants q =
                  {| primary := sanitizeFtsInput (trim q); fallback := None |}).
    { unfold buildFtsQueryVariants. rewrite H. now rewrite Htruthy. }
    split; [exact Heq|].
    rewrite Heq. cbn [primary]. split; [|split].
    + intros E. rewrite E in Htruthy. discriminate.
    + split.
      * intros E. split.
        -- rewrite <- E. apply forallb_forall. intros c Hc.
           now rewrite (sanitizeFtsInput_no_special _ _ Hc).
        -- rewrite <- E. apply sanitizeFtsInput_collapsed.
      * intros [Hsp Hcol].
        apply sanitizeFtsInput_normal; [exact Hsp | exact Hcol |].
        apply trim_no_outer_ws.
    + rewrite sanitizeFtsInput_chars, spec_explicit_primary_chars.
      apply filter_safe_trim.
  - vm_compute. reflexivity.
Qed.

Lemma C8_witness :
  buildFtsQueryVariants (lit "a.b AND  c") =
    {| primary := sanitizeFtsInput (trim (lit "a.b AND  c")); fallback := None |}
  /\ primary (buildFtsQueryVariants (lit "a.b AND  c")) <> []
  /\ (primary (buildFtsQueryVariants (lit "a.b AND  c")) = trim (lit "a.b AND  c")
      <-> forallb (fun c => negb (FTS5_SPECIAL_CHARS c)) (trim (lit "a.b AND  c"))
          = true
          /\ collapsed_aux is_ws cSPACE false (trim (lit "a.b AND  c")) = true)
  /\ remove_ws (primary (buildFtsQueryVariants (lit "a.b AND  c")))
     = remove_ws (spec_explicit_primary (lit "a.b AND  c")).
Proof. apply (proj1 C8_explicit_syntax (lit "a.b AND  c")). reflexivity. Defined.

(** C8 as stated fails: the primary is not the input with only the dangerous
    characters taken out.  A dangerous character between two words leaves a
    space ("a.b AND  c" gives "a b AND c", not "ab AND  c"), and whitespace
    is collapsed also inside a quoted phrase (a quoted "a  b" comes back with
    one space). *)
Lemma C8_counterexample :
  (test EXPLICIT_FTS_SYNTAX (trim (lit "a.b AND  c")) = true
   /\ primary (buildFtsQueryVariants (lit "a.b AND  c")) = lit "a b AND c"
   /\ spec_explicit_primary (lit "a.b AND  c") = lit "ab AND  c")
  /\ (test EXPLICIT_FTS_SYNTAX (trim ([cQUOTE] ++ lit "a  b" ++ [cQUOTE])) = true
      /\ primary (buildFtsQueryVariants ([cQUOTE] ++ lit "a  b" ++ [cQUOTE]))
         = [cQUOTE] ++ lit "a b" ++ [cQUOTE]
      /\ spec_explicit_primary ([cQUOTE] ++ lit "a  b" ++ [cQUOTE])
         = [cQUOTE] ++ lit "a  b" ++ [cQUOTE]).
Proof. repeat split; vm_compute; reflexivity. Qed.

(** C9 (amended).  For every input whose trimmed form is not empty, the
    primary query is not empty. *)
Theorem C9_primary_nonempty :
  forall s : jsstring,
    trim s <> [] -> primary (buildFtsQueryVariants s) <> [].
Proof. exact primary_nonempty. Qed.

Lemma C9_witness : primary (buildFtsQueryVariants (lit "données personnelles")) <> [].
Proof. apply (C9_primary_nonempty (lit "données personnelles")). vm_compute. discriminate. Defined.

(** C9 as stated fails: a single space is a non-empty input whose primary
    query is empty. *)
Lemma C9_counterexample :
  lit " " <> [] /\ primary (buildFtsQueryVariants (lit " ")) = [].
Proof. split; [discriminate | reflexivity]. Qed.

(** C10.  ",, art. 1" parses as valid with an empty title; and whenever a
    citation parses as valid with an empty title, [validateCitation] reports
    neither document nor provision, with the warning on the missing title. *)
Theorem C10_empty_title :
  (valid (parseCitation (lit ",, art. 1")) = true
   /\ title (parseCitation (lit ",, art. 1")) = Some [])
  /\ forall (db : Database) (s : jsstring),
       valid (parseCitation s) = true ->
       title (parseCitation s) = Some [] ->
       validateCitation db s =
       {| citation := parseCitation s;
          document_exists := false; provision_exists := false;
          document_title := None; status := None;
          warnings :=
            [lit "Citation does not include a recognizable statute title"] |}.
Proof.
  split.
  - split; vm_compute; reflexivity.
  - intros db s Hvalid Htitle.
    unfold validateCitation, validateParsed. now rewrite Hvalid, Htitle.
Qed.

Lemma C10_witness :
  validateCitation db0 (lit ",, art. 1") =
  {| citation := parseCitation (lit ",, art. 1");
     document_exists := false; provision_exists := false;
     document_title := None; status := None;
     warnings := [lit "Citation does not include a recognizable statute title"] |}.
Proof. apply (proj2 C10_empty_title db0 (lit ",, art. 1")); reflexivity. Defined.
